(** * ModuForge-RS benchmark tooling: measurement store, baselines,
      regression detection, trend and comparison reports.

    Shallow embedding of [scripts/performance_metrics.py] (module
    [Metrics], its command line in [MetricsCli]),
    [scripts/regression_detector.py] (module [Simple], its command line
    in [SimpleCli]), [scripts/parse_benchmark_output.py] (module
    [Parser]) and the analysis of
    [scripts/generate_comprehensive_report.py] (module [Report]).

    Conventions of the embedding.
    - Python [int] is [Z]; Python [str] is [string]; [None]-able values
      are [option].
    - A Python or SQLite floating-point value (binary64) is the rational
      it denotes, an infinity or NaN ([fval]).  An operation on floats
      is the exact operation followed by rounding to the nearest
      binary64 value, ties to even ([round64], [fl]).  The true division
      of two Python ints rounds the exact quotient once.
    - A Python exception is a [Raise e] outcome.  A function that writes
      to the SQLite file takes the database value and returns the
      committed database value; when it raises, nothing is committed.
      An integer outside 64 bits cannot be bound to a statement
      ([OverflowError]).
    - The three SQLite tables are lists of rows in rowid order together
      with the AUTOINCREMENT counter of the table.  A DATETIME column
      has NUMERIC affinity: a text that is a well-formed number is
      stored as that number, any other text as it is ([cell],
      [numeric_affinity]).  Numbers sort before texts; texts compare
      bytewise.
    - The threshold of a detector is a finite float, held as the
      rational it denotes.
    - [datetime.now()] and [datetime.utcnow()] are inputs.  The results
      of [np.mean], [np.median], [np.std] and the r-value and p-value of
      [scipy.stats.linregress] are inputs as well ([Metrics.library]).
      The slope of [scipy.stats.linregress] is the documented quotient
      [ssxym / ssxm] of the samples converted to binary64, in exact
      arithmetic.
    - A results file is the document that [json.load] returns for it
      (module [Files]).  The lines of a Criterion output file that match
      the pattern of the parser are an input of the parser, and so is
      the text that Python prints for a float.

    The properties C1 to C10 of the specification are stated and settled
    in the part [Properties]; further properties of the code follow
    them. *)

From Stdlib Require Import ZArith QArith Qabs List String Ascii Bool Lia Lqa.
From Stdlib Require Import Sorted Permutation Qfield.
From stdpp Require Import gmap strings list.

Open Scope Z_scope.

(** ** Outcomes of fallible Python code *)

Inductive exn : Type :=
| ZeroDivisionError
| IntegrityError
| OverflowError.

Inductive result (A : Type) : Type :=
| Ok (a : A)
| Raise (e : exn).

Arguments Ok {A} a.
Arguments Raise {A} e.

Definition bind {A B : Type} (m : result A) (k : A -> result B) : result B :=
  match m with
  | Ok a => k a
  | Raise e => Raise e
  end.

Notation "x <- m ;;; k" := (bind m (fun x => k))
  (at level 100, m at next level, right associativity).

(** ** Numbers *)

(** A binary64 value: a finite value, an infinity, or NaN. *)
Inductive fval : Type :=
| Fin (q : Q)
| PInf
| NInf
| NaN.

(** The integer nearest to [n / d] for [0 < d], ties to even. *)
Definition round_half_even (n d : Z) : Z :=
  let q := n / d in
  match 2 * (n mod d) ?= d with
  | Lt => q
  | Gt => q + 1
  | Eq => if Z.even q then q else q + 1
  end.

(** The integer [e] with [2^e <= n / d < 2^(e+1)], for [0 < n] and
    [0 < d]. *)
Definition floor_log2 (n d : Z) : Z :=
  let e := Z.log2 n - Z.log2 d in
  if (if 0 <=? e then d * 2 ^ e <=? n else d <=? n * 2 ^ (- e)) then e else e - 1.

(** [n / d] rounded to 53 significant bits, or to a multiple of
    [2^-1074] in the subnormal range, for [0 < n] and [0 < d].  The
    result is in lowest terms. *)
Definition round64_pos (n d : Z) : Q :=
  let k := Z.max (floor_log2 n d - 52) (-1074) in
  if 0 <=? k
  then inject_Z (round_half_even n (d * 2 ^ k) * 2 ^ k)
  else Qred (round_half_even (n * 2 ^ (- k)) d # Z.to_pos (2 ^ (- k))).

(** Rounding to the nearest binary64 value, before the range check. *)
Definition round64 (q : Q) : Q :=
  match Qnum q with
  | 0 => 0%Q
  | Zpos n => round64_pos (Zpos n) (Zpos (Qden q))
  | Zneg n => Qopp (round64_pos (Zpos n) (Zpos (Qden q)))
  end.

(** The binary64 result of an operation whose exact result is [q]. *)
Definition fl (q : Q) : fval :=
  let r := round64 q in
  if Qle_bool (inject_Z (2 ^ 1024)) r then PInf
  else if Qle_bool r (inject_Z (- 2 ^ 1024)) then NInf
  else Fin r.

(** A non-negative integer rounded to 53 significant bits. *)
Definition round53 (a : Z) : Z :=
  if a <? 2 ^ 53 then a
  else let k := Z.log2 a - 52 in round_half_even a (2 ^ k) * 2 ^ k.

(** The binary64 value of an integer of 64 bits, as numpy and SQLite
    convert it; the value is an integer again. *)
Definition to_float64 (z : Z) : Z := Z.sgn z * round53 (Z.abs z).

(** [a / b] on two Python ints: the correctly rounded quotient;
    [ZeroDivisionError] on a zero divisor, [OverflowError] when the
    quotient is too large for a float. *)
Definition truediv (a b : Z) : result Q :=
  if b =? 0 then Raise ZeroDivisionError
  else match fl (inject_Z a / inject_Z b) with
       | Fin q => Ok q
       | _ => Raise OverflowError
       end.

(** [x > y] and [x >= y] on finite values. *)
Definition Qgtb (x y : Q) : bool := negb (Qle_bool x y).
Definition Qgeb (x y : Q) : bool := Qle_bool y x.

(** [v * c] for a finite constant [0 < c]. *)
Definition fmul (v : fval) (c : Q) : fval :=
  match v with
  | Fin q => fl (q * c)
  | other => other
  end.

(** [a - b] and [a / b] on finite values; a division by zero gives an
    infinity or NaN (numpy and pandas raise no exception). *)
Definition fsub (a b : Q) : Q := round64 (a - b).

Definition fdiv (a b : Q) : fval :=
  if Qeq_bool b 0 then
    if Qgtb a 0 then PInf else if Qgtb 0 a then NInf else NaN
  else fl (a / b).

(** [v ** 2] *)
Definition fsquare (v : fval) : fval :=
  match v with
  | Fin q => fl (q * q)
  | PInf | NInf => PInf
  | NaN => NaN
  end.

(** [v < c], [v > c], [v >= c] and [abs(v) <= c] for a finite [c]. *)
Definition fltb (v : fval) (c : Q) : bool :=
  match v with
  | Fin q => Qgtb c q
  | NInf => true
  | PInf | NaN => false
  end.

Definition fgtb (v : fval) (c : Q) : bool :=
  match v with
  | Fin q => Qgtb q c
  | PInf => true
  | NInf | NaN => false
  end.

Definition fgeb (v : fval) (c : Q) : bool :=
  match v with
  | Fin q => Qgeb q c
  | PInf => true
  | NInf | NaN => false
  end.

Definition fabs_leb (v : fval) (c : Q) : bool :=
  match v with
  | Fin q => Qle_bool (Qabs q) c
  | PInf | NInf | NaN => false
  end.

(** The value is finite and equal to [q]. *)
Definition fval_eqb (v : fval) (q : Q) : bool :=
  match v with
  | Fin x => Qeq_bool x q
  | PInf | NInf | NaN => false
  end.

(** [x > y] and [x <= y] on two binary64 values; a comparison with NaN
    is false. *)
Definition fval_gtb (x y : fval) : bool :=
  match x, y with
  | NaN, _ | _, NaN => false
  | NInf, _ => false
  | _, PInf => false
  | PInf, _ => true
  | Fin _, NInf => true
  | Fin a, Fin b => Qgtb a b
  end.

Definition fval_leb (x y : fval) : bool :=
  match x, y with
  | NaN, _ | _, NaN => false
  | NInf, _ => true
  | _, PInf => true
  | PInf, _ => false
  | Fin _, NInf => false
  | Fin a, Fin b => Qle_bool a b
  end.

(** The value of [((current - baseline) / baseline) * 100] when the
    division succeeds: the quotient is rounded, then the product. *)
Definition percent_change (current baseline : Z) : fval :=
  fmul (Fin (round64 (inject_Z (current - baseline) / inject_Z baseline))) 100.

(** The integer fits a signed integer of 64 bits, the range of an
    SQLite INTEGER. *)
Definition in_int64 (z : Z) : bool := (- 2 ^ 63 <=? z) && (z <? 2 ^ 63).

(** Decidable equality of the values held in rows. *)
#[global] Instance Q_eq_dec : EqDecision Q.
Proof. solve_decision. Defined.

#[global] Instance fval_eq_dec : EqDecision fval.
Proof. solve_decision. Defined.

(** ** Severity bands (the strings "CRITICAL", "HIGH", "MEDIUM", "LOW") *)

Inductive severity : Type := CRITICAL | HIGH | MEDIUM | LOW.

Definition severity_str (s : severity) : string :=
  match s with
  | CRITICAL => "CRITICAL"
  | HIGH => "HIGH"
  | MEDIUM => "MEDIUM"
  | LOW => "LOW"
  end.

(** ** Values of a DATETIME column *)

(** A value stored in a column with NUMERIC affinity, as the timestamp
    columns are: a number (an integer of 64 bits or a binary64 value,
    which is never NaN), or a text that is not a well-formed number. *)
Inductive cell : Type :=
| CNum (q : Q)
| CPInf
| CNInf
| CText (s : string).

#[global] Instance cell_eq_dec : EqDecision cell.
Proof. solve_decision. Defined.

Module Sqlite.

(** White space and decimal digits as SQLite reads them. *)
Definition is_space (c : ascii) : bool :=
  let n := nat_of_ascii c in
  Nat.eqb n 32 || (Nat.leb 9 n && Nat.leb n 13).

Definition digit_of (c : ascii) : option Z :=
  let n := Z.of_nat (nat_of_ascii c) in
  if (48 <=? n) && (n <=? 57) then Some (n - 48) else None.

Fixpoint skip_spaces (s : string) : string :=
  match s with
  | String c s' => if is_space c then skip_spaces s' else s
  | EmptyString => s
  end.

(** A run of digits: its value after [acc], the number of digits read
    after [count], and the rest of the text. *)
Fixpoint digits (acc count : Z) (s : string) : Z * Z * string :=
  match s with
  | String c s' =>
    match digit_of c with
    | Some d => digits (acc * 10 + d) (count + 1) s'
    | None => (acc, count, s)
    end
  | EmptyString => (acc, count, s)
  end.

(** The digits of an exponent; SQLite stops counting at 10000. *)
Fixpoint exponent_digits (acc count : Z) (s : string) : Z * Z * string :=
  match s with
  | String c s' =>
    match digit_of c with
    | Some d =>
      exponent_digits (if acc <? 10000 then acc * 10 + d else 10000) (count + 1) s'
    | None => (acc, count, s)
    end
  | EmptyString => (acc, count, s)
  end.

(** An optional sign: whether it is ["-"], and the rest of the text. *)
Definition sign (s : string) : bool * string :=
  match s with
  | String c s' =>
    if Ascii.eqb c "-" then (true, s')
    else if Ascii.eqb c "+" then (false, s')
    else (false, s)
  | EmptyString => (false, s)
  end.

(** A well-formed integer or real literal: optional white space, an
    optional sign, digits with an optional point, an optional exponent,
    optional white space; at least one digit before the exponent, and at
    least one digit in an exponent. *)
Record literal : Type := mkLiteral {
  negative : bool;
  significand : Z;
  fraction_digits : Z;
  exponent : Z;
  pure_integer : bool
}.

Definition parse (s : string) : option literal :=
  match skip_spaces s with
  | EmptyString => None
  | s0 =>
    let '(neg, s1) := sign s0 in
    let '(int_part, n_int, s2) := digits 0 0 s1 in
    let '(sig, n_frac, s3, point) :=
      match s2 with
      | String c s' =>
        if Ascii.eqb c "." then
          let '(v, n, rest) := digits int_part 0 s' in (v, n, rest, true)
        else (int_part, 0, s2, false)
      | EmptyString => (int_part, 0, s2, false)
      end in
    let '(ex, s4, has_exponent, exponent_valid) :=
      match s3 with
      | String c s' =>
        if Ascii.eqb c "e" || Ascii.eqb c "E" then
          let '(eneg, s'') := sign s' in
          let '(e, n, rest) := exponent_digits 0 0 s'' in
          ((if eneg then - e else e), rest, true, 0 <? n)
        else (0, s3, false, true)
      | EmptyString => (0, s3, false, true)
      end in
    match skip_spaces s4 with
    | EmptyString =>
      if (0 <? n_int + n_frac) && exponent_valid
      then Some (mkLiteral neg sig n_frac ex (negb point && negb has_exponent))
      else None
    | String _ _ => None
    end
  end.

(** The number that a literal denotes. *)
Definition value (l : literal) : Q :=
  let s := if negative l then - significand l else significand l in
  let e := exponent l - fraction_digits l in
  if 0 <=? e then inject_Z (s * 10 ^ e) else s # Z.to_pos (10 ^ (- e)).

(** The number that SQLite holds for a real value [q]. *)
Definition real (q : Q) : cell :=
  match fl q with
  | Fin r => CNum r
  | PInf => CPInf
  | NInf => CNInf
  | NaN => CNum 0
  end.

(** NUMERIC affinity applied to a text: an integer literal that fits 64
    bits is stored as that integer, any other well-formed literal as the
    binary64 value nearest to the number it denotes (SQLite's conversion
    is taken to round to nearest), and any other text as it is. *)
Definition numeric_affinity (s : string) : cell :=
  match parse s with
  | None => CText s
  | Some l =>
    let v := value l in
    if pure_integer l && in_int64 (Qnum v) then CNum v else real v
  end.

(** [a <= b] on stored values: numbers sort before texts, numbers by
    value, texts bytewise. *)
Definition cell_leb (a b : cell) : bool :=
  match a, b with
  | CNInf, _ => true
  | _, CNInf => false
  | CNum x, CNum y => Qle_bool x y
  | CNum _, _ => true
  | CPInf, CNum _ => false
  | CPInf, _ => true
  | CText _, (CNum _ | CPInf) => false
  | CText s, CText t => String.leb s t
  end.

End Sqlite.

(** ** Clock readings *)

Module Datetime.

(** A naive [datetime]: the proleptic Gregorian ordinal of its date (1
    for 0001-01-01) and its time of day.  The fields of a value that
    [datetime.now()] returns are within their ranges. *)
Record datetime : Type := mkDatetime {
  ordinal : Z;
  hour : Z;
  minute : Z;
  second : Z;
  microsecond : Z
}.

(** [date.max.toordinal()] *)
Definition MAXORDINAL : Z := 3652059.

(** [t - timedelta(days=days)]: the [timedelta] constructor and the
    subtraction both raise [OverflowError] out of range. *)
Definition minus_days (t : datetime) (days : Z) : result datetime :=
  if 999999999 <? Z.abs days then Raise OverflowError
  else
    let o := ordinal t - days in
    if (1 <=? o) && (o <=? MAXORDINAL)
    then Ok (mkDatetime o (hour t) (minute t) (second t) (microsecond t))
    else Raise OverflowError.

(** Days before the first of a month in a common year. *)
Definition days_before_month (month : Z) : Z :=
  nth (Z.to_nat month) [0; 0; 31; 59; 90; 120; 151; 181; 212; 243; 273; 304; 334] 0.

Definition days_in_month (month : Z) : Z :=
  nth (Z.to_nat month) [0; 31; 28; 31; 30; 31; 30; 31; 31; 30; 31; 30; 31] 0.

(** Year, month and day of an ordinal (the algorithm of [_ord2ymd]). *)
Definition ord2ymd (n0 : Z) : Z * Z * Z :=
  let n := n0 - 1 in
  let n400 := n / 146097 in
  let n := n mod 146097 in
  let n100 := n / 36524 in
  let n := n mod 36524 in
  let n4 := n / 1461 in
  let n := n mod 1461 in
  let n1 := n / 365 in
  let n := n mod 365 in
  let year := n400 * 400 + 1 + n100 * 100 + n4 * 4 + n1 in
  if (n1 =? 4) || (n100 =? 4) then (year - 1, 12, 31)
  else
    let leapyear := (n1 =? 3) && (negb (n4 =? 24) || (n100 =? 3)) in
    let month := (n + 50) / 32 in
    let preceding :=
      days_before_month month + (if (2 <? month) && leapyear then 1 else 0) in
    if n <? preceding then
      let month' := month - 1 in
      let preceding' :=
        preceding - (days_in_month month'
                     + (if (month' =? 2) && leapyear then 1 else 0)) in
      (year, month', n - preceding' + 1)
    else (year, month, n - preceding + 1).

Definition digit_char (d : Z) : ascii := ascii_of_nat (48 + Z.to_nat d).

(** The last [width] decimal digits of [n], as [%0<width>d] prints a
    number of at most [width] digits. *)
Fixpoint zero_padded (width : nat) (n : Z) : string :=
  match width with
  | O => EmptyString
  | S w => String (digit_char ((n / 10 ^ Z.of_nat w) mod 10)) (zero_padded w n)
  end.

(** [t.isoformat()] *)
Definition isoformat (t : datetime) : string :=
  let '(y, m, d) := ord2ymd (ordinal t) in
  let fraction :=
    if microsecond t =? 0 then EmptyString
    else String "." (zero_padded 6 (microsecond t)) in
  (zero_padded 4 y ++ "-" ++ zero_padded 2 m ++ "-" ++ zero_padded 2 d ++ "T"
   ++ zero_padded 2 (hour t) ++ ":" ++ zero_padded 2 (minute t) ++ ":"
   ++ zero_padded 2 (second t) ++ fraction)%string.

End Datetime.

(** ===================================================================== *)
(** * scripts/performance_metrics.py *)

Module Metrics.

(** [@dataclass BenchmarkResult] *)
Record BenchmarkResult : Type := mkBenchmarkResult {
  crate_name : string;
  benchmark_name : string;
  duration_ns : Z;
  memory_usage_bytes : Z;
  cpu_utilization_percent : Q;
  timestamp : string;
  git_commit : option string;
  metadata : option (list (string * string))
}.

(** *** Tables of [PerformanceDatabase.init_database] *)

(** Row of [benchmark_results].  [timestamp] is a DATETIME column.
    [metadata_json] holds the JSON text of the metadata mapping,
    represented by the mapping itself. *)
Record results_row : Type := mkResultsRow {
  r_id : Z;
  r_crate_name : string;
  r_benchmark_name : string;
  r_duration_ns : Z;
  r_memory_usage_bytes : Z;
  r_cpu_utilization_percent : Q;
  r_timestamp : cell;
  r_git_commit : option string;
  r_metadata_json : option (list (string * string))
}.

(** Row of [performance_baselines]. *)
Record baseline_row : Type := mkBaselineRow {
  b_id : Z;
  b_crate_name : string;
  b_benchmark_name : string;
  b_baseline_duration_ns : Z;
  b_baseline_timestamp : cell;
  b_git_commit : option string;
  b_is_active : bool
}.

(** Row of [regression_alerts]. *)
Record alert_row : Type := mkAlertRow {
  a_id : Z;
  a_crate_name : string;
  a_benchmark_name : string;
  a_current_duration_ns : Z;
  a_baseline_duration_ns : Z;
  a_regression_percent : fval;
  a_severity : severity;
  a_timestamp : cell;
  a_git_commit : option string;
  a_resolved : bool
}.

Record database : Type := mkDatabase {
  benchmark_results : list results_row;
  benchmark_results_seq : Z;
  performance_baselines : list baseline_row;
  performance_baselines_seq : Z;
  regression_alerts : list alert_row;
  regression_alerts_seq : Z
}.

(** [init_database] on a fresh file: three empty tables. *)
Definition init_database : database :=
  mkDatabase [] 0 [] 0 [] 0.

(** *** [PerformanceDatabase.insert_results] *)

(** The columns of [UNIQUE(crate_name, benchmark_name, timestamp)], as
    the values that are stored for a record and as the values of a row. *)
Definition identity (r : BenchmarkResult) : string * string * cell :=
  (crate_name r, benchmark_name r, Sqlite.numeric_affinity (timestamp r)).

Definition row_identity (row : results_row) : string * string * cell :=
  (r_crate_name row, r_benchmark_name row, r_timestamp row).

(** [json.dumps(result.metadata) if result.metadata else None]: an empty
    mapping is falsy. *)
Definition metadata_json_of (m : option (list (string * string)))
  : option (list (string * string)) :=
  match m with
  | Some (kv :: rest) => Some (kv :: rest)
  | _ => None
  end.

Definition row_of (id : Z) (r : BenchmarkResult) : results_row :=
  {| r_id := id;
     r_crate_name := crate_name r;
     r_benchmark_name := benchmark_name r;
     r_duration_ns := duration_ns r;
     r_memory_usage_bytes := memory_usage_bytes r;
     r_cpu_utilization_percent := cpu_utilization_percent r;
     r_timestamp := Sqlite.numeric_affinity (timestamp r);
     r_git_commit := git_commit r;
     r_metadata_json := metadata_json_of (metadata r) |}.

(** The two integers of a record can be bound to the statement. *)
Definition bindable (r : BenchmarkResult) : bool :=
  in_int64 (duration_ns r) && in_int64 (memory_usage_bytes r).

(** The effect of one [INSERT OR REPLACE INTO benchmark_results]: the
    rows that conflict on the UNIQUE columns are deleted, the new row is
    appended with the next AUTOINCREMENT id. *)
Definition replace_row (d : database) (r : BenchmarkResult) : database :=
  let id := benchmark_results_seq d + 1 in
  {| benchmark_results :=
       List.filter (fun row => negb (bool_decide (row_identity row = identity r)))
                   (benchmark_results d) ++ [row_of id r];
     benchmark_results_seq := id;
     performance_baselines := performance_baselines d;
     performance_baselines_seq := performance_baselines_seq d;
     regression_alerts := regression_alerts d;
     regression_alerts_seq := regression_alerts_seq d |}.

(** One [conn.execute('INSERT OR REPLACE ...', (...))]. *)
Definition insert_or_replace (d : database) (r : BenchmarkResult) : result database :=
  if bindable r then Ok (replace_row d r) else Raise OverflowError.

(** [insert_results]: the statements of the loop run in one transaction
    that is committed after the loop. *)
Fixpoint insert_results (d : database) (results : list BenchmarkResult)
  : result database :=
  match results with
  | [] => Ok d
  | r :: rest =>
    d' <- insert_or_replace d r ;;;
    insert_results d' rest
  end.

(** The UNIQUE constraint of [benchmark_results] holds. *)
Definition unique_results (d : database) : Prop :=
  NoDup (map row_identity (benchmark_results d)).

(** A row with the identity triple of [r] is in the table. *)
Definition stored (d : database) (r : BenchmarkResult) : Prop :=
  In (identity r) (map row_identity (benchmark_results d)).

(** The rows of the table that carry the identity triple of [r]. *)
Definition rows_of (d : database) (r : BenchmarkResult) : list results_row :=
  List.filter (fun row => bool_decide (row_identity row = identity r))
              (benchmark_results d).

(** *** [PerformanceDatabase.get_baseline] *)

Definition is_active_for (crate bench : string) (b : baseline_row) : bool :=
  bool_decide (b_crate_name b = crate) &&
  bool_decide (b_benchmark_name b = bench) &&
  b_is_active b.

(** [SELECT baseline_duration_ns, git_commit ... WHERE crate_name = ? AND
    benchmark_name = ? AND is_active = 1], then [fetchone()]. *)
Definition get_baseline (d : database) (crate bench : string)
  : option (Z * option string) :=
  match List.find (is_active_for crate bench) (performance_baselines d) with
  | Some b => Some (b_baseline_duration_ns b, b_git_commit b)
  | None => None
  end.

(** No row of [performance_baselines] is an active baseline of the pair. *)
Definition no_active_baseline (d : database) (crate bench : string) : Prop :=
  forall row, In row (performance_baselines d) ->
    ~ (b_crate_name row = crate /\ b_benchmark_name row = bench /\
       b_is_active row = true).

(** *** [PerformanceDatabase.set_baseline] *)

(** The columns of [UNIQUE(crate_name, benchmark_name, is_active)]. *)
Definition baseline_key (b : baseline_row) : string * string * bool :=
  (b_crate_name b, b_benchmark_name b, b_is_active b).

Definition unique_baselines (rows : list baseline_row) : bool :=
  bool_decide (NoDup (map baseline_key rows)).

Definition deactivate (crate bench : string) (b : baseline_row) : baseline_row :=
  if bool_decide (b_crate_name b = crate) && bool_decide (b_benchmark_name b = bench)
  then {| b_id := b_id b;
          b_crate_name := b_crate_name b;
          b_benchmark_name := b_benchmark_name b;
          b_baseline_duration_ns := b_baseline_duration_ns b;
          b_baseline_timestamp := b_baseline_timestamp b;
          b_git_commit := b_git_commit b;
          b_is_active := false |}
  else b.

(** [UPDATE performance_baselines SET is_active = 0 WHERE crate_name = ?
    AND benchmark_name = ?].  SQLite checks the UNIQUE index row by row
    while it updates; as every updated row of the pair gets
    [is_active = 0], a row collides exactly when the updated table would
    hold two rows that agree on the UNIQUE columns.  The statement is then
    aborted with [sqlite3.IntegrityError]. *)
Definition update_deactivate (crate bench : string) (rows : list baseline_row)
  : result (list baseline_row) :=
  let rows' := map (deactivate crate bench) rows in
  if unique_baselines rows' then Ok rows' else Raise IntegrityError.

(** [INSERT INTO performance_baselines (...)]: the duration is bound to
    the statement, [is_active] takes its DEFAULT 1, the UNIQUE constraint
    is checked. *)
Definition insert_baseline (rows : list baseline_row) (new : baseline_row)
  : result (list baseline_row) :=
  if in_int64 (b_baseline_duration_ns new) then
    let rows' := rows ++ [new] in
    if unique_baselines rows' then Ok rows' else Raise IntegrityError
  else Raise OverflowError.

(** [set_baseline]: both statements run in one transaction that is
    committed at the end; when a statement raises, nothing is committed
    and the stored database is unchanged.  [now] is
    [datetime.now().isoformat()]. *)
Definition set_baseline (d : database) (crate bench : string) (duration : Z)
  (commit : string) (now : string) : result database :=
  rows1 <- update_deactivate crate bench (performance_baselines d) ;;;
  let id := performance_baselines_seq d + 1 in
  rows2 <- insert_baseline rows1
             (mkBaselineRow id crate bench duration (Sqlite.numeric_affinity now)
                (Some commit) true) ;;;
  Ok {| benchmark_results := benchmark_results d;
        benchmark_results_seq := benchmark_results_seq d;
        performance_baselines := rows2;
        performance_baselines_seq := id;
        regression_alerts := regression_alerts d;
        regression_alerts_seq := regression_alerts_seq d |}.

(** *** [RegressionDetector] *)

(** The alert dictionary built in [detect_regressions]. *)
Record alert : Type := mkAlert {
  alert_crate_name : string;
  alert_benchmark_name : string;
  alert_current_duration_ns : Z;
  alert_baseline_duration_ns : Z;
  alert_regression_percent : fval;
  alert_severity : severity;
  alert_timestamp : string;
  alert_git_commit : option string;
  alert_baseline_commit : option string
}.

Definition _get_severity (change_percent : fval) : severity :=
  if fgeb change_percent 50 then CRITICAL
  else if fgeb change_percent 25 then HIGH
  else if fgeb change_percent 15 then MEDIUM
  else LOW.

(** The row that [_save_alert] writes under a given id; [resolved] takes
    its DEFAULT 0. *)
Definition alert_row_of (id : Z) (a : alert) : alert_row :=
  mkAlertRow id (alert_crate_name a) (alert_benchmark_name a)
    (alert_current_duration_ns a) (alert_baseline_duration_ns a)
    (alert_regression_percent a) (alert_severity a)
    (Sqlite.numeric_affinity (alert_timestamp a)) (alert_git_commit a) false.

(** The effect of the [INSERT INTO regression_alerts] of [_save_alert]. *)
Definition append_alert (d : database) (a : alert) : database :=
  let id := regression_alerts_seq d + 1 in
  {| benchmark_results := benchmark_results d;
     benchmark_results_seq := benchmark_results_seq d;
     performance_baselines := performance_baselines d;
     performance_baselines_seq := performance_baselines_seq d;
     regression_alerts := regression_alerts d ++ [alert_row_of id a];
     regression_alerts_seq := id |}.

(** [_save_alert]: one committed [INSERT INTO regression_alerts]; the two
    durations are bound to the statement. *)
Definition _save_alert (d : database) (a : alert) : result database :=
  if in_int64 (alert_current_duration_ns a) && in_int64 (alert_baseline_duration_ns a)
  then Ok (append_alert d a)
  else Raise OverflowError.

(** The [for result in results] loop of [detect_regressions]; [alerts] is
    the list built so far and [d] the database as committed so far.  The
    database is returned also when the loop raises: alerts saved before
    the exception stay saved. *)
Fixpoint detect_loop (threshold_percent : Q) (results : list BenchmarkResult)
  (alerts : list alert) (d : database) : database * result (list alert) :=
  match results with
  | [] => (d, Ok alerts)
  | r :: rest =>
    match get_baseline d (crate_name r) (benchmark_name r) with
    | None => detect_loop threshold_percent rest alerts d
    | Some (baseline_duration, baseline_commit) =>
      let current_duration := duration_ns r in
      match truediv (current_duration - baseline_duration) baseline_duration with
      | Raise e => (d, Raise e)
      | Ok q =>
        let change_percent := fmul (Fin q) 100 in
        if fgtb change_percent threshold_percent then
          let a := {| alert_crate_name := crate_name r;
                      alert_benchmark_name := benchmark_name r;
                      alert_current_duration_ns := current_duration;
                      alert_baseline_duration_ns := baseline_duration;
                      alert_regression_percent := change_percent;
                      alert_severity := _get_severity change_percent;
                      alert_timestamp := timestamp r;
                      alert_git_commit := git_commit r;
                      alert_baseline_commit := baseline_commit |} in
          match _save_alert d a with
          | Raise e => (d, Raise e)
          | Ok d' => detect_loop threshold_percent rest (alerts ++ [a]) d'
          end
        else detect_loop threshold_percent rest alerts d
      end
    end
  end.

Definition detect_regressions (threshold_percent : Q) (d : database)
  (results : list BenchmarkResult) : database * result (list alert) :=
  detect_loop threshold_percent results [] d.

(** *** [PerformanceAnalyzer.generate_trend_report] *)

(** pandas [Series.unique()]: the distinct values in order of first
    appearance. *)
Fixpoint unique (l : list string) : list string :=
  match l with
  | [] => []
  | x :: l' => x :: List.filter (fun y => negb (bool_decide (y = x))) (unique l')
  end.

(** [ORDER BY timestamp]: rows in ascending order of the stored
    timestamp. *)
Fixpoint insert_by_timestamp (row : results_row) (l : list results_row)
  : list results_row :=
  match l with
  | [] => [row]
  | y :: l' =>
    if Sqlite.cell_leb (r_timestamp row) (r_timestamp y) then row :: y :: l'
    else y :: insert_by_timestamp row l'
  end.

Definition order_by_timestamp (l : list results_row) : list results_row :=
  fold_right insert_by_timestamp [] l.

(** The [SELECT benchmark_name, duration_ns, timestamp ... WHERE
    crate_name = ? AND timestamp BETWEEN ? AND ? ORDER BY timestamp];
    [start_date] and [end_date] are the two [isoformat()] texts, which
    the comparison with the column gives NUMERIC affinity. *)
Definition select_trend_rows (d : database) (crate : string)
  (start_date end_date : string) : list results_row :=
  order_by_timestamp
    (List.filter
       (fun row => bool_decide (r_crate_name row = crate) &&
                   Sqlite.cell_leb (Sqlite.numeric_affinity start_date) (r_timestamp row) &&
                   Sqlite.cell_leb (r_timestamp row) (Sqlite.numeric_affinity end_date))
       (benchmark_results d)).

Definition sumZ (l : list Z) : Z := fold_right Z.add 0 l.
Definition sumQ (l : list Q) : Q := fold_right Qplus 0%Q l.

Definition len (l : list Z) : Z := Z.of_nat (length l).

(** The arithmetic mean, in exact arithmetic. *)
Definition mean (l : list Z) : Q := (inject_Z (sumZ l) / inject_Z (len l))%Q.

(** [np.min] and [np.max] of a non-empty array of integers. *)
Definition np_min (l : list Z) : Z :=
  match l with
  | [] => 0
  | x :: l' => fold_left Z.min l' x
  end.

Definition np_max (l : list Z) : Z :=
  match l with
  | [] => 0
  | x :: l' => fold_left Z.max l' x
  end.

(** [np.arange(n)] *)
Definition arange (n : nat) : list Z := map Z.of_nat (seq 0 n).

(** Sum of the products of the deviations from [mx] and [my]. *)
Definition dev_sum (mx my : Q) (xs ys : list Z) : Q :=
  sumQ (map (fun p => ((inject_Z (fst p) - mx) * (inject_Z (snd p) - my))%Q)
            (combine xs ys)).

(** The entries of [np.cov(x, y, bias=1)] used by
    [scipy.stats.linregress], for samples that are binary64 values with
    integer values. *)
Definition ssxm (xs : list Z) : Q :=
  (dev_sum (mean xs) (mean xs) xs xs / inject_Z (len xs))%Q.

Definition ssxym (xs ys : list Z) : Q :=
  (dev_sum (mean xs) (mean ys) xs ys / inject_Z (len xs))%Q.

(** Slope of the least-squares line, [ssxym / ssxm]. *)
Definition linregress_slope (xs ys : list Z) : Q := (ssxym xs ys / ssxm xs)%Q.

Record trend_info : Type := mkTrendInfo {
  trend_slope : Q;
  trend_r_squared : fval;
  trend_p_value : fval;
  is_improving : bool;
  is_degrading : bool
}.

Record stats_info : Type := mkStatsInfo {
  count : nat;
  mean_ns : Q;
  median_ns : Q;
  std_ns : Q;
  min_ns : Z;
  max_ns : Z;
  trend : option trend_info
}.

(** The trend report: either the [{'error': ...}] dictionary or the full
    report; [benchmarks] lists the per-benchmark entries in insertion
    order. *)
Inductive trend_report : Type :=
| TrendError (crate : string)
| TrendReport (crate : string) (period_days : Z) (total_benchmarks : nat)
    (total_runs : nat) (benchmarks : list (string * stats_info)).

(** The floating-point results of numpy and scipy on an array of
    integers of 64 bits that are taken as given: [np.mean], [np.median],
    [np.std], and the r-value and the two-sided p-value that
    [scipy.stats.linregress] returns for the samples regressed on their
    indices. *)
Record library : Type := mkLibrary {
  np_mean : list Z -> Q;
  np_median : list Z -> Q;
  np_std : list Z -> Q;
  linregress_r_value : list Z -> fval;
  linregress_p_value : list Z -> fval
}.

(** The body of [if len(durations) >= 2]; [np.cov] converts the samples
    to binary64. *)
Definition trend_of (lib : library) (durations : list Z) : trend_info :=
  let x := arange (length durations) in
  let slope := linregress_slope x (map to_float64 durations) in
  let p_value := linregress_p_value lib durations in
  {| trend_slope := slope;
     trend_r_squared := fsquare (linregress_r_value lib durations);
     trend_p_value := p_value;
     is_improving := Qgtb 0 slope;
     is_degrading := Qgtb slope 0 && fltb p_value (5 # 100) |}.

(** The [stats_info] dictionary of one benchmark, with the trend keys
    present when there are at least two samples. *)
Definition stats_of (lib : library) (durations : list Z) : stats_info :=
  {| count := length durations;
     mean_ns := np_mean lib durations;
     median_ns := np_median lib durations;
     std_ns := np_std lib durations;
     min_ns := np_min durations;
     max_ns := np_max durations;
     trend := if (2 <=? length durations)%nat then Some (trend_of lib durations)
              else None |}.

(** [df[df['benchmark_name'] == benchmark]['duration_ns'].values] *)
Definition durations_of (df : list results_row) (benchmark : string) : list Z :=
  map r_duration_ns
      (List.filter (fun row => bool_decide (r_benchmark_name row = benchmark)) df).

(** [generate_trend_report]; [now] is the reading of [datetime.now()]. *)
Definition generate_trend_report (lib : library) (d : database) (crate : string)
  (days : Z) (now : Datetime.datetime) : result trend_report :=
  start_date <- Datetime.minus_days now days ;;;
  let df := select_trend_rows d crate (Datetime.isoformat start_date)
              (Datetime.isoformat now) in
  match df with
  | [] => Ok (TrendError crate)
  | _ :: _ =>
    let names := unique (map r_benchmark_name df) in
    Ok (TrendReport crate days (length names) (length df)
          (map (fun benchmark => (benchmark, stats_of lib (durations_of df benchmark)))
               names))
  end.

(** *** [PerformanceAnalyzer.generate_comparison_report] *)

(** Row of the per-commit aggregate: crate, benchmark, [AVG(duration_ns)]. *)
Record avg_row : Type := mkAvgRow {
  avg_crate_name : string;
  avg_benchmark_name : string;
  avg_duration : Q
}.

Definition pair_of (row : results_row) : string * string :=
  (r_crate_name row, r_benchmark_name row).

(** Distinct (crate, benchmark) pairs in order of first appearance. *)
Fixpoint group_keys (l : list (string * string)) : list (string * string) :=
  match l with
  | [] => []
  | k :: l' => k :: List.filter (fun k' => negb (bool_decide (k' = k))) (group_keys l')
  end.

(** The groups of a GROUP BY come in ascending order of the grouping
    columns; texts compare bytewise. *)
Definition pair_leb (a b : string * string) : bool :=
  if String.eqb (fst a) (fst b) then String.leb (snd a) (snd b)
  else String.leb (fst a) (fst b).

Fixpoint insert_pair (k : string * string) (l : list (string * string))
  : list (string * string) :=
  match l with
  | [] => [k]
  | y :: l' => if pair_leb k y then k :: y :: l' else y :: insert_pair k l'
  end.

Definition sort_pairs (l : list (string * string)) : list (string * string) :=
  fold_right insert_pair [] l.

(** [AVG(duration_ns)] of a non-empty group: the sum of the integers,
    converted to binary64, divided by their number. *)
Definition sqlite_avg (l : list Z) : Q :=
  round64 (inject_Z (to_float64 (sumZ l)) / inject_Z (len l)).

(** [SELECT crate_name, benchmark_name, AVG(duration_ns) ... WHERE
    git_commit = ? GROUP BY crate_name, benchmark_name].  A NULL
    [git_commit] matches no parameter. *)
Definition select_avg (d : database) (commit : string) : list avg_row :=
  let rows := List.filter (fun row => bool_decide (r_git_commit row = Some commit))
                          (benchmark_results d) in
  map (fun k =>
         mkAvgRow (fst k) (snd k)
           (sqlite_avg (map r_duration_ns
                          (List.filter (fun row => bool_decide (pair_of row = k)) rows))))
      (sort_pairs (group_keys (map pair_of rows))).

(** Row of the merged frame with the two computed columns. *)
Record comparison_row : Type := mkComparisonRow {
  c_crate_name : string;
  c_benchmark_name : string;
  avg_duration_base : Q;
  avg_duration_current : Q;
  change_ns : Q;
  change_percent : fval
}.

Definition compare_rows (b c : avg_row) : comparison_row :=
  let change := fsub (avg_duration c) (avg_duration b) in
  {| c_crate_name := avg_crate_name b;
     c_benchmark_name := avg_benchmark_name b;
     avg_duration_base := avg_duration b;
     avg_duration_current := avg_duration c;
     change_ns := change;
     change_percent := fmul (fdiv change (avg_duration b)) 100 |}.

(** [pd.merge(base_data, current_data, on=['crate_name',
    'benchmark_name'])]: inner join in the order of the base rows,
    followed by the two column computations. *)
Definition merge (base_data current_data : list avg_row) : list comparison_row :=
  flat_map
    (fun b =>
       map (compare_rows b)
           (List.filter
              (fun c => bool_decide (avg_crate_name c = avg_crate_name b) &&
                        bool_decide (avg_benchmark_name c = avg_benchmark_name b))
              current_data))
    base_data.

Record comparison_report : Type := mkComparisonReport {
  base_commit : string;
  current_commit : string;
  total_comparisons : nat;
  improvements : nat;
  regressions : nat;
  stable : nat;
  details : list comparison_row
}.

Definition is_improvement (c : comparison_row) : bool := fltb (change_percent c) (-5).
Definition is_regression (c : comparison_row) : bool := fgtb (change_percent c) 5.
Definition is_stable (c : comparison_row) : bool := fabs_leb (change_percent c) 5.

Definition generate_comparison_report (d : database) (base current : string)
  : comparison_report :=
  let comparison := merge (select_avg d base) (select_avg d current) in
  {| base_commit := base;
     current_commit := current;
     total_comparisons := length comparison;
     improvements := length (List.filter is_improvement comparison);
     regressions := length (List.filter is_regression comparison);
     stable := length (List.filter is_stable comparison);
     details := comparison |}.

End Metrics.

(** ===================================================================== *)
(** * scripts/regression_detector.py *)

Module Simple.

(** A result dictionary as read from the JSON files: the three keys the
    detector accesses. *)
Record entry : Type := mkEntry {
  crate_name : string;
  benchmark_name : string;
  duration_ns : Z
}.

(** [@dataclass RegressionAlert] *)
Record RegressionAlert : Type := mkRegressionAlert {
  alert_crate_name : string;
  alert_benchmark_name : string;
  current_duration_ns : Z;
  baseline_duration_ns : Z;
  change_percent : fval;
  severity_of : severity
}.

(** [f"{result['crate_name']}/{result['benchmark_name']}"] *)
Definition key (e : entry) : string :=
  crate_name e +:+ "/" +:+ benchmark_name e.

(** The [baseline_lookup] dictionary after the first loop: later entries
    overwrite earlier ones under the same key. *)
Definition build_lookup (baseline_results : list entry) : gmap string Z :=
  fold_left (fun lookup result => <[key result := duration_ns result]> lookup)
            baseline_results ∅.

(** The last entry of the baseline list, in list order, stored under
    key [k]. *)
Definition last_with_key (k : string) (baseline_results : list entry) : option entry :=
  last (List.filter (fun e => bool_decide (key e = k)) baseline_results).

(** The last entry of the baseline list, in list order, for the pair. *)
Definition last_with_pair (crate bench : string) (baseline_results : list entry)
  : option entry :=
  last (List.filter
          (fun e => bool_decide (crate_name e = crate) &&
                    bool_decide (benchmark_name e = bench))
          baseline_results).

(** The text contains no ["/"]. *)
Fixpoint no_slash (s : string) : bool :=
  match s with
  | EmptyString => true
  | String c s' => negb (Ascii.eqb c "/") && no_slash s'
  end.

Definition _get_severity (change_percent : fval) : severity :=
  if fgeb change_percent 50 then CRITICAL
  else if fgeb change_percent 25 then HIGH
  else if fgeb change_percent 15 then MEDIUM
  else LOW.

(** The [for current in current_results] loop. *)
Fixpoint detect_loop (threshold_percent : Q) (baseline_lookup : gmap string Z)
  (current_results : list entry) (alerts : list RegressionAlert)
  : result (list RegressionAlert) :=
  match current_results with
  | [] => Ok alerts
  | current :: rest =>
    match baseline_lookup !! key current with
    | None => detect_loop threshold_percent baseline_lookup rest alerts
    | Some baseline_duration =>
      let current_duration := duration_ns current in
      q <- truediv (current_duration - baseline_duration) baseline_duration ;;;
      let change := fmul (Fin q) 100 in
      if fgtb change threshold_percent then
        detect_loop threshold_percent baseline_lookup rest
          (alerts ++ [mkRegressionAlert (crate_name current) (benchmark_name current)
                        current_duration baseline_duration change
                        (_get_severity change)])
      else detect_loop threshold_percent baseline_lookup rest alerts
    end
  end.

(** [sorted(alerts, key=lambda x: x.change_percent, reverse=True)]: a
    stable sort, largest [change_percent] first.  No [change_percent] of
    the list is NaN: it is a product of a finite value and 100. *)
Fixpoint insert_desc (a : RegressionAlert) (l : list RegressionAlert)
  : list RegressionAlert :=
  match l with
  | [] => [a]
  | b :: l' =>
    if fval_gtb (change_percent b) (change_percent a) then b :: insert_desc a l'
    else a :: b :: l'
  end.

Definition sorted_reverse (alerts : list RegressionAlert) : list RegressionAlert :=
  fold_right insert_desc [] alerts.

Definition detect_regressions (threshold_percent : Q)
  (current_results baseline_results : list entry) : result (list RegressionAlert) :=
  alerts <- detect_loop threshold_percent (build_lookup baseline_results)
              current_results [] ;;;
  Ok (sorted_reverse alerts).

(** The alert was computed against the last baseline entry stored under
    the key of its record. *)
Definition compared_with_last (baseline_results : list entry) (a : RegressionAlert)
  : Prop :=
  exists b,
    last_with_key (alert_crate_name a +:+ "/" +:+ alert_benchmark_name a)
                  baseline_results = Some b /\
    baseline_duration_ns a = duration_ns b /\
    change_percent a = percent_change (current_duration_ns a) (duration_ns b).

(** Largest [change_percent] first. *)
Definition descending (alerts : list RegressionAlert) : Prop :=
  Sorted (fun a b => fval_leb (change_percent b) (change_percent a) = true) alerts.

End Simple.

(** ===================================================================== *)
(** * Scenarios *)

Open Scope string_scope.

Module Scenario.
Import Metrics.

(** A measurement of benchmark ["y"] of crate ["x"]. *)
Definition measure (duration : Z) (ts : string) : BenchmarkResult :=
  mkBenchmarkResult "x" "y" duration 0 0 ts (Some "v2") None.

(** The store after [set_baseline("x", "y", duration, "v1")] on a fresh
    database, the clock reading ["2024-01-01T00:00:00"]. *)
Definition with_baseline (duration : Z) : database :=
  {| benchmark_results := [];
     benchmark_results_seq := 0;
     performance_baselines :=
       [mkBaselineRow 1 "x" "y" duration (CText "2024-01-01T00:00:00") (Some "v1") true];
     performance_baselines_seq := 1;
     regression_alerts := [];
     regression_alerts_seq := 0 |}.

(** A measurement of a benchmark of crate ["m"] at a given commit. *)
Definition sample (bench : string) (duration : Z) (ts commit : string)
  : BenchmarkResult :=
  mkBenchmarkResult "m" bench duration 0 0 ts (Some commit) None.

(** The store that a committed [insert_results] leaves. *)
Definition committed (outcome : result database) : database :=
  match outcome with
  | Ok d => d
  | Raise _ => init_database
  end.

(** Base version: A and B at 100 ns.  Current version: A at 96 ns, B at
    106 ns, and C, which has no measurement under the base version. *)
Definition two_versions : database :=
  committed
    (insert_results init_database
       [sample "A" 100 "2024-01-01T00:00:00" "base";
        sample "B" 100 "2024-01-01T00:00:00" "base";
        sample "A" 96 "2024-02-01T00:00:00" "current";
        sample "B" 106 "2024-02-01T00:00:00" "current";
        sample "C" 50 "2024-02-01T00:00:00" "current"]).

(** Three January measurements of benchmark A of crate ["m"], slower
    each time. *)
Definition history : database :=
  committed
    (insert_results init_database
       [sample "A" 100 "2024-01-10T00:00:00" "c1";
        sample "A" 110 "2024-01-11T00:00:00" "c2";
        sample "A" 130 "2024-01-12T00:00:00" "c3"]).

(** The alert built for [measure duration ts] against the baseline
    [baseline]. *)
Definition alert_for (duration baseline : Z) (ts : string) (s : severity) : alert :=
  mkAlert "x" "y" duration baseline (percent_change duration baseline) s ts
    (Some "v2") (Some "v1").

(** Noon of 2024-02-14, as a reading of [datetime.now()]. *)
Definition noon : Datetime.datetime := Datetime.mkDatetime 738930 12 0 0 0.

(** Noon of 2024-01-31. *)
Definition january : Datetime.datetime := Datetime.mkDatetime 738916 12 0 0 0.

(** Two January measurements of benchmark A of crate ["m"] that differ by
    one nanosecond above [2^53] ns, faster the second time. *)
Definition large_history : database :=
  committed
    (insert_results init_database
       [sample "A" (2 ^ 53 + 1) "2024-01-10T00:00:00" "c1";
        sample "A" (2 ^ 53) "2024-01-11T00:00:00" "c2"]).

(** Library results that play no part in a scenario. *)
Definition unused : library :=
  mkLibrary (fun _ => 0%Q) (fun _ => 0%Q) (fun _ => 0%Q) (fun _ => NaN) (fun _ => NaN).

End Scenario.

(** ===================================================================== *)
(** * Sums over paired samples *)

(** The integer sums behind the least-squares slope of the points
    [l = [(x_0, y_0); ...]]: [cross l] is [n * sum(x*y) - sum(x) * sum(y)],
    the numerator of the slope up to the positive factor [n^2]. *)
Module Ols.

Definition sum_x (l : list (Z * Z)) : Z := Metrics.sumZ (map fst l).
Definition sum_y (l : list (Z * Z)) : Z := Metrics.sumZ (map snd l).
Definition sum_xy (l : list (Z * Z)) : Z :=
  Metrics.sumZ (map (fun p => fst p * snd p) l).

Definition cross (l : list (Z * Z)) : Z :=
  Z.of_nat (length l) * sum_xy l - sum_x l * sum_y l.

(** Sum of the products of the differences to the point [(x0, y0)]. *)
Definition dsum (x0 y0 : Z) (l : list (Z * Z)) : Z :=
  Metrics.sumZ (map (fun p => (fst p - x0) * (snd p - y0)) l).

(** Later points are to the right and above, or to the right and below. *)
Definition rising (p q : Z * Z) : Prop := fst p < fst q /\ snd p < snd q.
Definition falling (p q : Z * Z) : Prop := fst p < fst q /\ snd q < snd p.

End Ols.

(** ===================================================================== *)
(** * Detection, record by record *)

Module Detection.

(** The alert that the loop of [RegressionDetector.detect_regressions]
    builds for one record: none without an active baseline or at or
    below the threshold. *)
Definition metrics_alert_of (threshold_percent : Q) (d : Metrics.database)
  (r : Metrics.BenchmarkResult) : option Metrics.alert :=
  match Metrics.get_baseline d (Metrics.crate_name r) (Metrics.benchmark_name r) with
  | None => None
  | Some (baseline_duration, baseline_commit) =>
    let change := percent_change (Metrics.duration_ns r) baseline_duration in
    if fgtb change threshold_percent then
      Some (Metrics.mkAlert (Metrics.crate_name r) (Metrics.benchmark_name r)
              (Metrics.duration_ns r) baseline_duration change
              (Metrics._get_severity change) (Metrics.timestamp r)
              (Metrics.git_commit r) baseline_commit)
    else None
  end.

(** The same for the loop of [SimpleRegressionDetector.detect_regressions]. *)
Definition simple_alert_of (threshold_percent : Q) (baseline_lookup : gmap string Z)
  (current : Simple.entry) : option Simple.RegressionAlert :=
  match baseline_lookup !! Simple.key current with
  | None => None
  | Some baseline_duration =>
    let change := percent_change (Simple.duration_ns current) baseline_duration in
    if fgtb change threshold_percent then
      Some (Simple.mkRegressionAlert (Simple.crate_name current)
              (Simple.benchmark_name current) (Simple.duration_ns current)
              baseline_duration change (Simple._get_severity change))
    else None
  end.

(** The exception, if any, that the division of the loop raises for a
    current duration and a baseline. *)
Definition division_error (current baseline : Z) : option exn :=
  match truediv (current - baseline) baseline with
  | Ok _ => None
  | Raise e => Some e
  end.

(** The exception, if any, that one round of the loop of
    [RegressionDetector.detect_regressions] raises: from the division,
    or from [_save_alert] when an alert is built and a duration does not
    fit 64 bits. *)
Definition metrics_error (threshold_percent : Q) (d : Metrics.database)
  (r : Metrics.BenchmarkResult) : option exn :=
  match Metrics.get_baseline d (Metrics.crate_name r) (Metrics.benchmark_name r) with
  | None => None
  | Some (baseline_duration, _) =>
    match division_error (Metrics.duration_ns r) baseline_duration with
    | Some e => Some e
    | None =>
      if fgtb (percent_change (Metrics.duration_ns r) baseline_duration)
              threshold_percent
         && negb (in_int64 (Metrics.duration_ns r) && in_int64 baseline_duration)
      then Some OverflowError
      else None
    end
  end.

(** The exception, if any, that one round of the loop of
    [SimpleRegressionDetector.detect_regressions] raises. *)
Definition simple_error (baseline_lookup : gmap string Z) (current : Simple.entry)
  : option exn :=
  match baseline_lookup !! Simple.key current with
  | None => None
  | Some baseline_duration =>
    division_error (Simple.duration_ns current) baseline_duration
  end.

(** The durations fit 64 bits: those of the stored baselines, of a list
    of records, and of a list of entries of a results file. *)
Definition stored_in_range (d : Metrics.database) : Prop :=
  forall row, In row (Metrics.performance_baselines d) ->
    in_int64 (Metrics.b_baseline_duration_ns row) = true.

Definition records_in_range (results : list Metrics.BenchmarkResult) : Prop :=
  forall r, In r results -> in_int64 (Metrics.duration_ns r) = true.

Definition entries_in_range (results : list Simple.entry) : Prop :=
  forall e, In e results -> in_int64 (Simple.duration_ns e) = true.

(** The store after the alerts of a list are saved, in order. *)
Definition save_all (d : Metrics.database) (alerts : list Metrics.alert)
  : Metrics.database :=
  fold_left Metrics.append_alert alerts d.


(** Position of a severity in the order LOW, MEDIUM, HIGH, CRITICAL. *)
Definition severity_rank (s : severity) : nat :=
  match s with
  | LOW => 0
  | MEDIUM => 1
  | HIGH => 2
  | CRITICAL => 3
  end.

(** [x == y] on two binary64 values. *)
Definition same_value (x y : fval) : bool :=
  match x, y with
  | Fin a, Fin b => Qeq_bool a b
  | PInf, PInf | NInf, NInf => true
  | _, _ => false
  end.

End Detection.

(** ===================================================================== *)
(** * Baseline rows of a pair *)

Module Baselines.

(** The row is an inactive baseline of the pair. *)
Definition is_inactive_for (crate bench : string) (b : Metrics.baseline_row) : bool :=
  bool_decide (Metrics.b_crate_name b = crate) &&
  bool_decide (Metrics.b_benchmark_name b = bench) &&
  negb (Metrics.b_is_active b).

(** The table satisfies [UNIQUE(crate_name, benchmark_name, is_active)]. *)
Definition unique (d : Metrics.database) : Prop :=
  NoDup (map Metrics.baseline_key (Metrics.performance_baselines d)).

(** The store after a call that writes to it: the committed store, or
    the unchanged one when the call raised. *)
Definition after (d : Metrics.database) (outcome : result Metrics.database)
  : Metrics.database :=
  match outcome with
  | Ok d' => d'
  | Raise _ => d
  end.

(** A call of [set_baseline] from the command line: crate, benchmark,
    duration, commit and the clock reading. *)
Definition call : Type := string * string * Z * string * string.

(** The store after a sequence of [set_baseline] calls, each one a
    process of its own whose failure leaves the store as it was. *)
Definition run (d : Metrics.database) (calls : list call) : Metrics.database :=
  fold_left
    (fun d0 '(crate, bench, duration, commit, now) =>
       after d0 (Metrics.set_baseline d0 crate bench duration commit now))
    calls d.

(** The columns of a baseline row other than [is_active]. *)
Definition data (b : Metrics.baseline_row)
  : Z * string * string * Z * cell * option string :=
  (Metrics.b_id b, Metrics.b_crate_name b, Metrics.b_benchmark_name b,
   Metrics.b_baseline_duration_ns b, Metrics.b_baseline_timestamp b,
   Metrics.b_git_commit b).

(** The pair a call is for, and its duration. *)
Definition pair_of_call (c : call) : string * string :=
  let '(crate, bench, _, _, _) := c in (crate, bench).

Definition duration_of_call (c : call) : Z :=
  let '(_, _, duration, _, _) := c in duration.

End Baselines.

(** ===================================================================== *)
(** * Row ids of the measurements *)

Module Store.

(** The ids of [benchmark_results] are pairwise distinct and none exceeds
    the AUTOINCREMENT counter. *)
Definition ids_fresh (d : Metrics.database) : Prop :=
  NoDup (map Metrics.r_id (Metrics.benchmark_results d)) /\
  forall row, In row (Metrics.benchmark_results d) ->
    Metrics.r_id row <= Metrics.benchmark_results_seq d.

(** The row does not carry the identity triple of any record of the
    batch. *)
Definition untouched_by (results : list Metrics.BenchmarkResult)
  (row : Metrics.results_row) : bool :=
  bool_decide (Metrics.row_identity row ∉ map Metrics.identity results).

(** The store after a sequence of [insert_results] calls, each one a
    process of its own whose failure leaves the store as it was. *)
Definition run (d : Metrics.database) (batches : list (list Metrics.BenchmarkResult))
  : Metrics.database :=
  fold_left (fun d0 batch => Baselines.after d0 (Metrics.insert_results d0 batch))
            batches d.


(** The text has a character that no number has, so that it is stored as
    it is: a character other than a digit, a sign, a point, an [e] and
    white space. *)
Fixpoint plain (s : string) : bool :=
  match s with
  | EmptyString => false
  | String c s' =>
    negb (Sqlite.is_space c
          || match Sqlite.digit_of c with Some _ => true | None => false end
          || Ascii.eqb c "+" || Ascii.eqb c "-" || Ascii.eqb c "."
          || Ascii.eqb c "e" || Ascii.eqb c "E")
    || plain s'
  end.

End Store.

(** ===================================================================== *)
(** * Rows of a comparison *)

Module Comparison.

(** The (crate, benchmark) pair of an aggregate row and of a compared
    row. *)
Definition avg_pair (a : Metrics.avg_row) : string * string :=
  (Metrics.avg_crate_name a, Metrics.avg_benchmark_name a).

Definition pair (c : Metrics.comparison_row) : string * string :=
  (Metrics.c_crate_name c, Metrics.c_benchmark_name c).

(** The change of the row is NaN. *)
Definition is_nan (c : Metrics.comparison_row) : bool :=
  match Metrics.change_percent c with
  | NaN => true
  | _ => false
  end.

(** The pair has a measurement under the commit. *)
Definition measured (d : Metrics.database) (commit crate bench : string) : Prop :=
  exists row,
    In row (Metrics.benchmark_results d) /\
    Metrics.r_git_commit row = Some commit /\
    Metrics.r_crate_name row = crate /\
    Metrics.r_benchmark_name row = bench.

End Comparison.

(** ===================================================================== *)
(** * Rows and entries of a trend report *)

Module Trend.

(** The WHERE clause of the trend query. *)
Definition in_window (crate start_date end_date : string) (row : Metrics.results_row)
  : bool :=
  bool_decide (Metrics.r_crate_name row = crate) &&
  Sqlite.cell_leb (Sqlite.numeric_affinity start_date) (Metrics.r_timestamp row) &&
  Sqlite.cell_leb (Metrics.r_timestamp row) (Sqlite.numeric_affinity end_date).

(** Ascending timestamps. *)
Definition by_timestamp (a b : Metrics.results_row) : Prop :=
  Sqlite.cell_leb (Metrics.r_timestamp a) (Metrics.r_timestamp b) = true.

(** Sum of the [count] entries of the benchmarks of a report. *)
Definition total_count (benchmarks : list (string * Metrics.stats_info)) : nat :=
  fold_right (fun entry n => (Metrics.count (snd entry) + n)%nat) 0%nat benchmarks.

(** Later points are to the right and not below, or to the right and not
    above. *)
Definition not_falling (p q : Z * Z) : Prop := fst p < fst q /\ snd p <= snd q.
Definition not_rising (p q : Z * Z) : Prop := fst p < fst q /\ snd q <= snd p.

(** The samples keep their values when they are converted to binary64. *)
Definition exact (durations : list Z) : Prop :=
  forall x, In x durations -> Z.abs x <= 2 ^ 53.

End Trend.

(** ===================================================================== *)
(** * Result files *)

Module Files.

(** One record of a results file, as the dictionary that [json.load]
    returns for it, read through the keys the scripts use; a key that is
    absent is [None].  The values have the types of the [BenchmarkResult]
    fields. *)
Record item : Type := mkItem {
  i_crate_name : option string;
  i_benchmark_name : option string;
  i_duration_ns : option Z;
  i_min_duration_ns : option Z;
  i_max_duration_ns : option Z;
  i_memory_usage_bytes : option Z;
  i_cpu_utilization_percent : option Q;
  i_timestamp : option string;
  i_git_commit : option string;
  i_metadata : option (list (string * string))
}.

(** A value under a key of a JSON object of a results file. *)
Inductive value : Type :=
| VStr (s : string)
| VInt (z : Z)
| VItems (items : list item).

(** The document of a results file: a list of records, or an object. *)
Inductive document : Type :=
| DocList (items : list item)
| DocObject (fields : list (string * value)).

(** [data[key]] on an object, [None] when [key not in data]. *)
Fixpoint lookup (key : string) (fields : list (string * value)) : option value :=
  match fields with
  | [] => None
  | (k, v) :: rest => if String.eqb key k then Some v else lookup key rest
  end.

End Files.

(** ===================================================================== *)
(** * scripts/parse_benchmark_output.py *)

Module Parser.

(** [s.split(sep)] for a separator of one character. *)
Fixpoint split (sep : ascii) (s : string) : list string :=
  match s with
  | EmptyString => [EmptyString]
  | String c s' =>
    if Ascii.eqb c sep then EmptyString :: split sep s'
    else match split sep s' with
         | [] => [String c EmptyString]
         | h :: t => String c h :: t
         end
  end.

(** [l[-1]] on the list that [split] returns, which is never empty. *)
Definition last_item (l : list string) : string := List.last l EmptyString.

(** [s.replace(old, new)] for a non-empty [old]: the occurrences of [old]
    are replaced from left to right without overlap; [skip] counts the
    characters of a replaced occurrence still to pass over. *)
Fixpoint replace_from (old new : string) (skip : nat) (s : string) : string :=
  match s with
  | EmptyString => EmptyString
  | String c s' =>
    match skip with
    | S k => replace_from old new k s'
    | O =>
      if String.prefix old s
      then new +:+ replace_from old new (String.length old - 1) s'
      else String c (replace_from old new 0 s')
    end
  end.

Definition replace (old new s : string) : string := replace_from old new 0 s.

(** [mapping.get(k, default)] *)
Fixpoint get {A : Type} (mapping : list (string * A)) (k : string) (default : A) : A :=
  match mapping with
  | [] => default
  | (k', v) :: rest => if String.eqb k k' then v else get rest k default
  end.

Definition name_mapping : list (string * string) :=
  [("model", "moduforge-model");
   ("derive", "moduforge-macros-derive");
   ("macro", "moduforge-macros");
   ("transform", "moduforge-transform");
   ("expression", "moduforge-rules-expression");
   ("template", "moduforge-rules-template");
   ("state", "moduforge-state");
   ("engine", "moduforge-rules-engine");
   ("file", "moduforge-file");
   ("search", "moduforge-search");
   ("persistence", "moduforge-persistence");
   ("core", "moduforge-core");
   ("collaboration", "moduforge-collaboration");
   ("collaboration-client", "moduforge-collaboration-client")].

(** [BenchmarkParser.extract_crate_name_from_filename] *)
Definition extract_crate_name_from_filename (filename : string) : string :=
  let basename := replace "-output.txt" "" (last_item (split "/"%char filename)) in
  get name_mapping basename basename.

Definition tier_mapping : list (string * list string) :=
  [("foundation",
    ["moduforge-model"; "moduforge-macros-derive"; "moduforge-macros"]);
   ("core-logic",
    ["moduforge-transform"; "moduforge-rules-expression"; "moduforge-rules-template"]);
   ("service",
    ["moduforge-state"; "moduforge-rules-engine"; "moduforge-file";
     "moduforge-search"; "moduforge-persistence"]);
   ("integration",
    ["moduforge-core"; "moduforge-collaboration"; "moduforge-collaboration-client"])].

(** [get_tier_crates] *)
Definition get_tier_crates (tier : string) : list string := get tier_mapping tier [].

(** [self.time_units], and [self.time_units.get(unit, 1)]. *)
Definition time_units : list (string * Z) :=
  [("ns", 1); ("µs", 1000); ("us", 1000); ("ms", 1000000); ("s", 1000000000)].

(** One line of an output file that matches [benchmark_pattern]: its
    seven groups, and the reading of [datetime.utcnow()] for it. *)
Record matched_line : Type := mkMatchedLine {
  g_name : string;
  g_min : string;
  g_min_unit : string;
  g_avg : string;
  g_avg_unit : string;
  g_max : string;
  g_max_unit : string;
  clock : Datetime.datetime
}.

(** [float(text)] on a text of digits and points, as the pattern
    matches: the nearest binary64 value, or [None] for the [ValueError]
    on a text without a digit or with two points. *)
Definition to_float (text : string) : option fval :=
  let '(int_part, n_int, s1) := Sqlite.digits 0 0 text in
  let '(sig, n_frac, s2) :=
    match s1 with
    | String c s' =>
      if Ascii.eqb c "." then Sqlite.digits int_part 0 s' else (int_part, 0, s1)
    | EmptyString => (int_part, 0, s1)
    end in
  match s2 with
  | EmptyString =>
    if (0 <? n_int + n_frac)%Z then Some (fl (sig # Z.to_pos (10 ^ n_frac))) else None
  | String _ _ => None
  end.

(** [int(time * self.time_units.get(unit, 1))]: the product is rounded
    and truncated; [None] for the [OverflowError] on an infinity. *)
Definition to_ns (time : fval) (unit : string) : option Z :=
  match fmul time (inject_Z (get time_units unit 1)) with
  | Fin q => Some (Z.quot (Qnum q) (Zpos (Qden q)))
  | _ => None
  end.

(** The three times of a line as floats and in nanoseconds; [None] when
    one of the conversions raises. *)
Definition convert (m : matched_line) : option (fval * fval * fval * (Z * Z * Z)) :=
  match to_float (g_min m), to_float (g_avg m), to_float (g_max m) with
  | Some min_time, Some avg_time, Some max_time =>
    match to_ns min_time (g_min_unit m), to_ns avg_time (g_avg_unit m),
          to_ns max_time (g_max_unit m) with
    | Some min_ns, Some avg_ns, Some max_ns =>
      Some (min_time, avg_time, max_time, (min_ns, avg_ns, max_ns))
    | _, _, _ => None
    end
  | _, _, _ => None
  end.

(** [result['git_commit'] = args.commit] *)
Definition set_git_commit (commit : string) (it : Files.item) : Files.item :=
  {| Files.i_crate_name := Files.i_crate_name it;
     Files.i_benchmark_name := Files.i_benchmark_name it;
     Files.i_duration_ns := Files.i_duration_ns it;
     Files.i_min_duration_ns := Files.i_min_duration_ns it;
     Files.i_max_duration_ns := Files.i_max_duration_ns it;
     Files.i_memory_usage_bytes := Files.i_memory_usage_bytes it;
     Files.i_cpu_utilization_percent := Files.i_cpu_utilization_percent it;
     Files.i_timestamp := Files.i_timestamp it;
     Files.i_git_commit := Some commit;
     Files.i_metadata := Files.i_metadata it |}.

Section Files_read.

(** The matching lines of the file at a path, in file order (none when
    the file cannot be read), and the text that Python prints for a
    float. *)
Variable matching_lines : string -> list matched_line.
Variable float_str : fval -> string.

(** The loop of [parse_file]: the first line whose conversion raises ends
    it, as the [try] encloses the loop; the results built before are
    kept. *)
Fixpoint parse_lines (file_path crate_name : string) (lines : list matched_line)
  : list Files.item :=
  match lines with
  | [] => []
  | m :: rest =>
    match convert m with
    | None => []
    | Some (min_time, avg_time, max_time, (min_ns, avg_ns, max_ns)) =>
      {| Files.i_crate_name := Some crate_name;
         Files.i_benchmark_name := Some (g_name m);
         Files.i_duration_ns := Some avg_ns;
         Files.i_min_duration_ns := Some min_ns;
         Files.i_max_duration_ns := Some max_ns;
         Files.i_memory_usage_bytes := Some 0;
         Files.i_cpu_utilization_percent := Some 0%Q;
         Files.i_timestamp := Some (Datetime.isoformat (clock m) +:+ "Z");
         Files.i_git_commit := None;
         Files.i_metadata :=
           Some [("min_time", float_str min_time +:+ " " +:+ g_min_unit m);
                 ("avg_time", float_str avg_time +:+ " " +:+ g_avg_unit m);
                 ("max_time", float_str max_time +:+ " " +:+ g_max_unit m);
                 ("source_file", file_path)] |}
      :: parse_lines file_path crate_name rest
    end
  end.

(** [BenchmarkParser.parse_file] *)
Definition parse_file (file_path crate_name : string) : list Files.item :=
  parse_lines file_path crate_name (matching_lines file_path).

(** The results that [main] collects from the files that [glob] lists. *)
Definition all_results (output_files : list string) (tier commit : string)
  : list Files.item :=
  let tier_crates := get_tier_crates tier in
  flat_map (fun file_path =>
              let crate_name := extract_crate_name_from_filename file_path in
              if bool_decide (crate_name ∈ tier_crates)
              then map (set_git_commit commit) (parse_file file_path crate_name)
              else [])
           output_files.

(** [main]: the summary written to the output file; [now] is the clock
    reading. *)
Definition main (output_files : list string) (tier commit now : string)
  : Files.document :=
  let results := all_results output_files tier commit in
  let crates : gset string := list_to_set (omap Files.i_crate_name results) in
  Files.DocObject
    [("tier", Files.VStr tier);
     ("timestamp", Files.VStr now);
     ("git_commit", Files.VStr commit);
     ("total_benchmarks", Files.VInt (Z.of_nat (length results)));
     ("crates_processed", Files.VInt (Z.of_nat (size crates)));
     ("results", Files.VItems results)].

End Files_read.

End Parser.

(** ===================================================================== *)
(** * scripts/generate_comprehensive_report.py *)

Module Report.

(** [sub in s] on two strings. *)
Fixpoint contains (sub s : string) : bool :=
  String.prefix sub s ||
  match s with
  | EmptyString => false
  | String _ s' => contains sub s'
  end.

(** [any(x in crate_name for x in names)] *)
Definition any_in (names : list string) (crate_name : string) : bool :=
  existsb (fun x => contains x crate_name) names.

(** The tier whose list [analyze_results] appends a result of the crate
    to, if any. *)
Definition tier_of (crate_name : string) : option string :=
  if any_in ["model"; "derive"; "macro"] crate_name then Some "foundation"
  else if any_in ["transform"; "expression"; "template"] crate_name
  then Some "core-logic"
  else if any_in ["state"; "engine"; "file"; "search"; "persistence"] crate_name
  then Some "service"
  else if any_in ["core"; "collaboration"] crate_name then Some "integration"
  else None.

(** A dictionary of lists in insertion order. *)
Definition groups : Type := list (string * list Simple.entry).

(** [if k not in groups: groups[k] = []] followed by [groups[k].append(r)] *)
Fixpoint group_append (k : string) (r : Simple.entry) (g : groups) : groups :=
  match g with
  | [] => [(k, [r])]
  | (k', rs) :: rest =>
    if String.eqb k k' then (k', (rs ++ [r])%list) :: rest
    else (k', rs) :: group_append k r rest
  end.

(** [groups[k].append(r)] for a key that is present. *)
Definition tier_append (k : string) (r : Simple.entry) (g : groups) : groups :=
  map (fun kv => if String.eqb k (fst kv) then (fst kv, (snd kv ++ [r])%list) else kv) g.

Definition empty_tier_groups : groups :=
  [("foundation", []); ("core-logic", []); ("service", []); ("integration", [])].

(** One round of the loop of [analyze_results]. *)
Definition analyze_step (acc : groups * groups) (r : Simple.entry) : groups * groups :=
  (group_append (Simple.crate_name r) r (fst acc),
   match tier_of (Simple.crate_name r) with
   | Some tier => tier_append tier r (snd acc)
   | None => snd acc
   end).

(** [sorted(data)] on integers. *)
Fixpoint insert_sorted (x : Z) (l : list Z) : list Z :=
  match l with
  | [] => [x]
  | y :: l' => if (x <=? y)%Z then x :: y :: l' else y :: insert_sorted x l'
  end.

Definition sorted (l : list Z) : list Z := fold_right insert_sorted [] l.

(** [statistics.mean] of a non-empty list of integers: the exact
    quotient when it is an integer, else the quotient as a float, which
    raises when it is too large. *)
Definition mean (l : list Z) : result Q :=
  let total := Metrics.sumZ l in
  let n := Metrics.len l in
  if (total mod n =? 0)%Z then Ok (inject_Z (total / n)) else truediv total n.

(** [statistics.median] of a non-empty list of integers: the middle of
    the sorted data, or the true quotient by 2 of the sum of the two
    middle ones. *)
Definition median (l : list Z) : result Q :=
  let data := sorted l in
  let n := length l in
  if Nat.odd n then Ok (inject_Z (nth (n / 2) data 0%Z))
  else truediv (nth (n / 2 - 1) data 0 + nth (n / 2) data 0)%Z 2.

Record analysis : Type := mkAnalysis {
  total_benchmarks : nat;
  total_crates : nat;
  total_tiers : nat;
  avg_duration_ns : Q;
  median_duration_ns : Q;
  min_duration_ns : Z;
  max_duration_ns : Z;
  crate_groups : groups;
  tier_groups : groups
}.

(** The two dictionaries that the loop of [analyze_results] builds. *)
Definition grouping (results : list Simple.entry) : groups * groups :=
  fold_left analyze_step results ([], empty_tier_groups).

(** [analyze_results]; the empty dictionary is [None]. *)
Definition analyze_results (results : list Simple.entry) : result (option analysis) :=
  match results with
  | [] => Ok None
  | _ :: _ =>
    let acc := grouping results in
    let durations := map Simple.duration_ns results in
    avg <- mean durations ;;;
    med <- median durations ;;;
    Ok (Some {| total_benchmarks := length results;
                total_crates := length (fst acc);
                total_tiers :=
                  length (List.filter (fun kv => negb (Nat.eqb (length (snd kv)) 0))
                                      (snd acc));
                avg_duration_ns := avg;
                median_duration_ns := med;
                min_duration_ns := Metrics.np_min durations;
                max_duration_ns := Metrics.np_max durations;
                crate_groups := fst acc;
                tier_groups := snd acc |})
  end.

(** The results of one crate, and of one tier, in input order. *)
Definition of_crate (crate : string) (results : list Simple.entry) : list Simple.entry :=
  List.filter (fun r => String.eqb (Simple.crate_name r) crate) results.

Definition of_tier (tier : string) (results : list Simple.entry) : list Simple.entry :=
  List.filter (fun r => bool_decide (tier_of (Simple.crate_name r) = Some tier)) results.

(** [groups.get(k)] *)
Fixpoint group (k : string) (g : groups) : option (list Simple.entry) :=
  match g with
  | [] => None
  | (k', rs) :: rest => if String.eqb k k' then Some rs else group k rest
  end.

(** Number of results over all the lists of a dictionary. *)
Definition grouped (g : groups) : nat :=
  fold_right (fun kv n => (length (snd kv) + n)%nat) 0%nat g.

End Report.

(** ===================================================================== *)
(** * Command lines *)

Module MetricsCli.

(** Outcome of loading a results file. *)
Inductive loaded (A : Type) : Type :=
| Loaded (a : A)
| KeyError (key : string).

Arguments Loaded {A} a.
Arguments KeyError {A} key.

(** The [BenchmarkResult(...)] call of [load_benchmark_results] on one
    item: [item[key]] raises on an absent key, [item.get] does not. *)
Definition result_of_item (it : Files.item) : loaded Metrics.BenchmarkResult :=
  match Files.i_crate_name it with
  | None => KeyError "crate_name"
  | Some crate_name =>
    match Files.i_benchmark_name it with
    | None => KeyError "benchmark_name"
    | Some benchmark_name =>
      match Files.i_duration_ns it with
      | None => KeyError "duration_ns"
      | Some duration_ns =>
        match Files.i_timestamp it with
        | None => KeyError "timestamp"
        | Some timestamp =>
          Loaded (Metrics.mkBenchmarkResult crate_name benchmark_name duration_ns
                    (default 0 (Files.i_memory_usage_bytes it))
                    (default 0%Q (Files.i_cpu_utilization_percent it))
                    timestamp (Files.i_git_commit it) (Files.i_metadata it))
        end
      end
    end
  end.

Fixpoint load_items (items : list Files.item) : loaded (list Metrics.BenchmarkResult) :=
  match items with
  | [] => Loaded []
  | it :: rest =>
    match result_of_item it with
    | KeyError k => KeyError k
    | Loaded r =>
      match load_items rest with
      | KeyError k => KeyError k
      | Loaded rs => Loaded (r :: rs)
      end
    end
  end.

(** [load_benchmark_results] *)
Definition load_benchmark_results (data : Files.document)
  : loaded (list Metrics.BenchmarkResult) :=
  match data with
  | Files.DocList items => load_items items
  | Files.DocObject _ => Loaded []
  end.

(** [main] with the command [import]: the store afterwards and the
    number of results that the command reports, or the exception of
    [insert_results]. *)
Definition main_import (d : Metrics.database) (data : Files.document)
  : loaded (result (Metrics.database * nat)) :=
  match load_benchmark_results data with
  | KeyError k => KeyError k
  | Loaded results =>
    Loaded (d' <- Metrics.insert_results d results ;;; Ok (d', length results))
  end.

(** The item has the four keys that [load_benchmark_results] subscripts. *)
Definition complete (it : Files.item) : bool :=
  match Files.i_crate_name it, Files.i_benchmark_name it,
        Files.i_duration_ns it, Files.i_timestamp it with
  | Some _, Some _, Some _, Some _ => true
  | _, _, _, _ => false
  end.

(** The result carries the values of the item, with the defaults of
    [item.get] for the optional keys. *)
Definition carries (it : Files.item) (r : Metrics.BenchmarkResult) : Prop :=
  Files.i_crate_name it = Some (Metrics.crate_name r) /\
  Files.i_benchmark_name it = Some (Metrics.benchmark_name r) /\
  Files.i_duration_ns it = Some (Metrics.duration_ns r) /\
  Files.i_timestamp it = Some (Metrics.timestamp r) /\
  Metrics.memory_usage_bytes r = default 0 (Files.i_memory_usage_bytes it) /\
  Metrics.cpu_utilization_percent r = default 0%Q (Files.i_cpu_utilization_percent it) /\
  Metrics.git_commit r = Files.i_git_commit it /\
  Metrics.metadata r = Files.i_metadata it.

End MetricsCli.

Module SimpleCli.

(** [load_results] *)
Definition load_results (data : Files.document) : Files.value :=
  match data with
  | Files.DocList items => Files.VItems items
  | Files.DocObject fields =>
    match Files.lookup "results" fields with
    | Some v => v
    | None => Files.VItems []
    end
  end.

(** How [main] ends: it returns, it calls [exit], or an exception
    escapes it. *)
Inductive ending : Type :=
| Returned
| Exited (code : Z)
| Raised (e : exn).

(** The exit status of the process: 0 after a return, the argument of
    [exit], 1 after an uncaught exception. *)
Definition exit_status (e : ending) : Z :=
  match e with
  | Returned => 0
  | Exited code => code
  | Raised _ => 1
  end.

(** [sorted(crate_groups.keys())] *)
Fixpoint insert_name (k : string) (l : list string) : list string :=
  match l with
  | [] => [k]
  | y :: l' => if String.leb k y then k :: y :: l' else y :: insert_name k l'
  end.

Definition sorted_names (l : list string) : list string := fold_right insert_name [] l.

(** The first exception of a list of outcomes. *)
Fixpoint first_error (l : list (option exn)) : option exn :=
  match l with
  | [] => None
  | Some e :: _ => Some e
  | None :: rest => first_error rest
  end.

(** The exception, if any, of [format_ns(ns)] in
    [format_duration_change]: only the branch of the seconds divides a
    number that can be too large for a float. *)
Definition format_ns_error (ns : Z) : option exn :=
  if (1000000000 <=? ns)%Z then
    match truediv ns 1000000000 with
    | Raise e => Some e
    | Ok _ => None
    end
  else None.

Definition format_duration_change_error (baseline_ns current_ns : Z) : option exn :=
  match format_ns_error baseline_ns with
  | Some e => Some e
  | None => format_ns_error current_ns
  end.

(** The exception, if any, of [generate_regression_report]: the alerts
    are formatted by severity, in the order of the list within a
    severity. *)
Definition generate_regression_report_error (alerts : list Simple.RegressionAlert)
  : option exn :=
  first_error
    (flat_map
       (fun s =>
          map (fun a => format_duration_change_error (Simple.baseline_duration_ns a)
                          (Simple.current_duration_ns a))
              (List.filter
                 (fun a => String.eqb (severity_str (Simple.severity_of a)) (severity_str s))
                 alerts))
       [CRITICAL; HIGH; MEDIUM; LOW]).

(** The exception, if any, of computing and formatting the mean of the
    durations of one crate: [statistics.mean] gives an integer when the
    quotient is exact and a float otherwise; an integer mean is divided
    in the branch of the seconds and converted to a float by the format
    [.0f] in the last branch. *)
Definition mean_line_error (durations : list Z) : option exn :=
  let total := Metrics.sumZ durations in
  let n := Metrics.len durations in
  if (total mod n =? 0)%Z then
    let avg_duration := (total / n)%Z in
    if (1000000000 <=? avg_duration)%Z then format_ns_error avg_duration
    else if (1000 <=? avg_duration)%Z then None
    else match fl (inject_Z avg_duration) with
         | Fin _ => None
         | _ => Some OverflowError
         end
  else match truediv total n with
       | Raise e => Some e
       | Ok _ => None
       end.

(** The branch of [main] without [--baseline]: the results are grouped
    by crate and the mean of each group is printed, in the order of the
    crate names. *)
Definition crate_groups (results : list Simple.entry) : Report.groups :=
  fold_left (fun g r => Report.group_append (Simple.crate_name r) r g) results [].

Fixpoint print_means (g : Report.groups) (names : list string) : ending :=
  match names with
  | [] => Returned
  | name :: rest =>
    match mean_line_error (map Simple.duration_ns (default [] (Report.group name g))) with
    | Some e => Raised e
    | None => print_means g rest
    end
  end.

(** [main] after the two files are loaded, for an output that can be
    written: [baseline_results] is [None] without the option
    [--baseline], [json] is the flag [--json]. *)
Definition main (threshold : Q) (json : bool) (current_results : list Simple.entry)
  (baseline_results : option (list Simple.entry)) : ending :=
  match current_results with
  | [] => Returned
  | _ :: _ =>
    match baseline_results with
    | None =>
      let g := crate_groups current_results in
      print_means g (sorted_names (map fst g))
    | Some [] => Returned
    | Some (b :: bs) =>
      match Simple.detect_regressions threshold current_results (b :: bs) with
      | Raise e => Raised e
      | Ok alerts =>
        match (if json then None else generate_regression_report_error alerts) with
        | Some e => Raised e
        | None =>
          match alerts with
          | [] => Exited 0
          | _ :: _ => Exited 1
          end
        end
      end
    end
  end.

End SimpleCli.

(** ===================================================================== *)
(** * Properties *)

(** ** Comparisons *)

Lemma Qgtb_lt x y : Qgtb x y = true <-> (y < x)%Q.
Proof.
  unfold Qgtb. rewrite negb_true_iff, <- not_true_iff_false, Qle_bool_iff.
  split; [apply Qnot_le_lt | apply Qlt_not_le].
Qed.

Lemma Qgtb_le x y : Qgtb x y = false <-> (x <= y)%Q.
Proof.
  unfold Qgtb. rewrite negb_false_iff. apply Qle_bool_iff.
Qed.

Lemma Qgeb_le x y : Qgeb x y = true <-> (y <= x)%Q.
Proof. apply Qle_bool_iff. Qed.

Lemma Qgeb_lt x y : Qgeb x y = false <-> (x < y)%Q.
Proof.
  unfold Qgeb. rewrite <- not_true_iff_false, Qle_bool_iff.
  split; [apply Qnot_le_lt | apply Qlt_not_le].
Qed.

Lemma Qle_bool_false x y : Qle_bool x y = false <-> (y < x)%Q.
Proof.
  rewrite <- not_true_iff_false, Qle_bool_iff.
  split; [apply Qnot_le_lt | apply Qlt_not_le].
Qed.

(** ** Rounding *)

Lemma round_half_even_le n D M :
  0 < D -> n <= M * D -> round_half_even n D <= M.
Proof.
  intros HD Hn. unfold round_half_even.
  pose proof (Z.div_mod n D ltac:(lia)) as E.
  pose proof (Z.mod_pos_bound n D HD) as [R0 R1].
  assert (Hq : n / D <= M) by (apply Z.div_le_upper_bound; lia).
  destruct (Z.compare_spec (2 * (n mod D)) D) as [C|C|C].
  - destruct (Z.even (n / D)); [exact Hq | nia].
  - exact Hq.
  - nia.
Qed.

Lemma round_half_even_ge n D M :
  0 < D -> M * D <= n -> M <= round_half_even n D.
Proof.
  intros HD Hn. unfold round_half_even.
  assert (Hq : M <= n / D) by (apply Z.div_le_lower_bound; lia).
  destruct (2 * (n mod D) ?= D)%Z; [destruct (Z.even (n / D))| |]; lia.
Qed.

Lemma round_half_even_mono n1 n2 D :
  0 < D -> n1 <= n2 -> round_half_even n1 D <= round_half_even n2 D.
Proof.
  intros HD Hn.
  pose proof (Z.div_le_mono n1 n2 D HD Hn) as Hq.
  destruct (Z.eq_dec (n1 / D) (n2 / D)) as [Eq|Ne].
  - unfold round_half_even. rewrite <- Eq.
    pose proof (Z.div_mod n1 D ltac:(lia)) as E1.
    pose proof (Z.div_mod n2 D ltac:(lia)) as E2.
    rewrite <- Eq in E2.
    assert (Hr : n1 mod D <= n2 mod D) by lia.
    destruct (Z.compare_spec (2 * (n1 mod D)) D) as [C1|C1|C1];
      destruct (Z.compare_spec (2 * (n2 mod D)) D) as [C2|C2|C2];
      destruct (Z.even (n1 / D)); lia.
  - apply Z.le_trans with (n1 / D + 1).
    + unfold round_half_even.
      destruct (2 * (n1 mod D) ?= D)%Z; [destruct (Z.even (n1 / D))| |]; lia.
    + apply Z.le_trans with (n2 / D); [lia|].
      apply round_half_even_ge; [exact HD|].
      rewrite Z.mul_comm. apply Z.mul_div_le. exact HD.
Qed.

Lemma floor_log2_le n d b :
  0 < n -> 0 < d -> 0 <= b -> n <= 2 ^ b * d -> floor_log2 n d <= b.
Proof.
  intros Hn Hd Hb Hle.
  assert (Z.log2 n - Z.log2 d <= b).
  { pose proof (Z.log2_le_mono n (d * 2 ^ b) ltac:(lia)) as H.
    rewrite Z.log2_mul_pow2 in H by lia. lia. }
  unfold floor_log2. cbv zeta.
  destruct (if (0 <=? Z.log2 n - Z.log2 d)%Z then _ else _); lia.
Qed.

Lemma round64_pos_nonneg n d : 0 < n -> 0 < d -> (0 <= round64_pos n d)%Q.
Proof.
  intros Hn Hd. unfold round64_pos. cbv zeta.
  destruct (Z.leb_spec 0 (Z.max (floor_log2 n d - 52) (-1074))) as [Hk|Hk].
  - change 0%Q with (inject_Z 0). rewrite <- Zle_Qle.
    apply Z.mul_nonneg_nonneg; [|apply Z.pow_nonneg; lia].
    apply round_half_even_ge; [|lia].
    apply Z.mul_pos_pos; [lia | apply Z.pow_pos_nonneg; lia].
  - rewrite Qred_correct. unfold Qle. simpl. rewrite Z.mul_1_r.
    apply round_half_even_ge; [lia|].
    assert (0 < 2 ^ (- Z.max (floor_log2 n d - 52) (-1074)))
      by (apply Z.pow_pos_nonneg; lia).
    nia.
Qed.

Lemma round64_pos_le n d b :
  0 < n -> 0 < d -> 0 <= b -> n <= 2 ^ b * d ->
  (round64_pos n d <= inject_Z (2 ^ b))%Q.
Proof.
  intros Hn Hd Hb Hle. unfold round64_pos. cbv zeta.
  pose proof (floor_log2_le n d b Hn Hd Hb Hle) as He.
  set (k := Z.max (floor_log2 n d - 52) (-1074)) in *.
  assert (Hkb : k <= b) by (unfold k; lia).
  destruct (Z.leb_spec 0 k) as [Hk|Hk].
  - rewrite <- Zle_Qle.
    assert (H2k : 0 < 2 ^ k) by (apply Z.pow_pos_nonneg; lia).
    assert (Hm : round_half_even n (d * 2 ^ k) <= 2 ^ (b - k)).
    { apply round_half_even_le; [nia|].
      replace (2 ^ (b - k) * (d * 2 ^ k)) with (2 ^ (b - k) * 2 ^ k * d) by ring.
      rewrite <- Z.pow_add_r by lia. replace (b - k + k) with b by ring. exact Hle. }
    replace (2 ^ b) with (2 ^ (b - k) * 2 ^ k)
      by (rewrite <- Z.pow_add_r by lia; f_equal; ring).
    apply Z.mul_le_mono_nonneg_r; [lia | exact Hm].
  - rewrite Qred_correct. unfold Qle. simpl.
    assert (H2k : 0 < 2 ^ (- k)) by (apply Z.pow_pos_nonneg; lia).
    rewrite Z.mul_1_r, Z2Pos.id by exact H2k.
    rewrite <- Z.pow_add_r by lia.
    apply round_half_even_le; [exact Hd|].
    rewrite Z.pow_add_r by lia. nia.
Qed.

Lemma fl_finite q b :
  0 <= b < 1024 ->
  Z.abs (Qnum q) <= 2 ^ b * Zpos (Qden q) ->
  fl q = Fin (round64 q).
Proof.
  intros Hb Hq.
  assert (Hpow : (inject_Z (2 ^ b) < inject_Z (2 ^ 1024))%Q).
  { rewrite <- Zlt_Qlt. apply Z.pow_lt_mono_r; lia. }
  assert (Hbound : (- inject_Z (2 ^ 1024) < round64 q
                    /\ round64 q < inject_Z (2 ^ 1024))%Q).
  { unfold round64. destruct (Qnum q) as [|n|n] eqn:En.
    - split; reflexivity.
    - pose proof (round64_pos_nonneg (Zpos n) (Zpos (Qden q)) ltac:(lia) ltac:(lia)).
      pose proof (round64_pos_le (Zpos n) (Zpos (Qden q)) b
                    ltac:(lia) ltac:(lia) ltac:(lia) ltac:(lia)).
      assert (0 < inject_Z (2 ^ 1024))%Q by reflexivity.
      split; lra.
    - pose proof (round64_pos_nonneg (Zpos n) (Zpos (Qden q)) ltac:(lia) ltac:(lia)).
      pose proof (round64_pos_le (Zpos n) (Zpos (Qden q)) b
                    ltac:(lia) ltac:(lia) ltac:(lia) ltac:(lia)).
      assert (0 < inject_Z (2 ^ 1024))%Q by reflexivity.
      split; lra. }
  destruct Hbound as [H1 H2]. unfold fl. cbv zeta.
  replace (Qle_bool (inject_Z (2 ^ 1024)) (round64 q)) with false
    by (symmetry; apply Qle_bool_false; exact H2).
  replace (Qle_bool (round64 q) (inject_Z (- 2 ^ 1024))) with false; [reflexivity|].
  symmetry. apply Qle_bool_false.
  rewrite inject_Z_opp. exact H1.
Qed.

(** ** True division *)

Lemma truediv_zero a : truediv a 0 = Raise ZeroDivisionError.
Proof. reflexivity. Qed.

Lemma truediv_ok a b q :
  truediv a b = Ok q -> b <> 0 /\ q = round64 (inject_Z a / inject_Z b).
Proof.
  unfold truediv, fl. cbv zeta. destruct (Z.eqb_spec b 0); [discriminate|].
  destruct (Qle_bool _ _); [discriminate|].
  destruct (Qle_bool _ _); [discriminate|].
  intros [= <-]. auto.
Qed.

Lemma truediv_raise a b e :
  truediv a b = Raise e ->
  (b = 0 /\ e = ZeroDivisionError) \/ (b <> 0 /\ e = OverflowError).
Proof.
  unfold truediv. destruct (Z.eqb_spec b 0); [intros [= <-]; auto|].
  destruct (fl _); [discriminate | | |]; intros [= <-]; auto.
Qed.

Lemma Qdiv_num_den a b :
  b <> 0 ->
  Z.abs (Qnum (inject_Z a / inject_Z b)) = Z.abs a /\
  Zpos (Qden (inject_Z a / inject_Z b)) = Z.abs b.
Proof.
  intros Hb. destruct b as [|p|p]; [congruence| |]; simpl; split; lia.
Qed.

Lemma truediv_fits a b :
  b <> 0 -> Z.abs a <= 2 ^ 1000 ->
  truediv a b = Ok (round64 (inject_Z a / inject_Z b)).
Proof.
  intros Hb Ha. unfold truediv. destruct (Z.eqb_spec b 0); [contradiction|].
  rewrite (fl_finite _ 1000); [reflexivity | lia |].
  destruct (Qdiv_num_den a b Hb) as [-> ->].
  assert (0 < 2 ^ 1000) by (apply Z.pow_pos_nonneg; lia). nia.
Qed.

Lemma in_int64_bounds z : in_int64 z = true <-> - 2 ^ 63 <= z < 2 ^ 63.
Proof.
  unfold in_int64. rewrite andb_true_iff, Z.leb_le, Z.ltb_lt. tauto.
Qed.

Lemma truediv_int64 a b :
  in_int64 a = true -> in_int64 b = true -> b <> 0 ->
  truediv (a - b) b = Ok (round64 (inject_Z (a - b) / inject_Z b)).
Proof.
  intros Ha Hb Hnz. apply in_int64_bounds in Ha, Hb.
  apply truediv_fits; [exact Hnz|].
  assert (2 ^ 63 * 2 ^ 937 = 2 ^ 1000) by (rewrite <- Z.pow_add_r by lia; reflexivity).
  assert (0 < 2 ^ 63) by (apply Z.pow_pos_nonneg; lia).
  assert (2 <= 2 ^ 937) by (change 2 with (2 ^ 1) at 1; apply Z.pow_le_mono_r; lia).
  nia.
Qed.

Lemma percent_change_truediv current baseline q :
  truediv (current - baseline) baseline = Ok q ->
  fmul (Fin q) 100 = percent_change current baseline.
Proof.
  intros H. apply truediv_ok in H as [_ ->]. reflexivity.
Qed.

(** ** Conversion of integers to binary64 *)

Lemma round53_bounds a :
  2 ^ 53 <= a ->
  2 ^ Z.log2 a <= round53 a <= 2 ^ (Z.log2 a + 1).
Proof.
  intros Ha. unfold round53.
  assert (H53 : 0 < 2 ^ 53) by (apply Z.pow_pos_nonneg; lia).
  destruct (Z.ltb_spec a (2 ^ 53)); [lia|]. cbv zeta.
  destruct (Z.log2_spec a ltac:(lia)) as [L1 L2].
  assert (He : 53 <= Z.log2 a) by (apply Z.log2_le_pow2; lia).
  set (k := Z.log2 a - 52).
  assert (H2k : 0 < 2 ^ k) by (apply Z.pow_pos_nonneg; lia).
  assert (E1 : 2 ^ Z.log2 a = 2 ^ 52 * 2 ^ k)
    by (rewrite <- Z.pow_add_r by lia; f_equal; lia).
  assert (E2 : 2 ^ (Z.log2 a + 1) = 2 ^ 53 * 2 ^ k)
    by (rewrite <- Z.pow_add_r by lia; f_equal; lia).
  split.
  - rewrite E1. apply Z.mul_le_mono_nonneg_r; [lia|].
    apply round_half_even_ge; lia.
  - rewrite E2. apply Z.mul_le_mono_nonneg_r; [lia|].
    apply round_half_even_le; [lia|]. rewrite <- E2.
    replace (Z.log2 a + 1) with (Z.succ (Z.log2 a)) by lia. lia.
Qed.

Lemma round53_mono a b : 0 <= a -> a <= b -> round53 a <= round53 b.
Proof.
  intros Ha Hab.
  assert (H53 : 0 < 2 ^ 53) by (apply Z.pow_pos_nonneg; lia).
  destruct (Z.lt_ge_cases a (2 ^ 53)) as [A|A];
    destruct (Z.lt_ge_cases b (2 ^ 53)) as [B|B]; try lia.
  - unfold round53. destruct (Z.ltb_spec a (2 ^ 53)), (Z.ltb_spec b (2 ^ 53)); lia.
  - pose proof (round53_bounds b B) as [L _].
    assert (2 ^ 53 <= 2 ^ Z.log2 b)
      by (apply Z.pow_le_mono_r; [lia | apply Z.log2_le_pow2; lia]).
    unfold round53 at 1. destruct (Z.ltb_spec a (2 ^ 53)); lia.
  - pose proof (Z.log2_le_mono a b Hab) as Hl.
    destruct (Z.eq_dec (Z.log2 a) (Z.log2 b)) as [E|N].
    + unfold round53. destruct (Z.ltb_spec a (2 ^ 53)), (Z.ltb_spec b (2 ^ 53)); try lia.
      cbv zeta. rewrite E.
      assert (53 <= Z.log2 b) by (apply Z.log2_le_pow2; lia).
      apply Z.mul_le_mono_nonneg_r; [apply Z.pow_nonneg; lia|].
      apply round_half_even_mono; [apply Z.pow_pos_nonneg; lia | exact Hab].
    + pose proof (round53_bounds a A) as [_ U].
      pose proof (round53_bounds b B) as [L _].
      assert (2 ^ (Z.log2 a + 1) <= 2 ^ Z.log2 b)
        by (apply Z.pow_le_mono_r; lia).
      lia.
Qed.

Lemma round53_nonneg a : 0 <= a -> 0 <= round53 a.
Proof.
  intros Ha. apply Z.le_trans with (round53 0); [reflexivity|].
  apply round53_mono; lia.
Qed.

Lemma to_float64_mono a b : a <= b -> to_float64 a <= to_float64 b.
Proof.
  intros Hab. unfold to_float64.
  destruct (Z.lt_trichotomy a 0) as [A|[->|A]];
    destruct (Z.lt_trichotomy b 0) as [B|[->|B]]; try lia.
  - rewrite !Z.sgn_neg by lia.
    pose proof (round53_mono (Z.abs b) (Z.abs a) ltac:(lia) ltac:(lia)). lia.
  - rewrite Z.sgn_neg by lia. simpl.
    pose proof (round53_nonneg (Z.abs a) ltac:(lia)). lia.
  - rewrite Z.sgn_neg, Z.sgn_pos by lia.
    pose proof (round53_nonneg (Z.abs a) ltac:(lia)).
    pose proof (round53_nonneg (Z.abs b) ltac:(lia)). lia.
  - simpl. rewrite Z.sgn_pos by lia.
    pose proof (round53_nonneg (Z.abs b) ltac:(lia)). lia.
  - rewrite !Z.sgn_pos by lia.
    pose proof (round53_mono (Z.abs a) (Z.abs b) ltac:(lia) ltac:(lia)). lia.
Qed.

Lemma to_float64_exact z : Z.abs z <= 2 ^ 53 -> to_float64 z = z.
Proof.
  intros Hz. unfold to_float64.
  assert (E : round53 (Z.abs z) = Z.abs z).
  { unfold round53. destruct (Z.ltb_spec (Z.abs z) (2 ^ 53)) as [H|H]; [reflexivity|].
    replace (Z.abs z) with (2 ^ 53) by lia. vm_compute. reflexivity. }
  rewrite E, Z.mul_comm. apply Z.abs_sgn.
Qed.


(** ** One round of the detection loops *)

Lemma metrics_loop_step th r rest alerts d :
  Metrics.detect_loop th (r :: rest) alerts d =
  match Detection.metrics_error th d r with
  | Some e => (d, Raise e)
  | None =>
    match Detection.metrics_alert_of th d r with
    | Some a => Metrics.detect_loop th rest (alerts ++ [a]) (Metrics.append_alert d a)
    | None => Metrics.detect_loop th rest alerts d
    end
  end.
Proof.
  cbn [Metrics.detect_loop]. unfold Detection.metrics_error, Detection.metrics_alert_of,
    Detection.division_error.
  destruct (Metrics.get_baseline d (Metrics.crate_name r) (Metrics.benchmark_name r))
    as [[bd bc]|]; [|reflexivity].
  destruct (truediv (Metrics.duration_ns r - bd) bd) as [q|e] eqn:T; [|reflexivity].
  rewrite (percent_change_truediv _ _ _ T).
  destruct (fgtb (percent_change (Metrics.duration_ns r) bd) th); [|reflexivity].
  unfold Metrics._save_alert. cbn [Metrics.alert_current_duration_ns
    Metrics.alert_baseline_duration_ns andb negb].
  destruct (in_int64 (Metrics.duration_ns r) && in_int64 bd); reflexivity.
Qed.

Lemma simple_loop_step th lookup c rest alerts :
  Simple.detect_loop th lookup (c :: rest) alerts =
  match Detection.simple_error lookup c with
  | Some e => Raise e
  | None =>
    match Detection.simple_alert_of th lookup c with
    | Some a => Simple.detect_loop th lookup rest (alerts ++ [a])
    | None => Simple.detect_loop th lookup rest alerts
    end
  end.
Proof.
  cbn [Simple.detect_loop]. unfold Detection.simple_error, Detection.simple_alert_of,
    Detection.division_error.
  destruct (lookup !! Simple.key c) as [bd|]; [|reflexivity].
  destruct (truediv (Simple.duration_ns c - bd) bd) as [q|e] eqn:T; [|reflexivity].
  cbn [bind]. rewrite (percent_change_truediv _ _ _ T).
  destruct (fgtb (percent_change (Simple.duration_ns c) bd) th); reflexivity.
Qed.

Lemma save_all_baselines d alerts :
  Metrics.performance_baselines (Detection.save_all d alerts)
  = Metrics.performance_baselines d.
Proof.
  unfold Detection.save_all. revert d.
  induction alerts as [|a l IH]; intros d; simpl; [reflexivity|].
  rewrite IH. reflexivity.
Qed.

Lemma save_all_app d l1 l2 :
  Detection.save_all d (l1 ++ l2) = Detection.save_all (Detection.save_all d l1) l2.
Proof. unfold Detection.save_all. apply fold_left_app. Qed.

(** The loop on records none of which raises. *)
Lemma metrics_loop_ok th results :
  forall alerts d,
    (forall r, In r results -> Detection.metrics_error th d r = None) ->
    Metrics.detect_loop th results alerts d
    = (Detection.save_all d (omap (Detection.metrics_alert_of th d) results),
       Ok (alerts ++ omap (Detection.metrics_alert_of th d) results)%list).
Proof.
  induction results as [|r rest IH]; intros alerts d Hok.
  - simpl. rewrite app_nil_r. reflexivity.
  - rewrite metrics_loop_step, (Hok r (or_introl eq_refl)). simpl omap.
    destruct (Detection.metrics_alert_of th d r) as [a|].
    + rewrite IH.
      * change (Detection.metrics_alert_of th (Metrics.append_alert d a))
          with (Detection.metrics_alert_of th d).
        rewrite <- app_assoc. reflexivity.
      * intros r' Hin. apply (Hok r' (or_intror Hin)).
    + apply IH. intros r' Hin. apply (Hok r' (or_intror Hin)).
Qed.

(** The loop up to the first record that raises. *)
Lemma metrics_loop_raise th rs1 r rs2 e :
  forall alerts d,
    (forall r', In r' rs1 -> Detection.metrics_error th d r' = None) ->
    Detection.metrics_error th d r = Some e ->
    Metrics.detect_loop th (rs1 ++ r :: rs2) alerts d
    = (Detection.save_all d (omap (Detection.metrics_alert_of th d) rs1), Raise e).
Proof.
  induction rs1 as [|r0 rs1 IH]; intros alerts d Hok He.
  - simpl app. rewrite metrics_loop_step, He. reflexivity.
  - simpl app. rewrite metrics_loop_step, (Hok r0 (or_introl eq_refl)). simpl omap.
    destruct (Detection.metrics_alert_of th d r0) as [a|].
    + rewrite IH.
      * reflexivity.
      * intros r' Hin. apply (Hok r' (or_intror Hin)).
      * exact He.
    + apply IH; [|exact He]. intros r' Hin. apply (Hok r' (or_intror Hin)).
Qed.

Lemma simple_loop_ok th lookup current :
  forall alerts,
    (forall c, In c current -> Detection.simple_error lookup c = None) ->
    Simple.detect_loop th lookup current alerts
    = Ok (alerts ++ omap (Detection.simple_alert_of th lookup) current)%list.
Proof.
  induction current as [|c rest IH]; intros alerts Hok.
  - simpl. rewrite app_nil_r. reflexivity.
  - rewrite simple_loop_step, (Hok c (or_introl eq_refl)). simpl omap.
    destruct (Detection.simple_alert_of th lookup c) as [a|].
    + rewrite IH by (intros c' Hin; apply (Hok c' (or_intror Hin))).
      rewrite <- app_assoc. reflexivity.
    + apply IH. intros c' Hin. apply (Hok c' (or_intror Hin)).
Qed.

Lemma simple_loop_raise th lookup c1 c c2 e :
  forall alerts,
    (forall c', In c' c1 -> Detection.simple_error lookup c' = None) ->
    Detection.simple_error lookup c = Some e ->
    Simple.detect_loop th lookup (c1 ++ c :: c2) alerts = Raise e.
Proof.
  induction c1 as [|c0 c1 IH]; intros alerts Hok He.
  - simpl app. rewrite simple_loop_step, He. reflexivity.
  - simpl app. rewrite simple_loop_step, (Hok c0 (or_introl eq_refl)).
    destruct (Detection.simple_alert_of th lookup c0);
      apply IH; try exact He; intros c' Hin; apply (Hok c' (or_intror Hin)).
Qed.

(** The first element of a list on which a test gives an exception. *)
Lemma first_exception {A : Type} (f : A -> option exn) (l : list A) x :
  In x l -> f x <> None ->
  exists l1 y l2 e,
    l = (l1 ++ y :: l2)%list /\ (forall z, In z l1 -> f z = None) /\ f y = Some e.
Proof.
  induction l as [|a l IH]; intros Hin Hx; [inversion Hin|].
  destruct (f a) as [e|] eqn:Ea.
  - exists [], a, l, e. split; [reflexivity|]. split; [intros z []|exact Ea].
  - destruct Hin as [->|Hin]; [congruence|].
    destruct (IH Hin Hx) as (l1 & y & l2 & e & -> & Hl1 & Hy).
    exists (a :: l1), y, l2, e. split; [reflexivity|]. split; [|exact Hy].
    intros z [<-|Hz]; [exact Ea | apply Hl1, Hz].
Qed.

Lemma all_or_first_exception {A : Type} (f : A -> option exn) (l : list A) :
  (forall x, In x l -> f x = None) \/
  exists l1 y l2 e,
    l = (l1 ++ y :: l2)%list /\ (forall z, In z l1 -> f z = None) /\ f y = Some e.
Proof.
  induction l as [|a l IH].
  - left. intros x [].
  - destruct (f a) as [e|] eqn:Ea.
    + right. exists [], a, l, e. split; [reflexivity|]. split; [intros z []|exact Ea].
    + destruct IH as [Hall|(l1 & y & l2 & e & -> & Hl1 & Hy)].
      * left. intros x [<-|Hx]; [exact Ea | apply Hall, Hx].
      * right. exists (a :: l1), y, l2, e. split; [reflexivity|]. split; [|exact Hy].
        intros z [<-|Hz]; [exact Ea | apply Hl1, Hz].
Qed.

(** ** Division by a zero baseline *)

Lemma division_error_zero current : 
  Detection.division_error current 0 = Some ZeroDivisionError.
Proof. reflexivity. Qed.

Lemma division_error_cases current baseline e :
  Detection.division_error current baseline = Some e ->
  (baseline = 0 /\ e = ZeroDivisionError) \/ (baseline <> 0 /\ e = OverflowError).
Proof.
  unfold Detection.division_error.
  destruct (truediv (current - baseline) baseline) as [q|x] eqn:T; [discriminate|].
  intros [= <-]. apply (truediv_raise _ _ _ T).
Qed.

Lemma division_error_int64 current baseline :
  in_int64 current = true -> in_int64 baseline = true -> baseline <> 0 ->
  Detection.division_error current baseline = None.
Proof.
  intros Hc Hb Hnz. unfold Detection.division_error.
  rewrite truediv_int64 by assumption. reflexivity.
Qed.

Lemma get_baseline_stored d crate bench bd bc :
  Metrics.get_baseline d crate bench = Some (bd, bc) ->
  exists row, In row (Metrics.performance_baselines d) /\
    Metrics.b_crate_name row = crate /\ Metrics.b_benchmark_name row = bench /\
    Metrics.b_is_active row = true /\
    Metrics.b_baseline_duration_ns row = bd /\ Metrics.b_git_commit row = bc.
Proof.
  unfold Metrics.get_baseline.
  destruct (List.find _ _) as [b|] eqn:E; [|discriminate].
  intros [= <- <-]. apply List.find_some in E as [Hin Hact].
  unfold Metrics.is_active_for in Hact.
  apply andb_true_iff in Hact as [Hact ?].
  apply andb_true_iff in Hact as [?%bool_decide_eq_true ?%bool_decide_eq_true].
  exists b. auto 10.
Qed.

Lemma metrics_error_zero th d r c :
  Metrics.get_baseline d (Metrics.crate_name r) (Metrics.benchmark_name r)
  = Some (0, c) ->
  Detection.metrics_error th d r = Some ZeroDivisionError.
Proof. unfold Detection.metrics_error. intros ->. reflexivity. Qed.

Lemma metrics_error_cases th d r e :
  Detection.metrics_error th d r = Some e ->
  e = ZeroDivisionError \/ e = OverflowError.
Proof.
  unfold Detection.metrics_error.
  destruct (Metrics.get_baseline _ _ _) as [[bd bc]|]; [|discriminate].
  destruct (Detection.division_error (Metrics.duration_ns r) bd) as [x|] eqn:D.
  - intros [= <-]. apply division_error_cases in D. tauto.
  - destruct (_ && _); [|discriminate]. intros [= <-]. auto.
Qed.

Lemma metrics_error_in_range th d r e :
  Detection.stored_in_range d ->
  in_int64 (Metrics.duration_ns r) = true ->
  Detection.metrics_error th d r = Some e ->
  e = ZeroDivisionError /\
  exists c, Metrics.get_baseline d (Metrics.crate_name r) (Metrics.benchmark_name r)
            = Some (0, c).
Proof.
  intros Hd Hr. unfold Detection.metrics_error.
  destruct (Metrics.get_baseline _ _ _) as [[bd bc]|] eqn:B; [|discriminate].
  destruct (get_baseline_stored _ _ _ _ _ B) as (row & Hin & _ & _ & _ & Hbd & _).
  pose proof (Hd row Hin) as Hb. rewrite Hbd in Hb.
  destruct (Z.eq_dec bd 0) as [->|Hnz].
  - rewrite division_error_zero. intros [= <-]. eauto.
  - rewrite division_error_int64 by assumption.
    rewrite Hr, Hb. simpl. rewrite andb_false_r. discriminate.
Qed.

Lemma simple_error_zero lookup e :
  lookup !! Simple.key e = Some 0 ->
  Detection.simple_error lookup e = Some ZeroDivisionError.
Proof. unfold Detection.simple_error. intros ->. reflexivity. Qed.

Lemma simple_error_cases lookup c e :
  Detection.simple_error lookup c = Some e ->
  e = ZeroDivisionError \/ e = OverflowError.
Proof.
  unfold Detection.simple_error.
  destruct (lookup !! Simple.key c) as [bd|]; [|discriminate].
  intros D. apply division_error_cases in D. tauto.
Qed.

Lemma metrics_detect_raises th d results r c :
  In r results ->
  Metrics.get_baseline d (Metrics.crate_name r) (Metrics.benchmark_name r)
  = Some (0, c) ->
  exists rs1 r' rs2 e,
    results = (rs1 ++ r' :: rs2)%list /\
    (forall x, In x rs1 -> Detection.metrics_error th d x = None) /\
    Detection.metrics_error th d r' = Some e /\
    Metrics.detect_regressions th d results
    = (Detection.save_all d (omap (Detection.metrics_alert_of th d) rs1), Raise e).
Proof.
  intros Hin Hb.
  destruct (first_exception (Detection.metrics_error th d) results r Hin)
    as (rs1 & r' & rs2 & e & -> & Hok & He).
  { rewrite (metrics_error_zero th d r c Hb). discriminate. }
  exists rs1, r', rs2, e. repeat split; try assumption.
  apply metrics_loop_raise; assumption.
Qed.

Lemma simple_detect_raises th lookup current c :
  In c current ->
  lookup !! Simple.key c = Some 0 ->
  exists c1 c' c2 e,
    current = (c1 ++ c' :: c2)%list /\
    (forall x, In x c1 -> Detection.simple_error lookup x = None) /\
    Detection.simple_error lookup c' = Some e /\
    forall alerts, Simple.detect_loop th lookup current alerts = Raise e.
Proof.
  intros Hin Hb.
  destruct (first_exception (Detection.simple_error lookup) current c Hin)
    as (c1 & c' & c2 & e & -> & Hok & He).
  { rewrite (simple_error_zero lookup c Hb). discriminate. }
  exists c1, c', c2, e. repeat split; try assumption.
  intros alerts. apply simple_loop_raise; assumption.
Qed.


Lemma fold_lookup_last bl :
  forall (m : gmap string Z) k,
    fold_left (fun lookup result =>
                 <[Simple.key result := Simple.duration_ns result]> lookup) bl m !! k
    = match Simple.last_with_key k bl with
      | Some e => Some (Simple.duration_ns e)
      | None => m !! k
      end.
Proof.
  induction bl as [|e bl IH]; intros m k; simpl; [reflexivity|].
  rewrite IH. unfold Simple.last_with_key. simpl.
  destruct (bool_decide (Simple.key e = k)) eqn:E.
  - rewrite last_cons.
    destruct (last (List.filter _ bl)); [reflexivity|].
    apply bool_decide_eq_true in E. subst k. apply lookup_insert_eq.
  - destruct (last (List.filter _ bl)); [reflexivity|].
    apply bool_decide_eq_false in E. apply lookup_insert_ne, E.
Qed.

(** The dictionary holds, under each key, the duration of the last entry
    of the list with that key. *)
Lemma build_lookup_last bl k :
  Simple.build_lookup bl !! k = Simple.duration_ns <$> Simple.last_with_key k bl.
Proof.
  unfold Simple.build_lookup. rewrite fold_lookup_last.
  destruct (Simple.last_with_key k bl); reflexivity.
Qed.

Lemma last_with_key_In k bl b :
  Simple.last_with_key k bl = Some b -> In b bl /\ Simple.key b = k.
Proof.
  unfold Simple.last_with_key. intros L.
  assert (Hin : In b (List.filter (fun e => bool_decide (Simple.key e = k)) bl)).
  { apply last_Some in L as [l' ->]. apply in_or_app. right. left. reflexivity. }
  apply List.filter_In in Hin as [Hin E]. apply bool_decide_eq_true in E. auto.
Qed.

Lemma build_lookup_In bl k bd :
  Simple.build_lookup bl !! k = Some bd ->
  exists b, In b bl /\ Simple.key b = k /\ Simple.duration_ns b = bd.
Proof.
  rewrite build_lookup_last.
  destruct (Simple.last_with_key k bl) as [b|] eqn:L; [|discriminate].
  intros [= <-]. apply last_with_key_In in L as [Hin Hk]. eauto.
Qed.

Lemma simple_error_in_range bl c e :
  Detection.entries_in_range bl ->
  in_int64 (Simple.duration_ns c) = true ->
  Detection.simple_error (Simple.build_lookup bl) c = Some e ->
  e = ZeroDivisionError /\ Simple.build_lookup bl !! Simple.key c = Some 0.
Proof.
  intros Hbl Hc. unfold Detection.simple_error.
  destruct (Simple.build_lookup bl !! Simple.key c) as [bd|] eqn:B; [|discriminate].
  destruct (build_lookup_In _ _ _ B) as (b & Hin & _ & Hbd).
  pose proof (Hbl b Hin) as Hb. rewrite Hbd in Hb.
  destruct (Z.eq_dec bd 0) as [->|Hnz].
  - rewrite division_error_zero. intros [= <-]. auto.
  - rewrite division_error_int64 by assumption. discriminate.
Qed.

(** C1.  The code does not guard the division.  When one of the records
    has an active baseline whose duration is 0, the database-backed
    detection never returns a list of alerts: it ends with an unhandled
    exception, which is Python's [ZeroDivisionError] when the durations
    of the records and of the stored baselines fit 64 bits, and in
    general [ZeroDivisionError] or the [OverflowError] of an earlier
    record.  The same holds for the file-based detector when the
    looked-up baseline duration is 0.  No [InvalidRecordError] is ever
    produced. *)
Theorem C1_zero_baseline_raises_ZeroDivisionError :
  (forall th d results r c,
      Detection.stored_in_range d ->
      Detection.records_in_range results ->
      In r results ->
      Metrics.get_baseline d (Metrics.crate_name r) (Metrics.benchmark_name r)
      = Some (0, c) ->
      snd (Metrics.detect_regressions th d results) = Raise ZeroDivisionError) /\
  (forall th d results r c,
      In r results ->
      Metrics.get_baseline d (Metrics.crate_name r) (Metrics.benchmark_name r)
      = Some (0, c) ->
      snd (Metrics.detect_regressions th d results) = Raise ZeroDivisionError \/
      snd (Metrics.detect_regressions th d results) = Raise OverflowError) /\
  (forall th current baselines e,
      Detection.entries_in_range baselines ->
      Detection.entries_in_range current ->
      In e current ->
      Simple.build_lookup baselines !! Simple.key e = Some 0 ->
      Simple.detect_regressions th current baselines = Raise ZeroDivisionError) /\
  (forall th current baselines e,
      In e current ->
      Simple.build_lookup baselines !! Simple.key e = Some 0 ->
      Simple.detect_regressions th current baselines = Raise ZeroDivisionError \/
      Simple.detect_regressions th current baselines = Raise OverflowError).
Proof.
  split; [|split; [|split]].
  - intros th d results r c Hd Hrs Hin Hb.
    destruct (metrics_detect_raises th d results r c Hin Hb)
      as (rs1 & r' & rs2 & e & E & _ & He & ->).
    simpl. f_equal.
    apply (metrics_error_in_range th d r' e Hd); [|exact He].
    apply Hrs. rewrite E. apply in_or_app. right. left. reflexivity.
  - intros th d results r c Hin Hb.
    destruct (metrics_detect_raises th d results r c Hin Hb)
      as (rs1 & r' & rs2 & e & _ & _ & He & ->).
    simpl. destruct (metrics_error_cases _ _ _ _ He) as [-> | ->]; auto.
  - intros th current baselines e Hbl Hcur Hin Hb.
    destruct (simple_detect_raises th _ current e Hin Hb)
      as (c1 & c' & c2 & x & E & _ & He & Hloop).
    unfold Simple.detect_regressions. rewrite Hloop. simpl. f_equal.
    apply (simple_error_in_range baselines c' x Hbl); [|exact He].
    apply Hcur. rewrite E. apply in_or_app. right. left. reflexivity.
  - intros th current baselines e Hin Hb.
    destruct (simple_detect_raises th _ current e Hin Hb)
      as (c1 & c' & c2 & x & _ & _ & He & Hloop).
    unfold Simple.detect_regressions. rewrite Hloop. simpl.
    destruct (simple_error_cases _ _ _ He) as [-> | ->]; auto.
Qed.

(** [set_baseline] with duration 0 on a fresh store, then detection on a
    record of that pair. *)
Lemma C1_zero_baseline_witness :
  Metrics.set_baseline Metrics.init_database "x" "y" 0 "v1" "2024-01-01T00:00:00"
  = Ok (Scenario.with_baseline 0) /\
  snd (Metrics.detect_regressions 10 (Scenario.with_baseline 0)
         [Scenario.measure 1300000 "2024-01-02T00:00:00"])
  = Raise ZeroDivisionError /\
  Simple.detect_regressions 10 [Simple.mkEntry "x" "y" 1300000]
    [Simple.mkEntry "x" "y" 0]
  = Raise ZeroDivisionError.
Proof.
  split; [vm_compute; reflexivity|]. split.
  - apply (proj1 C1_zero_baseline_raises_ZeroDivisionError 10%Q
             (Scenario.with_baseline 0) _
             (Scenario.measure 1300000 "2024-01-02T00:00:00") (Some "v1")).
    + intros row [<-|[]]. reflexivity.
    + intros r [<-|[]]. reflexivity.
    + left. reflexivity.
    + reflexivity.
  - apply (proj1 (proj2 (proj2 C1_zero_baseline_raises_ZeroDivisionError)) 10%Q _ _
             (Simple.mkEntry "x" "y" 1300000)).
    + intros b [<-|[]]. reflexivity.
    + intros b [<-|[]]. reflexivity.
    + left. reflexivity.
    + vm_compute. reflexivity.
Defined.

(** ** Threshold and severity bands *)

Lemma get_severity_bands cp :
  (Metrics._get_severity (Fin cp) = CRITICAL <-> 50 <= cp)%Q /\
  (Metrics._get_severity (Fin cp) = HIGH <-> 25 <= cp /\ cp < 50)%Q /\
  (Metrics._get_severity (Fin cp) = MEDIUM <-> 15 <= cp /\ cp < 25)%Q /\
  (Metrics._get_severity (Fin cp) = LOW <-> cp < 15)%Q.
Proof.
  unfold Metrics._get_severity, fgeb.
  destruct (Qgeb cp 50) eqn:E50; [apply Qgeb_le in E50 | apply Qgeb_lt in E50];
  (destruct (Qgeb cp 25) eqn:E25; [apply Qgeb_le in E25 | apply Qgeb_lt in E25]);
  (destruct (Qgeb cp 15) eqn:E15; [apply Qgeb_le in E15 | apply Qgeb_lt in E15]);
  repeat split; intros; try discriminate; try tauto;
  try (exfalso; lra).
Qed.

Lemma simple_get_severity cp : Simple._get_severity cp = Metrics._get_severity cp.
Proof. reflexivity. Qed.

Lemma metrics_detect_one th d r bd bc :
  Metrics.get_baseline d (Metrics.crate_name r) (Metrics.benchmark_name r)
  = Some (bd, bc) ->
  Detection.division_error (Metrics.duration_ns r) bd = None ->
  Metrics.detect_regressions th d [r] =
  let cp := percent_change (Metrics.duration_ns r) bd in
  if fgtb cp th then
    let a := Metrics.mkAlert (Metrics.crate_name r) (Metrics.benchmark_name r)
               (Metrics.duration_ns r) bd cp (Metrics._get_severity cp)
               (Metrics.timestamp r) (Metrics.git_commit r) bc in
    if in_int64 (Metrics.duration_ns r) && in_int64 bd
    then (Metrics.append_alert d a, Ok [a])
    else (d, Raise OverflowError)
  else (d, Ok []).
Proof.
  intros Hb Hdiv. unfold Metrics.detect_regressions.
  rewrite metrics_loop_step.
  unfold Detection.metrics_error, Detection.metrics_alert_of. rewrite Hb, Hdiv.
  cbv zeta.
  destruct (fgtb (percent_change (Metrics.duration_ns r) bd) th); [|reflexivity].
  destruct (in_int64 (Metrics.duration_ns r) && in_int64 bd); reflexivity.
Qed.

Lemma simple_detect_one th bl e bd :
  Simple.build_lookup bl !! Simple.key e = Some bd ->
  Detection.division_error (Simple.duration_ns e) bd = None ->
  Simple.detect_regressions th [e] bl =
  let cp := percent_change (Simple.duration_ns e) bd in
  if fgtb cp th then
    Ok [Simple.mkRegressionAlert (Simple.crate_name e) (Simple.benchmark_name e)
          (Simple.duration_ns e) bd cp (Simple._get_severity cp)]
  else Ok [].
Proof.
  intros Hb Hdiv. unfold Simple.detect_regressions.
  rewrite simple_loop_step.
  unfold Detection.simple_error, Detection.simple_alert_of. rewrite Hb, Hdiv.
  cbv zeta.
  destruct (fgtb (percent_change (Simple.duration_ns e) bd) th); reflexivity.
Qed.

(** C3.  An alert is emitted exactly when the change that the code
    computes, the binary64 value of [((current - baseline) / baseline) *
    100], is above the threshold, and its severity is CRITICAL from 50,
    HIGH from 25, MEDIUM from 15 and LOW below, in both detectors.  With
    threshold 10 and baseline 100, durations 105, 116, 130 and 160 give
    computed changes of exactly 5, 16, 30 and 60 percent, and so no
    alert, MEDIUM, HIGH and CRITICAL.  The computed change of 107 against
    100 is just above 7: at threshold 7 it gives a LOW alert. *)
Theorem C3_threshold_and_severity_bands :
  (forall cp,
      (Metrics._get_severity (Fin cp) = CRITICAL <-> 50 <= cp)%Q /\
      (Metrics._get_severity (Fin cp) = HIGH <-> 25 <= cp /\ cp < 50)%Q /\
      (Metrics._get_severity (Fin cp) = MEDIUM <-> 15 <= cp /\ cp < 25)%Q /\
      (Metrics._get_severity (Fin cp) = LOW <-> cp < 15)%Q) /\
  Metrics._get_severity PInf = CRITICAL /\
  (forall cp, Simple._get_severity cp = Metrics._get_severity cp) /\
  (forall cp th, fgtb (Fin cp) th = true <-> (th < cp)%Q) /\
  (forall th, fgtb PInf th = true /\ fgtb NInf th = false) /\
  (forall th d r bd bc,
      Metrics.get_baseline d (Metrics.crate_name r) (Metrics.benchmark_name r)
      = Some (bd, bc) ->
      Detection.division_error (Metrics.duration_ns r) bd = None ->
      let cp := percent_change (Metrics.duration_ns r) bd in
      let a := Metrics.mkAlert (Metrics.crate_name r) (Metrics.benchmark_name r)
                 (Metrics.duration_ns r) bd cp (Metrics._get_severity cp)
                 (Metrics.timestamp r) (Metrics.git_commit r) bc in
      (fgtb cp th = true ->
       in_int64 (Metrics.duration_ns r) && in_int64 bd = true ->
       Metrics.detect_regressions th d [r] = (Metrics.append_alert d a, Ok [a])) /\
      (fgtb cp th = true ->
       in_int64 (Metrics.duration_ns r) && in_int64 bd = false ->
       Metrics.detect_regressions th d [r] = (d, Raise OverflowError)) /\
      (fgtb cp th = false -> Metrics.detect_regressions th d [r] = (d, Ok []))) /\
  (forall th bl e bd,
      Simple.build_lookup bl !! Simple.key e = Some bd ->
      Detection.division_error (Simple.duration_ns e) bd = None ->
      let cp := percent_change (Simple.duration_ns e) bd in
      (fgtb cp th = true ->
       Simple.detect_regressions th [e] bl =
       Ok [Simple.mkRegressionAlert (Simple.crate_name e) (Simple.benchmark_name e)
             (Simple.duration_ns e) bd cp (Simple._get_severity cp)]) /\
      (fgtb cp th = false -> Simple.detect_regressions th [e] bl = Ok [])) /\
  (percent_change 105 100 = Fin 5 /\ percent_change 116 100 = Fin 16 /\
   percent_change 130 100 = Fin 30 /\ percent_change 160 100 = Fin 60) /\
  snd (Metrics.detect_regressions 10 (Scenario.with_baseline 100)
         [Scenario.measure 105 "t"]) = Ok [] /\
  snd (Metrics.detect_regressions 10 (Scenario.with_baseline 100)
         [Scenario.measure 116 "t"]) = Ok [Scenario.alert_for 116 100 "t" MEDIUM] /\
  snd (Metrics.detect_regressions 10 (Scenario.with_baseline 100)
         [Scenario.measure 130 "t"]) = Ok [Scenario.alert_for 130 100 "t" HIGH] /\
  snd (Metrics.detect_regressions 10 (Scenario.with_baseline 100)
         [Scenario.measure 160 "t"]) = Ok [Scenario.alert_for 160 100 "t" CRITICAL] /\
  percent_change 107 100 = Fin (7881299347898369 # 1125899906842624) /\
  snd (Metrics.detect_regressions 7 (Scenario.with_baseline 100)
         [Scenario.measure 107 "t"]) = Ok [Scenario.alert_for 107 100 "t" LOW] /\
  Simple.detect_regressions 7 [Simple.mkEntry "x" "y" 107] [Simple.mkEntry "x" "y" 100]
  = Ok [Simple.mkRegressionAlert "x" "y" 107 100 (percent_change 107 100) LOW].
Proof.
  split; [|split; [|split; [|split; [|split; [|split; [|split; [|split]]]]]]].
  - intros cp. apply get_severity_bands.
  - reflexivity.
  - reflexivity.
  - intros cp th. apply Qgtb_lt.
  - intros th. split; reflexivity.
  - intros th d r bd bc Hb Hdiv cp a.
    rewrite (metrics_detect_one th d r bd bc Hb Hdiv). cbv zeta. fold cp.
    repeat split.
    + intros -> ->. reflexivity.
    + intros -> ->. reflexivity.
    + intros ->. reflexivity.
  - intros th bl e bd Hb Hdiv cp.
    rewrite (simple_detect_one th bl e bd Hb Hdiv). cbv zeta. fold cp.
    split; intros ->; reflexivity.
  - repeat split; vm_compute; reflexivity.
  - repeat split; vm_compute; reflexivity.
Qed.

(** The general statements of C3 at a stored baseline of 100 and a
    measurement of 116, threshold 10. *)
Lemma C3_threshold_witness :
  Metrics.detect_regressions 10 (Scenario.with_baseline 100) [Scenario.measure 116 "t"]
  = (Metrics.append_alert (Scenario.with_baseline 100)
       (Scenario.alert_for 116 100 "t" MEDIUM),
     Ok [Scenario.alert_for 116 100 "t" MEDIUM]) /\
  Simple.detect_regressions 10 [Simple.mkEntry "x" "y" 105] [Simple.mkEntry "x" "y" 100]
  = Ok [].
Proof.
  destruct C3_threshold_and_severity_bands as (_ & _ & _ & _ & _ & Hm & Hs & _).
  split.
  - destruct (Hm 10%Q (Scenario.with_baseline 100) (Scenario.measure 116 "t")
                 100 (Some "v1")) as (H & _ & _).
    + reflexivity.
    + vm_compute. reflexivity.
    + etransitivity; [apply H; vm_compute; reflexivity|].
      vm_compute. reflexivity.
  - apply (Hs 10%Q [Simple.mkEntry "x" "y" 100] (Simple.mkEntry "x" "y" 105) 100).
    + vm_compute. reflexivity.
    + vm_compute. reflexivity.
    + vm_compute. reflexivity.
Defined.

(** ** Order of the returned alerts *)

Lemma fval_gtb_false_leb x y :
  x <> NaN -> y <> NaN -> fval_gtb x y = false -> fval_leb x y = true.
Proof.
  destruct x, y; simpl; try congruence; intros _ _ H.
  apply Qgtb_le in H. apply Qle_bool_iff. exact H.
Qed.

Lemma fval_gtb_true_leb x y : fval_gtb x y = true -> fval_leb y x = true.
Proof.
  destruct x, y; simpl; try congruence; intros H.
  apply Qgtb_lt in H. apply Qle_bool_iff. apply Qlt_le_weak. exact H.
Qed.

Lemma percent_change_not_nan current baseline : percent_change current baseline <> NaN.
Proof.
  unfold percent_change, fmul, fl. cbv zeta.
  destruct (Qle_bool _ _); [discriminate|].
  destruct (Qle_bool _ _); discriminate.
Qed.

Lemma insert_desc_sorted a l :
  Simple.change_percent a <> NaN ->
  Forall (fun b => Simple.change_percent b <> NaN) l ->
  Simple.descending l -> Simple.descending (Simple.insert_desc a l).
Proof.
  unfold Simple.descending. intros Ha.
  induction l as [|b l IH]; intros Hl Hs; simpl.
  - repeat constructor.
  - inversion Hl as [|? ? Hb Hl']; subst.
    destruct (fval_gtb (Simple.change_percent b) (Simple.change_percent a)) eqn:E.
    + inversion Hs as [|? ? Hsl Hhd]; subst.
      constructor; [auto|].
      destruct l as [|c l]; simpl.
      * constructor. apply fval_gtb_true_leb, E.
      * destruct (fval_gtb (Simple.change_percent c) (Simple.change_percent a));
          constructor; [inversion Hhd; auto | apply fval_gtb_true_leb, E].
    + constructor; [assumption|]. constructor.
      apply fval_gtb_false_leb; assumption.
Qed.

Lemma insert_desc_perm a l : Permutation (a :: l) (Simple.insert_desc a l).
Proof.
  induction l as [|b l IH]; simpl; [reflexivity|].
  destruct (fval_gtb (Simple.change_percent b) (Simple.change_percent a)).
  - rewrite <- IH. apply perm_swap.
  - reflexivity.
Qed.

Lemma sorted_reverse_perm l : Permutation l (Simple.sorted_reverse l).
Proof.
  induction l as [|a l IH]; simpl; [reflexivity|].
  rewrite <- insert_desc_perm. constructor. exact IH.
Qed.

Lemma sorted_reverse_descending l :
  Forall (fun b => Simple.change_percent b <> NaN) l ->
  Simple.descending (Simple.sorted_reverse l).
Proof.
  induction l as [|a l IH]; intros Hl; simpl.
  - constructor.
  - inversion Hl; subst. apply insert_desc_sorted; auto.
    eapply Permutation_Forall; [apply sorted_reverse_perm | assumption].
Qed.

Lemma simple_alert_of_change th lookup c a :
  Detection.simple_alert_of th lookup c = Some a ->
  exists bd, lookup !! Simple.key c = Some bd /\
    Simple.change_percent a = percent_change (Simple.duration_ns c) bd /\
    fgtb (Simple.change_percent a) th = true /\
    Simple.alert_crate_name a = Simple.crate_name c /\
    Simple.alert_benchmark_name a = Simple.benchmark_name c /\
    Simple.current_duration_ns a = Simple.duration_ns c /\
    Simple.baseline_duration_ns a = bd /\
    Simple.severity_of a = Simple._get_severity (Simple.change_percent a).
Proof.
  unfold Detection.simple_alert_of.
  destruct (lookup !! Simple.key c) as [bd|]; [|discriminate].
  destruct (fgtb _ th) eqn:E; [|discriminate].
  intros [= <-]. exists bd. simpl. auto 10.
Qed.

(** The outcome of the file-based detector. *)
Lemma simple_detect_outcome th current baselines :
  (exists c1 c c2 e,
      current = (c1 ++ c :: c2)%list /\
      (forall x, In x c1 ->
         Detection.simple_error (Simple.build_lookup baselines) x = None) /\
      Detection.simple_error (Simple.build_lookup baselines) c = Some e /\
      Simple.detect_regressions th current baselines = Raise e) \/
  ((forall x, In x current ->
      Detection.simple_error (Simple.build_lookup baselines) x = None) /\
   Simple.detect_regressions th current baselines
   = Ok (Simple.sorted_reverse
           (omap (Detection.simple_alert_of th (Simple.build_lookup baselines))
                 current))).
Proof.
  destruct (all_or_first_exception
              (Detection.simple_error (Simple.build_lookup baselines)) current)
    as [Hall|(c1 & c & c2 & e & -> & Hok & He)].
  - right. split; [exact Hall|].
    unfold Simple.detect_regressions. rewrite simple_loop_ok by exact Hall.
    reflexivity.
  - left. exists c1, c, c2, e. repeat split; try assumption.
    unfold Simple.detect_regressions.
    rewrite (simple_loop_raise th _ c1 c c2 e) by assumption. reflexivity.
Qed.

Lemma omap_simple_not_nan th lookup current :
  Forall (fun b => Simple.change_percent b <> NaN)
         (omap (Detection.simple_alert_of th lookup) current).
Proof.
  apply List.Forall_forall. intros a Ha.
  apply list_elem_of_In in Ha. apply list_elem_of_omap in Ha as (c & _ & Hc).
  destruct (simple_alert_of_change _ _ _ _ Hc) as (bd & _ & E & _).
  rewrite E. apply percent_change_not_nan.
Qed.

(** The file-based detector returns its alerts sorted, worst first. *)
Lemma simple_detect_regressions_descending th current baselines alerts :
  Simple.detect_regressions th current baselines = Ok alerts ->
  Simple.descending alerts.
Proof.
  destruct (simple_detect_outcome th current baselines)
    as [(c1 & c & c2 & e & _ & _ & _ & ->) | [_ ->]]; [discriminate|].
  intros [= <-]. apply sorted_reverse_descending, omap_simple_not_nan.
Qed.

(** C4.  The database-backed [detect_regressions] has no sorting step: it
    returns the alerts in the order of the input records.  With a
    baseline of 100, the records 120 then 160 give the alert of the
    smaller change before the alert of the larger change, which is not
    descending; the file-based detector returns the same two alerts
    worst first. *)
Theorem C4_database_detector_returns_input_order :
  snd (Metrics.detect_regressions 10 (Scenario.with_baseline 100)
         [Scenario.measure 120 "t1"; Scenario.measure 160 "t2"])
  = Ok [Scenario.alert_for 120 100 "t1" MEDIUM;
        Scenario.alert_for 160 100 "t2" CRITICAL] /\
  Metrics.alert_regression_percent (Scenario.alert_for 120 100 "t1" MEDIUM) = Fin 20 /\
  Metrics.alert_regression_percent (Scenario.alert_for 160 100 "t2" CRITICAL) = Fin 60 /\
  fval_gtb (Metrics.alert_regression_percent (Scenario.alert_for 160 100 "t2" CRITICAL))
           (Metrics.alert_regression_percent (Scenario.alert_for 120 100 "t1" MEDIUM))
  = true /\
  Simple.detect_regressions 10
    [Simple.mkEntry "x" "y" 120; Simple.mkEntry "x" "y" 160]
    [Simple.mkEntry "x" "y" 100]
  = Ok [Simple.mkRegressionAlert "x" "y" 160 100 (percent_change 160 100) CRITICAL;
        Simple.mkRegressionAlert "x" "y" 120 100 (percent_change 120 100) MEDIUM].
Proof.
  repeat split; vm_compute; reflexivity.
Qed.


(** ** Records without a baseline *)

Lemma get_baseline_none d crate bench :
  Metrics.no_active_baseline d crate bench ->
  Metrics.get_baseline d crate bench = None.
Proof.
  unfold Metrics.no_active_baseline, Metrics.get_baseline. intros H.
  destruct (List.find _ _) as [b|] eqn:E; [|reflexivity].
  apply List.find_some in E as [Hin Hact]. exfalso. apply (H b Hin).
  unfold Metrics.is_active_for in Hact.
  apply andb_true_iff in Hact as [Hact ?].
  apply andb_true_iff in Hact as [?%bool_decide_eq_true ?%bool_decide_eq_true].
  auto.
Qed.

Lemma get_baseline_none_inv d crate bench :
  Metrics.get_baseline d crate bench = None ->
  Metrics.no_active_baseline d crate bench.
Proof.
  unfold Metrics.no_active_baseline, Metrics.get_baseline.
  destruct (List.find _ _) as [b|] eqn:E; [discriminate|]. intros _ row Hin (Hc & Hb & Ha).
  pose proof (List.find_none _ _ E row Hin) as Hf.
  unfold Metrics.is_active_for in Hf.
  rewrite !bool_decide_eq_true_2, Ha in Hf by assumption. discriminate.
Qed.

Lemma metrics_no_baseline th d r :
  Metrics.get_baseline d (Metrics.crate_name r) (Metrics.benchmark_name r) = None ->
  Detection.metrics_error th d r = None /\ Detection.metrics_alert_of th d r = None.
Proof.
  unfold Detection.metrics_error, Detection.metrics_alert_of. intros ->. auto.
Qed.

Lemma simple_no_baseline th lookup c :
  lookup !! Simple.key c = None ->
  Detection.simple_error lookup c = None /\ Detection.simple_alert_of th lookup c = None.
Proof.
  unfold Detection.simple_error, Detection.simple_alert_of. intros ->. auto.
Qed.

Lemma metrics_loop_skip th r rs2 :
  forall rs1 alerts d,
    Metrics.get_baseline d (Metrics.crate_name r) (Metrics.benchmark_name r) = None ->
    Metrics.detect_loop th (rs1 ++ r :: rs2) alerts d
    = Metrics.detect_loop th (rs1 ++ rs2) alerts d.
Proof.
  induction rs1 as [|r0 rs1 IH]; intros alerts d Hb.
  - simpl app. rewrite metrics_loop_step.
    destruct (metrics_no_baseline th d r Hb) as [-> ->]. reflexivity.
  - simpl app. rewrite !metrics_loop_step.
    destruct (Detection.metrics_error th d r0); [reflexivity|].
    destruct (Detection.metrics_alert_of th d r0); apply IH; exact Hb.
Qed.

Lemma simple_loop_skip th lookup c c2 :
  forall c1 alerts,
    lookup !! Simple.key c = None ->
    Simple.detect_loop th lookup (c1 ++ c :: c2) alerts
    = Simple.detect_loop th lookup (c1 ++ c2) alerts.
Proof.
  induction c1 as [|c0 c1 IH]; intros alerts Hb.
  - simpl app. rewrite simple_loop_step.
    destruct (simple_no_baseline th lookup c Hb) as [-> ->]. reflexivity.
  - simpl app. rewrite !simple_loop_step.
    destruct (Detection.simple_error lookup c0); [reflexivity|].
    destruct (Detection.simple_alert_of th lookup c0); apply IH; exact Hb.
Qed.

Lemma last_with_key_none k bl :
  (forall b, In b bl -> Simple.key b <> k) -> Simple.last_with_key k bl = None.
Proof.
  intros H. unfold Simple.last_with_key.
  replace (List.filter (fun e => bool_decide (Simple.key e = k)) bl) with (@nil Simple.entry);
    [reflexivity|].
  symmetry. induction bl as [|e bl IH]; simpl; [reflexivity|].
  rewrite bool_decide_eq_false_2 by (apply H; left; reflexivity).
  apply IH. intros b Hb. apply H. right. exact Hb.
Qed.

Lemma build_lookup_none bl k :
  (forall b, In b bl -> Simple.key b <> k) -> Simple.build_lookup bl !! k = None.
Proof.
  intros H. rewrite build_lookup_last, last_with_key_none by assumption. reflexivity.
Qed.

(** For crate names without ["/"], the key determines the pair. *)
Lemma key_parts c1 :
  forall c2 b1 b2,
    Simple.no_slash c1 = true -> Simple.no_slash c2 = true ->
    c1 +:+ "/" +:+ b1 = c2 +:+ "/" +:+ b2 -> c1 = c2 /\ b1 = b2.
Proof.
  induction c1 as [|a c1 IH]; intros [|a' c2] b1 b2 H1 H2 Heq; simpl in *.
  - injection Heq as Hb. auto.
  - injection Heq as Ha _. subst a'. simpl in H2. discriminate.
  - injection Heq as Ha _. subst a. simpl in H1. discriminate.
  - injection Heq as Ha Heq. subst a'.
    apply andb_true_iff in H1 as [_ H1]. apply andb_true_iff in H2 as [_ H2].
    destruct (IH c2 b1 b2 H1 H2 Heq) as [-> ->]. auto.
Qed.

Lemma key_inj e1 e2 :
  Simple.no_slash (Simple.crate_name e1) = true ->
  Simple.no_slash (Simple.crate_name e2) = true ->
  (Simple.key e1 = Simple.key e2 <->
   Simple.crate_name e1 = Simple.crate_name e2 /\
   Simple.benchmark_name e1 = Simple.benchmark_name e2).
Proof.
  intros H1 H2. unfold Simple.key. split.
  - apply key_parts; assumption.
  - intros [-> ->]. reflexivity.
Qed.

(** Two pairs with one key text. *)
Lemma append_assoc_string (a b c : string) : (a +:+ b) +:+ c = a +:+ (b +:+ c).
Proof.
  induction a as [|x a IH]; [reflexivity|].
  change (String x ((a +:+ b) +:+ c) = String x (a +:+ (b +:+ c))).
  rewrite IH. reflexivity.
Qed.

Lemma append_longer (a b : string) : a <> a +:+ "/" +:+ b.
Proof.
  induction a as [|x a IH]; intros H.
  - change ("" = String "/" b) in H. discriminate.
  - change (String x a = String x (a +:+ "/" +:+ b)) in H.
    injection H as H. exact (IH H).
Qed.

Lemma key_collision a b c d1 d2 :
  Simple.key (Simple.mkEntry a (b +:+ "/" +:+ c) d1)
  = Simple.key (Simple.mkEntry (a +:+ "/" +:+ b) c d2).
Proof.
  unfold Simple.key. cbn [Simple.crate_name Simple.benchmark_name].
  rewrite !append_assoc_string. reflexivity.
Qed.

(** C8.  The database-backed detector skips a record whose pair has no
    active baseline: detection gives the same alerts, the same stored
    rows and the same outcome as without the record, and on that record
    alone it returns no alert, stores nothing and raises nothing.  The
    file-based detector looks the baseline up by the text
    [crate_name/benchmark_name]: it skips a record when no baseline entry
    has that key text, but the record of the pair (a, "b/c") has the key
    of the pair ("a/b", c), so that it is compared against the baseline
    of another pair, and gets an alert, although its own pair has no
    baseline.  The key identifies the pair when crate names contain no
    ["/"]. *)
Theorem C8_record_without_baseline_is_skipped :
  (forall th d rs1 r rs2,
      Metrics.no_active_baseline d (Metrics.crate_name r) (Metrics.benchmark_name r) ->
      Metrics.detect_regressions th d (rs1 ++ r :: rs2)
      = Metrics.detect_regressions th d (rs1 ++ rs2)) /\
  (forall th d r,
      Metrics.no_active_baseline d (Metrics.crate_name r) (Metrics.benchmark_name r) ->
      Metrics.detect_regressions th d [r] = (d, Ok [])) /\
  (forall th bl c1 c c2,
      (forall b, In b bl -> Simple.key b <> Simple.key c) ->
      Simple.detect_regressions th (c1 ++ c :: c2) bl
      = Simple.detect_regressions th (c1 ++ c2) bl) /\
  (forall th bl c,
      (forall b, In b bl -> Simple.key b <> Simple.key c) ->
      Simple.detect_regressions th [c] bl = Ok []) /\
  (forall th a b c duration baseline,
      let current := Simple.mkEntry a (b +:+ "/" +:+ c) duration in
      let baselines := [Simple.mkEntry (a +:+ "/" +:+ b) c baseline] in
      let change := percent_change duration baseline in
      (forall e, In e baselines ->
         ~ (Simple.crate_name e = Simple.crate_name current /\
            Simple.benchmark_name e = Simple.benchmark_name current)) /\
      Simple.build_lookup baselines !! Simple.key current = Some baseline /\
      (Detection.division_error duration baseline = None ->
       fgtb change th = true ->
       Simple.detect_regressions th [current] baselines
       = Ok [Simple.mkRegressionAlert a (b +:+ "/" +:+ c) duration baseline change
               (Simple._get_severity change)])) /\
  Simple.detect_regressions 10 [Simple.mkEntry "a" "b/c" 300]
    [Simple.mkEntry "a/b" "c" 100]
  = Ok [Simple.mkRegressionAlert "a" "b/c" 300 100 (Fin 200) CRITICAL] /\
  (forall b c,
      Simple.no_slash (Simple.crate_name b) = true ->
      Simple.no_slash (Simple.crate_name c) = true ->
      (Simple.key b = Simple.key c <->
       Simple.crate_name b = Simple.crate_name c /\
       Simple.benchmark_name b = Simple.benchmark_name c)).
Proof.
  split; [|split; [|split; [|split; [|split; [|split]]]]].
  - intros th d rs1 r rs2 H. unfold Metrics.detect_regressions.
    apply metrics_loop_skip, get_baseline_none, H.
  - intros th d r H. unfold Metrics.detect_regressions.
    rewrite metrics_loop_step.
    destruct (metrics_no_baseline th d r (get_baseline_none _ _ _ H)) as [-> ->].
    reflexivity.
  - intros th bl c1 c c2 H. unfold Simple.detect_regressions.
    rewrite simple_loop_skip by (apply build_lookup_none, H). reflexivity.
  - intros th bl c H. unfold Simple.detect_regressions.
    rewrite simple_loop_step.
    destruct (simple_no_baseline th _ c (build_lookup_none _ _ H)) as [-> ->].
    reflexivity.
  - intros th a b c duration baseline current baselines change.
    assert (Hl : Simple.build_lookup baselines !! Simple.key current = Some baseline).
    { unfold baselines, current, Simple.build_lookup. simpl.
      rewrite (key_collision a b c duration baseline). apply lookup_insert_eq. }
    split; [|split; [exact Hl|]].
    + intros e [<-|[]] [H _]. simpl in H. symmetry in H.
      exact (append_longer a b H).
    + intros Hdiv Hgt.
      rewrite (simple_detect_one th baselines current baseline Hl Hdiv).
      cbv zeta. simpl Simple.duration_ns. fold change. rewrite Hgt. reflexivity.
  - vm_compute. reflexivity.
  - intros b c. apply key_inj.
Qed.

(** C8 at a store whose only baseline is for another benchmark, and at a
    baseline file with another benchmark. *)
Lemma C8_skip_witness :
  Metrics.detect_regressions 10 (Scenario.with_baseline 100)
    [Metrics.mkBenchmarkResult "x" "z" 900 0 0 "t" None None]
  = (Scenario.with_baseline 100, Ok []) /\
  Simple.detect_regressions 10 [Simple.mkEntry "x" "z" 900] [Simple.mkEntry "x" "y" 100]
  = Ok [].
Proof.
  destruct C8_record_without_baseline_is_skipped as (_ & Hm & _ & Hs & _).
  split.
  - apply Hm. intros row [<-|[]] (_ & Hb & _). discriminate.
  - apply Hs. intros b [<-|[]]. discriminate.
Defined.

(** ** Duplicate baseline entries *)

Lemma last_with_key_drop_earlier k l1 e l2 :
  (exists e', In e' l2 /\ Simple.key e' = Simple.key e) ->
  Simple.last_with_key k (l1 ++ e :: l2) = Simple.last_with_key k (l1 ++ l2).
Proof.
  intros (e' & Hin & Hk). unfold Simple.last_with_key.
  rewrite !List.filter_app. simpl.
  destruct (bool_decide (Simple.key e = k)) eqn:E; [|reflexivity].
  rewrite !last_app, last_cons.
  destruct (last (List.filter _ l2)) eqn:L; [reflexivity|].
  exfalso. apply last_None in L.
  assert (Hf : In e' (List.filter (fun e0 => bool_decide (Simple.key e0 = k)) l2)).
  { apply List.filter_In. split; [exact Hin|].
    apply bool_decide_eq_true in E. apply bool_decide_eq_true. congruence. }
  rewrite L in Hf. inversion Hf.
Qed.

Lemma build_lookup_drop_earlier l1 e l2 :
  (exists e', In e' l2 /\ Simple.key e' = Simple.key e) ->
  Simple.build_lookup (l1 ++ e :: l2) = Simple.build_lookup (l1 ++ l2).
Proof.
  intros H. apply map_eq. intros k.
  rewrite !build_lookup_last, last_with_key_drop_earlier by assumption. reflexivity.
Qed.

Lemma last_with_key_pair bl c :
  Simple.no_slash (Simple.crate_name c) = true ->
  (forall b, In b bl -> Simple.no_slash (Simple.crate_name b) = true) ->
  Simple.last_with_key (Simple.key c) bl
  = Simple.last_with_pair (Simple.crate_name c) (Simple.benchmark_name c) bl.
Proof.
  intros Hc Hbl. unfold Simple.last_with_key, Simple.last_with_pair. f_equal.
  apply List.filter_ext_in. intros b Hb.
  destruct (bool_decide (Simple.key b = Simple.key c)) eqn:E.
  - apply bool_decide_eq_true in E. apply key_inj in E as [-> ->]; auto.
    rewrite !bool_decide_eq_true_2; reflexivity.
  - apply bool_decide_eq_false in E. symmetry. apply not_true_iff_false.
    intros H. apply andb_true_iff in H as [?%bool_decide_eq_true ?%bool_decide_eq_true].
    apply E. apply key_inj; auto.
Qed.

Lemma simple_alert_compared th bl c a :
  Detection.simple_alert_of th (Simple.build_lookup bl) c = Some a ->
  Simple.compared_with_last bl a.
Proof.
  intros Ha.
  destruct (simple_alert_of_change _ _ _ _ Ha)
    as (bd & Hl & Hcp & _ & Hcr & Hbn & Hcd & Hbd & _).
  rewrite build_lookup_last in Hl.
  destruct (Simple.last_with_key (Simple.key c) bl) as [b|] eqn:L; [|discriminate].
  injection Hl as Hl. exists b. unfold Simple.key in L.
  rewrite Hcr, Hbn, Hcd, Hbd, Hcp, Hl. auto.
Qed.

(** C10.  The lookup table keeps, under each key text
    [crate_name/benchmark_name], the duration of the last baseline entry
    with that key; a current record is compared against that duration,
    every returned alert was computed against it, and an entry followed
    by a later entry with the same key has no effect on the result.  The
    last entry with the key of a record need not be an entry of its
    pair: after the baseline entries of the pair (a, "b/c"), an entry of
    the pair ("a/b", c) takes their place in the table, and the record of
    (a, "b/c") is compared against it.  When no crate name contains
    ["/"], the last entry with the key of a record is the last entry with
    its (crate, benchmark) pair. *)
Theorem C10_last_entry_with_same_key_wins :
  (forall bl k,
      Simple.build_lookup bl !! k = Simple.duration_ns <$> Simple.last_with_key k bl) /\
  (forall th bl c b,
      Simple.last_with_key (Simple.key c) bl = Some b ->
      Detection.division_error (Simple.duration_ns c) (Simple.duration_ns b) = None ->
      let cp := percent_change (Simple.duration_ns c) (Simple.duration_ns b) in
      Simple.detect_regressions th [c] bl =
      if fgtb cp th then
        Ok [Simple.mkRegressionAlert (Simple.crate_name c) (Simple.benchmark_name c)
              (Simple.duration_ns c) (Simple.duration_ns b) cp (Simple._get_severity cp)]
      else Ok []) /\
  (forall th current bl alerts,
      Simple.detect_regressions th current bl = Ok alerts ->
      Forall (Simple.compared_with_last bl) alerts) /\
  (forall th current l1 e l2,
      (exists e', In e' l2 /\ Simple.key e' = Simple.key e) ->
      Simple.detect_regressions th current (l1 ++ e :: l2)
      = Simple.detect_regressions th current (l1 ++ l2)) /\
  (forall bl a b c duration baseline,
      let current := Simple.mkEntry a (b +:+ "/" +:+ c) duration in
      let other := Simple.mkEntry (a +:+ "/" +:+ b) c baseline in
      Simple.last_with_pair a (b +:+ "/" +:+ c) (bl ++ [other])
      = Simple.last_with_pair a (b +:+ "/" +:+ c) bl /\
      Simple.last_with_key (Simple.key current) (bl ++ [other]) = Some other) /\
  (let baselines := [Simple.mkEntry "a" "b/c" 100; Simple.mkEntry "a" "b/c" 200;
                     Simple.mkEntry "a/b" "c" 150] in
   Simple.last_with_pair "a" "b/c" baselines = Some (Simple.mkEntry "a" "b/c" 200) /\
   Simple.detect_regressions 10 [Simple.mkEntry "a" "b/c" 300] baselines
   = Ok [Simple.mkRegressionAlert "a" "b/c" 300 150 (Fin 100) CRITICAL]) /\
  (forall bl c,
      Simple.no_slash (Simple.crate_name c) = true ->
      (forall b, In b bl -> Simple.no_slash (Simple.crate_name b) = true) ->
      Simple.last_with_key (Simple.key c) bl
      = Simple.last_with_pair (Simple.crate_name c) (Simple.benchmark_name c) bl).
Proof.
  split; [|split; [|split; [|split; [|split; [|split]]]]].
  - intros bl k. apply build_lookup_last.
  - intros th bl c b L Hdiv cp.
    apply (simple_detect_one th bl c (Simple.duration_ns b)); [|exact Hdiv].
    rewrite build_lookup_last, L. reflexivity.
  - intros th current bl alerts.
    destruct (simple_detect_outcome th current bl)
      as [(c1 & c & c2 & e & _ & _ & _ & ->) | [_ ->]]; [discriminate|].
    intros [= <-]. eapply Permutation_Forall; [apply sorted_reverse_perm|].
    apply List.Forall_forall. intros a Ha.
    apply list_elem_of_In in Ha. apply list_elem_of_omap in Ha as (c & _ & Hc).
    exact (simple_alert_compared th bl c a Hc).
  - intros th current l1 e l2 H. unfold Simple.detect_regressions.
    rewrite build_lookup_drop_earlier by assumption. reflexivity.
  - intros bl a b c duration baseline current other. split.
    + unfold Simple.last_with_pair. rewrite List.filter_app. simpl.
      rewrite (bool_decide_eq_false_2 (a +:+ "/" +:+ b = a)).
      * simpl. rewrite app_nil_r. reflexivity.
      * intros H. symmetry in H. exact (append_longer a b H).
    + unfold Simple.last_with_key. rewrite List.filter_app. simpl.
      rewrite bool_decide_eq_true_2
        by (symmetry; apply (key_collision a b c duration baseline)).
      apply last_snoc.
  - split; vm_compute; reflexivity.
  - intros bl c. apply last_with_key_pair.
Qed.

(** C10 on a baseline file with two entries for ("x", "y"): the record is
    compared against 200, the later one. *)
Lemma C10_last_entry_witness :
  Simple.detect_regressions 10 [Simple.mkEntry "x" "y" 260]
    [Simple.mkEntry "x" "y" 100; Simple.mkEntry "x" "y" 200]
  = Ok [Simple.mkRegressionAlert "x" "y" 260 200 (percent_change 260 200) HIGH] /\
  Simple.detect_regressions 10 [Simple.mkEntry "x" "y" 260]
    [Simple.mkEntry "x" "y" 100; Simple.mkEntry "x" "y" 200]
  = Simple.detect_regressions 10 [Simple.mkEntry "x" "y" 260]
      [Simple.mkEntry "x" "y" 200].
Proof.
  destruct C10_last_entry_with_same_key_wins as (_ & H1 & _ & H2 & _).
  split.
  - etransitivity.
    + apply (H1 10%Q [Simple.mkEntry "x" "y" 100; Simple.mkEntry "x" "y" 200]
                (Simple.mkEntry "x" "y" 260) (Simple.mkEntry "x" "y" 200)).
      * reflexivity.
      * vm_compute. reflexivity.
    + vm_compute. reflexivity.
  - apply (H2 10%Q [Simple.mkEntry "x" "y" 260] [] (Simple.mkEntry "x" "y" 100)
              [Simple.mkEntry "x" "y" 200]).
    exists (Simple.mkEntry "x" "y" 200). split; [left|]; reflexivity.
Defined.


(** ** Baselines *)

Lemma deactivate_not_active crate bench row :
  Metrics.baseline_key (Metrics.deactivate crate bench row) <> (crate, bench, true).
Proof.
  unfold Metrics.deactivate, Metrics.baseline_key.
  destruct (bool_decide (Metrics.b_crate_name row = crate)) eqn:Ec;
    destruct (bool_decide (Metrics.b_benchmark_name row = bench)) eqn:Eb;
    simpl; intros [= H1 H2 H3]; try discriminate.
  - apply bool_decide_eq_false in Eb. contradiction.
  - apply bool_decide_eq_false in Ec. contradiction.
  - apply bool_decide_eq_false in Ec. contradiction.
Qed.

Lemma deactivate_is_active_for crate bench rows :
  List.filter (Metrics.is_active_for crate bench)
              (map (Metrics.deactivate crate bench) rows) = [].
Proof.
  induction rows as [|row rows IH]; simpl; [reflexivity|].
  rewrite IH. unfold Metrics.is_active_for, Metrics.deactivate.
  destruct (bool_decide (Metrics.b_crate_name row = crate)) eqn:Ec;
    destruct (bool_decide (Metrics.b_benchmark_name row = bench)) eqn:Eb;
    simpl; rewrite ?Ec, ?Eb; simpl; rewrite ?andb_false_r; reflexivity.
Qed.

(** A [set_baseline] whose UPDATE passes the UNIQUE check and whose
    duration can be bound commits the deactivated rows followed by the new
    active row. *)
Lemma set_baseline_ok d crate bench duration commit now :
  NoDup (map Metrics.baseline_key
             (map (Metrics.deactivate crate bench) (Metrics.performance_baselines d))) ->
  in_int64 duration = true ->
  Metrics.set_baseline d crate bench duration commit now =
  Ok {| Metrics.benchmark_results := Metrics.benchmark_results d;
        Metrics.benchmark_results_seq := Metrics.benchmark_results_seq d;
        Metrics.performance_baselines :=
          map (Metrics.deactivate crate bench) (Metrics.performance_baselines d) ++
          [Metrics.mkBaselineRow (Metrics.performance_baselines_seq d + 1)
             crate bench duration (Sqlite.numeric_affinity now) (Some commit) true];
        Metrics.performance_baselines_seq := Metrics.performance_baselines_seq d + 1;
        Metrics.regression_alerts := Metrics.regression_alerts d;
        Metrics.regression_alerts_seq := Metrics.regression_alerts_seq d |}.
Proof.
  intros Hnd Hfit. unfold Metrics.set_baseline, Metrics.update_deactivate,
    Metrics.insert_baseline, Metrics.unique_baselines.
  rewrite bool_decide_eq_true_2 by exact Hnd.
  cbn [bind Metrics.b_baseline_duration_ns]. rewrite Hfit.
  rewrite bool_decide_eq_true_2; [reflexivity|].
  rewrite map_app. simpl. apply NoDup_app. split; [exact Hnd|]. split.
  - intros k Hk [<-|[]]%list_elem_of_In. apply list_elem_of_In in Hk.
    apply in_map_iff in Hk as (row' & Hk & Hin).
    apply in_map_iff in Hin as (row & <- & _).
    exact (deactivate_not_active _ _ _ Hk).
  - apply NoDup_singleton.
Qed.

(** A [set_baseline] whose UPDATE fails the UNIQUE check raises and
    commits nothing. *)
Lemma set_baseline_raises d crate bench duration commit now :
  ~ NoDup (map Metrics.baseline_key
               (map (Metrics.deactivate crate bench) (Metrics.performance_baselines d))) ->
  Metrics.set_baseline d crate bench duration commit now = Raise IntegrityError.
Proof.
  intros Hnd. unfold Metrics.set_baseline, Metrics.update_deactivate,
    Metrics.unique_baselines.
  rewrite bool_decide_eq_false_2 by exact Hnd. reflexivity.
Qed.

(** A [set_baseline] whose UPDATE passes and whose duration cannot be
    bound raises [OverflowError]. *)
Lemma set_baseline_overflow d crate bench duration commit now :
  NoDup (map Metrics.baseline_key
             (map (Metrics.deactivate crate bench) (Metrics.performance_baselines d))) ->
  in_int64 duration = false ->
  Metrics.set_baseline d crate bench duration commit now = Raise OverflowError.
Proof.
  intros Hnd Hfit. unfold Metrics.set_baseline, Metrics.update_deactivate,
    Metrics.insert_baseline, Metrics.unique_baselines.
  rewrite bool_decide_eq_true_2 by exact Hnd.
  cbn [bind Metrics.b_baseline_duration_ns]. rewrite Hfit. reflexivity.
Qed.

(** The three outcomes of [set_baseline]. *)
Lemma set_baseline_outcome d crate bench duration commit now :
  let rows := map (Metrics.deactivate crate bench) (Metrics.performance_baselines d) in
  (~ NoDup (map Metrics.baseline_key rows) /\
   Metrics.set_baseline d crate bench duration commit now = Raise IntegrityError) \/
  (NoDup (map Metrics.baseline_key rows) /\ in_int64 duration = false /\
   Metrics.set_baseline d crate bench duration commit now = Raise OverflowError) \/
  (NoDup (map Metrics.baseline_key rows) /\ in_int64 duration = true /\
   Metrics.set_baseline d crate bench duration commit now =
   Ok {| Metrics.benchmark_results := Metrics.benchmark_results d;
         Metrics.benchmark_results_seq := Metrics.benchmark_results_seq d;
         Metrics.performance_baselines :=
           rows ++
           [Metrics.mkBaselineRow (Metrics.performance_baselines_seq d + 1)
              crate bench duration (Sqlite.numeric_affinity now) (Some commit) true];
         Metrics.performance_baselines_seq := Metrics.performance_baselines_seq d + 1;
         Metrics.regression_alerts := Metrics.regression_alerts d;
         Metrics.regression_alerts_seq := Metrics.regression_alerts_seq d |}).
Proof.
  cbv zeta.
  destruct (decide (NoDup (map Metrics.baseline_key
                             (map (Metrics.deactivate crate bench)
                                  (Metrics.performance_baselines d))))) as [Hnd|Hnd].
  - right. destruct (in_int64 duration) eqn:Hfit.
    + right. split; [exact Hnd|]. split; [reflexivity|].
      apply set_baseline_ok; assumption.
    + left. split; [exact Hnd|]. split; [reflexivity|].
      apply set_baseline_overflow; assumption.
  - left. split; [exact Hnd|]. apply set_baseline_raises, Hnd.
Qed.

(** After a committed [set_baseline] the new row is the only active row
    of the pair, and it is what [get_baseline] returns. *)
Lemma set_baseline_activates d crate bench duration commit now d' :
  Metrics.set_baseline d crate bench duration commit now = Ok d' ->
  List.filter (Metrics.is_active_for crate bench) (Metrics.performance_baselines d')
  = [Metrics.mkBaselineRow (Metrics.performance_baselines_seq d + 1)
       crate bench duration (Sqlite.numeric_affinity now) (Some commit) true] /\
  Metrics.get_baseline d' crate bench = Some (duration, Some commit) /\
  in_int64 duration = true.
Proof.
  destruct (set_baseline_outcome d crate bench duration commit now)
    as [[_ ->] | [(_ & _ & ->) | (_ & Hfit & ->)]]; try discriminate.
  intros [= <-]. unfold Metrics.get_baseline. simpl.
  assert (Hnew : Metrics.is_active_for crate bench
                   (Metrics.mkBaselineRow (Metrics.performance_baselines_seq d + 1)
                      crate bench duration (Sqlite.numeric_affinity now)
                      (Some commit) true) = true).
  { unfold Metrics.is_active_for. simpl.
    rewrite !bool_decide_eq_true_2; reflexivity. }
  split; [|split; [|exact Hfit]].
  - rewrite List.filter_app, deactivate_is_active_for. simpl. rewrite Hnew. reflexivity.
  - pose proof (deactivate_is_active_for crate bench (Metrics.performance_baselines d)) as Hf.
    induction (map (Metrics.deactivate crate bench) (Metrics.performance_baselines d))
      as [|row rows IH]; simpl in *.
    + rewrite Hnew. reflexivity.
    + destruct (Metrics.is_active_for crate bench row); [discriminate|]. apply IH, Hf.
Qed.

Lemma NoDup_map_eq {A B : Type} (f : A -> B) (l : list A) x y :
  NoDup (map f l) -> In x l -> In y l -> f x = f y -> x = y.
Proof.
  induction l as [|a l IH]; simpl; intros Hnd Hx Hy Hf; [contradiction|].
  apply NoDup_cons in Hnd as [Hna Hnd].
  destruct Hx as [->|Hx], Hy as [->|Hy]; auto.
  - exfalso. apply Hna. rewrite Hf. apply list_elem_of_In, in_map, Hy.
  - exfalso. apply Hna. rewrite <- Hf. apply list_elem_of_In, in_map, Hx.
Qed.

(** Once a pair has an active and an inactive row, deactivating the
    active one collides with the inactive one on
    [UNIQUE(crate_name, benchmark_name, is_active)]. *)
Lemma set_baseline_raises_with_two_rows d crate bench duration commit now r1 r2 :
  In r1 (Metrics.performance_baselines d) ->
  In r2 (Metrics.performance_baselines d) ->
  Metrics.baseline_key r1 = (crate, bench, true) ->
  Metrics.baseline_key r2 = (crate, bench, false) ->
  Metrics.set_baseline d crate bench duration commit now = Raise IntegrityError.
Proof.
  intros H1 H2 K1 K2. apply set_baseline_raises. rewrite map_map. intros Hnd.
  assert (r1 = r2) as ->.
  { eapply NoDup_map_eq; [exact Hnd | exact H1 | exact H2 |].
    unfold Metrics.baseline_key, Metrics.deactivate in *.
    injection K1 as -> -> E1. injection K2 as E2 E3 E4.
    rewrite E2, E3, !bool_decide_eq_true_2 by reflexivity. simpl. congruence. }
  congruence.
Qed.

(** ** Exclusivity of the active baseline *)

Lemma NoDup_map_filter {A B : Type} (g : A -> B) (f : A -> bool) l :
  NoDup (map g l) -> NoDup (map g (List.filter f l)).
Proof.
  induction l as [|a l IH]; simpl; intros Hnd; [constructor|].
  apply NoDup_cons in Hnd as [Hna Hnd]. destruct (f a); simpl; [|auto].
  apply NoDup_cons. split; [|auto].
  intros Hin. apply Hna. apply list_elem_of_In in Hin. apply list_elem_of_In.
  apply in_map_iff in Hin as (x & Hx & Hin). apply List.filter_In in Hin as [Hin _].
  apply in_map_iff. eauto.
Qed.

Lemma deactivate_inactive crate bench row :
  Metrics.is_active_for crate bench row = false ->
  Metrics.baseline_key (Metrics.deactivate crate bench row) = Metrics.baseline_key row.
Proof.
  unfold Metrics.is_active_for, Metrics.deactivate, Metrics.baseline_key.
  destruct (bool_decide (Metrics.b_crate_name row = crate)
            && bool_decide (Metrics.b_benchmark_name row = bench)); simpl;
    [intros ->|]; reflexivity.
Qed.

Lemma is_active_for_key crate bench row :
  Metrics.is_active_for crate bench row = true ->
  Metrics.baseline_key row = (crate, bench, true).
Proof.
  unfold Metrics.is_active_for, Metrics.baseline_key. intros H.
  apply andb_true_iff in H as [H ->].
  apply andb_true_iff in H as [->%bool_decide_eq_true ->%bool_decide_eq_true].
  reflexivity.
Qed.

(** Under the UNIQUE constraint a pair has at most one active row. *)
Lemma active_rows_at_most_one d crate bench :
  Baselines.unique d ->
  (length (List.filter (Metrics.is_active_for crate bench)
                       (Metrics.performance_baselines d)) <= 1)%nat.
Proof.
  unfold Baselines.unique. intros Hu.
  pose proof (NoDup_map_filter Metrics.baseline_key
                (Metrics.is_active_for crate bench) _ Hu) as Hf.
  destruct (List.filter (Metrics.is_active_for crate bench)
                        (Metrics.performance_baselines d)) as [|r1 [|r2 rest]] eqn:F;
    simpl; try lia.
  exfalso.
  assert (H1 : Metrics.is_active_for crate bench r1 = true).
  { eapply proj2, List.filter_In. rewrite F. left. reflexivity. }
  assert (H2 : Metrics.is_active_for crate bench r2 = true).
  { eapply proj2, List.filter_In. rewrite F. right. left. reflexivity. }
  simpl in Hf. rewrite (is_active_for_key _ _ _ H1), (is_active_for_key _ _ _ H2) in Hf.
  apply NoDup_cons in Hf as [Hf _]. apply Hf. left.
Qed.

(** An UPDATE that collides had an active row to deactivate. *)
Lemma collision_has_active d crate bench :
  Baselines.unique d ->
  ~ NoDup (map Metrics.baseline_key
               (map (Metrics.deactivate crate bench) (Metrics.performance_baselines d))) ->
  List.filter (Metrics.is_active_for crate bench) (Metrics.performance_baselines d) <> [].
Proof.
  unfold Baselines.unique. intros Hu Hnd F. apply Hnd.
  replace (map Metrics.baseline_key
             (map (Metrics.deactivate crate bench) (Metrics.performance_baselines d)))
    with (map Metrics.baseline_key (Metrics.performance_baselines d)); [exact Hu|].
  rewrite map_map. apply map_ext_in. intros row Hrow. symmetry.
  apply deactivate_inactive. apply not_true_iff_false. intros Hact.
  assert (Hin : In row (List.filter (Metrics.is_active_for crate bench)
                          (Metrics.performance_baselines d)))
    by (apply List.filter_In; auto).
  rewrite F in Hin. inversion Hin.
Qed.

(** Whether a [set_baseline] call commits or raises [IntegrityError],
    the stored table then has exactly one active row for the pair,
    provided the table satisfied its UNIQUE constraint before the call;
    a call that raises [OverflowError] leaves the table as it was. *)
Lemma set_baseline_exclusive d crate bench duration commit now :
  Baselines.unique d ->
  let outcome := Metrics.set_baseline d crate bench duration commit now in
  outcome <> Raise OverflowError ->
  length (List.filter (Metrics.is_active_for crate bench)
                      (Metrics.performance_baselines (Baselines.after d outcome)))
  = 1%nat.
Proof.
  intros Hu. cbv zeta.
  destruct (set_baseline_outcome d crate bench duration commit now)
    as [[Hnd E] | [(_ & _ & E) | (_ & _ & E)]]; intros Hno.
  - rewrite E. simpl.
    pose proof (active_rows_at_most_one d crate bench Hu).
    pose proof (collision_has_active d crate bench Hu Hnd).
    destruct (List.filter _ _); simpl in *; [congruence | lia].
  - congruence.
  - destruct (set_baseline_activates _ _ _ _ _ _ _ E) as [F _].
    rewrite E. simpl Baselines.after. rewrite F. reflexivity.
Qed.

(** C2.  From the third [set_baseline] call for a pair on, the code does
    not deactivate and activate anything: the pair then has one inactive
    and one active row, the UPDATE would produce a second inactive row,
    [UNIQUE(crate_name, benchmark_name, is_active)] rejects it, the call
    raises [sqlite3.IntegrityError] and the previous baseline stays the
    active one.  On a fresh store the first two calls, with durations
    that fit 64 bits, succeed and the third one raises. *)
Theorem C2_third_set_baseline_raises_IntegrityError :
  (forall d crate bench duration commit now r1 r2,
      In r1 (Metrics.performance_baselines d) ->
      In r2 (Metrics.performance_baselines d) ->
      Metrics.baseline_key r1 = (crate, bench, true) ->
      Metrics.baseline_key r2 = (crate, bench, false) ->
      Metrics.set_baseline d crate bench duration commit now = Raise IntegrityError) /\
  (forall crate bench n1 n2 n3 c1 c2 c3 t1 t2 t3,
      in_int64 n1 = true ->
      in_int64 n2 = true ->
      exists s1 s2,
        Metrics.set_baseline Metrics.init_database crate bench n1 c1 t1 = Ok s1 /\
        Metrics.set_baseline s1 crate bench n2 c2 t2 = Ok s2 /\
        Metrics.set_baseline s2 crate bench n3 c3 t3 = Raise IntegrityError /\
        Metrics.get_baseline s2 crate bench = Some (n2, Some c2)).
Proof.
  split; [intros d crate bench duration commit now r1 r2; apply set_baseline_raises_with_two_rows|].
  intros crate bench n1 n2 n3 c1 c2 c3 t1 t2 t3 Hn1 Hn2.
  eexists. eexists.
  split; [apply set_baseline_ok; [unfold Metrics.init_database; simpl; constructor
                                 | exact Hn1]|].
  split; [apply set_baseline_ok; [simpl; apply NoDup_singleton | exact Hn2]|].
  simpl. unfold Metrics.deactivate at 1 2. simpl.
  rewrite !bool_decide_eq_true_2 by reflexivity. simpl.
  split.
  - eapply set_baseline_raises_with_two_rows; simpl.
    + right. left. reflexivity.
    + left. reflexivity.
    + reflexivity.
    + reflexivity.
  - unfold Metrics.get_baseline, Metrics.is_active_for. simpl.
    rewrite !bool_decide_eq_true_2 by reflexivity. reflexivity.
Qed.

(** Three calls for the pair ("x", "y") on a fresh store. *)
Lemma C2_third_call_witness :
  Metrics.set_baseline
    {| Metrics.benchmark_results := [];
       Metrics.benchmark_results_seq := 0;
       Metrics.performance_baselines :=
         [Metrics.mkBaselineRow 1 "x" "y" 100 (CText "t1") (Some "v1") false;
          Metrics.mkBaselineRow 2 "x" "y" 200 (CText "t2") (Some "v2") true];
       Metrics.performance_baselines_seq := 2;
       Metrics.regression_alerts := [];
       Metrics.regression_alerts_seq := 0 |}
    "x" "y" 300 "v3" "t3"
  = Raise IntegrityError /\
  exists s1 s2,
    Metrics.set_baseline Metrics.init_database "x" "y" 100 "v1" "t1" = Ok s1 /\
    Metrics.set_baseline s1 "x" "y" 200 "v2" "t2" = Ok s2 /\
    Metrics.set_baseline s2 "x" "y" 300 "v3" "t3" = Raise IntegrityError /\
    Metrics.get_baseline s2 "x" "y" = Some (200, Some "v2").
Proof.
  split.
  - apply (proj1 C2_third_set_baseline_raises_IntegrityError _ "x" "y" 300 "v3" "t3"
             (Metrics.mkBaselineRow 2 "x" "y" 200 (CText "t2") (Some "v2") true)
             (Metrics.mkBaselineRow 1 "x" "y" 100 (CText "t1") (Some "v1") false)).
    + right. left. reflexivity.
    + left. reflexivity.
    + reflexivity.
    + reflexivity.
  - apply (proj2 C2_third_set_baseline_raises_IntegrityError
             "x" "y" 100 200 300 "v1" "v2" "v3" "t1" "t2" "t3"); reflexivity.
Defined.


(** ** Upsert of measurements *)

Section Upsert.

Context {A K : Type} `{EqDecision K} (key : A -> K).

Local Abbreviation others k := (fun a => negb (bool_decide (key a = k))).

Lemma others_all k l :
  ~ In k (map key l) -> List.filter (others k) l = l.
Proof.
  induction l as [|a l IH]; simpl; intros H; [reflexivity|].
  rewrite bool_decide_eq_false_2 by (intros E; apply H; auto).
  simpl. f_equal. apply IH. intros Hin. apply H. auto.
Qed.

Lemma others_length k l :
  NoDup (map key l) -> In k (map key l) ->
  S (length (List.filter (others k) l)) = length l.
Proof.
  induction l as [|a l IH]; simpl; intros Hnd Hin; [contradiction|].
  apply NoDup_cons in Hnd as [Hna Hnd]. rewrite list_elem_of_In in Hna.
  destruct (decide (key a = k)) as [E|E].
  - rewrite bool_decide_eq_true_2 by exact E. simpl.
    rewrite others_all by congruence. reflexivity.
  - rewrite bool_decide_eq_false_2 by exact E. simpl. f_equal.
    apply IH; [exact Hnd|]. destruct Hin as [Hin|Hin]; [contradiction | exact Hin].
Qed.

Lemma others_keys k l k' :
  In k' (map key (List.filter (others k) l)) <-> In k' (map key l) /\ k' <> k.
Proof.
  rewrite !in_map_iff. split.
  - intros (a & <- & Ha). apply List.filter_In in Ha as [Ha Hk].
    apply negb_true_iff, bool_decide_eq_false in Hk.
    split; [exists a; auto | exact Hk].
  - intros [(a & <- & Ha) Hk]. exists a. split; [reflexivity|].
    apply List.filter_In. split; [exact Ha|].
    apply negb_true_iff, bool_decide_eq_false. exact Hk.
Qed.

Lemma others_NoDup k l :
  NoDup (map key l) -> NoDup (map key (List.filter (others k) l)).
Proof.
  induction l as [|a l IH]; simpl; intros Hnd; [constructor|].
  apply NoDup_cons in Hnd as [Hna Hnd]. rewrite list_elem_of_In in Hna.
  destruct (negb (bool_decide (key a = k))); simpl; [|auto].
  apply NoDup_cons. split; [|auto].
  rewrite list_elem_of_In, others_keys. tauto.
Qed.

Lemma replace_NoDup k l new :
  key new = k -> NoDup (map key l) ->
  NoDup (map key (List.filter (others k) l ++ [new])).
Proof.
  intros Hk Hnd. rewrite map_app. simpl. apply NoDup_app.
  split; [apply others_NoDup, Hnd|]. split; [|apply NoDup_singleton].
  intros k' Hin [<-|[]]%list_elem_of_In.
  apply list_elem_of_In, others_keys in Hin. tauto.
Qed.

Lemma replace_keys k l new k' :
  key new = k ->
  In k' (map key (List.filter (others k) l ++ [new])) <-> In k' (map key l) \/ k' = k.
Proof.
  intros Hk. rewrite map_app, in_app_iff, others_keys. simpl.
  destruct (decide (k' = k)) as [->|E]; intuition congruence.
Qed.

Lemma replace_selected k l new :
  key new = k ->
  List.filter (fun a => bool_decide (key a = k)) (List.filter (others k) l ++ [new])
  = [new].
Proof.
  intros Hk. rewrite List.filter_app. simpl.
  rewrite bool_decide_eq_true_2 by exact Hk.
  replace (List.filter (fun a => bool_decide (key a = k)) (List.filter (others k) l))
    with (@nil A); [reflexivity|].
  symmetry. induction l as [|a l IH]; simpl; [reflexivity|].
  destruct (decide (key a = k)) as [E|E].
  - rewrite bool_decide_eq_true_2 by exact E. simpl. exact IH.
  - rewrite bool_decide_eq_false_2 by exact E. simpl.
    rewrite bool_decide_eq_false_2 by exact E. exact IH.
Qed.

End Upsert.

Lemma replace_row_rows d r :
  Metrics.benchmark_results (Metrics.replace_row d r)
  = (List.filter
       (fun row => negb (bool_decide (Metrics.row_identity row = Metrics.identity r)))
       (Metrics.benchmark_results d)
     ++ [Metrics.row_of (Metrics.benchmark_results_seq d + 1) r])%list.
Proof. reflexivity. Qed.

Lemma replace_row_unique d r :
  Metrics.unique_results d -> Metrics.unique_results (Metrics.replace_row d r).
Proof.
  unfold Metrics.unique_results. rewrite replace_row_rows.
  apply replace_NoDup. reflexivity.
Qed.

Lemma replace_row_stored d r r' :
  Metrics.stored (Metrics.replace_row d r) r' <->
  Metrics.stored d r' \/ Metrics.identity r' = Metrics.identity r.
Proof.
  unfold Metrics.stored. rewrite replace_row_rows.
  apply replace_keys. reflexivity.
Qed.

Lemma replace_row_length d r :
  Metrics.unique_results d -> Metrics.stored d r ->
  length (Metrics.benchmark_results (Metrics.replace_row d r))
  = length (Metrics.benchmark_results d).
Proof.
  intros Hu Hs. rewrite replace_row_rows, length_app. simpl.
  rewrite <- (others_length Metrics.row_identity (Metrics.identity r)
                (Metrics.benchmark_results d) Hu Hs). lia.
Qed.

Lemma replace_row_rows_of d r :
  Metrics.rows_of (Metrics.replace_row d r) r
  = [Metrics.row_of (Metrics.benchmark_results_seq d + 1) r].
Proof.
  unfold Metrics.rows_of. rewrite replace_row_rows.
  apply (replace_selected Metrics.row_identity). reflexivity.
Qed.


(** A batch whose integers can all be bound is committed: one
    replacement per record, in order. *)
Lemma insert_results_ok rs :
  forall d,
    (forall r, In r rs -> Metrics.bindable r = true) ->
    Metrics.insert_results d rs = Ok (fold_left Metrics.replace_row rs d).
Proof.
  induction rs as [|r rs IH]; intros d Hb; simpl; [reflexivity|].
  unfold Metrics.insert_or_replace. rewrite (Hb r (or_introl eq_refl)). simpl.
  apply IH. intros r' Hr'. apply Hb. right. exact Hr'.
Qed.

(** A batch with an integer that cannot be bound raises and commits
    nothing. *)
Lemma insert_results_overflow rs :
  forall d r,
    In r rs -> Metrics.bindable r = false ->
    Metrics.insert_results d rs = Raise OverflowError.
Proof.
  induction rs as [|r0 rs IH]; intros d r Hin Hb; [inversion Hin|].
  simpl. unfold Metrics.insert_or_replace.
  destruct (Metrics.bindable r0) eqn:B0; [|reflexivity]. simpl.
  destruct Hin as [->|Hin]; [congruence|]. exact (IH _ r Hin Hb).
Qed.

Lemma insert_results_outcome d rs :
  ((forall r, In r rs -> Metrics.bindable r = true) /\
   Metrics.insert_results d rs = Ok (fold_left Metrics.replace_row rs d)) \/
  ((exists r, In r rs /\ Metrics.bindable r = false) /\
   Metrics.insert_results d rs = Raise OverflowError).
Proof.
  destruct (forallb Metrics.bindable rs) eqn:F.
  - left. rewrite forallb_forall in F. split; [exact F|].
    apply insert_results_ok, F.
  - right.
    assert (Hex : exists r, In r rs /\ Metrics.bindable r = false).
    { induction rs as [|r0 rs IH]; simpl in F; [discriminate|].
      destruct (Metrics.bindable r0) eqn:B0; simpl in F.
      - destruct (IH F) as (r & Hin & Hb). exists r. split; [right|]; assumption.
      - exists r0. split; [left; reflexivity | exact B0]. }
    split; [exact Hex|]. destruct Hex as (r & Hin & Hb).
    exact (insert_results_overflow rs d r Hin Hb).
Qed.

Lemma fold_replace_unique rs :
  forall d, Metrics.unique_results d ->
            Metrics.unique_results (fold_left Metrics.replace_row rs d).
Proof.
  induction rs as [|r rs IH]; intros d Hu; simpl; [exact Hu|].
  apply IH, replace_row_unique, Hu.
Qed.

Lemma fold_replace_length rs :
  forall d,
    Metrics.unique_results d ->
    (forall r, In r rs -> Metrics.stored d r) ->
    length (Metrics.benchmark_results (fold_left Metrics.replace_row rs d))
    = length (Metrics.benchmark_results d).
Proof.
  induction rs as [|r rs IH]; intros d Hu Hs; simpl; [reflexivity|].
  rewrite IH.
  - apply replace_row_length; [exact Hu | apply Hs; left; reflexivity].
  - apply replace_row_unique, Hu.
  - intros r' Hr'. apply replace_row_stored. left. apply Hs. right. exact Hr'.
Qed.

(** The UNIQUE constraint holds in a fresh store and after every
    [insert_results]. *)
Lemma init_database_unique : Metrics.unique_results Metrics.init_database.
Proof. constructor. Qed.

Lemma insert_results_unique d rs :
  Metrics.unique_results d ->
  Metrics.unique_results (Baselines.after d (Metrics.insert_results d rs)).
Proof.
  intros Hu. destruct (insert_results_outcome d rs) as [[_ ->] | [_ ->]]; simpl.
  - apply fold_replace_unique, Hu.
  - exact Hu.
Qed.

(** ** Timestamps that are stored as they are *)

Lemma plain_skip_spaces s :
  Store.plain s = true -> Store.plain (Sqlite.skip_spaces s) = true.
Proof.
  induction s as [|c s IH]; simpl; [auto|].
  destruct (Sqlite.is_space c) eqn:E; simpl; [exact IH|].
  intros H. simpl. rewrite E. exact H.
Qed.

Lemma plain_sign s :
  Store.plain s = true -> Store.plain (snd (Sqlite.sign s)) = true.
Proof.
  destruct s as [|c s]; simpl; [auto|].
  destruct (Ascii.eqb c "-") eqn:E1; simpl.
  - rewrite !orb_true_r. simpl. auto.
  - destruct (Ascii.eqb c "+") eqn:E2; simpl.
    + rewrite !orb_true_r. simpl. auto.
    + rewrite E1, E2. auto.
Qed.

Lemma plain_digits s :
  forall acc count,
    Store.plain s = true -> Store.plain (snd (Sqlite.digits acc count s)) = true.
Proof.
  induction s as [|c s IH]; intros acc count; simpl; [auto|].
  destruct (Sqlite.digit_of c) eqn:E; simpl.
  - rewrite orb_true_r. simpl. apply IH.
  - rewrite E. auto.
Qed.

Lemma plain_exponent_digits s :
  forall acc count,
    Store.plain s = true ->
    Store.plain (snd (Sqlite.exponent_digits acc count s)) = true.
Proof.
  induction s as [|c s IH]; intros acc count; simpl; [auto|].
  destruct (Sqlite.digit_of c) eqn:E; simpl.
  - rewrite orb_true_r. simpl. apply IH.
  - rewrite E. auto.
Qed.

Lemma plain_not_empty s : Store.plain s = true -> s <> EmptyString.
Proof. intros H ->. discriminate. Qed.

Lemma plain_tail c s :
  Ascii.eqb c "." || Ascii.eqb c "e" || Ascii.eqb c "E" = true ->
  Store.plain (String c s) = true -> Store.plain s = true.
Proof.
  simpl. intros Hc.
  replace (Sqlite.is_space c
           || match Sqlite.digit_of c with Some _ => true | None => false end
           || Ascii.eqb c "+" || Ascii.eqb c "-" || Ascii.eqb c "."
           || Ascii.eqb c "e" || Ascii.eqb c "E") with true; [auto|].
  symmetry.
  destruct (Ascii.eqb c "."), (Ascii.eqb c "e"), (Ascii.eqb c "E");
    try discriminate; rewrite ?orb_true_r; reflexivity.
Qed.

(** A text with a character that no number has is no literal. *)
Lemma parse_plain s : Store.plain s = true -> Sqlite.parse s = None.
Proof.
  intros H. apply plain_skip_spaces in H. unfold Sqlite.parse.
  destruct (Sqlite.skip_spaces s) as [|c0 s0] eqn:E0; [reflexivity|].
  apply plain_sign in H.
  destruct (Sqlite.sign (String c0 s0)) as [neg s1]. simpl snd in H.
  apply (plain_digits s1 0 0) in H.
  destruct (Sqlite.digits 0 0 s1) as [[int_part n_int] s2]. simpl snd in H.
  assert (H3 : forall sig n_frac s3 point,
             match s2 with
             | String c s' =>
               if Ascii.eqb c "." then
                 let '(v, n, rest) := Sqlite.digits int_part 0 s' in (v, n, rest, true)
               else (int_part, 0, s2, false)
             | EmptyString => (int_part, 0, s2, false)
             end = (sig, n_frac, s3, point) ->
             Store.plain s3 = true).
  { intros sig n_frac s3 point. destruct s2 as [|c s']; [intros [= _ _ <- _]; exact H|].
    destruct (Ascii.eqb c ".") eqn:Ec.
    - assert (Hs' : Store.plain s' = true)
        by (apply (plain_tail c); [rewrite Ec; reflexivity | exact H]).
      apply (plain_digits s' int_part 0) in Hs'.
      destruct (Sqlite.digits int_part 0 s') as [[v n] rest].
      intros [= _ _ <- _]. exact Hs'.
    - intros [= _ _ <- _]. exact H. }
  destruct (match s2 with
            | String c s' =>
              if Ascii.eqb c "." then
                let '(v, n, rest) := Sqlite.digits int_part 0 s' in (v, n, rest, true)
              else (int_part, 0, s2, false)
            | EmptyString => (int_part, 0, s2, false)
            end) as [[[sig n_frac] s3] point] eqn:E3.
  specialize (H3 _ _ _ _ eq_refl). clear E3 H.
  assert (H4 : forall ex s4 has_exponent exponent_valid,
             match s3 with
             | String c s' =>
               if Ascii.eqb c "e" || Ascii.eqb c "E" then
                 let '(eneg, s'') := Sqlite.sign s' in
                 let '(e, n, rest) := Sqlite.exponent_digits 0 0 s'' in
                 ((if eneg then - e else e), rest, true, (0 <? n)%Z)
               else (0, s3, false, true)
             | EmptyString => (0, s3, false, true)
             end = (ex, s4, has_exponent, exponent_valid) ->
             Store.plain s4 = true).
  { intros ex s4 he ev. destruct s3 as [|c s']; [intros [= _ <- _ _]; exact H3|].
    destruct (Ascii.eqb c "e" || Ascii.eqb c "E") eqn:Ec.
    - assert (Hs' : Store.plain s' = true).
      { apply (plain_tail c); [|exact H3].
        destruct (Ascii.eqb c "."); simpl; [reflexivity | exact Ec]. }
      apply plain_sign in Hs'.
      destruct (Sqlite.sign s') as [eneg s'']. simpl snd in Hs'.
      apply (plain_exponent_digits s'' 0 0) in Hs'.
      destruct (Sqlite.exponent_digits 0 0 s'') as [[e n] rest].
      intros [= _ <- _ _]. exact Hs'.
    - intros [= _ <- _ _]. exact H3. }
  destruct (match s3 with
            | String c s' =>
              if Ascii.eqb c "e" || Ascii.eqb c "E" then
                let '(eneg, s'') := Sqlite.sign s' in
                let '(e, n, rest) := Sqlite.exponent_digits 0 0 s'' in
                ((if eneg then - e else e), rest, true, (0 <? n)%Z)
              else (0, s3, false, true)
            | EmptyString => (0, s3, false, true)
            end) as [[[ex s4] he] ev] eqn:E4.
  specialize (H4 _ _ _ _ eq_refl). clear E4 H3.
  apply plain_skip_spaces in H4.
  destruct (Sqlite.skip_spaces s4); [discriminate | reflexivity].
Qed.

Lemma numeric_affinity_plain s :
  Store.plain s = true -> Sqlite.numeric_affinity s = CText s.
Proof.
  intros H. unfold Sqlite.numeric_affinity. rewrite (parse_plain s H). reflexivity.
Qed.






(** ** Trend report without data *)

Lemma filter_none {A : Type} (f : A -> bool) (l : list A) :
  (forall x, In x l -> f x = false) -> List.filter f l = [].
Proof.
  induction l as [|a l IH]; simpl; intros H; [reflexivity|].
  rewrite (H a) by (left; reflexivity). apply IH. intros x Hx. apply H. right. exact Hx.
Qed.

Lemma minus_days_raises now days :
  Datetime.minus_days now days = Raise OverflowError <->
  999999999 < Z.abs days \/
  Datetime.ordinal now - days < 1 \/ Datetime.MAXORDINAL < Datetime.ordinal now - days.
Proof.
  unfold Datetime.minus_days.
  destruct (Z.ltb_spec 999999999 (Z.abs days)); [tauto|].
  cbv zeta.
  destruct (Z.leb_spec 1 (Datetime.ordinal now - days));
    destruct (Z.leb_spec (Datetime.ordinal now - days) Datetime.MAXORDINAL);
    simpl; split; try tauto; try discriminate; intros; lia.
Qed.

Lemma minus_days_exception now days e :
  Datetime.minus_days now days = Raise e -> e = OverflowError.
Proof.
  unfold Datetime.minus_days.
  destruct (_ <? _)%Z; [intros [= <-]; reflexivity|].
  cbv zeta. destruct (_ && _); [discriminate | intros [= <-]; reflexivity].
Qed.

(** C9.  The window of the report starts at [datetime.now() -
    timedelta(days=days)], which is computed before the store is read:
    when that date is out of the range of [datetime], as for 1000000
    days, [generate_trend_report] ends with an unhandled [OverflowError]
    whatever the store holds, also for a crate without any measurement.
    When the start date can be computed and no stored measurement of the
    crate has its timestamp in the window, the report is the error
    dictionary naming the crate. *)
Theorem C9_trend_report_without_data :
  (forall lib d crate days now,
      999999999 < Z.abs days \/
      Datetime.ordinal now - days < 1 \/
      Datetime.MAXORDINAL < Datetime.ordinal now - days ->
      Metrics.generate_trend_report lib d crate days now = Raise OverflowError) /\
  (forall lib d crate,
      Metrics.generate_trend_report lib d crate 1000000 Scenario.noon
      = Raise OverflowError) /\
  (forall lib d crate days now start_date,
      Datetime.minus_days now days = Ok start_date ->
      (forall row, In row (Metrics.benchmark_results d) ->
         Trend.in_window crate (Datetime.isoformat start_date) (Datetime.isoformat now) row
         = false) ->
      Metrics.generate_trend_report lib d crate days now = Ok (Metrics.TrendError crate)) /\
  (forall lib crate days now start_date,
      Datetime.minus_days now days = Ok start_date ->
      Metrics.generate_trend_report lib Metrics.init_database crate days now
      = Ok (Metrics.TrendError crate)).
Proof.
  split; [|split; [|split]].
  - intros lib d crate days now H. apply minus_days_raises in H.
    unfold Metrics.generate_trend_report. rewrite H. reflexivity.
  - intros lib d crate. reflexivity.
  - intros lib d crate days now start_date Hs H.
    unfold Metrics.generate_trend_report, Metrics.select_trend_rows.
    rewrite Hs. cbn [bind]. rewrite filter_none; [reflexivity|]. exact H.
  - intros lib crate days now start_date Hs.
    unfold Metrics.generate_trend_report. rewrite Hs. reflexivity.
Qed.

(** A window of 1000000 days, an unknown crate, and a known crate
    outside the window. *)
Lemma C9_no_data_witness :
  Metrics.generate_trend_report Scenario.unused Scenario.two_versions "unknown"
    1000000 Scenario.noon
  = Raise OverflowError /\
  Datetime.isoformat Scenario.noon = "2024-02-14T12:00:00" /\
  Metrics.generate_trend_report Scenario.unused Scenario.two_versions "unknown" 30
    Scenario.noon
  = Ok (Metrics.TrendError "unknown") /\
  Metrics.generate_trend_report Scenario.unused Scenario.two_versions "m" 7
    (Datetime.mkDatetime 739296 12 0 0 0)
  = Ok (Metrics.TrendError "m").
Proof.
  destruct C9_trend_report_without_data as (H1 & _ & H2 & _).
  split; [|split; [|split]].
  - apply H1. right. left. vm_compute. reflexivity.
  - vm_compute. reflexivity.
  - apply (H2 _ _ _ _ _ (Datetime.mkDatetime 738900 12 0 0 0)); [reflexivity|].
    intros row Hin. apply not_true_iff_false. intros Hw.
    unfold Trend.in_window in Hw.
    apply andb_true_iff in Hw as [Hw _]. apply andb_true_iff in Hw as [Hc _].
    apply bool_decide_eq_true in Hc.
    vm_compute in Hin.
    repeat (destruct Hin as [<-|Hin]; [discriminate Hc|]). destruct Hin.
  - apply (H2 _ _ _ _ _ (Datetime.mkDatetime 739289 12 0 0 0)); [reflexivity|].
    intros row Hin. vm_compute in Hin.
    repeat (destruct Hin as [<-|Hin]; [vm_compute; reflexivity|]). destruct Hin.
Defined.

(** ** Version comparison *)

Lemma group_keys_In k l : In k (Metrics.group_keys l) -> In k l.
Proof.
  induction l as [|k0 l IH]; simpl; [auto|].
  intros [->|H]; [auto|]. apply List.filter_In in H as [H _]. auto.
Qed.

Lemma insert_pair_perm k l : Permutation (k :: l) (Metrics.insert_pair k l).
Proof.
  induction l as [|y l IH]; simpl; [reflexivity|].
  destruct (Metrics.pair_leb k y); [reflexivity|].
  rewrite <- IH. apply perm_swap.
Qed.

Lemma sort_pairs_perm l : Permutation l (Metrics.sort_pairs l).
Proof.
  induction l as [|k l IH]; simpl; [reflexivity|].
  rewrite <- insert_pair_perm. constructor. exact IH.
Qed.

Lemma sort_pairs_In k l : In k (Metrics.sort_pairs l) <-> In k l.
Proof.
  split; apply Permutation_in; [symmetry|]; apply sort_pairs_perm.
Qed.

Lemma select_avg_In d commit b :
  In b (Metrics.select_avg d commit) ->
  exists row,
    In row (Metrics.benchmark_results d) /\
    Metrics.r_git_commit row = Some commit /\
    Metrics.r_crate_name row = Metrics.avg_crate_name b /\
    Metrics.r_benchmark_name row = Metrics.avg_benchmark_name b.
Proof.
  unfold Metrics.select_avg. intros H.
  apply in_map_iff in H as (k & <- & Hk).
  apply sort_pairs_In, group_keys_In in Hk.
  apply in_map_iff in Hk as (row & <- & Hrow).
  apply List.filter_In in Hrow as [Hin Hc]. apply bool_decide_eq_true in Hc.
  exists row. simpl. auto.
Qed.

Lemma merge_In base_data current_data c :
  In c (Metrics.merge base_data current_data) ->
  exists b c',
    In b base_data /\ In c' current_data /\
    Metrics.avg_crate_name c' = Metrics.avg_crate_name b /\
    Metrics.avg_benchmark_name c' = Metrics.avg_benchmark_name b /\
    c = Metrics.compare_rows b c'.
Proof.
  unfold Metrics.merge. intros H.
  apply in_flat_map in H as (b & Hb & H).
  apply in_map_iff in H as (c' & <- & Hc').
  apply List.filter_In in Hc' as [Hc' Hk].
  apply andb_true_iff in Hk as [?%bool_decide_eq_true ?%bool_decide_eq_true].
  exists b, c'. auto.
Qed.

Lemma classification_finite c q :
  Metrics.change_percent c = Fin q ->
  (Metrics.is_improvement c = true <-> q < -5)%Q /\
  (Metrics.is_regression c = true <-> 5 < q)%Q /\
  (Metrics.is_stable c = true <-> -5 <= q /\ q <= 5)%Q.
Proof.
  intros E. unfold Metrics.is_improvement, Metrics.is_regression, Metrics.is_stable.
  rewrite E. simpl. split; [apply Qgtb_lt|]. split; [apply Qgtb_lt|].
  rewrite Qle_bool_iff. apply (Qabs_Qle_condition q 5).
Qed.

(** C6, as the code has it.  On the data of the specification's example
    the report compares two pairs: A, at -4 percent, is counted as stable
    and not as an improvement; B, at +6 percent, is counted as a
    regression; C, measured
    under the current version only, is not compared.  In general a
    compared pair is an improvement iff its change is below -5, a
    regression iff it is above 5 and stable iff it is between -5 and 5,
    and every compared pair has a measurement under both versions. *)
Theorem C6_comparison_partition :
  (let report := Metrics.generate_comparison_report Scenario.two_versions
                   "base" "current" in
   map Metrics.c_benchmark_name (Metrics.details report) = ["A"; "B"] /\
   map (fun c => fval_eqb (Metrics.change_percent c) (-4)) (Metrics.details report)
   = [true; false] /\
   map (fun c => fval_eqb (Metrics.change_percent c) 6) (Metrics.details report)
   = [false; true] /\
   map Metrics.is_improvement (Metrics.details report) = [false; false] /\
   map Metrics.is_regression (Metrics.details report) = [false; true] /\
   map Metrics.is_stable (Metrics.details report) = [true; false] /\
   Metrics.total_comparisons report = 2%nat /\
   Metrics.improvements report = 0%nat /\
   Metrics.regressions report = 1%nat /\
   Metrics.stable report = 1%nat) /\
  (forall c q,
      Metrics.change_percent c = Fin q ->
      (Metrics.is_improvement c = true <-> q < -5)%Q /\
      (Metrics.is_regression c = true <-> 5 < q)%Q /\
      (Metrics.is_stable c = true <-> -5 <= q /\ q <= 5)%Q) /\
  (forall c,
      (Metrics.change_percent c = PInf ->
       Metrics.is_improvement c = false /\ Metrics.is_regression c = true /\
       Metrics.is_stable c = false) /\
      (Metrics.change_percent c = NInf ->
       Metrics.is_improvement c = true /\ Metrics.is_regression c = false /\
       Metrics.is_stable c = false) /\
      (Metrics.change_percent c = NaN ->
       Metrics.is_improvement c = false /\ Metrics.is_regression c = false /\
       Metrics.is_stable c = false)) /\
  (forall d base current,
      let report := Metrics.generate_comparison_report d base current in
      Metrics.total_comparisons report = length (Metrics.details report) /\
      Metrics.improvements report
      = length (List.filter Metrics.is_improvement (Metrics.details report)) /\
      Metrics.regressions report
      = length (List.filter Metrics.is_regression (Metrics.details report)) /\
      Metrics.stable report
      = length (List.filter Metrics.is_stable (Metrics.details report))) /\
  (forall d base current c,
      In c (Metrics.details (Metrics.generate_comparison_report d base current)) ->
      (exists row,
          In row (Metrics.benchmark_results d) /\
          Metrics.r_git_commit row = Some base /\
          Metrics.r_crate_name row = Metrics.c_crate_name c /\
          Metrics.r_benchmark_name row = Metrics.c_benchmark_name c) /\
      (exists row,
          In row (Metrics.benchmark_results d) /\
          Metrics.r_git_commit row = Some current /\
          Metrics.r_crate_name row = Metrics.c_crate_name c /\
          Metrics.r_benchmark_name row = Metrics.c_benchmark_name c)).
Proof.
  split; [|split; [|split; [|split]]].
  - vm_compute. repeat split; reflexivity.
  - apply classification_finite.
  - intros c. unfold Metrics.is_improvement, Metrics.is_regression, Metrics.is_stable.
    repeat split; rewrite H; reflexivity.
  - intros d base current. simpl. repeat split; reflexivity.
  - intros d base current c H. simpl in H.
    apply merge_In in H as (b & c' & Hb & Hc' & E1 & E2 & ->).
    apply select_avg_In in Hb as (row & ? & ? & ? & ?).
    apply select_avg_In in Hc' as (row' & ? & ? & ? & ?).
    split; [exists row | exists row']; simpl; repeat split; congruence.
Qed.

(** The last part of C6 at the store of the two versions: the compared
    row of B has measurements under both versions. *)
Lemma C6_comparison_witness :
  exists row,
    In row (Metrics.benchmark_results Scenario.two_versions) /\
    Metrics.r_git_commit row = Some "base" /\
    Metrics.r_crate_name row = "m" /\
    Metrics.r_benchmark_name row = "B".
Proof.
  destruct C6_comparison_partition as (_ & _ & _ & _ & H).
  pose (c := Metrics.compare_rows
               (Metrics.mkAvgRow "m" "B" (Metrics.sqlite_avg [100]))
               (Metrics.mkAvgRow "m" "B" (Metrics.sqlite_avg [106]))).
  assert (Hin : In c (Metrics.details
                        (Metrics.generate_comparison_report Scenario.two_versions
                           "base" "current"))).
  { right. left. vm_compute. reflexivity. }
  destruct (H _ _ _ c Hin) as [Hbase _]. exact Hbase.
Defined.

(** The statement of C6 fails on its own data: A, at -4 percent, is not
    counted as an improvement; the report has no improvement at all. *)
Lemma C6_A_is_not_an_improvement_counterexample :
  let report := Metrics.generate_comparison_report Scenario.two_versions
                  "base" "current" in
  Metrics.improvements report = 0%nat /\
  map (fun c => (Metrics.c_benchmark_name c,
                 fval_eqb (Metrics.change_percent c) (-4),
                 Metrics.is_improvement c))
      (List.filter (fun c => bool_decide (Metrics.c_benchmark_name c = "A"))
                   (Metrics.details report))
  = [("A", true, false)].
Proof.
  vm_compute. split; reflexivity.
Qed.


(** ** Sign of the least-squares slope *)

Lemma dsum_expand x0 y0 l :
  Ols.dsum x0 y0 l
  = Ols.sum_xy l - x0 * Ols.sum_y l - y0 * Ols.sum_x l
    + Z.of_nat (length l) * x0 * y0.
Proof.
  unfold Ols.dsum, Ols.sum_xy, Ols.sum_x, Ols.sum_y, Metrics.sumZ.
  induction l as [|[x y] l IH]; [simpl; ring|].
  cbn [map fold_right length fst snd]. rewrite IH, Nat2Z.inj_succ. ring.
Qed.

Lemma cross_cons x0 y0 l :
  Ols.cross ((x0, y0) :: l) = Ols.cross l + Ols.dsum x0 y0 l.
Proof.
  rewrite dsum_expand. unfold Ols.cross, Ols.sum_xy, Ols.sum_x, Ols.sum_y, Metrics.sumZ.
  cbn [map fold_right length fst snd]. rewrite Nat2Z.inj_succ. ring.
Qed.

Lemma dsum_rising x0 y0 l :
  Forall (Ols.rising (x0, y0)) l ->
  0 <= Ols.dsum x0 y0 l /\ (l <> [] -> 0 < Ols.dsum x0 y0 l).
Proof.
  unfold Ols.dsum, Metrics.sumZ. induction 1 as [|[x y] l [Hx Hy] _ [IH _]];
    cbn [map fold_right fst snd] in *.
  - split; [lia | congruence].
  - assert (0 < (x - x0) * (y - y0)) by (apply Z.mul_pos_pos; lia).
    split; [lia | intros _; lia].
Qed.

Lemma dsum_falling x0 y0 l :
  Forall (Ols.falling (x0, y0)) l ->
  Ols.dsum x0 y0 l <= 0 /\ (l <> [] -> Ols.dsum x0 y0 l < 0).
Proof.
  unfold Ols.dsum, Metrics.sumZ. induction 1 as [|[x y] l [Hx Hy] _ [IH _]];
    cbn [map fold_right fst snd] in *.
  - split; [lia | congruence].
  - assert ((x - x0) * (y - y0) < 0) by (apply Z.mul_pos_neg; lia).
    split; [lia | intros _; lia].
Qed.

Lemma cross_rising l :
  StronglySorted Ols.rising l ->
  0 <= Ols.cross l /\ ((2 <= length l)%nat -> 0 < Ols.cross l).
Proof.
  induction 1 as [|[x0 y0] l _ [IH _] Hall].
  - split; [reflexivity | simpl; lia].
  - rewrite cross_cons. destruct (dsum_rising x0 y0 l Hall) as [H0 H1].
    split; [lia|]. intros Hlen.
    assert (l <> []) by (destruct l; [simpl in Hlen; lia | discriminate]).
    specialize (H1 ltac:(assumption)). lia.
Qed.

Lemma cross_falling l :
  StronglySorted Ols.falling l ->
  Ols.cross l <= 0 /\ ((2 <= length l)%nat -> Ols.cross l < 0).
Proof.
  induction 1 as [|[x0 y0] l _ [IH _] Hall].
  - split; [reflexivity | simpl; lia].
  - rewrite cross_cons. destruct (dsum_falling x0 y0 l Hall) as [H0 H1].
    split; [lia|]. intros Hlen.
    assert (l <> []) by (destruct l; [simpl in Hlen; lia | discriminate]).
    specialize (H1 ltac:(assumption)). lia.
Qed.

Lemma dsum_not_falling x0 y0 l :
  Forall (Trend.not_falling (x0, y0)) l -> 0 <= Ols.dsum x0 y0 l.
Proof.
  unfold Ols.dsum, Metrics.sumZ. induction 1 as [|[x y] l [Hx Hy] _ IH];
    cbn [map fold_right fst snd] in *; [lia|].
  assert (0 <= (x - x0) * (y - y0)) by (apply Z.mul_nonneg_nonneg; lia). lia.
Qed.

Lemma dsum_not_rising x0 y0 l :
  Forall (Trend.not_rising (x0, y0)) l -> Ols.dsum x0 y0 l <= 0.
Proof.
  unfold Ols.dsum, Metrics.sumZ. induction 1 as [|[x y] l [Hx Hy] _ IH];
    cbn [map fold_right fst snd] in *; [lia|].
  assert ((x - x0) * (y - y0) <= 0) by (apply Z.mul_nonneg_nonpos; lia). lia.
Qed.

Lemma cross_not_falling l : StronglySorted Trend.not_falling l -> 0 <= Ols.cross l.
Proof.
  induction 1 as [|[x0 y0] l _ IH Hall]; [reflexivity|].
  rewrite cross_cons. pose proof (dsum_not_falling x0 y0 l Hall). lia.
Qed.

Lemma cross_not_rising l : StronglySorted Trend.not_rising l -> Ols.cross l <= 0.
Proof.
  induction 1 as [|[x0 y0] l _ IH Hall]; [reflexivity|].
  rewrite cross_cons. pose proof (dsum_not_rising x0 y0 l Hall). lia.
Qed.

Lemma combine_sorted (R S : Z -> Z -> Prop) (T : Z * Z -> Z * Z -> Prop) xs :
  (forall p q, R (fst p) (fst q) -> S (snd p) (snd q) -> T p q) ->
  forall ys,
    StronglySorted R xs -> StronglySorted S ys ->
    StronglySorted T (combine xs ys).
Proof.
  intros HT. induction xs as [|x xs IH]; intros [|y ys] Hx Hy; simpl; try constructor.
  - apply IH; [inversion Hx | inversion Hy]; assumption.
  - apply StronglySorted_inv in Hx as [_ Hx]. apply StronglySorted_inv in Hy as [_ Hy].
    rewrite List.Forall_forall in *. intros [x' y'] Hin. apply HT; simpl.
    + apply Hx. eapply in_combine_l, Hin.
    + apply Hy. eapply in_combine_r, Hin.
Qed.

Lemma map_sorted (R S : Z -> Z -> Prop) (f : Z -> Z) l :
  (forall x y, R x y -> S (f x) (f y)) ->
  StronglySorted R l -> StronglySorted S (map f l).
Proof.
  intros Hf. induction 1 as [|x l _ IH Hall]; simpl; constructor; [exact IH|].
  apply List.Forall_forall. intros y Hy. apply in_map_iff in Hy as (z & <- & Hz).
  rewrite List.Forall_forall in Hall. apply Hf, Hall, Hz.
Qed.

Lemma seq_sorted n : forall s, StronglySorted Z.lt (map Z.of_nat (seq s n)).
Proof.
  induction n as [|n IH]; intros s; simpl; constructor; [apply IH|].
  apply List.Forall_forall. intros z Hz.
  apply in_map_iff in Hz as (k & <- & Hk). apply in_seq in Hk. lia.
Qed.

Lemma arange_sorted n : StronglySorted Z.lt (Metrics.arange n).
Proof. apply seq_sorted. Qed.

Lemma arange_length n : length (Metrics.arange n) = n.
Proof. unfold Metrics.arange. rewrite length_map, length_seq. reflexivity. Qed.

Lemma combine_sum_x xs : forall ys,
  length xs = length ys -> Ols.sum_x (combine xs ys) = Metrics.sumZ xs.
Proof.
  unfold Ols.sum_x, Metrics.sumZ.
  induction xs as [|x xs IH]; intros [|y ys] H; simpl in *; try discriminate; [reflexivity|].
  f_equal. apply IH. lia.
Qed.

Lemma combine_sum_y xs : forall ys,
  length xs = length ys -> Ols.sum_y (combine xs ys) = Metrics.sumZ ys.
Proof.
  unfold Ols.sum_y, Metrics.sumZ.
  induction xs as [|x xs IH]; intros [|y ys] H; simpl in *; try discriminate; [reflexivity|].
  f_equal. apply IH. lia.
Qed.

Lemma dev_sum_expand mx my l :
  (Metrics.sumQ (map (fun p => (inject_Z (fst p) - mx) * (inject_Z (snd p) - my)) l)
   == inject_Z (Ols.sum_xy l) - mx * inject_Z (Ols.sum_y l) - my * inject_Z (Ols.sum_x l)
      + inject_Z (Z.of_nat (length l)) * mx * my)%Q.
Proof.
  unfold Ols.sum_xy, Ols.sum_x, Ols.sum_y, Metrics.sumZ, Metrics.sumQ.
  induction l as [|[x y] l IH]; cbn [map fold_right length fst snd].
  - ring.
  - rewrite IH, Nat2Z.inj_succ. unfold Z.succ.
    rewrite !inject_Z_plus, inject_Z_mult. ring.
Qed.

Lemma dev_sum_cross xs ys :
  length xs = length ys -> (0 < length xs)%nat ->
  (Metrics.dev_sum (Metrics.mean xs) (Metrics.mean ys) xs ys
   * inject_Z (Metrics.len xs) == inject_Z (Ols.cross (combine xs ys)))%Q.
Proof.
  intros Hlen Hpos. unfold Metrics.dev_sum. rewrite dev_sum_expand.
  unfold Ols.cross, Metrics.mean, Metrics.len.
  rewrite combine_sum_x, combine_sum_y by assumption.
  rewrite length_combine, <- Hlen, Nat.min_id.
  rewrite <- Z.add_opp_r, inject_Z_plus, inject_Z_opp, !inject_Z_mult.
  assert (Hn : ~ (inject_Z (Z.of_nat (length xs)) == 0)%Q).
  { change 0%Q with (inject_Z 0). rewrite inject_Z_injective. lia. }
  generalize dependent (inject_Z (Z.of_nat (length xs))).
  generalize (inject_Z (Ols.sum_xy (combine xs ys))) (inject_Z (Metrics.sumZ xs))
    (inject_Z (Metrics.sumZ ys)).
  intros a b c n Hn. field. exact Hn.
Qed.

Lemma Qsign_scale d n c :
  (0 < n -> d * n == c -> (0 < c <-> 0 < d) /\ (c < 0 <-> d < 0))%Q.
Proof.
  intros Hn E. rewrite <- E. split; split; intros H.
  - apply Qnot_le_lt. intros Hd.
    apply (Qlt_not_le _ _ H). rewrite <- (Qmult_0_l n).
    apply Qmult_le_compat_r; [exact Hd | apply Qlt_le_weak, Hn].
  - apply Qmult_lt_0_compat; assumption.
  - apply Qnot_le_lt. intros Hd.
    apply (Qlt_not_le _ _ H). rewrite <- (Qmult_0_l n).
    apply Qmult_le_compat_r; [exact Hd | apply Qlt_le_weak, Hn].
  - rewrite <- (Qmult_0_l n). apply Qmult_lt_compat_r; assumption.
Qed.

Lemma Qsign_scale_le d n c :
  (0 < n -> d * n == c -> (0 <= c -> 0 <= d) /\ (c <= 0 -> d <= 0))%Q.
Proof.
  intros Hn E. rewrite <- E. split; intros H.
  - apply Qnot_lt_le. intros Hd. apply (Qle_not_lt _ _ H).
    rewrite <- (Qmult_0_l n). apply Qmult_lt_compat_r; assumption.
  - apply Qnot_lt_le. intros Hd. apply (Qle_not_lt _ _ H).
    apply Qmult_lt_0_compat; assumption.
Qed.

Lemma Qdiv_pos a b : (0 < a -> 0 < b -> 0 < a / b)%Q.
Proof.
  intros Ha Hb. apply Qlt_shift_div_l; [exact Hb|]. rewrite Qmult_0_l. exact Ha.
Qed.

Lemma Qdiv_neg a b : (a < 0 -> 0 < b -> a / b < 0)%Q.
Proof.
  intros Ha Hb. apply Qlt_shift_div_r; [exact Hb|]. rewrite Qmult_0_l. exact Ha.
Qed.

Lemma Qdiv_nonneg a b : (0 <= a -> 0 < b -> 0 <= a / b)%Q.
Proof.
  intros Ha Hb. apply Qle_shift_div_l; [exact Hb|]. rewrite Qmult_0_l. exact Ha.
Qed.

Lemma Qdiv_nonpos a b : (a <= 0 -> 0 < b -> a / b <= 0)%Q.
Proof.
  intros Ha Hb. apply Qle_shift_div_r; [exact Hb|]. rewrite Qmult_0_l. exact Ha.
Qed.

Lemma ssxm_arange_pos n :
  (2 <= n)%nat -> (0 < Metrics.ssxm (Metrics.arange n))%Q.
Proof.
  intros Hlen. set (xs := Metrics.arange n).
  assert (Hl : length xs = n) by apply arange_length.
  assert (Hn : (0 < inject_Z (Metrics.len xs))%Q).
  { change 0%Q with (inject_Z 0). rewrite <- Zlt_Qlt. unfold Metrics.len. lia. }
  unfold Metrics.ssxm. apply Qdiv_pos; [|exact Hn].
  apply (Qsign_scale _ _ _ Hn (dev_sum_cross xs xs eq_refl ltac:(lia))).
  change 0%Q with (inject_Z 0). rewrite <- Zlt_Qlt.
  apply cross_rising; [|rewrite length_combine; lia].
  apply (combine_sorted Z.lt Z.lt); [intros p q; split; assumption | |];
    apply arange_sorted.
Qed.

Lemma slope_sign ys :
  (2 <= length ys)%nat ->
  let xs := Metrics.arange (length ys) in
  (0 < Ols.cross (combine xs ys) -> (0 < Metrics.linregress_slope xs ys)%Q) /\
  (Ols.cross (combine xs ys) < 0 -> (Metrics.linregress_slope xs ys < 0)%Q).
Proof.
  intros Hlen xs.
  assert (Hxl : length xs = length ys) by apply arange_length.
  assert (Hn : (0 < inject_Z (Metrics.len xs))%Q).
  { change 0%Q with (inject_Z 0). rewrite <- Zlt_Qlt. unfold Metrics.len. lia. }
  pose proof (ssxm_arange_pos (length ys) Hlen) as Hxx. fold xs in Hxx.
  pose proof (Qsign_scale _ _ _ Hn (dev_sum_cross xs ys Hxl ltac:(lia))) as [Hp Hm].
  unfold Metrics.linregress_slope, Metrics.ssxym. split; intros Hc.
  - apply Qdiv_pos; [|exact Hxx]. apply Qdiv_pos; [|exact Hn].
    apply Hp. change 0%Q with (inject_Z 0). rewrite <- Zlt_Qlt. exact Hc.
  - apply Qdiv_neg; [|exact Hxx]. apply Qdiv_neg; [|exact Hn].
    apply Hm. change 0%Q with (inject_Z 0). rewrite <- Zlt_Qlt. exact Hc.
Qed.

Lemma slope_sign_le ys :
  (2 <= length ys)%nat ->
  let xs := Metrics.arange (length ys) in
  (0 <= Ols.cross (combine xs ys) -> (0 <= Metrics.linregress_slope xs ys)%Q) /\
  (Ols.cross (combine xs ys) <= 0 -> (Metrics.linregress_slope xs ys <= 0)%Q).
Proof.
  intros Hlen xs.
  assert (Hxl : length xs = length ys) by apply arange_length.
  assert (Hn : (0 < inject_Z (Metrics.len xs))%Q).
  { change 0%Q with (inject_Z 0). rewrite <- Zlt_Qlt. unfold Metrics.len. lia. }
  pose proof (ssxm_arange_pos (length ys) Hlen) as Hxx. fold xs in Hxx.
  pose proof (Qsign_scale_le _ _ _ Hn (dev_sum_cross xs ys Hxl ltac:(lia))) as [Hp Hm].
  unfold Metrics.linregress_slope, Metrics.ssxym. split; intros Hc.
  - apply Qdiv_nonneg; [|exact Hxx]. apply Qdiv_nonneg; [|exact Hn].
    apply Hp. change 0%Q with (inject_Z 0). rewrite <- Zle_Qle. exact Hc.
  - apply Qdiv_nonpos; [|exact Hxx]. apply Qdiv_nonpos; [|exact Hn].
    apply Hm. change 0%Q with (inject_Z 0). rewrite <- Zle_Qle. exact Hc.
Qed.

(** The slope that the report holds for a list of durations. *)
Lemma converted_exact durations :
  Trend.exact durations -> map to_float64 durations = durations.
Proof.
  intros H. rewrite <- (map_id durations) at 2.
  apply map_ext_in. intros x Hx. apply to_float64_exact, H, Hx.
Qed.

Lemma converted_slope_not_falling durations :
  (2 <= length durations)%nat ->
  Sorted Z.le durations ->
  (0 <= Metrics.linregress_slope (Metrics.arange (length durations))
          (map to_float64 durations))%Q.
Proof.
  intros Hlen Hs.
  pose proof (slope_sign_le (map to_float64 durations)) as H.
  rewrite length_map in H. apply (H Hlen). apply cross_not_falling.
  apply (combine_sorted Z.lt Z.le);
    [intros p q H1 H2; split; assumption | apply arange_sorted |].
  apply (map_sorted Z.le Z.le); [apply to_float64_mono|].
  apply Sorted_StronglySorted; [intros x y z; apply Z.le_trans | exact Hs].
Qed.

Lemma converted_slope_not_rising durations :
  (2 <= length durations)%nat ->
  Sorted Z.ge durations ->
  (Metrics.linregress_slope (Metrics.arange (length durations))
     (map to_float64 durations) <= 0)%Q.
Proof.
  intros Hlen Hs.
  pose proof (slope_sign_le (map to_float64 durations)) as H.
  rewrite length_map in H. apply (H Hlen). apply cross_not_rising.
  apply (combine_sorted Z.lt Z.ge);
    [intros p q H1 H2; split; [exact H1 | apply Z.ge_le, H2] | apply arange_sorted |].
  apply (map_sorted Z.ge Z.ge);
    [intros x y Hxy; apply Z.le_ge, to_float64_mono; lia|].
  apply Sorted_StronglySorted; [intros x y z Hxy Hyz; lia | exact Hs].
Qed.

Lemma Sorted_weaken {A : Type} (R S : A -> A -> Prop) l :
  (forall x y, R x y -> S x y) -> Sorted R l -> Sorted S l.
Proof.
  intros H. induction 1 as [|x l _ IH Hd]; constructor; [exact IH|].
  destruct Hd; constructor. auto.
Qed.

Lemma exact_slope_rising durations :
  (2 <= length durations)%nat ->
  Trend.exact durations -> Sorted Z.lt durations ->
  (0 < Metrics.linregress_slope (Metrics.arange (length durations))
         (map to_float64 durations))%Q.
Proof.
  intros Hlen He Hs. rewrite (converted_exact durations He).
  apply (slope_sign durations Hlen).
  apply cross_rising; [|rewrite length_combine, arange_length; lia].
  apply (combine_sorted Z.lt Z.lt);
    [intros p q H1 H2; split; assumption
    | apply arange_sorted
    | apply Sorted_StronglySorted; [intros x y z; apply Z.lt_trans | exact Hs]].
Qed.

Lemma exact_slope_falling durations :
  (2 <= length durations)%nat ->
  Trend.exact durations -> Sorted Z.gt durations ->
  (Metrics.linregress_slope (Metrics.arange (length durations))
     (map to_float64 durations) < 0)%Q.
Proof.
  intros Hlen He Hs. rewrite (converted_exact durations He).
  apply (slope_sign durations Hlen).
  apply cross_falling; [|rewrite length_combine, arange_length; lia].
  apply (combine_sorted Z.lt Z.gt);
    [intros p q H1 H2; split; [exact H1 | apply Z.gt_lt, H2]
    | apply arange_sorted
    | apply Sorted_StronglySorted; [intros x y z Hxy Hyz; lia | exact Hs]].
Qed.

Lemma trend_report_ok lib d crate days now
      crate' period total_benchmarks total_runs benchmarks :
  Metrics.generate_trend_report lib d crate days now
  = Ok (Metrics.TrendReport crate' period total_benchmarks total_runs benchmarks) ->
  exists start_date,
    Datetime.minus_days now days = Ok start_date /\
    let df := Metrics.select_trend_rows d crate (Datetime.isoformat start_date)
                (Datetime.isoformat now) in
    crate' = crate /\ period = days /\
    total_benchmarks = length (Metrics.unique (map Metrics.r_benchmark_name df)) /\
    total_runs = length df /\ df <> [] /\
    benchmarks
    = map (fun benchmark =>
             (benchmark, Metrics.stats_of lib (Metrics.durations_of df benchmark)))
          (Metrics.unique (map Metrics.r_benchmark_name df)).
Proof.
  unfold Metrics.generate_trend_report.
  destruct (Datetime.minus_days now days) as [start_date|e]; [|discriminate].
  cbn [bind].
  destruct (Metrics.select_trend_rows d crate _ _) as [|row df] eqn:E;
    [discriminate|].
  intros [= <- <- <- <- <-]. exists start_date. split; [reflexivity|].
  cbv zeta. rewrite E. repeat split. discriminate.
Qed.

(** C7.  In a trend report, the entry of every benchmark with at least
    two samples in the window has the trend keys: [is_improving] is true
    iff the fitted slope is negative, [is_degrading] is true iff the
    slope is positive and the p-value is below 0.05.  The slope is fitted
    to the durations as converted to binary64: strictly increasing
    durations give a slope that is not negative, strictly decreasing
    durations a slope that is not positive; when no duration exceeds
    [2^53], so that the conversion keeps every value, strictly increasing
    durations give a positive slope, strictly decreasing durations give a
    negative slope and [is_improving = true]. *)
Theorem C7_trend_classification :
  forall lib d crate days now crate' period total_benchmarks total_runs benchmarks,
    Metrics.generate_trend_report lib d crate days now
    = Ok (Metrics.TrendReport crate' period total_benchmarks total_runs benchmarks) ->
    exists start_date,
      Datetime.minus_days now days = Ok start_date /\
      forall name stats,
        In (name, stats) benchmarks ->
        let durations :=
          map Metrics.r_duration_ns
              (List.filter
                 (fun row => bool_decide (Metrics.r_benchmark_name row = name))
                 (Metrics.select_trend_rows d crate (Datetime.isoformat start_date)
                    (Datetime.isoformat now))) in
        Metrics.count stats = length durations /\
        ((2 <= length durations)%nat ->
         exists t,
           Metrics.trend stats = Some t /\
           Metrics.trend_slope t
           = Metrics.linregress_slope (Metrics.arange (length durations))
               (map to_float64 durations) /\
           Metrics.trend_p_value t = Metrics.linregress_p_value lib durations /\
           (Metrics.is_improving t = true <-> (Metrics.trend_slope t < 0)%Q) /\
           (Metrics.is_degrading t = true <->
            (0 < Metrics.trend_slope t)%Q /\
            fltb (Metrics.trend_p_value t) (5 # 100) = true) /\
           (forall p,
               Metrics.trend_p_value t = Fin p ->
               (Metrics.is_degrading t = true <->
                (0 < Metrics.trend_slope t)%Q /\ (p < 5 # 100)%Q)) /\
           (Sorted Z.lt durations -> (0 <= Metrics.trend_slope t)%Q) /\
           (Sorted Z.gt durations -> (Metrics.trend_slope t <= 0)%Q) /\
           ((forall x, In x durations -> Z.abs x <= 2 ^ 53) ->
            Sorted Z.lt durations -> (0 < Metrics.trend_slope t)%Q) /\
           ((forall x, In x durations -> Z.abs x <= 2 ^ 53) ->
            Sorted Z.gt durations ->
            (Metrics.trend_slope t < 0)%Q /\ Metrics.is_improving t = true)).
Proof.
  intros lib d crate days now crate' period total_benchmarks total_runs benchmarks Hrep.
  destruct (trend_report_ok _ _ _ _ _ _ _ _ _ _ Hrep)
    as (start_date & Hs & _ & _ & _ & _ & _ & Hb).
  exists start_date. split; [exact Hs|]. intros name stats Hin.
  rewrite Hb in Hin. apply in_map_iff in Hin as (b & [= <- <-] & _).
  fold (Metrics.durations_of
          (Metrics.select_trend_rows d crate (Datetime.isoformat start_date)
             (Datetime.isoformat now)) b).
  intros durations. split; [reflexivity|]. intros Hlen.
  exists (Metrics.trend_of lib durations).
  split; [|split; [reflexivity|split; [reflexivity|
    split; [|split; [|split; [|split; [|split; [|split]]]]]]]].
  - unfold Metrics.stats_of. cbn [Metrics.trend].
    apply Nat.leb_le in Hlen. unfold durations in *. rewrite Hlen. reflexivity.
  - apply Qgtb_lt.
  - simpl. rewrite andb_true_iff, Qgtb_lt. reflexivity.
  - intros p Hp. simpl in Hp. simpl. rewrite Hp. simpl.
    rewrite andb_true_iff, !Qgtb_lt. reflexivity.
  - intros Hsort. apply converted_slope_not_falling; [exact Hlen|].
    apply (Sorted_weaken Z.lt Z.le); [intros x y; apply Z.lt_le_incl | exact Hsort].
  - intros Hsort. apply converted_slope_not_rising; [exact Hlen|].
    apply (Sorted_weaken Z.gt Z.ge); [intros x y H; lia | exact Hsort].
  - intros He Hsort. apply exact_slope_rising; assumption.
  - intros He Hsort.
    pose proof (exact_slope_falling durations Hlen He Hsort) as Hneg.
    split; [exact Hneg | apply Qgtb_lt, Hneg].
Qed.

(** C7 on the January history of benchmark A (100, 110, 130 ns): the
    entry has a positive slope and is not improving. *)
Lemma C7_trend_witness :
  exists stats t,
    Metrics.generate_trend_report Scenario.unused Scenario.history "m" 30
      Scenario.january
    = Ok (Metrics.TrendReport "m" 30 1 3 [("A", stats)]) /\
    Metrics.trend stats = Some t /\
    (0 < Metrics.trend_slope t)%Q /\
    Metrics.is_improving t = false.
Proof.
  pose (stats := Metrics.stats_of Scenario.unused [100; 110; 130]).
  assert (Hrep : Metrics.generate_trend_report Scenario.unused Scenario.history "m" 30
                   Scenario.january
                 = Ok (Metrics.TrendReport "m" 30 1 3 [("A", stats)]))
    by (vm_compute; reflexivity).
  destruct (C7_trend_classification _ _ _ _ _ _ _ _ _ _ Hrep)
    as (start_date & Hstart & H).
  assert (Hs : start_date = Datetime.mkDatetime 738886 12 0 0 0).
  { vm_compute in Hstart. injection Hstart as <-. reflexivity. }
  subst start_date.
  destruct (H "A" stats (or_introl eq_refl)) as [_ Ht].
  assert (Hd : map Metrics.r_duration_ns
                 (List.filter
                    (fun row => bool_decide (Metrics.r_benchmark_name row = "A"))
                    (Metrics.select_trend_rows Scenario.history "m"
                       (Datetime.isoformat (Datetime.mkDatetime 738886 12 0 0 0))
                       (Datetime.isoformat Scenario.january)))
               = [100; 110; 130]) by (vm_compute; reflexivity).
  cbv zeta in Ht. rewrite Hd in Ht.
  destruct (Ht ltac:(simpl; lia)) as (t & Etrend & _ & _ & Himp & _ & _ & _ & _ & Hup & _).
  assert (Hpos : (0 < Metrics.trend_slope t)%Q).
  { apply Hup.
    - intros x [<-|[<-|[<-|[]]]]; vm_compute; discriminate.
    - repeat constructor. }
  exists stats, t. split; [exact Hrep|]. split; [exact Etrend|]. split; [exact Hpos|].
  apply not_true_iff_false. intros Hi. apply Himp in Hi.
  apply (Qlt_irrefl 0). apply Qlt_trans with (Metrics.trend_slope t); assumption.
Defined.

(** The sign claimed for a strictly decreasing history fails above
    [2^53] ns: the two durations [2^53 + 1] and [2^53] convert to the
    same binary64 value, the fitted slope is 0 and the benchmark is not
    reported as improving. *)
Lemma C7_large_durations_counterexample :
  Sorted Z.gt [2 ^ 53 + 1; 2 ^ 53] /\
  to_float64 (2 ^ 53 + 1) = 2 ^ 53 /\
  exists stats t,
    Metrics.generate_trend_report Scenario.unused Scenario.large_history "m" 30
      Scenario.january
    = Ok (Metrics.TrendReport "m" 30 1 2 [("A", stats)]) /\
    Metrics.count stats = 2%nat /\
    Metrics.max_ns stats = 2 ^ 53 + 1 /\
    Metrics.min_ns stats = 2 ^ 53 /\
    Metrics.trend stats = Some t /\
    (Metrics.trend_slope t == 0)%Q /\
    Metrics.is_improving t = false.
Proof.
  split; [repeat constructor|]. split; [vm_compute; reflexivity|].
  exists (Metrics.stats_of Scenario.unused [2 ^ 53 + 1; 2 ^ 53]),
         (Metrics.trend_of Scenario.unused [2 ^ 53 + 1; 2 ^ 53]).
  repeat split; vm_compute; reflexivity.
Qed.


(** ===================================================================== *)
(** * Further properties of the code *)

(** ** Detection as a filter over the records *)

Lemma metrics_no_error_in_range th d r :
  Detection.stored_in_range d ->
  in_int64 (Metrics.duration_ns r) = true ->
  (forall c, Metrics.get_baseline d (Metrics.crate_name r) (Metrics.benchmark_name r)
             <> Some (0, c)) ->
  Detection.metrics_error th d r = None.
Proof.
  intros Hd Hr Hz. destruct (Detection.metrics_error th d r) as [e|] eqn:E; [|reflexivity].
  destruct (metrics_error_in_range th d r e Hd Hr E) as [_ [c Hc]].
  exfalso. exact (Hz c Hc).
Qed.

Lemma simple_no_error_in_range bl c :
  Detection.entries_in_range bl ->
  in_int64 (Simple.duration_ns c) = true ->
  Simple.build_lookup bl !! Simple.key c <> Some 0 ->
  Detection.simple_error (Simple.build_lookup bl) c = None.
Proof.
  intros Hbl Hc Hz.
  destruct (Detection.simple_error (Simple.build_lookup bl) c) as [e|] eqn:E;
    [|reflexivity].
  destruct (simple_error_in_range bl c e Hbl Hc E) as [_ H]. contradiction.
Qed.

(** X1.  When no record of the list fails, the database-backed detection
    returns, in the order of the records, one alert for each record
    whose computed change against its active baseline is above the
    threshold and nothing for the others, and the store it leaves is the
    one obtained by saving these alerts one after the other.  No record
    fails when the durations of the records and of the stored baselines
    fit 64 bits and no record has an active baseline of 0. *)
Theorem X1_metrics_detection_is_a_filter :
  (forall th d rs,
      (forall r, In r rs -> Detection.metrics_error th d r = None) ->
      Metrics.detect_regressions th d rs
      = (Detection.save_all d (omap (Detection.metrics_alert_of th d) rs),
         Ok (omap (Detection.metrics_alert_of th d) rs))) /\
  (forall th d rs,
      Detection.stored_in_range d ->
      Detection.records_in_range rs ->
      (forall r c, In r rs ->
         Metrics.get_baseline d (Metrics.crate_name r) (Metrics.benchmark_name r)
         <> Some (0, c)) ->
      Metrics.detect_regressions th d rs
      = (Detection.save_all d (omap (Detection.metrics_alert_of th d) rs),
         Ok (omap (Detection.metrics_alert_of th d) rs))).
Proof.
  assert (H : forall th d rs,
             (forall r, In r rs -> Detection.metrics_error th d r = None) ->
             Metrics.detect_regressions th d rs
             = (Detection.save_all d (omap (Detection.metrics_alert_of th d) rs),
                Ok (omap (Detection.metrics_alert_of th d) rs))).
  { intros th d rs Hok. unfold Metrics.detect_regressions.
    apply (metrics_loop_ok th rs [] d Hok). }
  split; [exact H|].
  intros th d rs Hd Hrs Hz. apply H. intros r Hin.
  apply metrics_no_error_in_range; [exact Hd | apply Hrs, Hin |].
  intros c. apply Hz, Hin.
Qed.

Lemma X1_metrics_filter_witness :
  snd (Metrics.detect_regressions 10 (Scenario.with_baseline 100)
         [Scenario.measure 105 "t1"; Scenario.measure 160 "t2";
          Metrics.mkBenchmarkResult "x" "z" 900 0 0 "t3" None None;
          Scenario.measure 120 "t4"])
  = Ok [Scenario.alert_for 160 100 "t2" CRITICAL;
        Scenario.alert_for 120 100 "t4" MEDIUM].
Proof.
  rewrite (proj2 X1_metrics_detection_is_a_filter 10%Q (Scenario.with_baseline 100)).
  - vm_compute. reflexivity.
  - intros row [<-|[]]. reflexivity.
  - intros r Hin.
    repeat (destruct Hin as [<-|Hin]; [reflexivity|]). destruct Hin.
  - intros r c Hin.
    repeat (destruct Hin as [<-|Hin]; [discriminate|]). destruct Hin.
Defined.

(** ** What detection writes *)




(** ** The failures of detection *)

Lemma metrics_detect_outcome th d rs :
  (exists rs1 r rs2 e,
      rs = (rs1 ++ r :: rs2)%list /\
      (forall x, In x rs1 -> Detection.metrics_error th d x = None) /\
      Detection.metrics_error th d r = Some e /\
      Metrics.detect_regressions th d rs
      = (Detection.save_all d (omap (Detection.metrics_alert_of th d) rs1), Raise e)) \/
  ((forall x, In x rs -> Detection.metrics_error th d x = None) /\
   Metrics.detect_regressions th d rs
   = (Detection.save_all d (omap (Detection.metrics_alert_of th d) rs),
      Ok (omap (Detection.metrics_alert_of th d) rs))).
Proof.
  destruct (all_or_first_exception (Detection.metrics_error th d) rs)
    as [Hall|(rs1 & r & rs2 & e & -> & Hok & He)].
  - right. split; [exact Hall|]. apply (metrics_loop_ok th rs [] d Hall).
  - left. exists rs1, r, rs2, e. repeat split; try assumption.
    apply metrics_loop_raise; assumption.
Qed.

Lemma division_error_iff current baseline e :
  Detection.division_error current baseline = Some e <->
  (baseline = 0 /\ e = ZeroDivisionError) \/
  (baseline <> 0 /\ e = OverflowError /\
   fl (inject_Z (current - baseline) / inject_Z baseline)
   <> Fin (round64 (inject_Z (current - baseline) / inject_Z baseline))).
Proof.
  unfold Detection.division_error, truediv.
  destruct (Z.eqb_spec baseline 0) as [->|Hnz].
  - split; [intros [= <-]; auto | intros [[_ ->] | [H _]]; congruence].
  - unfold fl. cbv zeta.
    destruct (Qle_bool (inject_Z (2 ^ 1024)) _);
      [|destruct (Qle_bool _ (inject_Z (- 2 ^ 1024)))].
    + split; [intros [= <-]; right; repeat split; [exact Hnz | discriminate]|].
      intros [[H _] | (_ & -> & _)]; [contradiction | reflexivity].
    + split; [intros [= <-]; right; repeat split; [exact Hnz | discriminate]|].
      intros [[H _] | (_ & -> & _)]; [contradiction | reflexivity].
    + split; [discriminate|]. intros [[H _] | (_ & _ & H)]; [contradiction|].
      exfalso. apply H. reflexivity.
Qed.

(** X3.  Detection fails exactly when one of its records fails, and
    with the exception of the first such record.  A record fails with
    [ZeroDivisionError] exactly when its looked-up baseline is 0;
    otherwise it can only fail with [OverflowError]: when the quotient is
    too large for a float or, in the database-backed detector, when an
    alert is built and one of its two durations does not fit 64 bits.
    When all durations fit 64 bits, detection raises exactly when a
    record has a looked-up baseline of 0, and then
    [ZeroDivisionError]. *)
Theorem X3_detection_raises_only_on_zero_baseline :
  (forall th d rs e,
      snd (Metrics.detect_regressions th d rs) = Raise e <->
      exists rs1 r rs2,
        rs = (rs1 ++ r :: rs2)%list /\
        (forall x, In x rs1 -> Detection.metrics_error th d x = None) /\
        Detection.metrics_error th d r = Some e) /\
  (forall th d r e,
      Detection.metrics_error th d r = Some e <->
      exists bd bc,
        Metrics.get_baseline d (Metrics.crate_name r) (Metrics.benchmark_name r)
        = Some (bd, bc) /\
        ((bd = 0 /\ e = ZeroDivisionError) \/
         (bd <> 0 /\ e = OverflowError /\
          (Detection.division_error (Metrics.duration_ns r) bd = Some OverflowError \/
           (fgtb (percent_change (Metrics.duration_ns r) bd) th = true /\
            in_int64 (Metrics.duration_ns r) && in_int64 bd = false))))) /\
  (forall th d rs e,
      Detection.stored_in_range d ->
      Detection.records_in_range rs ->
      (snd (Metrics.detect_regressions th d rs) = Raise e <->
       e = ZeroDivisionError /\
       exists r c, In r rs /\
         Metrics.get_baseline d (Metrics.crate_name r) (Metrics.benchmark_name r)
         = Some (0, c))) /\
  (forall th current baselines e,
      Simple.detect_regressions th current baselines = Raise e <->
      exists c1 c c2,
        current = (c1 ++ c :: c2)%list /\
        (forall x, In x c1 ->
           Detection.simple_error (Simple.build_lookup baselines) x = None) /\
        Detection.simple_error (Simple.build_lookup baselines) c = Some e) /\
  (forall lookup c e,
      Detection.simple_error lookup c = Some e <->
      exists bd,
        lookup !! Simple.key c = Some bd /\
        ((bd = 0 /\ e = ZeroDivisionError) \/
         (bd <> 0 /\ e = OverflowError /\
          Detection.division_error (Simple.duration_ns c) bd = Some OverflowError))) /\
  (forall th current baselines e,
      Detection.entries_in_range baselines ->
      Detection.entries_in_range current ->
      (Simple.detect_regressions th current baselines = Raise e <->
       e = ZeroDivisionError /\
       exists c, In c current /\
         Simple.build_lookup baselines !! Simple.key c = Some 0)).
Proof.
  split; [|split; [|split; [|split; [|split]]]].
  - intros th d rs e. split.
    + destruct (metrics_detect_outcome th d rs)
        as [(rs1 & r & rs2 & e' & -> & Hok & He & ->) | [_ ->]]; simpl.
      * intros [= <-]. exists rs1, r, rs2. auto.
      * discriminate.
    + intros (rs1 & r & rs2 & -> & Hok & He). unfold Metrics.detect_regressions.
      rewrite (metrics_loop_raise th rs1 r rs2 e) by assumption. reflexivity.
  - intros th d r e. unfold Detection.metrics_error.
    destruct (Metrics.get_baseline _ _ _) as [[bd bc]|];
      [|split; [discriminate | intros (? & ? & H & _); discriminate]].
    destruct (Detection.division_error (Metrics.duration_ns r) bd) as [x|] eqn:D.
    + destruct (division_error_cases _ _ _ D) as [[-> ->] | [Hnz ->]].
      * split.
        -- intros [= <-]. exists 0, bc. split; [reflexivity|]. left. auto.
        -- intros (bd' & bc' & [= <- <-] & [[_ ->] | [H _]]); congruence.
      * split.
        -- intros [= <-]. exists bd, bc. split; [reflexivity|]. right. auto.
        -- intros (bd' & bc' & [= <- <-] & [[H _] | (_ & -> & _)]); congruence.
    + destruct (Z.eq_dec bd 0) as [->|Hnz];
        [rewrite division_error_zero in D; discriminate|].
      destruct (fgtb _ th) eqn:G; simpl.
      * destruct (in_int64 (Metrics.duration_ns r) && in_int64 bd) eqn:B; simpl.
        -- split; [discriminate|].
           intros (bd' & bc' & [= <- <-] & [[H _] | (_ & _ & [H | [_ H]])]);
             congruence.
        -- split.
           ++ intros [= <-]. exists bd, bc. split; [reflexivity|]. right. auto.
           ++ intros (bd' & bc' & [= <- <-] & [[H _] | (_ & -> & _)]); congruence.
      * split; [discriminate|].
        intros (bd' & bc' & [= <- <-] & [[H _] | (_ & _ & [H | [H _]])]);
          congruence.
  - intros th d rs e Hd Hrs. split.
    + destruct (metrics_detect_outcome th d rs)
        as [(rs1 & r & rs2 & e' & -> & Hok & He & ->) | [_ ->]]; simpl; [|discriminate].
      intros [= <-].
      assert (Hin : In r (rs1 ++ r :: rs2)) by (apply in_or_app; right; left; reflexivity).
      destruct (metrics_error_in_range th d r e' Hd (Hrs r Hin) He) as [-> [c Hc]].
      split; [reflexivity|]. exists r, c. auto.
    + intros (-> & r & c & Hin & Hb).
      destruct (metrics_detect_raises th d rs r c Hin Hb)
        as (rs1 & r' & rs2 & e & E & _ & He & ->).
      simpl. f_equal.
      apply (metrics_error_in_range th d r' e Hd); [|exact He].
      apply Hrs. rewrite E. apply in_or_app. right. left. reflexivity.
  - intros th current baselines e. split.
    + destruct (simple_detect_outcome th current baselines)
        as [(c1 & c & c2 & e' & -> & Hok & He & ->) | [_ ->]]; [|discriminate].
      intros [= <-]. exists c1, c, c2. auto.
    + intros (c1 & c & c2 & -> & Hok & He). unfold Simple.detect_regressions.
      rewrite (simple_loop_raise th _ c1 c c2 e) by assumption. reflexivity.
  - intros lookup c e. unfold Detection.simple_error.
    destruct (lookup !! Simple.key c) as [bd|];
      [|split; [discriminate | intros (? & H & _); discriminate]].
    split.
    + intros D. exists bd. split; [reflexivity|].
      destruct (division_error_cases _ _ _ D) as [[-> ->] | [Hnz ->]]; auto.
    + intros (bd' & [= <-] & [[-> ->] | (_ & -> & D)]); [reflexivity | exact D].
  - intros th current baselines e Hbl Hcur. split.
    + destruct (simple_detect_outcome th current baselines)
        as [(c1 & c & c2 & e' & -> & Hok & He & ->) | [_ ->]]; [|discriminate].
      intros [= <-].
      assert (Hin : In c (c1 ++ c :: c2)) by (apply in_or_app; right; left; reflexivity).
      destruct (simple_error_in_range baselines c e' Hbl (Hcur c Hin) He) as [-> Hc].
      split; [reflexivity|]. exists c. auto.
    + intros (-> & c & Hin & Hb).
      destruct (simple_detect_raises th _ current c Hin Hb)
        as (c1 & c' & c2 & x & E & _ & He & Hloop).
      unfold Simple.detect_regressions. rewrite Hloop. simpl. f_equal.
      apply (simple_error_in_range baselines c' x Hbl); [|exact He].
      apply Hcur. rewrite E. apply in_or_app. right. left. reflexivity.
Qed.

Lemma X3_zero_baseline_witness :
  snd (Metrics.detect_regressions 10 (Scenario.with_baseline 0)
         [Scenario.measure 120 "t1"]) = Raise ZeroDivisionError /\
  snd (Metrics.detect_regressions 10 (Scenario.with_baseline 100)
         [Scenario.measure (2 ^ 63) "t1"]) = Raise OverflowError /\
  Simple.detect_regressions 10 [Simple.mkEntry "x" "y" (10 ^ 400)]
    [Simple.mkEntry "x" "y" 1]
  = Raise OverflowError.
Proof.
  destruct X3_detection_raises_only_on_zero_baseline as (Hm & _ & _ & Hs & _).
  split; [|split].
  - apply Hm. exists [], (Scenario.measure 120 "t1"), [].
    split; [reflexivity|]. split; [intros x []|]. vm_compute. reflexivity.
  - apply Hm. exists [], (Scenario.measure (2 ^ 63) "t1"), [].
    split; [reflexivity|]. split; [intros x []|]. vm_compute. reflexivity.
  - apply Hs. exists [], (Simple.mkEntry "x" "y" (10 ^ 400)), [].
    split; [reflexivity|]. split; [intros x []|]. vm_compute. reflexivity.
Defined.

(** ** The file-based detector as a sorted filter *)

(** X4.  When no current record fails, the file-based detection returns
    the stable descending sort, by the computed binary64 change, of the
    alerts of the records whose change against the looked-up baseline is
    above the threshold, one alert per such record.  No record fails
    when all durations fit 64 bits and no current record has a looked-up
    baseline of 0. *)
Theorem X4_simple_detection_is_a_sorted_filter :
  (forall th current baselines,
      (forall c, In c current ->
         Detection.simple_error (Simple.build_lookup baselines) c = None) ->
      Simple.detect_regressions th current baselines
      = Ok (Simple.sorted_reverse
              (omap (Detection.simple_alert_of th (Simple.build_lookup baselines))
                    current))) /\
  (forall th current baselines,
      Detection.entries_in_range baselines ->
      Detection.entries_in_range current ->
      (forall c, In c current ->
         Simple.build_lookup baselines !! Simple.key c <> Some 0) ->
      Simple.detect_regressions th current baselines
      = Ok (Simple.sorted_reverse
              (omap (Detection.simple_alert_of th (Simple.build_lookup baselines))
                    current))).
Proof.
  assert (H : forall th current baselines,
             (forall c, In c current ->
                Detection.simple_error (Simple.build_lookup baselines) c = None) ->
             Simple.detect_regressions th current baselines
             = Ok (Simple.sorted_reverse
                     (omap (Detection.simple_alert_of th (Simple.build_lookup baselines))
                           current))).
  { intros th current baselines Hok. unfold Simple.detect_regressions.
    rewrite simple_loop_ok by exact Hok. reflexivity. }
  split; [exact H|].
  intros th current baselines Hbl Hcur Hz. apply H. intros c Hin.
  apply simple_no_error_in_range; [exact Hbl | apply Hcur, Hin | apply Hz, Hin].
Qed.

Lemma X4_simple_filter_witness :
  Simple.detect_regressions 10
    [Simple.mkEntry "x" "y" 120; Simple.mkEntry "x" "z" 90;
     Simple.mkEntry "x" "y" 160; Simple.mkEntry "x" "w" 5]
    [Simple.mkEntry "x" "y" 100; Simple.mkEntry "x" "z" 100]
  = Ok [Simple.mkRegressionAlert "x" "y" 160 100 (percent_change 160 100) CRITICAL;
        Simple.mkRegressionAlert "x" "y" 120 100 (percent_change 120 100) MEDIUM].
Proof.
  rewrite (proj2 X4_simple_detection_is_a_sorted_filter).
  - vm_compute. reflexivity.
  - intros b Hin. repeat (destruct Hin as [<-|Hin]; [reflexivity|]). destruct Hin.
  - intros c Hin. repeat (destruct Hin as [<-|Hin]; [reflexivity|]). destruct Hin.
  - intros c Hin.
    repeat (destruct Hin as [<-|Hin]; [vm_compute; discriminate|]). destruct Hin.
Defined.

(** ** Order of the alerts and of the severities *)

Lemma same_value_not_gtb a b v :
  Detection.same_value a v = true -> Detection.same_value b v = true ->
  fval_gtb b a = false.
Proof.
  destruct a, b, v; simpl; try discriminate; try reflexivity.
  intros Ha Hb. apply Qeq_bool_iff in Ha, Hb. apply Qgtb_le.
  rewrite Ha, Hb. apply Qle_refl.
Qed.

Lemma insert_desc_stable v a l :
  List.filter (fun x => Detection.same_value (Simple.change_percent x) v)
              (Simple.insert_desc a l)
  = List.filter (fun x => Detection.same_value (Simple.change_percent x) v) (a :: l).
Proof.
  induction l as [|b l IH]; [reflexivity|].
  cbn [Simple.insert_desc].
  destruct (fval_gtb (Simple.change_percent b) (Simple.change_percent a)) eqn:E;
    [|reflexivity].
  cbn [List.filter] in *. rewrite IH.
  destruct (Detection.same_value (Simple.change_percent a) v) eqn:Ea; [|reflexivity].
  destruct (Detection.same_value (Simple.change_percent b) v) eqn:Eb; [|reflexivity].
  rewrite (same_value_not_gtb _ _ _ Ea Eb) in E. discriminate.
Qed.

Lemma sorted_reverse_stable v l :
  List.filter (fun x => Detection.same_value (Simple.change_percent x) v)
              (Simple.sorted_reverse l)
  = List.filter (fun x => Detection.same_value (Simple.change_percent x) v) l.
Proof.
  induction l as [|a l IH]; [reflexivity|].
  cbn [Simple.sorted_reverse fold_right].
  fold (Simple.sorted_reverse l). rewrite insert_desc_stable.
  cbn [List.filter]. rewrite IH. reflexivity.
Qed.

Lemma get_severity_monotone cp1 cp2 :
  fval_leb cp1 cp2 = true ->
  (Detection.severity_rank (Metrics._get_severity cp1)
   <= Detection.severity_rank (Metrics._get_severity cp2))%nat.
Proof.
  destruct cp1 as [q1| | |], cp2 as [q2| | |]; simpl; try discriminate; intros Hle;
    try (unfold Metrics._get_severity; simpl;
         repeat match goal with |- context [Qgeb ?a ?b] => destruct (Qgeb a b) end;
         simpl; lia).
  apply Qle_bool_iff in Hle. unfold Metrics._get_severity, fgeb.
  destruct (Qgeb q1 50) eqn:A1; [apply Qgeb_le in A1 | apply Qgeb_lt in A1];
  (destruct (Qgeb q1 25) eqn:B1; [apply Qgeb_le in B1 | apply Qgeb_lt in B1]);
  (destruct (Qgeb q1 15) eqn:C1; [apply Qgeb_le in C1 | apply Qgeb_lt in C1]);
  (destruct (Qgeb q2 50) eqn:A2; [apply Qgeb_le in A2 | apply Qgeb_lt in A2]);
  (destruct (Qgeb q2 25) eqn:B2; [apply Qgeb_le in B2 | apply Qgeb_lt in B2]);
  (destruct (Qgeb q2 15) eqn:C2; [apply Qgeb_le in C2 | apply Qgeb_lt in C2]);
  simpl; try lia; exfalso; lra.
Qed.

(** X5.  The list returned by the file-based detector is in descending
    order of [change_percent], holds exactly the alerts built by the loop
    (it is a rearrangement of them, so there are at most as many alerts as
    current records), and keeps alerts with equal [change_percent] in the
    order of their records. *)
Theorem X5_simple_alerts_sorted_stable :
  forall th current baselines alerts,
    Simple.detect_regressions th current baselines = Ok alerts ->
    Simple.descending alerts /\
    (exists built,
        Simple.detect_loop th (Simple.build_lookup baselines) current [] = Ok built /\
        Permutation built alerts /\
        forall v,
          List.filter (fun x => Detection.same_value (Simple.change_percent x) v) alerts
          = List.filter (fun x => Detection.same_value (Simple.change_percent x) v)
                        built) /\
    (length alerts <= length current)%nat.
Proof.
  intros th current baselines alerts H.
  split; [exact (simple_detect_regressions_descending _ _ _ _ H)|].
  destruct (simple_detect_outcome th current baselines)
    as [(c1 & c & c2 & e & _ & _ & _ & E) | [Hok E]]; rewrite E in H;
    [discriminate|].
  injection H as <-. split.
  - exists (omap (Detection.simple_alert_of th (Simple.build_lookup baselines)) current).
    split; [apply (simple_loop_ok th _ current [] Hok)|].
    split; [apply sorted_reverse_perm|].
    intros v. apply sorted_reverse_stable.
  - rewrite <- (Permutation_length (sorted_reverse_perm _)).
    clear. induction current as [|c current IH]; [simpl; lia|].
    cbn [omap list_omap].
    destruct (Detection.simple_alert_of th (Simple.build_lookup baselines) c);
      cbn [length]; lia.
Qed.

Lemma X5_sorted_stable_witness :
  Simple.descending
    [Simple.mkRegressionAlert "x" "y" 160 100 (percent_change 160 100) CRITICAL;
     Simple.mkRegressionAlert "x" "y" 120 100 (percent_change 120 100) MEDIUM].
Proof.
  apply (X5_simple_alerts_sorted_stable 10%Q
           [Simple.mkEntry "x" "y" 120; Simple.mkEntry "x" "y" 160]
           [Simple.mkEntry "x" "y" 100]).
  vm_compute. reflexivity.
Defined.

(** X6.  Severity grows with the change: a larger [change_percent] never
    gets a lower severity, in both detectors; so in a list of alerts in
    descending order of [change_percent], as the file-based detector
    returns it, the severities never increase along the list. *)
Theorem X6_severity_is_monotone :
  (forall cp1 cp2,
      (cp1 <= cp2)%Q ->
      (Detection.severity_rank (Metrics._get_severity (Fin cp1))
       <= Detection.severity_rank (Metrics._get_severity (Fin cp2)))%nat /\
      (Detection.severity_rank (Simple._get_severity (Fin cp1))
       <= Detection.severity_rank (Simple._get_severity (Fin cp2)))%nat) /\
  (forall cp1 cp2,
      fval_leb cp1 cp2 = true ->
      (Detection.severity_rank (Metrics._get_severity cp1)
       <= Detection.severity_rank (Metrics._get_severity cp2))%nat /\
      (Detection.severity_rank (Simple._get_severity cp1)
       <= Detection.severity_rank (Simple._get_severity cp2))%nat) /\
  (forall th current baselines alerts,
      Simple.detect_regressions th current baselines = Ok alerts ->
      Sorted (fun a b => (Detection.severity_rank (Simple.severity_of b)
                          <= Detection.severity_rank (Simple.severity_of a))%nat)
             alerts).
Proof.
  split; [|split].
  - intros cp1 cp2 H.
    split; apply get_severity_monotone; simpl; apply Qle_bool_iff, H.
  - intros cp1 cp2 H. split; apply get_severity_monotone, H.
  - intros th current baselines alerts H.
    pose proof (simple_detect_regressions_descending _ _ _ _ H) as Hs.
    assert (Hsev : Forall (fun a => Simple.severity_of a
                                    = Simple._get_severity (Simple.change_percent a))
                          alerts).
    { destruct (simple_detect_outcome th current baselines)
        as [(c1 & c & c2 & e & _ & _ & _ & E) | [_ E]]; rewrite E in H;
        [discriminate|].
      injection H as <-. eapply Permutation_Forall; [apply sorted_reverse_perm|].
      apply List.Forall_forall. intros a Ha.
      apply list_elem_of_In in Ha. apply list_elem_of_omap in Ha as (c & _ & Hc).
      destruct (simple_alert_of_change _ _ _ _ Hc) as (bd & _ & _ & _ & _ & _ & _ & _ & S).
      exact S. }
    unfold Simple.descending in Hs. clear H.
    induction Hs as [|a l Hl IH Hhd]; [constructor|].
    apply Forall_cons in Hsev as [Ha Hrest].
    constructor; [apply IH, Hrest|].
    destruct Hhd as [|b l' Hab]; constructor.
    apply Forall_cons in Hrest as [Hb _]. rewrite Ha, Hb.
    apply get_severity_monotone, Hab.
Qed.

Lemma X6_severity_witness :
  (Detection.severity_rank (Metrics._get_severity (Fin 16))
   <= Detection.severity_rank (Metrics._get_severity (Fin 30)))%nat.
Proof.
  apply (proj1 X6_severity_is_monotone 16%Q 30%Q). discriminate.
Defined.


(** ** Outcome of [set_baseline] *)

Lemma NoDup_map_compat {A B C : Type} (f : A -> B) (g : A -> C) l :
  (forall x y, In x l -> In y l -> f x = f y -> g x = g y) ->
  NoDup (map g l) -> NoDup (map f l).
Proof.
  induction l as [|a l IH]; simpl; intros Hfg Hnd; [constructor|].
  apply NoDup_cons in Hnd as [Hna Hnd]. apply NoDup_cons. split.
  - intros Hin. apply Hna. apply list_elem_of_In in Hin. apply list_elem_of_In.
    apply in_map_iff in Hin as (x & Hx & Hin). apply in_map_iff.
    exists x. split; [|exact Hin]. apply Hfg; auto.
  - apply IH; [|exact Hnd]. intros x y Hx Hy. apply Hfg; auto.
Qed.

Lemma deactivate_key crate bench row :
  Metrics.baseline_key (Metrics.deactivate crate bench row)
  = if bool_decide (Metrics.b_crate_name row = crate)
       && bool_decide (Metrics.b_benchmark_name row = bench)
    then (crate, bench, false)
    else Metrics.baseline_key row.
Proof.
  unfold Metrics.deactivate, Metrics.baseline_key.
  destruct (bool_decide (Metrics.b_crate_name row = crate)) eqn:Ec;
    destruct (bool_decide (Metrics.b_benchmark_name row = bench)) eqn:Eb;
    simpl; try reflexivity.
  apply bool_decide_eq_true in Ec, Eb. rewrite Ec, Eb. reflexivity.
Qed.

Lemma is_inactive_for_key crate bench row :
  Baselines.is_inactive_for crate bench row = true <->
  Metrics.baseline_key row = (crate, bench, false).
Proof.
  unfold Baselines.is_inactive_for, Metrics.baseline_key. split.
  - intros H. apply andb_true_iff in H as [H Ha].
    apply andb_true_iff in H as [->%bool_decide_eq_true ->%bool_decide_eq_true].
    apply negb_true_iff in Ha. rewrite Ha. reflexivity.
  - intros [= -> -> ->]. rewrite !bool_decide_eq_true_2; reflexivity.
Qed.

(** The UPDATE collides exactly when the pair has an active and an
    inactive row. *)
Lemma collision_iff d crate bench :
  Baselines.unique d ->
  (~ NoDup (map Metrics.baseline_key
                (map (Metrics.deactivate crate bench) (Metrics.performance_baselines d)))
   <->
   exists r1 r2,
     In r1 (Metrics.performance_baselines d) /\
     In r2 (Metrics.performance_baselines d) /\
     Metrics.baseline_key r1 = (crate, bench, true) /\
     Metrics.baseline_key r2 = (crate, bench, false)).
Proof.
  intros Hu. split.
  - intros Hnd.
    destruct (List.find (Metrics.is_active_for crate bench)
                        (Metrics.performance_baselines d)) as [r1|] eqn:F1.
    + destruct (List.find (Baselines.is_inactive_for crate bench)
                          (Metrics.performance_baselines d)) as [r2|] eqn:F2.
      * apply List.find_some in F1 as [H1 K1]. apply List.find_some in F2 as [H2 K2].
        exists r1, r2. repeat split; try assumption.
        -- apply is_active_for_key, K1.
        -- apply is_inactive_for_key, K2.
      * exfalso. apply Hnd. rewrite map_map.
        apply (NoDup_map_compat _ Metrics.baseline_key); [|exact Hu].
        intros x y Hx Hy. rewrite !deactivate_key.
        pose proof (List.find_none _ _ F2 x Hx) as Nx.
        pose proof (List.find_none _ _ F2 y Hy) as Ny.
        unfold Baselines.is_inactive_for, Metrics.baseline_key in *.
        destruct (bool_decide (Metrics.b_crate_name x = crate)) eqn:Ecx;
          destruct (bool_decide (Metrics.b_benchmark_name x = bench)) eqn:Ebx;
          destruct (bool_decide (Metrics.b_crate_name y = crate)) eqn:Ecy;
          destruct (bool_decide (Metrics.b_benchmark_name y = bench)) eqn:Eby;
          simpl in *; try (intros E; exact E);
          try apply bool_decide_eq_true in Ecx; try apply bool_decide_eq_true in Ebx;
          try apply bool_decide_eq_true in Ecy; try apply bool_decide_eq_true in Eby;
          try apply bool_decide_eq_false in Ecx; try apply bool_decide_eq_false in Ebx;
          try apply bool_decide_eq_false in Ecy; try apply bool_decide_eq_false in Eby;
          try (intros [= ? ? ?]; congruence).
        intros _. apply negb_false_iff in Nx, Ny. congruence.
    + exfalso. apply Hnd. rewrite map_map.
      replace (map (fun x => Metrics.baseline_key (Metrics.deactivate crate bench x))
                   (Metrics.performance_baselines d))
        with (map Metrics.baseline_key (Metrics.performance_baselines d)); [exact Hu|].
      apply map_ext_in. intros row Hrow. symmetry. apply deactivate_inactive.
      exact (List.find_none _ _ F1 row Hrow).
  - intros (r1 & r2 & H1 & H2 & K1 & K2) Hnd.
    pose proof (set_baseline_raises_with_two_rows d crate bench 0 "" "" r1 r2 H1 H2 K1 K2)
      as Hr.
    rewrite (set_baseline_ok d crate bench 0 "" "" Hnd eq_refl) in Hr. discriminate.
Qed.

Lemma after_unique d crate bench duration commit now :
  Baselines.unique d ->
  Baselines.unique
    (Baselines.after d (Metrics.set_baseline d crate bench duration commit now)).
Proof.
  intros Hu.
  destruct (set_baseline_outcome d crate bench duration commit now)
    as [[_ ->] | [(_ & _ & ->) | (Hnd & _ & ->)]]; try exact Hu.
  unfold Baselines.unique. simpl.
  rewrite map_app. simpl. apply NoDup_app. split; [exact Hnd|].
  split; [|apply NoDup_singleton].
  intros k Hk [<-|[]]%list_elem_of_In. apply list_elem_of_In in Hk.
  apply in_map_iff in Hk as (row' & Hk & Hin).
  apply in_map_iff in Hin as (row & <- & _).
  exact (deactivate_not_active _ _ _ Hk).
Qed.

(** X7.  On a store whose baseline table satisfies its UNIQUE constraint,
    [set_baseline] raises [sqlite3.IntegrityError] exactly when the pair
    already has an active and an inactive row; otherwise it raises
    [OverflowError] exactly when the duration does not fit 64 bits, and
    it commits in the remaining case.  The table afterwards satisfies
    the constraint; after a commit or an [IntegrityError] it has exactly
    one active row for the pair; after an [OverflowError] the store is as
    it was. *)
Theorem X7_set_baseline_outcome :
  forall d crate bench duration commit now,
    Baselines.unique d ->
    let collides :=
      exists r1 r2,
        In r1 (Metrics.performance_baselines d) /\
        In r2 (Metrics.performance_baselines d) /\
        Metrics.baseline_key r1 = (crate, bench, true) /\
        Metrics.baseline_key r2 = (crate, bench, false) in
    let outcome := Metrics.set_baseline d crate bench duration commit now in
    (outcome = Raise IntegrityError <-> collides) /\
    (outcome = Raise OverflowError <-> ~ collides /\ in_int64 duration = false) /\
    ((exists d', outcome = Ok d') <-> ~ collides /\ in_int64 duration = true) /\
    Baselines.unique (Baselines.after d outcome) /\
    (outcome <> Raise OverflowError ->
     length (List.filter (Metrics.is_active_for crate bench)
               (Metrics.performance_baselines (Baselines.after d outcome)))
     = 1%nat) /\
    (outcome = Raise OverflowError -> Baselines.after d outcome = d).
Proof.
  intros d crate bench duration commit now Hu collides outcome.
  pose proof (collision_iff d crate bench Hu) as Hc. fold collides in Hc.
  assert (Hcases :
    (collides /\ outcome = Raise IntegrityError) \/
    (~ collides /\ in_int64 duration = false /\ outcome = Raise OverflowError) \/
    (~ collides /\ in_int64 duration = true /\ exists d', outcome = Ok d')).
  { unfold outcome.
    destruct (set_baseline_outcome d crate bench duration commit now)
      as [[Hnd E] | [(Hnd & Hf & E) | (Hnd & Hf & E)]].
    - left. split; [apply Hc, Hnd | exact E].
    - right. left. split; [intros H; apply Hc in H; contradiction|]. auto.
    - right. right. split; [intros H; apply Hc in H; contradiction|].
      split; [exact Hf|]. eexists. exact E. }
  split; [|split; [|split; [|split; [|split]]]].
  - destruct Hcases as [[H E] | [(H & Hf & E) | (H & Hf & d' & E)]]; rewrite E;
      split; intros; try discriminate; try contradiction; auto.
  - destruct Hcases as [[H E] | [(H & Hf & E) | (H & Hf & d' & E)]]; rewrite E;
      split; try discriminate; try tauto; try (intros [_ H']; congruence).
  - destruct Hcases as [[H E] | [(H & Hf & E) | (H & Hf & d' & E)]]; rewrite E;
      split; try (intros [? ?]; discriminate); try tauto;
      try (intros [_ H']; congruence).
    intros _. eauto.
  - apply after_unique, Hu.
  - apply (set_baseline_exclusive d crate bench duration commit now Hu).
  - intros ->. reflexivity.
Qed.

Lemma X7_set_baseline_outcome_witness :
  length (List.filter (Metrics.is_active_for "x" "y")
            (Metrics.performance_baselines
               (Baselines.after (Scenario.with_baseline 100)
                  (Metrics.set_baseline (Scenario.with_baseline 100)
                     "x" "y" 200 "v2" "2024-02-01T00:00:00"))))
  = 1%nat /\
  Baselines.after Metrics.init_database
    (Metrics.set_baseline Metrics.init_database "x" "y" (2 ^ 63) "v1"
       "2024-02-01T00:00:00")
  = Metrics.init_database.
Proof.
  split.
  - apply X7_set_baseline_outcome.
    + unfold Baselines.unique. apply (bool_decide_unpack _). vm_compute. exact I.
    + vm_compute. discriminate.
  - apply X7_set_baseline_outcome.
    + constructor.
    + vm_compute. reflexivity.
Defined.

Lemma set_baseline_ok_inv d crate bench duration commit now d' :
  Metrics.set_baseline d crate bench duration commit now = Ok d' ->
  d' = {| Metrics.benchmark_results := Metrics.benchmark_results d;
          Metrics.benchmark_results_seq := Metrics.benchmark_results_seq d;
          Metrics.performance_baselines :=
            map (Metrics.deactivate crate bench) (Metrics.performance_baselines d) ++
            [Metrics.mkBaselineRow (Metrics.performance_baselines_seq d + 1)
               crate bench duration (Sqlite.numeric_affinity now) (Some commit) true];
          Metrics.performance_baselines_seq := Metrics.performance_baselines_seq d + 1;
          Metrics.regression_alerts := Metrics.regression_alerts d;
          Metrics.regression_alerts_seq := Metrics.regression_alerts_seq d |}.
Proof.
  intros H.
  destruct (set_baseline_outcome d crate bench duration commit now)
    as [[_ E] | [(_ & _ & E) | (_ & _ & E)]]; rewrite E in H; try discriminate.
  injection H as <-. reflexivity.
Qed.

Lemma deactivate_other crate bench crate' bench' row :
  (crate', bench') <> (crate, bench) ->
  Metrics.is_active_for crate' bench' (Metrics.deactivate crate bench row)
  = Metrics.is_active_for crate' bench' row /\
  (Metrics.is_active_for crate' bench' row = true ->
   Metrics.deactivate crate bench row = row).
Proof.
  intros Hne. unfold Metrics.deactivate, Metrics.is_active_for.
  destruct (bool_decide (Metrics.b_crate_name row = crate)) eqn:Ec;
    destruct (bool_decide (Metrics.b_benchmark_name row = bench)) eqn:Eb;
    simpl; try (split; reflexivity).
  apply bool_decide_eq_true in Ec, Eb.
  destruct (bool_decide (Metrics.b_crate_name row = crate')) eqn:Ec';
    destruct (bool_decide (Metrics.b_benchmark_name row = bench')) eqn:Eb';
    simpl; try (split; [reflexivity | discriminate]).
  apply bool_decide_eq_true in Ec', Eb'. exfalso. apply Hne. congruence.
Qed.

Lemma filter_deactivate_other crate bench crate' bench' rows new :
  (crate', bench') <> (crate, bench) ->
  Metrics.baseline_key new = (crate, bench, true) ->
  List.filter (Metrics.is_active_for crate' bench')
              (map (Metrics.deactivate crate bench) rows ++ [new])
  = List.filter (Metrics.is_active_for crate' bench') rows.
Proof.
  intros Hne Hnew. rewrite List.filter_app.
  replace (List.filter (Metrics.is_active_for crate' bench') [new]) with (@nil Metrics.baseline_row).
  - rewrite app_nil_r. induction rows as [|row rows IH]; [reflexivity|].
    cbn [map List.filter].
    destruct (deactivate_other crate bench crate' bench' row Hne) as [-> Hid].
    destruct (Metrics.is_active_for crate' bench' row); [|exact IH].
    rewrite Hid by reflexivity. f_equal. exact IH.
  - simpl. destruct (Metrics.is_active_for crate' bench' new) eqn:E; [|reflexivity].
    apply is_active_for_key in E. exfalso. apply Hne. congruence.
Qed.

Lemma get_baseline_filter d crate bench :
  Metrics.get_baseline d crate bench
  = match List.filter (Metrics.is_active_for crate bench)
                      (Metrics.performance_baselines d) with
    | b :: _ => Some (Metrics.b_baseline_duration_ns b, Metrics.b_git_commit b)
    | [] => None
    end.
Proof.
  unfold Metrics.get_baseline.
  induction (Metrics.performance_baselines d) as [|row rows IH]; [reflexivity|].
  simpl. destruct (Metrics.is_active_for crate bench row); [reflexivity | exact IH].
Qed.

Lemma deactivate_data crate bench rows :
  map Baselines.data (map (Metrics.deactivate crate bench) rows)
  = map Baselines.data rows.
Proof.
  rewrite map_map. apply map_ext. intros row.
  unfold Metrics.deactivate, Baselines.data.
  destruct (_ && _); reflexivity.
Qed.

(** X8.  A [set_baseline] call that commits makes the new duration and
    commit the baseline that [get_baseline] returns for the pair, leaves
    the active baseline of every other pair as it was, keeps every
    earlier baseline row (only [is_active] can change) and adds one row,
    and does not touch the measurements or the alerts. *)
Theorem X8_set_baseline_commit :
  forall d crate bench duration commit now d',
    Metrics.set_baseline d crate bench duration commit now = Ok d' ->
    Metrics.get_baseline d' crate bench = Some (duration, Some commit) /\
    (forall crate' bench',
        (crate', bench') <> (crate, bench) ->
        Metrics.get_baseline d' crate' bench' = Metrics.get_baseline d crate' bench') /\
    map Baselines.data (Metrics.performance_baselines d')
    = (map Baselines.data (Metrics.performance_baselines d)
       ++ [(Metrics.performance_baselines_seq d + 1, crate, bench, duration,
            Sqlite.numeric_affinity now, Some commit)])%list /\
    Metrics.benchmark_results d' = Metrics.benchmark_results d /\
    Metrics.regression_alerts d' = Metrics.regression_alerts d.
Proof.
  intros d crate bench duration commit now d' H.
  pose proof (set_baseline_activates _ _ _ _ _ _ _ H) as (_ & Hget & _).
  apply set_baseline_ok_inv in H. subst d'. split; [exact Hget|]. split; [|split].
  - intros crate' bench' Hne. rewrite !get_baseline_filter.
    cbn [Metrics.performance_baselines].
    rewrite filter_deactivate_other by (assumption || reflexivity). reflexivity.
  - cbn [Metrics.performance_baselines]. rewrite map_app, deactivate_data. reflexivity.
  - split; reflexivity.
Qed.

Lemma X8_set_baseline_commit_witness :
  Metrics.get_baseline
    (Baselines.after (Scenario.with_baseline 100)
       (Metrics.set_baseline (Scenario.with_baseline 100)
          "x" "y" 200 "v2" "2024-02-01T00:00:00"))
    "x" "y"
  = Some (200, Some "v2").
Proof.
  eapply (X8_set_baseline_commit (Scenario.with_baseline 100) "x" "y" 200 "v2"
            "2024-02-01T00:00:00").
  vm_compute. reflexivity.
Defined.

(** ** Sequences of [set_baseline] calls *)

Lemma run_snoc d calls c :
  Baselines.run d (calls ++ [c])
  = (let '(crate, bench, duration, commit, now) := c in
     Baselines.after (Baselines.run d calls)
       (Metrics.set_baseline (Baselines.run d calls) crate bench duration commit now)).
Proof.
  unfold Baselines.run. rewrite fold_left_app. reflexivity.
Qed.

Lemma run_unique calls :
  forall d, Baselines.unique d -> Baselines.unique (Baselines.run d calls).
Proof.
  induction calls as [|[[[[crate bench] duration] commit] now] calls IH]; intros d Hu;
    [exact Hu|].
  apply IH, after_unique, Hu.
Qed.

Lemma after_other_pair d crate bench duration commit now crate' bench' :
  (crate', bench') <> (crate, bench) ->
  List.filter (Metrics.is_active_for crate' bench')
    (Metrics.performance_baselines
       (Baselines.after d (Metrics.set_baseline d crate bench duration commit now)))
  = List.filter (Metrics.is_active_for crate' bench') (Metrics.performance_baselines d).
Proof.
  intros Hne.
  destruct (Metrics.set_baseline d crate bench duration commit now) as [d'|e] eqn:E;
    [|reflexivity].
  apply set_baseline_ok_inv in E. subst d'. simpl.
  apply filter_deactivate_other; [exact Hne | reflexivity].
Qed.

Lemma set_baseline_overflow_inv d crate bench duration commit now :
  Metrics.set_baseline d crate bench duration commit now = Raise OverflowError ->
  in_int64 duration = false.
Proof.
  destruct (set_baseline_outcome d crate bench duration commit now)
    as [[_ ->] | [(_ & Hf & _) | (_ & _ & ->)]]; try discriminate.
  intros _. exact Hf.
Qed.

(** X9.  Starting from a store whose baseline table satisfies its UNIQUE
    constraint (a fresh store does), after any sequence of [set_baseline]
    calls, failed ones included, every pair has at most one active
    baseline row, and every pair that one of the calls was for with a
    duration that fits 64 bits has exactly one.  A call with a duration
    that does not fit leaves a fresh store without an active row. *)
Theorem X9_single_active_baseline_after_any_calls :
  forall d calls,
    Baselines.unique d ->
    Baselines.unique (Baselines.run d calls) /\
    (forall crate bench,
        (length (List.filter (Metrics.is_active_for crate bench)
                   (Metrics.performance_baselines (Baselines.run d calls))) <= 1)%nat) /\
    (forall c,
        In c calls ->
        in_int64 (Baselines.duration_of_call c) = true ->
        length (List.filter
                  (Metrics.is_active_for (fst (Baselines.pair_of_call c))
                                         (snd (Baselines.pair_of_call c)))
                  (Metrics.performance_baselines (Baselines.run d calls)))
        = 1%nat) /\
    (forall crate bench duration commit now,
        in_int64 duration = false ->
        Baselines.run Metrics.init_database [(crate, bench, duration, commit, now)]
        = Metrics.init_database).
Proof.
  intros d calls Hu. split; [apply run_unique, Hu|]. split; [|split].
  - intros crate bench. apply active_rows_at_most_one, run_unique, Hu.
  - induction calls as [|last calls IH] using rev_ind; intros c Hin Hfit;
      [destruct Hin|].
    rewrite run_snoc.
    destruct last as [[[[crate bench] duration] commit] now].
    destruct (decide (Baselines.pair_of_call c = (crate, bench))) as [E|E].
    + rewrite E. simpl fst. simpl snd.
      assert (Hdec : Metrics.set_baseline (Baselines.run d calls) crate bench
                       duration commit now = Raise OverflowError \/
                     Metrics.set_baseline (Baselines.run d calls) crate bench
                       duration commit now <> Raise OverflowError).
      { destruct (Metrics.set_baseline (Baselines.run d calls) crate bench
                    duration commit now) as [d'|[| |]];
          (left; reflexivity) || (right; discriminate). }
      destruct Hdec as [Ho|Ho].
      * rewrite Ho. simpl Baselines.after.
        pose proof (set_baseline_overflow_inv _ _ _ _ _ _ Ho) as Hnf.
        apply in_app_iff in Hin as [Hin|[<-|[]]].
        -- specialize (IH c Hin Hfit). rewrite E in IH. exact IH.
        -- simpl in Hfit. congruence.
      * apply set_baseline_exclusive; [apply run_unique, Hu | exact Ho].
    + rewrite after_other_pair
        by (rewrite <- surjective_pairing; exact E).
      apply IH; [|exact Hfit]. apply in_app_iff in Hin as [Hin|[<-|[]]]; [exact Hin|].
      exfalso. apply E. reflexivity.
  - intros crate bench duration commit now Hf. unfold Baselines.run. simpl.
    rewrite set_baseline_overflow; [reflexivity | constructor | exact Hf].
Qed.

Lemma X9_three_calls_witness :
  length (List.filter (Metrics.is_active_for "x" "y")
            (Metrics.performance_baselines
               (Baselines.run Metrics.init_database
                  [("x", "y", 100, "v1", "t1"); ("x", "y", 200, "v2", "t2");
                   ("x", "y", 300, "v3", "t3")])))
  = 1%nat.
Proof.
  apply (proj1 (proj2 (proj2 (X9_single_active_baseline_after_any_calls
                                Metrics.init_database
                                [("x", "y", 100, "v1", "t1"); ("x", "y", 200, "v2", "t2");
                                 ("x", "y", 300, "v3", "t3")]
                                ltac:(constructor))))
           ("x", "y", 100, "v1", "t1")).
  - left. reflexivity.
  - reflexivity.
Defined.


(** ** Batches of measurements *)







Lemma replace_row_untouched rs d r :
  In r rs ->
  List.filter (Store.untouched_by rs)
              (Metrics.benchmark_results (Metrics.replace_row d r))
  = List.filter (Store.untouched_by rs) (Metrics.benchmark_results d).
Proof.
  intros Hin. rewrite replace_row_rows, List.filter_app. simpl.
  assert (Hnew : Store.untouched_by rs
                   (Metrics.row_of (Metrics.benchmark_results_seq d + 1) r) = false).
  { unfold Store.untouched_by. apply bool_decide_eq_false. intros Hn. apply Hn.
    apply list_elem_of_In, in_map_iff. exists r. split; [reflexivity | exact Hin]. }
  rewrite Hnew, app_nil_r.
  induction (Metrics.benchmark_results d) as [|row rows IH]; [reflexivity|].
  cbn [List.filter].
  destruct (decide (Metrics.row_identity row = Metrics.identity r)) as [E|E].
  - rewrite (bool_decide_eq_true_2 _ E). cbn [negb].
    assert (Hrow : Store.untouched_by rs row = false).
    { unfold Store.untouched_by. apply bool_decide_eq_false. intros Hn. apply Hn.
      apply list_elem_of_In, in_map_iff. exists r. split; [symmetry; exact E | exact Hin]. }
    rewrite Hrow. exact IH.
  - rewrite (bool_decide_eq_false_2 _ E). cbn [negb List.filter].
    rewrite IH. reflexivity.
Qed.

Lemma fold_replace_stored rs :
  forall d r, In r rs -> Metrics.stored (fold_left Metrics.replace_row rs d) r.
Proof.
  induction rs as [|r0 rs IH] using rev_ind; intros d r Hin; [destruct Hin|].
  rewrite fold_left_app. cbn [fold_left]. apply replace_row_stored.
  apply in_app_iff in Hin as [Hin|[<-|[]]].
  - left. apply IH, Hin.
  - right. reflexivity.
Qed.

Lemma replace_row_length_le d r :
  (length (Metrics.benchmark_results (Metrics.replace_row d r))
   <= S (length (Metrics.benchmark_results d)))%nat.
Proof.
  rewrite replace_row_rows, length_app. simpl.
  pose proof (List.filter_length_le
                (fun row => negb (bool_decide (Metrics.row_identity row = Metrics.identity r)))
                (Metrics.benchmark_results d)).
  lia.
Qed.

Lemma fold_replace_batch d rs :
  let d' := fold_left Metrics.replace_row rs d in
  List.filter (Store.untouched_by rs) (Metrics.benchmark_results d')
  = List.filter (Store.untouched_by rs) (Metrics.benchmark_results d) /\
  (length (Metrics.benchmark_results d')
   <= length (Metrics.benchmark_results d) + length rs)%nat /\
  Metrics.performance_baselines d' = Metrics.performance_baselines d /\
  Metrics.performance_baselines_seq d' = Metrics.performance_baselines_seq d /\
  Metrics.regression_alerts d' = Metrics.regression_alerts d /\
  Metrics.regression_alerts_seq d' = Metrics.regression_alerts_seq d.
Proof.
  cbv zeta. split; [|split].
  - assert (Hgen : forall l d0, (forall r, In r l -> In r rs) ->
              List.filter (Store.untouched_by rs)
                (Metrics.benchmark_results (fold_left Metrics.replace_row l d0))
              = List.filter (Store.untouched_by rs) (Metrics.benchmark_results d0)).
    { induction l as [|r l IH]; intros d0 Hsub; [reflexivity|].
      cbn [fold_left].
      rewrite IH by (intros r' Hr'; apply Hsub; right; exact Hr').
      apply replace_row_untouched. apply Hsub. left. reflexivity. }
    apply Hgen. auto.
  - revert d. induction rs as [|r rs IH]; intros d; [simpl; lia|].
    cbn [fold_left]. specialize (IH (Metrics.replace_row d r)).
    pose proof (replace_row_length_le d r).
    change (length (r :: rs)) with (S (length rs)). lia.
  - revert d. induction rs as [|r rs IH]; intros d; [repeat split|].
    cbn [fold_left]. destruct (IH (Metrics.replace_row d r)) as (-> & -> & -> & ->).
    repeat split.
Qed.

(** X11.  A batch either raises [OverflowError], which happens exactly
    when one of its integers does not fit 64 bits and leaves the store
    as it was, or is committed.  A committed batch keeps, unchanged and
    in order, every row whose stored identity triple is not that of a
    record of the batch, adds at most one row per record, and leaves the
    baselines and the alerts alone; on a table that satisfies its UNIQUE
    constraint, inserting the same batch a second time does not change
    the number of rows. *)
Theorem X11_insert_results_batch :
  forall d rs,
    (forall e,
        Metrics.insert_results d rs = Raise e <->
        e = OverflowError /\ exists r, In r rs /\ Metrics.bindable r = false) /\
    (forall d',
        Metrics.insert_results d rs = Ok d' ->
        List.filter (Store.untouched_by rs) (Metrics.benchmark_results d')
        = List.filter (Store.untouched_by rs) (Metrics.benchmark_results d) /\
        (length (Metrics.benchmark_results d')
         <= length (Metrics.benchmark_results d) + length rs)%nat /\
        Metrics.performance_baselines d' = Metrics.performance_baselines d /\
        Metrics.regression_alerts d' = Metrics.regression_alerts d /\
        (Metrics.unique_results d ->
         exists d'',
           Metrics.insert_results d' rs = Ok d'' /\
           length (Metrics.benchmark_results d'')
           = length (Metrics.benchmark_results d'))).
Proof.
  intros d rs. split.
  - intros e. destruct (insert_results_outcome d rs) as [[Hb ->] | [Hex ->]].
    + split; [discriminate|]. intros (_ & r & Hin & Hf). rewrite (Hb r Hin) in Hf.
      discriminate.
    + split; [intros [= <-]; auto | intros [-> _]; reflexivity].
  - intros d' E. destruct (insert_results_outcome d rs) as [[Hb E'] | [_ E']];
      rewrite E' in E; [|discriminate].
    injection E as <-.
    destruct (fold_replace_batch d rs) as (H1 & H2 & H3 & _ & H4 & _).
    split; [exact H1|]. split; [exact H2|]. split; [exact H3|]. split; [exact H4|].
    intros Hu. exists (fold_left Metrics.replace_row rs (fold_left Metrics.replace_row rs d)).
    split; [apply insert_results_ok, Hb|].
    apply fold_replace_length.
    + apply fold_replace_unique, Hu.
    + intros r Hr. apply fold_replace_stored, Hr.
Qed.

Lemma X11_batch_twice_witness :
  let batch := [Scenario.sample "A" 100 "t1" "c1"; Scenario.sample "B" 7 "t1" "c1"] in
  exists d' d'',
    Metrics.insert_results Metrics.init_database batch = Ok d' /\
    Metrics.insert_results d' batch = Ok d'' /\
    length (Metrics.benchmark_results d'') = length (Metrics.benchmark_results d').
Proof.
  intros batch.
  pose (d' := fold_left Metrics.replace_row batch Metrics.init_database).
  assert (E : Metrics.insert_results Metrics.init_database batch = Ok d')
    by (vm_compute; reflexivity).
  destruct (proj2 (X11_insert_results_batch Metrics.init_database batch) d' E)
    as (_ & _ & _ & _ & H).
  destruct (H init_database_unique) as (d'' & E2 & Hl).
  exists d', d''. auto.
Defined.

Lemma replace_row_ids_fresh d r :
  Store.ids_fresh d -> Store.ids_fresh (Metrics.replace_row d r).
Proof.
  intros [Hnd Hle]. unfold Store.ids_fresh. rewrite replace_row_rows.
  simpl Metrics.benchmark_results_seq. split.
  - rewrite map_app. simpl. apply NoDup_app. split; [apply NoDup_map_filter, Hnd|].
    split; [|apply NoDup_singleton].
    intros id Hid [<-|[]]%list_elem_of_In. apply list_elem_of_In in Hid.
    apply in_map_iff in Hid as (row & Hrow & Hin).
    apply List.filter_In in Hin as [Hin _]. specialize (Hle row Hin). lia.
  - intros row Hin. apply in_app_iff in Hin as [Hin|[<-|[]]].
    + apply List.filter_In in Hin as [Hin _]. specialize (Hle row Hin). lia.
    + simpl. lia.
Qed.

Lemma after_insert_ids_fresh d rs :
  Store.ids_fresh d ->
  Store.ids_fresh (Baselines.after d (Metrics.insert_results d rs)).
Proof.
  intros Hf. destruct (insert_results_outcome d rs) as [[_ ->] | [_ ->]];
    [|exact Hf].
  simpl. revert d Hf. induction rs as [|r rs IH]; intros d Hf; [exact Hf|].
  apply (IH (Metrics.replace_row d r)), replace_row_ids_fresh, Hf.
Qed.

(** X12.  Starting from a fresh store, after any number of batches, failed
    ones included, the row ids of the measurements are pairwise distinct
    and none exceeds the AUTOINCREMENT counter, and the UNIQUE constraint
    on the identity triple holds; in particular a replaced row never
    keeps its id: the new row gets an id above every id in the table. *)
Theorem X12_ids_stay_fresh :
  (forall batches,
      let d := Store.run Metrics.init_database batches in
      Store.ids_fresh d /\ Metrics.unique_results d) /\
  (forall d r row,
      Store.ids_fresh d ->
      In row (Metrics.benchmark_results d) ->
      Metrics.r_id row < Metrics.benchmark_results_seq d + 1 /\
      (Metrics.bindable r = true ->
       exists d',
         Metrics.insert_results d [r] = Ok d' /\
         Metrics.rows_of d' r
         = [Metrics.row_of (Metrics.benchmark_results_seq d + 1) r])).
Proof.
  split.
  - intros batches.
    assert (Hgen : forall bs d0,
               Store.ids_fresh d0 /\ Metrics.unique_results d0 ->
               Store.ids_fresh (Store.run d0 bs) /\
               Metrics.unique_results (Store.run d0 bs)).
    { induction bs as [|rs bs IH]; intros d0 H; [exact H|].
      unfold Store.run. simpl. apply IH. destruct H as [Hf Hu]. split.
      - apply after_insert_ids_fresh, Hf.
      - apply insert_results_unique, Hu. }
    apply Hgen. split; [|apply init_database_unique].
    split; [constructor | intros row []].
  - intros d r row [_ Hle] Hin. split; [specialize (Hle row Hin); lia|].
    intros Hb. exists (Metrics.replace_row d r).
    split; [apply (insert_results_ok [r]); intros x [<-|[]]; exact Hb|].
    apply replace_row_rows_of.
Qed.

Lemma X12_ids_witness :
  Metrics.r_id (Metrics.row_of 1 (Scenario.sample "A" 100 "t1" "c1")) < 1 + 1.
Proof.
  apply (proj2 X12_ids_stay_fresh
           (Metrics.replace_row Metrics.init_database (Scenario.sample "A" 100 "t1" "c1"))
           (Scenario.sample "A" 120 "t1" "c2")
           (Metrics.row_of 1 (Scenario.sample "A" 100 "t1" "c1"))).
  - split; [repeat constructor; intros []%list_elem_of_In | ].
    intros row [<-|[]]. simpl. lia.
  - left. reflexivity.
Defined.


(** ** Smallest binary64 values *)

Lemma pow2_ge_1 k : 0 <= k -> 1 <= 2 ^ k.
Proof. intros Hk. pose proof (Z.pow_pos_nonneg 2 k ltac:(lia) Hk). lia. Qed.

Lemma floor_log2_lower n d :
  0 < n -> 0 < d ->
  (0 <= floor_log2 n d -> d * 2 ^ floor_log2 n d <= n) /\
  (floor_log2 n d < 0 -> d <= n * 2 ^ (- floor_log2 n d)).
Proof.
  intros Hn Hd. unfold floor_log2. cbv zeta.
  set (e := Z.log2 n - Z.log2 d).
  destruct (Z.log2_spec n Hn) as [Ln _]. destruct (Z.log2_spec d Hd) as [_ Ld].
  pose proof (Z.log2_nonneg n) as Nn. pose proof (Z.log2_nonneg d) as Nd.
  assert (Hfalse : (0 <= e - 1 -> d * 2 ^ (e - 1) <= n) /\
                   (e - 1 < 0 -> d <= n * 2 ^ (- (e - 1)))).
  { split; intros He.
    - assert (E : 2 ^ Z.log2 n = 2 ^ Z.succ (Z.log2 d) * 2 ^ (e - 1)).
      { rewrite <- Z.pow_add_r by lia. f_equal. unfold e. lia. }
      assert (0 < 2 ^ (e - 1)) by (apply Z.pow_pos_nonneg; lia).
      nia.
    - assert (E : 2 ^ Z.succ (Z.log2 d) = 2 ^ Z.log2 n * 2 ^ (- (e - 1))).
      { rewrite <- Z.pow_add_r by lia. f_equal. unfold e. lia. }
      assert (0 < 2 ^ (- (e - 1))) by (apply Z.pow_pos_nonneg; lia).
      nia. }
  destruct (Z.leb_spec 0 e) as [He|He].
  - destruct (Z.leb_spec (d * 2 ^ e) n) as [Ht|Ht]; [|exact Hfalse].
    split; [intros _; exact Ht | lia].
  - destruct (Z.leb_spec d (n * 2 ^ (- e))) as [Ht|Ht]; [|exact Hfalse].
    split; [lia | intros _; exact Ht].
Qed.

(** A quotient of at least [2^-1074] does not round to 0. *)
Lemma round64_pos_lower n d :
  0 < n -> 0 < d -> d <= n * 2 ^ 1074 -> (0 < round64_pos n d)%Q.
Proof.
  intros Hn Hd Hq. unfold round64_pos. cbv zeta.
  destruct (floor_log2_lower n d Hn Hd) as [L1 L2].
  set (e := floor_log2 n d) in *.
  destruct (Z.leb_spec 0 (Z.max (e - 52) (-1074))) as [Hk|Hk].
  - assert (Ek : Z.max (e - 52) (-1074) = e - 52) by lia. rewrite Ek in *.
    change 0%Q with (inject_Z 0). rewrite <- Zlt_Qlt.
    assert (H2k : 0 < 2 ^ (e - 52)) by (apply Z.pow_pos_nonneg; lia).
    apply Z.mul_pos_pos; [|exact H2k].
    apply Z.lt_le_trans with 1; [lia|].
    apply round_half_even_ge; [nia|].
    assert (E : 2 ^ e = 2 ^ (e - 52) * 2 ^ 52)
      by (rewrite <- Z.pow_add_r by lia; f_equal; lia).
    specialize (L1 ltac:(lia)).
    assert (1 <= 2 ^ 52) by (apply pow2_ge_1; lia).
    nia.
  - rewrite Qred_correct. unfold Qlt. simpl. rewrite Z.mul_1_r.
    apply Z.lt_le_trans with 1; [lia|].
    apply round_half_even_ge; [exact Hd|]. rewrite Z.mul_1_l.
    destruct (Z.le_gt_cases (e - 52) (-1074)) as [Hs|Hs].
    + assert (Ek : Z.max (e - 52) (-1074) = -1074) by lia. rewrite Ek.
      exact Hq.
    + assert (Ek : Z.max (e - 52) (-1074) = e - 52) by lia. rewrite Ek.
      destruct (Z.le_gt_cases 0 e) as [He|He].
      * specialize (L1 He).
        assert (1 <= 2 ^ e) by (apply pow2_ge_1; lia).
        assert (1 <= 2 ^ (- (e - 52))) by (apply pow2_ge_1; lia).
        nia.
      * specialize (L2 He).
        assert (E : 2 ^ (- (e - 52)) = 2 ^ (- e) * 2 ^ 52)
          by (rewrite <- Z.pow_add_r by lia; f_equal; lia).
        assert (1 <= 2 ^ 52) by (apply pow2_ge_1; lia).
        assert (0 < 2 ^ (- e)) by (apply Z.pow_pos_nonneg; lia).
        nia.
Qed.

Lemma Qnum_zero q : (q == 0)%Q -> Qnum q = 0.
Proof. unfold Qeq. simpl. lia. Qed.

Lemma Qnum_pos q : (0 < q)%Q -> 0 < Qnum q.
Proof. unfold Qlt. simpl. lia. Qed.

(** A rounded value that is not 0 is at least [2^-1074]. *)
Lemma round64_pos_quantum n d :
  0 < n -> 0 < d -> (0 < round64_pos n d)%Q ->
  Zpos (Qden (round64_pos n d)) <= Qnum (round64_pos n d) * 2 ^ 1074.
Proof.
  intros Hn Hd. unfold round64_pos. cbv zeta.
  set (k := Z.max (floor_log2 n d - 52) (-1074)).
  assert (H1074 : 1 <= 2 ^ 1074) by (apply pow2_ge_1; lia).
  destruct (Z.leb_spec 0 k) as [Hk|Hk]; intros Hpos.
  - change 0%Q with (inject_Z 0) in Hpos. rewrite <- Zlt_Qlt in Hpos. simpl. nia.
  - set (m := round_half_even (n * 2 ^ (- k)) d) in *.
    assert (H2k : 0 < 2 ^ (- k)) by (apply Z.pow_pos_nonneg; lia).
    assert (Hm : 0 < m).
    { rewrite Qred_correct in Hpos. unfold Qlt in Hpos. simpl in Hpos. lia. }
    pose proof (Qred_correct (m # Z.to_pos (2 ^ (- k)))) as E.
    unfold Qeq in E. simpl in E. rewrite Z2Pos.id in E by exact H2k.
    set (r := Qred (m # Z.to_pos (2 ^ (- k)))) in *.
    assert (Hle : 2 ^ (- k) <= 2 ^ 1074) by (apply Z.pow_le_mono_r; unfold k; lia).
    assert (Hrn : 0 < Qnum r) by nia.
    nia.
Qed.

(** The magnitude of the number is below [2^-1074]. *)
Lemma round64_zero q :
  (round64 q == 0)%Q -> Z.abs (Qnum q) * 2 ^ 1074 < Zpos (Qden q).
Proof.
  unfold round64. destruct (Qnum q) as [|n|n] eqn:En; intros H.
  - simpl. lia.
  - destruct (Z.lt_ge_cases (Zpos n * 2 ^ 1074) (Zpos (Qden q))) as [Hl|Hl];
      [simpl; exact Hl|].
    pose proof (round64_pos_lower (Zpos n) (Zpos (Qden q)) ltac:(lia) ltac:(lia)
                  ltac:(lia)) as Hp.
    rewrite H in Hp. discriminate.
  - destruct (Z.lt_ge_cases (Zpos n * 2 ^ 1074) (Zpos (Qden q))) as [Hl|Hl];
      [simpl; exact Hl|].
    pose proof (round64_pos_lower (Zpos n) (Zpos (Qden q)) ltac:(lia) ltac:(lia)
                  ltac:(lia)) as Hp.
    assert (H' : (round64_pos (Zpos n) (Zpos (Qden q)) == 0)%Q).
    { rewrite <- (Qopp_involutive (round64_pos _ _)), H. reflexivity. }
    rewrite H' in Hp. discriminate.
Qed.

Lemma round64_value y :
  ~ (round64 y == 0)%Q ->
  Zpos (Qden (round64 y)) <= Z.abs (Qnum (round64 y)) * 2 ^ 1074.
Proof.
  unfold round64. destruct (Qnum y) as [|n|n] eqn:En; intros H.
  - exfalso. apply H. reflexivity.
  - pose proof (round64_pos_nonneg (Zpos n) (Zpos (Qden y)) ltac:(lia) ltac:(lia)) as H0.
    assert (Hp : (0 < round64_pos (Zpos n) (Zpos (Qden y)))%Q).
    { apply Qle_lt_or_eq in H0 as [H0|H0]; [exact H0|]. exfalso. apply H.
      symmetry. exact H0. }
    pose proof (round64_pos_quantum (Zpos n) (Zpos (Qden y)) ltac:(lia) ltac:(lia) Hp).
    apply Qnum_pos in Hp. lia.
  - pose proof (round64_pos_nonneg (Zpos n) (Zpos (Qden y)) ltac:(lia) ltac:(lia)) as H0.
    assert (Hp : (0 < round64_pos (Zpos n) (Zpos (Qden y)))%Q).
    { apply Qle_lt_or_eq in H0 as [H0|H0]; [exact H0|]. exfalso. apply H.
      rewrite <- H0. reflexivity. }
    pose proof (round64_pos_quantum (Zpos n) (Zpos (Qden y)) ltac:(lia) ltac:(lia) Hp).
    apply Qnum_pos in Hp. cbn [Qopp Qnum Qden]. lia.
Qed.

(** Rounding a binary64 value again, after a zero is subtracted, gives 0
    only for 0. *)
Lemma round64_again y b :
  (b == 0)%Q -> ((round64 (round64 y - b) == 0)%Q <-> (round64 y == 0)%Q).
Proof.
  intros Hb. split.
  - intros H. destruct (Qeq_dec (round64 y) 0) as [E|E]; [exact E|]. exfalso.
    pose proof (round64_value y E) as Hv.
    pose proof (round64_zero _ H) as Hz.
    assert (Hx : (round64 y - b == round64 y)%Q) by (rewrite Hb; ring).
    unfold Qeq in Hx.
    set (x := round64 y) in *. set (x' := (x - b)%Q) in *.
    assert (0 < 2 ^ 1074) by (apply Z.pow_pos_nonneg; lia).
    assert (Habs : Z.abs (Qnum x') * Zpos (Qden x) = Z.abs (Qnum x) * Zpos (Qden x')).
    { rewrite <- (Z.abs_eq (Zpos (Qden x))), <- (Z.abs_eq (Zpos (Qden x'))) by lia.
      rewrite <- !Z.abs_mul. f_equal. exact Hx. }
    nia.
  - intros H. assert (Hx : (round64 y - b == 0)%Q) by (rewrite H, Hb; ring).
    unfold round64 at 1.
    rewrite (Qnum_zero _ Hx). reflexivity.
Qed.

Lemma round64_of_zero q : (q == 0)%Q -> round64 q = 0%Q.
Proof.
  intros H. unfold round64.
  rewrite (Qnum_zero q H). reflexivity.
Qed.

Lemma fl_of_zero q : (q == 0)%Q -> fl q = Fin 0.
Proof.
  intros H. unfold fl. rewrite (round64_of_zero q H). reflexivity.
Qed.


(** ** Compared pairs *)

Lemma group_keys_complete k l : In k l -> In k (Metrics.group_keys l).
Proof.
  induction l as [|k0 l IH]; simpl; [auto|].
  intros [->|H]; [left; reflexivity|].
  destruct (decide (k = k0)) as [->|E]; [left; reflexivity|].
  right. apply List.filter_In. split; [apply IH, H|].
  apply negb_true_iff, bool_decide_eq_false, E.
Qed.

Lemma NoDup_list_filter {A : Type} (f : A -> bool) l :
  NoDup l -> NoDup (List.filter f l).
Proof.
  induction l as [|a l IH]; simpl; intros Hnd; [constructor|].
  apply NoDup_cons in Hnd as [Hna Hnd]. destruct (f a); [|auto].
  apply NoDup_cons. split; [|auto].
  intros Hin. apply Hna. apply list_elem_of_In in Hin. apply list_elem_of_In.
  apply List.filter_In in Hin as [Hin _]. exact Hin.
Qed.

Lemma group_keys_NoDup l : NoDup (Metrics.group_keys l).
Proof.
  induction l as [|k0 l IH]; simpl; [constructor|].
  apply NoDup_cons. split.
  - intros Hin. apply list_elem_of_In, List.filter_In in Hin as [_ Hk].
    apply negb_true_iff, bool_decide_eq_false in Hk. apply Hk. reflexivity.
  - apply NoDup_list_filter, IH.
Qed.

Lemma select_avg_pairs d commit :
  map Comparison.avg_pair (Metrics.select_avg d commit)
  = Metrics.sort_pairs
      (Metrics.group_keys
         (map Metrics.pair_of
              (List.filter (fun row => bool_decide (Metrics.r_git_commit row = Some commit))
                           (Metrics.benchmark_results d)))).
Proof.
  unfold Metrics.select_avg. rewrite map_map.
  erewrite map_ext; [apply map_id|]. intros [c b]. reflexivity.
Qed.

Lemma select_avg_NoDup d commit :
  NoDup (map Comparison.avg_pair (Metrics.select_avg d commit)).
Proof.
  rewrite select_avg_pairs.
  rewrite <- (sort_pairs_perm _). apply group_keys_NoDup.
Qed.

Lemma select_avg_measured d commit crate bench :
  Comparison.measured d commit crate bench ->
  exists a, In a (Metrics.select_avg d commit) /\ Comparison.avg_pair a = (crate, bench).
Proof.
  intros (row & Hin & Hc & Hcr & Hb).
  assert (Hk : In (crate, bench) (map Comparison.avg_pair (Metrics.select_avg d commit))).
  { rewrite select_avg_pairs. apply sort_pairs_In, group_keys_complete, in_map_iff.
    exists row. split; [unfold Metrics.pair_of; congruence|].
    apply List.filter_In. split; [exact Hin | apply bool_decide_eq_true, Hc]. }
  apply in_map_iff in Hk as (a & Ha & Hin'). exists a. auto.
Qed.

Lemma merge_pairs_NoDup base_data current_data :
  NoDup (map Comparison.avg_pair base_data) ->
  NoDup (map Comparison.avg_pair current_data) ->
  NoDup (map Comparison.pair (Metrics.merge base_data current_data)).
Proof.
  intros Hb Hc. induction base_data as [|b base IH]; [constructor|].
  simpl in Hb. apply NoDup_cons in Hb as [Hnb Hb].
  unfold Metrics.merge. cbn [flat_map]. fold (Metrics.merge base current_data).
  rewrite map_app. apply NoDup_app. split; [|split; [|apply IH, Hb]].
  - rewrite map_map.
    assert (Hone : forall l,
               NoDup (map Comparison.avg_pair l) ->
               NoDup (map (fun c => Comparison.pair (Metrics.compare_rows b c))
                          (List.filter
                             (fun c => bool_decide (Metrics.avg_crate_name c
                                                    = Metrics.avg_crate_name b)
                                       && bool_decide (Metrics.avg_benchmark_name c
                                                       = Metrics.avg_benchmark_name b))
                             l))).
    { clear. intros l Hl.
      apply (NoDup_map_compat _ Comparison.avg_pair);
        [|apply NoDup_map_filter, Hl].
      intros x y Hx Hy _.
      apply List.filter_In in Hx as [_ Hx]. apply List.filter_In in Hy as [_ Hy].
      apply andb_true_iff in Hx as [?%bool_decide_eq_true ?%bool_decide_eq_true].
      apply andb_true_iff in Hy as [?%bool_decide_eq_true ?%bool_decide_eq_true].
      unfold Comparison.avg_pair. congruence. }
    apply Hone, Hc.
  - intros k Hk1 Hk2. apply list_elem_of_In in Hk1, Hk2.
    apply in_map_iff in Hk1 as (c1 & <- & H1).
    apply in_map_iff in H1 as (c' & <- & _).
    apply in_map_iff in Hk2 as (c2 & E & H2).
    apply merge_In in H2 as (b2 & c2' & Hb2 & _ & _ & _ & ->).
    apply Hnb. apply list_elem_of_In, in_map_iff. exists b2. split; [|exact Hb2].
    unfold Comparison.pair, Comparison.avg_pair in *. simpl in E. exact E.
Qed.

(** X13.  The comparison report compares exactly the pairs measured
    under both commits: every such pair has a row in [details], every row
    of [details] is for such a pair, and no pair has two rows, so
    [total_comparisons] is the number of pairs measured under both
    commits. *)
Theorem X13_comparison_covers_common_pairs :
  forall d base current,
    let report := Metrics.generate_comparison_report d base current in
    (forall crate bench,
        (exists c, In c (Metrics.details report) /\ Comparison.pair c = (crate, bench))
        <->
        Comparison.measured d base crate bench /\
        Comparison.measured d current crate bench) /\
    NoDup (map Comparison.pair (Metrics.details report)) /\
    Metrics.total_comparisons report = length (map Comparison.pair (Metrics.details report)).
Proof.
  intros d base current report. split; [|split].
  - intros crate bench. split.
    + intros (c & Hin & Hp). simpl in Hin.
      apply merge_In in Hin as (b & c' & Hb & Hc' & E1 & E2 & ->).
      unfold Comparison.pair in Hp. simpl in Hp. injection Hp as <- <-.
      apply select_avg_In in Hb as (row & ? & ? & ? & ?).
      apply select_avg_In in Hc' as (row' & ? & ? & ? & ?).
      split; [exists row | exists row']; repeat split; congruence.
    + intros [Hb Hc].
      apply select_avg_measured in Hb as (b & Hb & Kb).
      apply select_avg_measured in Hc as (c & Hc & Kc).
      exists (Metrics.compare_rows b c). split; [|exact Kb].
      simpl. unfold Metrics.merge. apply in_flat_map. exists b. split; [exact Hb|].
      apply in_map, List.filter_In. split; [exact Hc|].
      unfold Comparison.avg_pair in *. injection Kb as <- <-. injection Kc as -> ->.
      rewrite !bool_decide_eq_true_2; reflexivity.
  - simpl. apply merge_pairs_NoDup; apply select_avg_NoDup.
  - simpl. rewrite length_map. reflexivity.
Qed.

Lemma X13_common_pairs_witness :
  exists c,
    In c (Metrics.details
            (Metrics.generate_comparison_report Scenario.two_versions "base" "current")) /\
    Comparison.pair c = ("m", "B").
Proof.
  apply (proj1 (X13_comparison_covers_common_pairs Scenario.two_versions
                  "base" "current")).
  split.
  - exists (Metrics.row_of 2 (Scenario.sample "B" 100 "2024-01-01T00:00:00" "base")).
    split; [right; left; vm_compute; reflexivity | repeat split].
  - exists (Metrics.row_of 4 (Scenario.sample "B" 106 "2024-02-01T00:00:00" "current")).
    split; [right; right; right; left; vm_compute; reflexivity | repeat split].
Defined.

(** ** Buckets of a comparison *)

Lemma four_way_count {A : Type} (f1 f2 f3 f4 : A -> bool) l :
  (forall x, In x l ->
     (Nat.b2n (f1 x) + Nat.b2n (f2 x) + Nat.b2n (f3 x) + Nat.b2n (f4 x) = 1)%nat) ->
  (length (List.filter f1 l) + length (List.filter f2 l)
   + length (List.filter f3 l) + length (List.filter f4 l) = length l)%nat.
Proof.
  induction l as [|x l IH]; intros H; [reflexivity|].
  specialize (IH (fun y Hy => H y (or_intror Hy))).
  specialize (H x (or_introl eq_refl)). cbn [List.filter].
  destruct (f1 x), (f2 x), (f3 x), (f4 x); simpl in *; lia.
Qed.

Lemma bucket_of_row c :
  (Nat.b2n (Metrics.is_improvement c) + Nat.b2n (Metrics.is_regression c)
   + Nat.b2n (Metrics.is_stable c) + Nat.b2n (Comparison.is_nan c) = 1)%nat.
Proof.
  unfold Metrics.is_improvement, Metrics.is_regression, Metrics.is_stable,
    Comparison.is_nan.
  destruct (Metrics.change_percent c) as [q| | |]; simpl; try reflexivity.
  destruct (Qgtb (-5) q) eqn:E1; [apply Qgtb_lt in E1 | apply Qgtb_le in E1];
    (destruct (Qgtb q 5) eqn:E2; [apply Qgtb_lt in E2 | apply Qgtb_le in E2]);
    (destruct (Qle_bool (Qabs q) 5) eqn:E3;
     [apply Qle_bool_iff, Qabs_Qle_condition in E3
     |apply not_true_iff_false in E3; rewrite Qle_bool_iff, Qabs_Qle_condition in E3]);
    simpl; try reflexivity; exfalso; try lra; try (apply E3; split; lra).
Qed.

Lemma fl_not_nan q : fl q <> NaN.
Proof.
  unfold fl. cbv zeta. destruct (Qle_bool _ _); [discriminate|].
  destruct (Qle_bool _ _); discriminate.
Qed.

Lemma fmul_nan v c : fmul v c = NaN <-> v = NaN.
Proof.
  destruct v; simpl; split; try discriminate; try reflexivity.
  intros H. exfalso. exact (fl_not_nan _ H).
Qed.

Lemma select_avg_rounded d commit a :
  In a (Metrics.select_avg d commit) -> exists y, Metrics.avg_duration a = round64 y.
Proof.
  unfold Metrics.select_avg. intros H. apply in_map_iff in H as (k & <- & _).
  simpl. unfold Metrics.sqlite_avg. eexists. reflexivity.
Qed.

Lemma compare_rows_nan b c :
  (exists y, Metrics.avg_duration c = round64 y) ->
  (Comparison.is_nan (Metrics.compare_rows b c) = true <->
   (Metrics.avg_duration b == 0 /\ Metrics.avg_duration c == 0)%Q).
Proof.
  intros [y Hy].
  assert (Hnan : Comparison.is_nan (Metrics.compare_rows b c) = true <->
                 fdiv (fsub (Metrics.avg_duration c) (Metrics.avg_duration b))
                      (Metrics.avg_duration b) = NaN).
  { unfold Comparison.is_nan, Metrics.compare_rows. cbn [Metrics.change_percent].
    rewrite <- (fmul_nan _ 100).
    destruct (fmul _ 100); split; try discriminate; reflexivity. }
  rewrite Hnan. clear Hnan. unfold fdiv, fsub.
  destruct (Qeq_bool (Metrics.avg_duration b) 0) eqn:E0.
  - apply Qeq_bool_iff in E0.
    pose proof (round64_again y (Metrics.avg_duration b) E0) as Hr.
    rewrite <- Hy in Hr.
    set (change := round64 (Metrics.avg_duration c - Metrics.avg_duration b)) in *.
    destruct (Qgtb change 0) eqn:E1; [apply Qgtb_lt in E1 | apply Qgtb_le in E1].
    + split; [discriminate|]. intros [_ H]. apply Hr in H. exfalso. lra.
    + destruct (Qgtb 0 change) eqn:E2; [apply Qgtb_lt in E2 | apply Qgtb_le in E2].
      * split; [discriminate|]. intros [_ H]. apply Hr in H. exfalso. lra.
      * split; [|reflexivity]. intros _. split; [exact E0|].
        apply Hr. lra.
  - split; [intros H; exfalso; exact (fl_not_nan _ H)|].
    intros [H _]. apply Qeq_bool_iff in H. congruence.
Qed.

(** X14.  The three buckets of a comparison report are disjoint, and a
    compared pair is in none of them only when its change is NaN, which
    happens exactly when its mean duration is 0 under both commits; so
    improvements + regressions + stable plus the number of such pairs is
    [total_comparisons]. *)
Theorem X14_comparison_buckets_add_up :
  forall d base current,
    let report := Metrics.generate_comparison_report d base current in
    (Metrics.improvements report + Metrics.regressions report + Metrics.stable report
     + length (List.filter Comparison.is_nan (Metrics.details report))
     = Metrics.total_comparisons report)%nat /\
    (forall c,
        In c (Metrics.details report) ->
        (Nat.b2n (Metrics.is_improvement c) + Nat.b2n (Metrics.is_regression c)
         + Nat.b2n (Metrics.is_stable c) <= 1)%nat /\
        (Comparison.is_nan c = true <->
         (Metrics.avg_duration_base c == 0 /\ Metrics.avg_duration_current c == 0)%Q)).
Proof.
  intros d base current report. split.
  - simpl. apply four_way_count. intros c _. apply bucket_of_row.
  - intros c Hin. split.
    + pose proof (bucket_of_row c). lia.
    + simpl in Hin. apply merge_In in Hin as (b & c' & _ & Hc' & _ & _ & ->).
      apply compare_rows_nan. exact (select_avg_rounded _ _ _ Hc').
Qed.

Lemma X14_buckets_witness :
  let c := Metrics.compare_rows (Metrics.mkAvgRow "m" "B" (Metrics.sqlite_avg [100]))
                                (Metrics.mkAvgRow "m" "B" (Metrics.sqlite_avg [106])) in
  (Nat.b2n (Metrics.is_improvement c) + Nat.b2n (Metrics.is_regression c)
   + Nat.b2n (Metrics.is_stable c) <= 1)%nat.
Proof.
  intros c.
  apply (proj2 (X14_comparison_buckets_add_up Scenario.two_versions "base" "current")).
  right. left. vm_compute. reflexivity.
Defined.

Lemma filter_pair_unique l b :
  NoDup (map Comparison.avg_pair l) -> In b l ->
  forall c,
    In c l ->
    Metrics.avg_crate_name c = Metrics.avg_crate_name b ->
    Metrics.avg_benchmark_name c = Metrics.avg_benchmark_name b ->
    c = b.
Proof.
  intros Hnd Hb c Hc E1 E2.
  apply (NoDup_map_eq Comparison.avg_pair l c b Hnd Hc Hb).
  unfold Comparison.avg_pair. congruence.
Qed.

Lemma compare_rows_self b :
  Metrics.is_improvement (Metrics.compare_rows b b) = false /\
  Metrics.is_regression (Metrics.compare_rows b b) = false.
Proof.
  unfold Metrics.is_improvement, Metrics.is_regression, Metrics.compare_rows.
  cbn [Metrics.change_percent]. unfold fsub.
  assert (Hz : (Metrics.avg_duration b - Metrics.avg_duration b == 0)%Q) by ring.
  rewrite (round64_of_zero _ Hz). unfold fdiv.
  destruct (Qeq_bool (Metrics.avg_duration b) 0) eqn:E0.
  - split; reflexivity.
  - apply Qeq_bool_neq in E0.
    assert (Hq : (0 / Metrics.avg_duration b == 0)%Q) by (field; exact E0).
    rewrite (fl_of_zero _ Hq). split; reflexivity.
Qed.

(** X15.  Comparing a commit with itself reports no improvement and no
    regression, whatever the measurements are. *)
Theorem X15_self_comparison_is_neutral :
  forall d commit,
    let report := Metrics.generate_comparison_report d commit commit in
    Metrics.improvements report = 0%nat /\ Metrics.regressions report = 0%nat.
Proof.
  intros d commit report.
  assert (Hself : forall c, In c (Metrics.details report) ->
            exists b, c = Metrics.compare_rows b b).
  { intros c Hin. simpl in Hin.
    apply merge_In in Hin as (b & c' & Hb & Hc' & E1 & E2 & ->).
    exists b. f_equal. apply (filter_pair_unique (Metrics.select_avg d commit) b); auto.
    apply select_avg_NoDup. }
  split; simpl; rewrite filter_none; try reflexivity;
    intros c Hin; destruct (Hself c Hin) as [b ->]; apply compare_rows_self.
Qed.


(** ** The trend query *)

Lemma Qle_bool_total x y : Qle_bool x y = false -> Qle_bool y x = true.
Proof.
  intros H. apply Qle_bool_iff, Qlt_le_weak. apply Qle_bool_false. exact H.
Qed.

Lemma cell_leb_total a b : Sqlite.cell_leb a b = false -> Sqlite.cell_leb b a = true.
Proof.
  destruct a, b; simpl; try discriminate; try reflexivity.
  - apply Qle_bool_total.
  - intros H. destruct (String.leb_total s s0) as [E|E]; [congruence | exact E].
Qed.

Lemma insert_by_timestamp_perm row l :
  Permutation (row :: l) (Metrics.insert_by_timestamp row l).
Proof.
  induction l as [|y l IH]; simpl; [reflexivity|].
  destruct (Sqlite.cell_leb (Metrics.r_timestamp row) (Metrics.r_timestamp y));
    [reflexivity|].
  rewrite <- IH. apply perm_swap.
Qed.

Lemma order_by_timestamp_perm l : Permutation l (Metrics.order_by_timestamp l).
Proof.
  induction l as [|row l IH]; simpl; [reflexivity|].
  rewrite <- insert_by_timestamp_perm. constructor. exact IH.
Qed.

Lemma insert_by_timestamp_sorted row l :
  Sorted Trend.by_timestamp l -> Sorted Trend.by_timestamp (Metrics.insert_by_timestamp row l).
Proof.
  unfold Trend.by_timestamp.
  induction l as [|y l IH]; intros Hs; simpl; [repeat constructor|].
  destruct (Sqlite.cell_leb (Metrics.r_timestamp row) (Metrics.r_timestamp y)) eqn:E.
  - constructor; [exact Hs|]. constructor. exact E.
  - pose proof (cell_leb_total _ _ E) as Hy.
    inversion Hs as [|? ? Hl Hhd]; subst. constructor; [apply IH, Hl|].
    destruct l as [|z l]; simpl; [constructor; exact Hy|].
    destruct (Sqlite.cell_leb (Metrics.r_timestamp row) (Metrics.r_timestamp z));
      constructor; [exact Hy | inversion Hhd; assumption].
Qed.

Lemma order_by_timestamp_sorted l :
  Sorted Trend.by_timestamp (Metrics.order_by_timestamp l).
Proof.
  induction l as [|row l IH]; simpl; [constructor|].
  apply insert_by_timestamp_sorted, IH.
Qed.

(** X16.  The rows that the trend query returns are exactly the stored
    measurements of the crate whose timestamp, as stored, is between the
    two bounds, each one once, in ascending order of the stored
    timestamp.  Stored numbers sort before stored texts, and texts
    bytewise: a timestamp that is the text of a number, as "2024", is
    stored as that number and is in no window whose bounds are ISO
    texts. *)
Theorem X16_trend_query :
  (forall d crate start_date end_date,
      let df := Metrics.select_trend_rows d crate start_date end_date in
      Permutation
        (List.filter (Trend.in_window crate start_date end_date)
                     (Metrics.benchmark_results d)) df /\
      Sorted Trend.by_timestamp df /\
      (forall row,
          In row df <->
          In row (Metrics.benchmark_results d) /\
          Metrics.r_crate_name row = crate /\
          Sqlite.cell_leb (Sqlite.numeric_affinity start_date) (Metrics.r_timestamp row)
          = true /\
          Sqlite.cell_leb (Metrics.r_timestamp row) (Sqlite.numeric_affinity end_date)
          = true)) /\
  (forall s t, Sqlite.cell_leb (CText s) (CText t) = String.leb s t) /\
  (forall q s,
      Sqlite.cell_leb (CNum q) (CText s) = true /\
      Sqlite.cell_leb (CText s) (CNum q) = false) /\
  (forall s, Store.plain s = true -> Sqlite.numeric_affinity s = CText s) /\
  Sqlite.numeric_affinity "2024" = CNum 2024 /\
  (forall d crate start_date end_date row,
      Store.plain start_date = true ->
      In row (Metrics.select_trend_rows d crate start_date end_date) ->
      exists s, Metrics.r_timestamp row = CText s /\
                String.leb start_date s = true).
Proof.
  split; [|split; [|split; [|split; [|split]]]].
  - intros d crate start_date end_date df.
    assert (Hp : Permutation
                   (List.filter (Trend.in_window crate start_date end_date)
                                (Metrics.benchmark_results d)) df)
      by apply order_by_timestamp_perm.
    split; [exact Hp|]. split; [apply order_by_timestamp_sorted|].
    intros row. rewrite <- (Permutation_in' (eq_refl row) Hp).
    rewrite List.filter_In. unfold Trend.in_window.
    rewrite !andb_true_iff, bool_decide_eq_true. tauto.
  - reflexivity.
  - intros q s. split; reflexivity.
  - apply numeric_affinity_plain.
  - vm_compute. reflexivity.
  - intros d crate start_date end_date row Hp Hin.
    apply (Permutation_in _ (Permutation_sym (order_by_timestamp_perm _))) in Hin.
    apply List.filter_In in Hin as [_ Hw].
    apply andb_true_iff in Hw as [Hw _]. apply andb_true_iff in Hw as [_ Hs].
    rewrite (numeric_affinity_plain _ Hp) in Hs.
    destruct (Metrics.r_timestamp row) as [q| | |s]; try discriminate.
    exists s. auto.
Qed.

Lemma X16_trend_query_witness :
  match Metrics.select_trend_rows Scenario.history "m"
          "2024-01-11T00:00:00" "2024-01-31T00:00:00" with
  | row :: _ =>
    exists s, Metrics.r_timestamp row = CText s /\
              String.leb "2024-01-11T00:00:00" s = true
  | [] => False
  end.
Proof.
  pose proof (proj2 (proj2 (proj2 (proj2 (proj2 X16_trend_query))))
                Scenario.history "m" "2024-01-11T00:00:00" "2024-01-31T00:00:00") as H.
  destruct (Metrics.select_trend_rows Scenario.history "m"
              "2024-01-11T00:00:00" "2024-01-31T00:00:00") as [|row rest] eqn:E;
    [vm_compute in E; discriminate|].
  apply H; [vm_compute; reflexivity | left; reflexivity].
Defined.

(** ** Totals of a trend report *)

Lemma count_split {A : Type} (f g h : A -> bool) l :
  (forall x, In x l -> Nat.b2n (f x) = (Nat.b2n (g x) + Nat.b2n (h x))%nat) ->
  length (List.filter f l)
  = (length (List.filter g l) + length (List.filter h l))%nat.
Proof.
  induction l as [|x l IH]; intros H; [reflexivity|].
  specialize (IH (fun y Hy => H y (or_intror Hy))).
  specialize (H x (or_introl eq_refl)). cbn [List.filter].
  destruct (f x), (g x), (h x); simpl in *; lia.
Qed.

Lemma filter_filter_and {A : Type} (f g : A -> bool) l :
  List.filter f (List.filter g l) = List.filter (fun x => g x && f x) l.
Proof.
  induction l as [|x l IH]; [reflexivity|]. cbn [List.filter].
  destruct (g x); cbn [List.filter andb]; [destruct (f x)|]; rewrite IH; reflexivity.
Qed.

Lemma unique_NoDup l : NoDup (Metrics.unique l).
Proof.
  induction l as [|k0 l IH]; simpl; [constructor|].
  apply NoDup_cons. split.
  - intros Hin. apply list_elem_of_In, List.filter_In in Hin as [_ Hk].
    apply negb_true_iff, bool_decide_eq_false in Hk. apply Hk. reflexivity.
  - apply NoDup_list_filter, IH.
Qed.

Lemma unique_In k l : In k (Metrics.unique l) -> In k l.
Proof.
  induction l as [|k0 l IH]; simpl; [auto|].
  intros [->|H]; [auto|]. apply List.filter_In in H as [H _]. auto.
Qed.

Lemma counts_of_unique (df : list Metrics.results_row) ks :
  forall p : string -> bool,
    fold_right (fun b n => (length (Metrics.durations_of df b) + n)%nat) 0%nat
               (List.filter p (Metrics.unique ks))
    = length (List.filter
                (fun row => p (Metrics.r_benchmark_name row)
                            && bool_decide (Metrics.r_benchmark_name row ∈ ks))
                df).
Proof.
  induction ks as [|k ks IH]; intros p.
  - cbn [Metrics.unique List.filter fold_right]. rewrite filter_none; [reflexivity|].
    intros row _. apply andb_false_iff. right.
    apply bool_decide_eq_false_2, not_elem_of_nil.
  - cbn [Metrics.unique List.filter].
    assert (Hrest :
      fold_right (fun b n => (length (Metrics.durations_of df b) + n)%nat) 0%nat
        (List.filter p
           (List.filter (fun y => negb (bool_decide (y = k))) (Metrics.unique ks)))
      = length (List.filter
                  (fun row => (negb (bool_decide (Metrics.r_benchmark_name row = k))
                               && p (Metrics.r_benchmark_name row))
                              && bool_decide (Metrics.r_benchmark_name row ∈ ks))
                  df)).
    { rewrite filter_filter_and. apply (IH (fun y => negb (bool_decide (y = k)) && p y)). }
    assert (Hmem : forall n, n <> k ->
               bool_decide (n ∈ k :: ks) = bool_decide (n ∈ ks)).
    { intros n Hn. apply bool_decide_ext. rewrite elem_of_cons. tauto. }
    destruct (p k) eqn:Pk.
    + cbn [fold_right]. rewrite Hrest.
      unfold Metrics.durations_of at 1. rewrite length_map.
      symmetry. apply count_split. intros row _.
      destruct (decide (Metrics.r_benchmark_name row = k)) as [E|E].
      * rewrite E, Pk, !bool_decide_eq_true_2
          by (reflexivity || (apply elem_of_cons; left; reflexivity)).
        reflexivity.
      * rewrite (Hmem _ E), !(bool_decide_eq_false_2 _ E). simpl.
        destruct (p _ && _); reflexivity.
    + rewrite Hrest. apply f_equal, List.filter_ext. intros row.
      destruct (decide (Metrics.r_benchmark_name row = k)) as [E|E].
      * rewrite E, Pk, bool_decide_eq_true_2 by reflexivity. reflexivity.
      * rewrite (Hmem _ E), (bool_decide_eq_false_2 _ E). reflexivity.
Qed.

Lemma filter_all {A : Type} (f : A -> bool) l :
  (forall x, In x l -> f x = true) -> List.filter f l = l.
Proof.
  induction l as [|a l IH]; intros H; [reflexivity|]. cbn [List.filter].
  rewrite (H a (or_introl eq_refl)). f_equal. apply IH.
  intros x Hx. apply H. right. exact Hx.
Qed.

Lemma counts_partition (df : list Metrics.results_row) :
  fold_right (fun b n => (length (Metrics.durations_of df b) + n)%nat) 0%nat
             (Metrics.unique (map Metrics.r_benchmark_name df))
  = length df.
Proof.
  pose proof (counts_of_unique df (map Metrics.r_benchmark_name df) (fun _ => true)) as H.
  rewrite filter_all in H by reflexivity. rewrite H. f_equal.
  apply filter_all. intros r Hr. cbn [andb].
  apply bool_decide_eq_true_2, list_elem_of_In, in_map, Hr.
Qed.

Lemma unique_complete k l : In k l -> In k (Metrics.unique l).
Proof.
  induction l as [|k0 l IH]; simpl; [auto|].
  intros [->|H]; [left; reflexivity|].
  destruct (decide (k = k0)) as [->|E]; [left; reflexivity|].
  right. apply List.filter_In. split; [apply IH, H|].
  apply negb_true_iff, bool_decide_eq_false, E.
Qed.

(** X17.  A trend report that is not the error dictionary names the
    requested crate and period; its benchmarks are pairwise distinct and
    are the benchmark names of the rows in the window; every benchmark
    has at least one sample, and has the trend keys exactly when it has
    at least two; [total_benchmarks] is the number of entries and
    [total_runs] is both the number of rows in the window and the sum of
    the [count] entries. *)
Theorem X17_trend_report_totals :
  forall lib d crate days now crate' period total_benchmarks total_runs benchmarks,
    Metrics.generate_trend_report lib d crate days now
    = Ok (Metrics.TrendReport crate' period total_benchmarks total_runs benchmarks) ->
    exists start_date,
      Datetime.minus_days now days = Ok start_date /\
      let df := Metrics.select_trend_rows d crate (Datetime.isoformat start_date)
                  (Datetime.isoformat now) in
      crate' = crate /\ period = days /\
      total_benchmarks = length benchmarks /\
      total_runs = length df /\
      Trend.total_count benchmarks = total_runs /\
      (0 < total_runs)%nat /\
      NoDup (map fst benchmarks) /\
      (forall name,
          In name (map fst benchmarks) <->
          exists row, In row df /\ Metrics.r_benchmark_name row = name) /\
      (forall name stats,
          In (name, stats) benchmarks ->
          (1 <= Metrics.count stats)%nat /\
          (Metrics.trend stats = None <-> Metrics.count stats = 1%nat)).
Proof.
  intros lib d crate days now crate' period total_benchmarks total_runs benchmarks Hrep.
  destruct (trend_report_ok _ _ _ _ _ _ _ _ _ _ Hrep)
    as (start_date & Hs & H).
  exists start_date. split; [exact Hs|]. cbv zeta in *.
  set (df := Metrics.select_trend_rows d crate (Datetime.isoformat start_date)
               (Datetime.isoformat now)) in *.
  destruct H as (-> & -> & -> & -> & Hne & Hb).
  assert (Hfst : map fst benchmarks
                 = Metrics.unique (map Metrics.r_benchmark_name df)).
  { rewrite Hb, map_map. apply map_id. }
  split; [reflexivity|]. split; [reflexivity|].
  split; [rewrite Hb, length_map; reflexivity|].
  split; [reflexivity|]. split; [|split; [|split; [|split]]].
  - rewrite Hb. unfold Trend.total_count.
    rewrite <- (counts_partition df). clear Hb Hfst Hne Hrep.
    induction (Metrics.unique (map Metrics.r_benchmark_name df)) as [|b l IHl];
      [reflexivity|]. simpl. rewrite IHl. reflexivity.
  - destruct df; [congruence | simpl; lia].
  - rewrite Hfst. apply unique_NoDup.
  - intros name. rewrite Hfst. split.
    + intros H. apply unique_In, in_map_iff in H as (row & E & Hin). eauto.
    + intros (row & Hin & <-). apply unique_complete, in_map, Hin.
  - intros name stats Hin. rewrite Hb in Hin.
    apply in_map_iff in Hin as (b & [= <- <-] & Hbin).
    apply unique_In, in_map_iff in Hbin as (row & Hrow & Hrin).
    assert (Hcount : (1 <= length (Metrics.durations_of df b))%nat).
    { unfold Metrics.durations_of. rewrite length_map.
      assert (Hin' : In row (List.filter
                               (fun r => bool_decide (Metrics.r_benchmark_name r = b)) df))
        by (apply List.filter_In; split; [exact Hrin | apply bool_decide_eq_true, Hrow]).
      destruct (List.filter _ df); [destruct Hin' | simpl; lia]. }
    split; [exact Hcount|].
    unfold Metrics.stats_of. cbn [Metrics.trend Metrics.count].
    destruct (2 <=? length (Metrics.durations_of df b))%nat eqn:E.
    + apply Nat.leb_le in E. split; [discriminate | lia].
    + apply Nat.leb_gt in E. split; [lia | reflexivity].
Qed.

Lemma X17_totals_witness :
  Trend.total_count [("A", Metrics.stats_of Scenario.unused [100; 110; 130])] = 3%nat.
Proof.
  destruct (X17_trend_report_totals Scenario.unused Scenario.history "m" 30
              Scenario.january "m" 30 1%nat 3%nat
              [("A", Metrics.stats_of Scenario.unused [100; 110; 130])])
    as (start_date & _ & _ & _ & _ & _ & H & _).
  - vm_compute. reflexivity.
  - exact H.
Defined.

(** ** Histories that never get faster, or never get slower *)

(** X18.  For a benchmark with at least two samples: when the durations
    never decrease from one sample to the next, the fitted slope is not
    negative and the benchmark is not reported as improving; when they
    never increase, the slope is not positive and the benchmark is not
    reported as degrading, whatever the p-value; a constant history has
    slope 0 and is reported as neither. *)
Theorem X18_monotone_history_classification :
  forall lib durations t,
    Metrics.trend (Metrics.stats_of lib durations) = Some t ->
    (Sorted Z.le durations ->
     (0 <= Metrics.trend_slope t)%Q /\ Metrics.is_improving t = false) /\
    (Sorted Z.ge durations ->
     (Metrics.trend_slope t <= 0)%Q /\ Metrics.is_degrading t = false) /\
    (Sorted Z.le durations -> Sorted Z.ge durations ->
     (Metrics.trend_slope t == 0)%Q /\
     Metrics.is_improving t = false /\ Metrics.is_degrading t = false).
Proof.
  intros lib durations t. unfold Metrics.stats_of. cbn [Metrics.trend].
  destruct (2 <=? length durations)%nat eqn:E; [|discriminate].
  apply Nat.leb_le in E. intros [= <-]. cbn [Metrics.trend_slope Metrics.trend_of
    Metrics.is_improving Metrics.is_degrading].
  pose proof (converted_slope_not_falling durations E) as Hup.
  pose proof (converted_slope_not_rising durations E) as Hdown.
  split; [|split].
  - intros Hs. split; [apply Hup, Hs | apply Qgtb_le, Hup, Hs].
  - intros Hs. split; [apply Hdown, Hs|].
    apply andb_false_iff. left. apply Qgtb_le, Hdown, Hs.
  - intros H1 H2. split; [apply Qle_antisym; auto|].
    split; [apply Qgtb_le, Hup, H1|].
    apply andb_false_iff. left. apply Qgtb_le, Hdown, H2.
Qed.

Lemma X18_flat_history_witness :
  exists t,
    Metrics.trend (Metrics.stats_of Scenario.unused [100; 100; 100]) = Some t /\
    Metrics.is_improving t = false /\ Metrics.is_degrading t = false.
Proof.
  eexists. split; [reflexivity|].
  eapply (proj2 (proj2 (X18_monotone_history_classification
                          Scenario.unused [100; 100; 100] _ eq_refl))).
  - repeat constructor; discriminate.
  - repeat constructor; discriminate.
Defined.

(** ** Descriptive statistics of a benchmark *)

Lemma fold_min_spec l :
  forall a,
    fold_left Z.min l a <= a /\
    (forall x, In x l -> fold_left Z.min l a <= x) /\
    (fold_left Z.min l a = a \/ In (fold_left Z.min l a) l).
Proof.
  induction l as [|y l IH]; intros a; simpl; [repeat split; [lia | tauto | auto]|].
  destruct (IH (Z.min a y)) as (H1 & H2 & H3). split; [lia|]. split.
  - intros x [<-|Hx]; [lia | apply H2, Hx].
  - destruct H3 as [H3|H3]; [|auto].
    rewrite H3. destruct (Z.min_spec a y) as [[_ ->]|[_ ->]]; auto.
Qed.

Lemma fold_max_spec l :
  forall a,
    a <= fold_left Z.max l a /\
    (forall x, In x l -> x <= fold_left Z.max l a) /\
    (fold_left Z.max l a = a \/ In (fold_left Z.max l a) l).
Proof.
  induction l as [|y l IH]; intros a; simpl; [repeat split; [lia | tauto | auto]|].
  destruct (IH (Z.max a y)) as (H1 & H2 & H3). split; [lia|]. split.
  - intros x [<-|Hx]; [lia | apply H2, Hx].
  - destruct H3 as [H3|H3]; [|auto].
    rewrite H3. destruct (Z.max_spec a y) as [[_ ->]|[_ ->]]; auto.
Qed.

(** X19.  For a benchmark with at least one sample, the reported count
    is the number of samples, the reported minimum and maximum are
    samples and every sample lies between them; the mean, the median and
    the standard deviation are the values that numpy returns for the
    samples. *)
Theorem X19_statistics_are_bounded :
  forall lib durations,
    durations <> [] ->
    let s := Metrics.stats_of lib durations in
    Metrics.count s = length durations /\
    In (Metrics.min_ns s) durations /\ In (Metrics.max_ns s) durations /\
    (forall x, In x durations -> Metrics.min_ns s <= x <= Metrics.max_ns s) /\
    Metrics.min_ns s <= Metrics.max_ns s /\
    Metrics.mean_ns s = Metrics.np_mean lib durations /\
    Metrics.median_ns s = Metrics.np_median lib durations /\
    Metrics.std_ns s = Metrics.np_std lib durations.
Proof.
  intros lib durations Hne s. subst s. unfold Metrics.stats_of.
  cbn [Metrics.min_ns Metrics.max_ns Metrics.mean_ns Metrics.median_ns Metrics.std_ns
       Metrics.count].
  destruct durations as [|x0 l]; [congruence|].
  cbn [Metrics.np_min Metrics.np_max].
  destruct (fold_min_spec l x0) as (m1 & m2 & m3).
  destruct (fold_max_spec l x0) as (M1 & M2 & M3).
  split; [reflexivity|]. split; [|split; [|split; [|split; [lia|auto]]]].
  - destruct m3 as [->|m3]; [left; reflexivity | right; exact m3].
  - destruct M3 as [->|M3]; [left; reflexivity | right; exact M3].
  - intros x [<-|Hx]; [lia|]. split; [apply m2, Hx | apply M2, Hx].
Qed.

Lemma X19_bounds_witness :
  let s := Metrics.stats_of Scenario.unused [100; 110; 130] in
  Metrics.min_ns s <= 110 <= Metrics.max_ns s.
Proof.
  intros s.
  apply (X19_statistics_are_bounded Scenario.unused [100; 110; 130]).
  - discriminate.
  - right. left. reflexivity.
Defined.

(** ** Crate names taken from file names *)

Lemma no_slash_app a b :
  Simple.no_slash (a +:+ b) = Simple.no_slash a && Simple.no_slash b.
Proof.
  induction a as [|c a IH]; simpl; [reflexivity|].
  rewrite IH, andb_assoc. reflexivity.
Qed.

Lemma split_segments s :
  Parser.split "/"%char s <> [] /\
  Forall (fun x => Simple.no_slash x = true) (Parser.split "/"%char s).
Proof.
  induction s as [|c s [Hne IH]]; simpl.
  - split; [discriminate | repeat constructor].
  - destruct (Ascii.eqb c "/") eqn:E.
    + split; [discriminate | constructor; [reflexivity | exact IH]].
    + destruct (Parser.split "/"%char s) as [|h t]; [congruence|].
      split; [discriminate|]. inversion IH as [|? ? Hh Ht]; subst.
      constructor; [|exact Ht]. simpl. rewrite E, Hh. reflexivity.
Qed.

Lemma last_item_Forall (P : string -> Prop) l :
  l <> [] -> Forall P l -> P (Parser.last_item l).
Proof.
  unfold Parser.last_item. induction l as [|x [|y l] IH]; intros Hne H.
  - congruence.
  - inversion H; assumption.
  - inversion H; subst. apply IH; [discriminate | assumption].
Qed.

Lemma last_item_app front l :
  l <> [] -> Parser.last_item (front ++ l)%list = Parser.last_item l.
Proof.
  unfold Parser.last_item. intros Hne. induction front as [|x front IH]; [reflexivity|].
  simpl. destruct (front ++ l)%list eqn:E; [|exact IH].
  apply app_eq_nil in E as [_ ->]. congruence.
Qed.

Lemma split_after_slash dir name :
  exists f0 ft,
    Parser.split "/"%char (dir +:+ String "/"%char name)
    = ((f0 :: ft) ++ Parser.split "/"%char name)%list.
Proof.
  induction dir as [|c dir (f0 & ft & IH)]; simpl.
  - exists EmptyString, []. reflexivity.
  - destruct (Ascii.eqb c "/").
    + exists EmptyString, (f0 :: ft). rewrite IH. reflexivity.
    + rewrite IH. exists (String c f0), ft. reflexivity.
Qed.

Lemma replace_from_no_slash old new s :
  forall skip,
    Simple.no_slash new = true -> Simple.no_slash s = true ->
    Simple.no_slash (Parser.replace_from old new skip s) = true.
Proof.
  induction s as [|c s IH]; intros skip Hnew Hs; [reflexivity|].
  simpl in Hs. apply andb_true_iff in Hs as [Hc Hs].
  cbn [Parser.replace_from]. destruct skip as [|k]; [|apply IH; assumption].
  destruct (String.prefix old (String c s)).
  - rewrite no_slash_app, Hnew. apply IH; assumption.
  - simpl. rewrite Hc. apply IH; assumption.
Qed.

Lemma get_Forall (P : string -> Prop) (mapping : list (string * string)) k default :
  Forall (fun kv => P (snd kv)) mapping -> P default ->
  P (Parser.get mapping k default).
Proof.
  intros H Hd. induction H as [|[k' v] rest Hv _ IH]; simpl; [exact Hd|].
  destruct (String.eqb k k'); [exact Hv | exact IH].
Qed.

Lemma extract_crate_name_no_slash filename :
  Simple.no_slash (Parser.extract_crate_name_from_filename filename) = true.
Proof.
  unfold Parser.extract_crate_name_from_filename.
  assert (Hb : Simple.no_slash
                 (Parser.replace "-output.txt" ""
                    (Parser.last_item (Parser.split "/"%char filename))) = true).
  { apply replace_from_no_slash; [reflexivity|].
    destruct (split_segments filename) as [Hne Hall].
    apply (last_item_Forall (fun x => Simple.no_slash x = true)); assumption. }
  apply (get_Forall (fun x => Simple.no_slash x = true)); [|exact Hb].
  repeat constructor.
Qed.

Lemma extract_crate_name_basename dir name :
  Parser.extract_crate_name_from_filename (dir +:+ "/" +:+ name)
  = Parser.extract_crate_name_from_filename name.
Proof.
  unfold Parser.extract_crate_name_from_filename.
  change ("/" +:+ name) with (String "/"%char name).
  destruct (split_after_slash dir name) as (f0 & ft & ->).
  rewrite last_item_app by apply split_segments. reflexivity.
Qed.

(** X20.  A crate name that the parser derives from a file name never
    contains a slash, so the detector key [crate/benchmark] built from
    such crate names determines the crate and the benchmark; and the
    directories in front of the last slash of the file name play no
    part in the crate name. *)
Theorem X20_parser_crate_names_give_distinct_keys :
  (forall filename,
      Simple.no_slash (Parser.extract_crate_name_from_filename filename) = true) /\
  (forall f1 f2 b1 b2 d1 d2,
      Simple.key (Simple.mkEntry (Parser.extract_crate_name_from_filename f1) b1 d1)
      = Simple.key (Simple.mkEntry (Parser.extract_crate_name_from_filename f2) b2 d2)
      <-> Parser.extract_crate_name_from_filename f1
          = Parser.extract_crate_name_from_filename f2 /\ b1 = b2) /\
  (forall dir name,
      Parser.extract_crate_name_from_filename (dir +:+ "/" +:+ name)
      = Parser.extract_crate_name_from_filename name).
Proof.
  split; [exact extract_crate_name_no_slash|]. split.
  - intros f1 f2 b1 b2 d1 d2.
    apply (key_inj (Simple.mkEntry _ b1 d1) (Simple.mkEntry _ b2 d2));
      apply extract_crate_name_no_slash.
  - exact extract_crate_name_basename.
Qed.

(** X21.  For each short name of the name table, the output file
    [<dir>/<short>-output.txt] of any directory is attributed to the
    crate that the table gives for the short name. *)
Theorem X21_output_file_of_a_short_name :
  forall dir short crate,
    In (short, crate) Parser.name_mapping ->
    Parser.extract_crate_name_from_filename (dir +:+ "/" +:+ short +:+ "-output.txt")
    = crate.
Proof.
  intros dir short crate Hin. rewrite extract_crate_name_basename.
  unfold Parser.name_mapping in Hin.
  repeat (destruct Hin as [[= <- <-]|Hin]; [vm_compute; reflexivity|]).
  destruct Hin.
Qed.

Lemma X21_short_name_witness :
  Parser.extract_crate_name_from_filename "benchmarks/results/engine-output.txt"
  = "moduforge-rules-engine".
Proof.
  apply (X21_output_file_of_a_short_name "benchmarks/results" "engine").
  unfold Parser.name_mapping. do 7 right. left. reflexivity.
Defined.

(** ** Tiers of the parser and of the report *)

Lemma get_tier_crates_cases tier crate :
  In crate (Parser.get_tier_crates tier) ->
  In (tier, crate)
     (flat_map (fun kv => map (fun c => (fst kv, c)) (snd kv)) Parser.tier_mapping).
Proof.
  unfold Parser.get_tier_crates, Parser.tier_mapping. cbn [Parser.get].
  repeat match goal with
         | |- context [String.eqb tier ?k] =>
           destruct (String.eqb_spec tier k) as [->|_];
             [intros H; cbn [flat_map map fst snd app];
              repeat (destruct H as [<-|H]; [simpl; tauto|]); destruct H|]
         end.
  intros [].
Qed.

Lemma listed_crate_tier tier crate :
  In crate (Parser.get_tier_crates tier) ->
  Report.tier_of crate = Some tier /\ In crate (map snd Parser.name_mapping).
Proof.
  intros H. apply get_tier_crates_cases in H.
  cbn [Parser.tier_mapping flat_map map fst snd app] in H.
  repeat (destruct H as [[= <- <-]|H];
          [split; [vm_compute; reflexivity | simpl; tauto]|]).
  destruct H.
Qed.

(** X22.  The tier tables of the parser and the substring tests of the
    report agree: a crate that the parser lists in a tier is put in the
    same tier by the report, it is listed in no other tier, and it is one
    of the crates of the name table; and every crate of the name table is
    listed in a tier. *)
Theorem X22_tiers_agree :
  (forall tier crate,
      In crate (Parser.get_tier_crates tier) ->
      Report.tier_of crate = Some tier /\
      (forall tier', In crate (Parser.get_tier_crates tier') -> tier' = tier) /\
      In crate (map snd Parser.name_mapping)) /\
  (forall crate,
      In crate (map snd Parser.name_mapping) ->
      exists tier, In crate (Parser.get_tier_crates tier)).
Proof.
  pose proof listed_crate_tier as Hof.
  split.
  - intros tier crate H. destruct (Hof _ _ H) as [Ht Hn].
    split; [exact Ht|]. split; [|exact Hn].
    intros tier' H'. destruct (Hof _ _ H') as [Ht' _]. congruence.
  - intros crate H. cbn [Parser.name_mapping map snd] in H.
    repeat (destruct H as [<-|H];
            [first [exists "foundation"; simpl; tauto
                   | exists "core-logic"; simpl; tauto
                   | exists "service"; simpl; tauto
                   | exists "integration"; simpl; tauto]|]).
    destruct H.
Qed.

Lemma X22_tiers_witness :
  Report.tier_of "moduforge-rules-engine" = Some "service".
Proof.
  apply (X22_tiers_agree).
  unfold Parser.get_tier_crates. simpl. tauto.
Defined.

(** ** Grouping of the results in the report *)

Lemma analyze_fold rs :
  forall acc,
    fold_left Report.analyze_step rs acc
    = (fold_left (fun g r => Report.group_append (Simple.crate_name r) r g) rs (fst acc),
       fold_left (fun g r => match Report.tier_of (Simple.crate_name r) with
                             | Some tier => Report.tier_append tier r g
                             | None => g
                             end) rs (snd acc)).
Proof.
  induction rs as [|r rs IH]; intros [cg tg]; [reflexivity|].
  simpl. rewrite IH. reflexivity.
Qed.

Lemma group_append_lookup c k r g :
  Report.group c (Report.group_append k r g)
  = if String.eqb c k
    then Some (default [] (Report.group k g) ++ [r])%list
    else Report.group c g.
Proof.
  induction g as [|[k' rs] rest IH]; simpl.
  - destruct (String.eqb c k); reflexivity.
  - destruct (String.eqb_spec k k') as [->|Hk]; simpl.
    + destruct (String.eqb_spec c k'); reflexivity.
    + rewrite IH. destruct (String.eqb_spec c k') as [->|Hc]; [|reflexivity].
      destruct (String.eqb_spec k' k); [congruence | reflexivity].
Qed.

Lemma group_append_keys k r g x :
  x ∈ map fst (Report.group_append k r g) <-> x = k \/ x ∈ map fst g.
Proof.
  induction g as [|[k' rs] rest IH]; simpl.
  - rewrite elem_of_cons. tauto.
  - destruct (String.eqb_spec k k') as [->|Hk]; simpl.
    + rewrite !elem_of_cons. tauto.
    + rewrite !elem_of_cons, IH. tauto.
Qed.

Lemma group_append_NoDup k r g :
  NoDup (map fst g) -> NoDup (map fst (Report.group_append k r g)).
Proof.
  induction g as [|[k' rs] rest IH]; simpl; intros H.
  - apply NoDup_singleton.
  - destruct (String.eqb_spec k k') as [->|Hk]; simpl; [exact H|].
    apply NoDup_cons in H as [Hn H]. apply NoDup_cons. split; [|apply IH, H].
    rewrite group_append_keys. intros [->|Hin]; [congruence | exact (Hn Hin)].
Qed.

Lemma group_append_grouped k r g :
  Report.grouped (Report.group_append k r g) = S (Report.grouped g).
Proof.
  unfold Report.grouped. induction g as [|[k' rs] rest IH]; simpl; [reflexivity|].
  destruct (String.eqb k k'); simpl.
  - rewrite length_app. simpl. lia.
  - rewrite IH. lia.
Qed.

Lemma crate_groups_invariant rs :
  let g := fold_left (fun g r => Report.group_append (Simple.crate_name r) r g) rs [] in
  NoDup (map fst g) /\
  Report.grouped g = length rs /\
  forall crate,
    Report.group crate g
    = match Report.of_crate crate rs with [] => None | l => Some l end.
Proof.
  induction rs as [|r rs (Hnd & Hlen & Hg)] using rev_ind.
  - simpl. split; [constructor | split; [reflexivity | reflexivity]].
  - rewrite fold_left_app. cbn [fold_left].
    split; [apply group_append_NoDup, Hnd|]. split.
    + rewrite group_append_grouped, Hlen, length_app. simpl. lia.
    + intros crate. rewrite group_append_lookup. unfold Report.of_crate in *.
      rewrite List.filter_app. cbn [List.filter].
      destruct (String.eqb_spec crate (Simple.crate_name r)) as [->|Hc].
      * rewrite String.eqb_refl, Hg.
        destruct (List.filter _ rs); reflexivity.
      * destruct (String.eqb_spec (Simple.crate_name r) crate); [congruence|].
        rewrite app_nil_r. apply Hg.
Qed.

Lemma tier_of_cases crate :
  Report.tier_of crate = Some "foundation" \/
  Report.tier_of crate = Some "core-logic" \/
  Report.tier_of crate = Some "service" \/
  Report.tier_of crate = Some "integration" \/
  Report.tier_of crate = None.
Proof.
  unfold Report.tier_of.
  repeat match goal with |- context [Report.any_in ?l crate] =>
           destruct (Report.any_in l crate) end; tauto.
Qed.

Lemma tier_step r A B C D :
  match Report.tier_of (Simple.crate_name r) with
  | Some tier =>
    Report.tier_append tier r
      [("foundation", A); ("core-logic", B); ("service", C); ("integration", D)]
  | None => [("foundation", A); ("core-logic", B); ("service", C); ("integration", D)]
  end
  = [("foundation", (A ++ Report.of_tier "foundation" [r])%list);
     ("core-logic", (B ++ Report.of_tier "core-logic" [r])%list);
     ("service", (C ++ Report.of_tier "service" [r])%list);
     ("integration", (D ++ Report.of_tier "integration" [r])%list)].
Proof.
  unfold Report.of_tier. cbn [List.filter].
  destruct (tier_of_cases (Simple.crate_name r)) as [H|[H|[H|[H|H]]]]; rewrite H;
    unfold Report.tier_append; cbn [map fst snd];
    repeat case_bool_decide; try congruence;
    rewrite ?app_nil_r; reflexivity.
Qed.

Lemma tier_groups_explicit rs :
  fold_left (fun g r => match Report.tier_of (Simple.crate_name r) with
                        | Some tier => Report.tier_append tier r g
                        | None => g
                        end) rs Report.empty_tier_groups
  = [("foundation", Report.of_tier "foundation" rs);
     ("core-logic", Report.of_tier "core-logic" rs);
     ("service", Report.of_tier "service" rs);
     ("integration", Report.of_tier "integration" rs)].
Proof.
  induction rs as [|r rs IH] using rev_ind; [reflexivity|].
  rewrite fold_left_app. cbn [fold_left]. rewrite IH, tier_step.
  unfold Report.of_tier. rewrite !List.filter_app. reflexivity.
Qed.

Lemma tiers_partition rs :
  (length (Report.of_tier "foundation" rs) + length (Report.of_tier "core-logic" rs)
   + length (Report.of_tier "service" rs) + length (Report.of_tier "integration" rs)
   + length (List.filter
               (fun r => bool_decide (Report.tier_of (Simple.crate_name r) = None)) rs)
   = length rs)%nat.
Proof.
  unfold Report.of_tier. induction rs as [|r rs IH]; [reflexivity|].
  cbn [List.filter].
  destruct (tier_of_cases (Simple.crate_name r)) as [H|[H|[H|[H|H]]]]; rewrite H;
    repeat case_bool_decide; try congruence; cbn [length]; lia.
Qed.

Lemma insert_sorted_In x y l : In y (Report.insert_sorted x l) -> y = x \/ In y l.
Proof.
  induction l as [|z l IH]; simpl.
  - intros [<-|[]]. auto.
  - destruct (x <=? z)%Z; simpl; intros [H|H]; auto.
    destruct (IH H); auto.
Qed.

Lemma sorted_In y l : In y (Report.sorted l) -> In y l.
Proof.
  induction l as [|x l IH]; simpl; [tauto|].
  intros H. apply insert_sorted_In in H as [->|H]; auto.
Qed.

Lemma nth_sorted_bound l b i :
  0 <= b -> (forall x, In x l -> Z.abs x <= b) -> Z.abs (nth i (Report.sorted l) 0) <= b.
Proof.
  intros Hb Hall. destruct (nth_in_or_default i (Report.sorted l) 0) as [H| ->].
  - apply Hall, sorted_In, H.
  - simpl. exact Hb.
Qed.

Lemma report_mean_raise l e :
  Report.mean l = Raise e -> e = OverflowError.
Proof.
  unfold Report.mean. cbv zeta.
  destruct (Z.eqb_spec (Metrics.sumZ l mod Metrics.len l) 0) as [|Hm]; [discriminate|].
  intros H. apply truediv_raise in H as [[Hz _]|[_ ->]]; [|reflexivity].
  exfalso. apply Hm. destruct l; [reflexivity | discriminate Hz].
Qed.

Lemma report_median_raise l e :
  Report.median l = Raise e -> e = OverflowError.
Proof.
  unfold Report.median. cbv zeta. destruct (Nat.odd (length l)); [discriminate|].
  intros H. apply truediv_raise in H as [[Hz _]|[_ ->]]; [discriminate | reflexivity].
Qed.

Lemma report_mean_fits l :
  Z.abs (Metrics.sumZ l) <= 2 ^ 1000 -> exists q, Report.mean l = Ok q.
Proof.
  intros H. unfold Report.mean. cbv zeta.
  destruct (Z.eqb_spec (Metrics.sumZ l mod Metrics.len l) 0) as [|Hm]; [eauto|].
  destruct (Z.eq_dec (Metrics.len l) 0) as [Hz|Hz].
  - exfalso. apply Hm. destruct l; [reflexivity | discriminate Hz].
  - rewrite truediv_fits by assumption. eauto.
Qed.

Lemma report_median_fits l :
  (forall x, In x l -> Z.abs x <= 2 ^ 999) -> exists q, Report.median l = Ok q.
Proof.
  intros H. unfold Report.median. cbv zeta. destruct (Nat.odd (length l)); [eauto|].
  rewrite truediv_fits; [eauto | discriminate |].
  assert (Hp : 0 <= 2 ^ 999) by (apply Z.pow_nonneg; lia).
  pose proof (nth_sorted_bound l _ (length l / 2 - 1) Hp H).
  pose proof (nth_sorted_bound l _ (length l / 2) Hp H).
  assert (2 ^ 1000 = 2 * 2 ^ 999) by (change 1000 with (Z.succ 999); apply Z.pow_succ_r; lia).
  lia.
Qed.

(** X23.  The analysis of the empty result list is the empty dictionary.
    The analysis of a non-empty list raises only an OverflowError, and
    exactly when the mean or the median of the durations is too large
    for a float; it returns when the durations are at most 2^999 and
    their sum at most 2^1000 in absolute value.  When it returns, it
    groups the results by crate name: the group of a crate holds exactly
    the results of that crate in input order, a crate has a group only
    when it has results, no crate has two groups and the groups together
    hold every result once.  The four tier lists hold, in input order,
    the results whose crate name passes the substring test of the tier; a
    result whose crate name passes no test is in no tier list, so the
    tier lists can hold fewer results than the total.  The mean and the
    median are the ones of the statistics module, the minimum and the
    maximum are the least and the greatest duration. *)
Theorem X23_analysis_groups_the_results :
  Report.analyze_results [] = Ok None /\
  forall results,
    results <> [] ->
    let durations := map Simple.duration_ns results in
    Report.analyze_results results <> Ok None /\
    (forall e,
        Report.analyze_results results = Raise e <->
        e = OverflowError /\
        (Report.mean durations = Raise OverflowError \/
         Report.median durations = Raise OverflowError)) /\
    ((forall x, In x durations -> Z.abs x <= 2 ^ 999) ->
     Z.abs (Metrics.sumZ durations) <= 2 ^ 1000 ->
     exists a, Report.analyze_results results = Ok (Some a)) /\
    forall a,
      Report.analyze_results results = Ok (Some a) ->
      Report.total_benchmarks a = length results /\
      Report.total_crates a = length (Report.crate_groups a) /\
      NoDup (map fst (Report.crate_groups a)) /\
      (forall crate,
          Report.group crate (Report.crate_groups a)
          = match Report.of_crate crate results with [] => None | l => Some l end) /\
      Report.grouped (Report.crate_groups a) = length results /\
      Report.tier_groups a
      = [("foundation", Report.of_tier "foundation" results);
         ("core-logic", Report.of_tier "core-logic" results);
         ("service", Report.of_tier "service" results);
         ("integration", Report.of_tier "integration" results)] /\
      (Report.grouped (Report.tier_groups a)
       + length (List.filter
                   (fun r => bool_decide (Report.tier_of (Simple.crate_name r) = None))
                   results)
       = length results)%nat /\
      (Report.total_tiers a <= 4)%nat /\
      Report.mean durations = Ok (Report.avg_duration_ns a) /\
      Report.median durations = Ok (Report.median_duration_ns a) /\
      In (Report.min_duration_ns a) durations /\
      In (Report.max_duration_ns a) durations /\
      (forall x, In x durations ->
         Report.min_duration_ns a <= x <= Report.max_duration_ns a).
Proof.
  split; [reflexivity|]. intros results Hne durations.
  assert (Hd : durations <> []) by (subst durations; destruct results; [congruence | discriminate]).
  assert (Han : Report.analyze_results results
                = (avg <- Report.mean durations ;;;
                   med <- Report.median durations ;;;
                   Ok (Some (let acc := Report.grouping results in
                        Report.mkAnalysis (length results) (length (fst acc))
                          (length (List.filter
                                     (fun kv => negb (Nat.eqb (length (snd kv)) 0))
                                     (snd acc)))
                          avg med
                          (Metrics.np_min durations) (Metrics.np_max durations)
                          (fst acc) (snd acc)))))
    by (destruct results; [congruence | reflexivity]).
  rewrite Han. clear Han.
  destruct (Report.mean durations) as [avg|e1] eqn:Emean; cbn [bind];
    [destruct (Report.median durations) as [med|e2] eqn:Emed; cbn [bind]|].
  - split; [discriminate|]. split.
    { intros e. split; [discriminate | intros (_ & [H|H]); discriminate]. }
    split; [eauto|]. intros a [= <-].
    cbn [Report.total_benchmarks Report.total_crates Report.crate_groups
         Report.tier_groups Report.total_tiers Report.avg_duration_ns
         Report.median_duration_ns Report.min_duration_ns Report.max_duration_ns].
    unfold Report.grouping. rewrite analyze_fold. cbn [fst snd].
    destruct (crate_groups_invariant results) as (Hnd & Hlen & Hg).
    rewrite tier_groups_explicit.
    split; [reflexivity|]. split; [reflexivity|]. split; [exact Hnd|].
    split; [exact Hg|]. split; [exact Hlen|]. split; [reflexivity|]. split.
    { cbn [Report.grouped fold_right snd]. pose proof (tiers_partition results). lia. }
    split.
    { apply (List.filter_length_le _
               [("foundation", Report.of_tier "foundation" results);
                ("core-logic", Report.of_tier "core-logic" results);
                ("service", Report.of_tier "service" results);
                ("integration", Report.of_tier "integration" results)]). }
    split; [reflexivity|]. split; [reflexivity|].
    destruct durations as [|x l] eqn:Ed; [congruence|].
    unfold Metrics.np_min, Metrics.np_max.
    destruct (fold_min_spec l x) as (Hmin0 & Hmin & Hin1).
    destruct (fold_max_spec l x) as (Hmax0 & Hmax & Hin2).
    split; [destruct Hin1 as [->|H]; [left; reflexivity | right; exact H]|].
    split; [destruct Hin2 as [->|H]; [left; reflexivity | right; exact H]|].
    intros y [<-|Hy]; [lia|]. split; [apply Hmin, Hy | apply Hmax, Hy].
  - apply report_median_raise in Emed as Ee. subst e2.
    split; [discriminate|]. split.
    { intros e. split; [intros [= <-]; auto | intros [-> _]; reflexivity]. }
    split; [|discriminate].
    intros Hall _. destruct (report_median_fits durations Hall) as [q Hq]. congruence.
  - apply report_mean_raise in Emean as Ee. subst e1.
    split; [discriminate|]. split.
    { intros e. split; [intros [= <-]; auto | intros [-> _]; reflexivity]. }
    split; [|discriminate].
    intros _ Hsum. destruct (report_mean_fits durations Hsum) as [q Hq]. congruence.
Qed.

Lemma X23_analysis_witness :
  exists a,
    Report.analyze_results
      [Simple.mkEntry "moduforge-core" "startup" 500;
       Simple.mkEntry "other" "misc" 70;
       Simple.mkEntry "moduforge-core" "shutdown" 300] = Ok (Some a) /\
    Report.group "moduforge-core" (Report.crate_groups a)
    = Some [Simple.mkEntry "moduforge-core" "startup" 500;
            Simple.mkEntry "moduforge-core" "shutdown" 300] /\
    Report.grouped (Report.tier_groups a) = 2%nat /\
    Report.mean [500; 70; 300] = Ok (Report.avg_duration_ns a) /\
    Report.min_duration_ns a = 70.
Proof.
  destruct (proj2 X23_analysis_groups_the_results
              [Simple.mkEntry "moduforge-core" "startup" 500;
               Simple.mkEntry "other" "misc" 70;
               Simple.mkEntry "moduforge-core" "shutdown" 300] ltac:(discriminate))
    as (_ & _ & Hex & Hfacts).
  destruct Hex as [a Ha].
  { intros x Hx. simpl in Hx.
    assert (2 ^ 10 <= 2 ^ 999) by (apply Z.pow_le_mono_r; lia).
    change (2 ^ 10) with 1024 in *.
    destruct Hx as [<-|[<-|[<-|[]]]]; simpl; lia. }
  { assert (2 ^ 10 <= 2 ^ 1000) by (apply Z.pow_le_mono_r; lia).
    change (2 ^ 10) with 1024 in *. simpl. lia. }
  exists a. split; [exact Ha|].
  destruct (Hfacts a Ha) as (_ & _ & _ & Hg & _ & Ht & _ & _ & Hm & _ & Hmin & _ & Hle).
  split; [rewrite Hg; reflexivity|]. split; [rewrite Ht; reflexivity|].
  split; [exact Hm|].
  simpl in Hmin.
  pose proof (Hle 70 ltac:(simpl; tauto)).
  destruct Hmin as [H1|[H1|[H1|[]]]]; lia.
Defined.

(** ** The summary written by the parser *)

Lemma parse_lines_length float_str file_path crate_name lines :
  (length (Parser.parse_lines float_str file_path crate_name lines) <= length lines)%nat.
Proof.
  induction lines as [|m rest IH]; simpl; [lia|].
  destruct (Parser.convert m) as [[[[? ?] ?] [[? ?] ?]]|]; simpl; lia.
Qed.

Lemma parse_lines_nth float_str file_path crate_name lines :
  forall i it,
    nth_error (Parser.parse_lines float_str file_path crate_name lines) i = Some it ->
    exists m min_time avg_time max_time min_ns avg_ns max_ns,
      nth_error lines i = Some m /\
      Parser.convert m = Some (min_time, avg_time, max_time, (min_ns, avg_ns, max_ns)) /\
      it = Files.mkItem (Some crate_name) (Some (Parser.g_name m)) (Some avg_ns)
             (Some min_ns) (Some max_ns) (Some 0) (Some 0%Q)
             (Some (Datetime.isoformat (Parser.clock m) +:+ "Z")) None
             (Some [("min_time", float_str min_time +:+ " " +:+ Parser.g_min_unit m);
                    ("avg_time", float_str avg_time +:+ " " +:+ Parser.g_avg_unit m);
                    ("max_time", float_str max_time +:+ " " +:+ Parser.g_max_unit m);
                    ("source_file", file_path)]).
Proof.
  induction lines as [|m rest IH]; intros i it; cbn [Parser.parse_lines].
  - destruct i; discriminate.
  - destruct (Parser.convert m) as [[[[min_time avg_time] max_time] [[min_ns avg_ns] max_ns]]|]
      eqn:E; [|destruct i; discriminate].
    destruct i as [|i]; cbn [nth_error].
    + intros [= <-]. exists m, min_time, avg_time, max_time, min_ns, avg_ns, max_ns.
      repeat split; assumption.
    + intros H. destruct (IH i it H) as (m' & H'). exists m'. exact H'.
Qed.

Lemma parse_lines_stop float_str file_path crate_name lines :
  forall m,
    nth_error lines (length (Parser.parse_lines float_str file_path crate_name lines))
    = Some m ->
    Parser.convert m = None.
Proof.
  induction lines as [|m0 rest IH]; intros m; cbn [Parser.parse_lines].
  - discriminate.
  - destruct (Parser.convert m0) as [[[[? ?] ?] [[? ?] ?]]|] eqn:E; cbn [length nth_error].
    + apply IH.
    + intros [= <-]. exact E.
Qed.

Lemma parse_lines_all float_str file_path crate_name lines :
  Forall (fun m => Parser.convert m <> None) lines ->
  length (Parser.parse_lines float_str file_path crate_name lines) = length lines.
Proof.
  intros Hall.
  pose proof (parse_lines_length float_str file_path crate_name lines) as Hle.
  destruct (Nat.eq_dec (length (Parser.parse_lines float_str file_path crate_name lines))
              (length lines)) as [|Hne]; [assumption|].
  destruct (nth_error lines
              (length (Parser.parse_lines float_str file_path crate_name lines)))
    as [m|] eqn:E.
  - pose proof (parse_lines_stop _ _ _ _ _ E) as Hc.
    apply nth_error_In in E. rewrite Forall_forall in Hall.
    apply list_elem_of_In, Hall in E. contradiction.
  - apply nth_error_None in E. lia.
Qed.

Lemma all_results_In matching_lines float_str files tier commit it :
  In it (Parser.all_results matching_lines float_str files tier commit) ->
  exists file i m min_time avg_time max_time min_ns avg_ns max_ns,
    In file files /\
    In (Parser.extract_crate_name_from_filename file) (Parser.get_tier_crates tier) /\
    nth_error (matching_lines file) i = Some m /\
    Parser.convert m = Some (min_time, avg_time, max_time, (min_ns, avg_ns, max_ns)) /\
    it = Files.mkItem (Some (Parser.extract_crate_name_from_filename file))
           (Some (Parser.g_name m)) (Some avg_ns) (Some min_ns) (Some max_ns)
           (Some 0) (Some 0%Q)
           (Some (Datetime.isoformat (Parser.clock m) +:+ "Z")) (Some commit)
           (Some [("min_time", float_str min_time +:+ " " +:+ Parser.g_min_unit m);
                  ("avg_time", float_str avg_time +:+ " " +:+ Parser.g_avg_unit m);
                  ("max_time", float_str max_time +:+ " " +:+ Parser.g_max_unit m);
                  ("source_file", file)]).
Proof.
  unfold Parser.all_results. rewrite in_flat_map. intros (file & Hf & Hit).
  case_bool_decide as Hin; [|destruct Hit].
  apply list_elem_of_In in Hin.
  apply in_map_iff in Hit as (it0 & <- & Hit0).
  unfold Parser.parse_file in Hit0.
  apply In_nth_error in Hit0 as [i Hi].
  destruct (parse_lines_nth _ _ _ _ _ _ Hi)
    as (m & min_time & avg_time & max_time & min_ns & avg_ns & max_ns & Hm & Hc & ->).
  exists file, i, m, min_time, avg_time, max_time, min_ns, avg_ns, max_ns.
  repeat split; assumption.
Qed.

Lemma all_results_length matching_lines float_str files tier commit :
  (length (Parser.all_results matching_lines float_str files tier commit)
   <= length (flat_map matching_lines
                (List.filter
                   (fun file =>
                      bool_decide (Parser.extract_crate_name_from_filename file
                                   ∈ Parser.get_tier_crates tier))
                   files)))%nat /\
  (Forall (fun file =>
             Parser.extract_crate_name_from_filename file ∈ Parser.get_tier_crates tier ->
             Forall (fun m => Parser.convert m <> None) (matching_lines file)) files ->
   length (Parser.all_results matching_lines float_str files tier commit)
   = length (flat_map matching_lines
               (List.filter
                  (fun file =>
                     bool_decide (Parser.extract_crate_name_from_filename file
                                  ∈ Parser.get_tier_crates tier))
                  files))).
Proof.
  unfold Parser.all_results, Parser.parse_file.
  induction files as [|file files [IH1 IH2]].
  - split; [simpl; lia | reflexivity].
  - cbn [flat_map List.filter]. rewrite length_app.
    case_bool_decide as Hin.
    + cbn [flat_map]. rewrite length_app.
      rewrite !length_map. split.
      * pose proof (parse_lines_length float_str file
                      (Parser.extract_crate_name_from_filename file)
                      (matching_lines file)). lia.
      * intros Hall. apply Forall_cons in Hall as [Hfile Hall].
        rewrite (parse_lines_all _ _ _ _ (Hfile Hin)), (IH2 Hall). reflexivity.
    + split; [simpl; lia|].
      intros Hall. apply Forall_cons in Hall as [_ Hall]. simpl. apply IH2, Hall.
Qed.

(** X24.  The parser reads the matching lines of a file in order and
    builds one result per line until the conversion of a line raises:
    the result at a position comes from the matching line at that
    position, with the benchmark name of the line, the three times in
    nanoseconds, memory 0, CPU 0.0, the clock reading followed by Z and
    the metadata of the line; the line at the position after the last
    result, if any, is one whose conversion raises, and the lines after
    it give no result.  A text with two points, or without a digit, does
    not convert, and neither does a time too large for a float times its
    unit; an unknown unit counts as nanoseconds, and the product is
    rounded before it is truncated, so 1.001 us is 1000 ns.  The results
    collected for a tier come from the listed files whose crate belongs
    to the tier, carry that crate and the commit of the run, and the
    report puts them in the tier section of the same name; there are at
    most as many as matching lines in those files, and as many when
    every such line converts.  A tier other than the four known ones
    collects nothing. *)
Theorem X24_parser_collects_the_tier :
  forall matching_lines float_str output_files tier commit,
    let results :=
      Parser.all_results matching_lines float_str output_files tier commit in
    (forall file_path crate_name,
        let lines := matching_lines file_path in
        let items := Parser.parse_file matching_lines float_str file_path crate_name in
        (length items <= length lines)%nat /\
        (forall i it,
            nth_error items i = Some it ->
            exists m min_time avg_time max_time min_ns avg_ns max_ns,
              nth_error lines i = Some m /\
              Parser.to_float (Parser.g_min m) = Some min_time /\
              Parser.to_float (Parser.g_avg m) = Some avg_time /\
              Parser.to_float (Parser.g_max m) = Some max_time /\
              Parser.to_ns min_time (Parser.g_min_unit m) = Some min_ns /\
              Parser.to_ns avg_time (Parser.g_avg_unit m) = Some avg_ns /\
              Parser.to_ns max_time (Parser.g_max_unit m) = Some max_ns /\
              it = Files.mkItem (Some crate_name) (Some (Parser.g_name m)) (Some avg_ns)
                     (Some min_ns) (Some max_ns) (Some 0) (Some 0%Q)
                     (Some (Datetime.isoformat (Parser.clock m) +:+ "Z")) None
                     (Some [("min_time",
                             float_str min_time +:+ " " +:+ Parser.g_min_unit m);
                            ("avg_time",
                             float_str avg_time +:+ " " +:+ Parser.g_avg_unit m);
                            ("max_time",
                             float_str max_time +:+ " " +:+ Parser.g_max_unit m);
                            ("source_file", file_path)])) /\
        (forall m, nth_error lines (length items) = Some m -> Parser.convert m = None) /\
        (Forall (fun m => Parser.convert m <> None) lines ->
         length items = length lines)) /\
    (Parser.to_float "1.5" = Some (Fin (3 # 2)) /\
     Parser.to_float "1." = Some (Fin 1) /\
     Parser.to_float ".5" = Some (Fin (1 # 2)) /\
     Parser.to_float "1.2.3" = None /\
     Parser.to_float "." = None /\
     Parser.to_ns (Fin (3 # 2)) "ms" = Some 1500000 /\
     Parser.to_ns (Fin (3 # 2)) "sec" = Some 1 /\
     Parser.to_ns PInf "ns" = None /\
     (forall time, Parser.to_float "1.001" = Some time ->
                   Parser.to_ns time "us" = Some 1000)) /\
    (length results
     <= length (flat_map matching_lines
                  (List.filter
                     (fun file =>
                        bool_decide (Parser.extract_crate_name_from_filename file
                                     ∈ Parser.get_tier_crates tier))
                     output_files)))%nat /\
    (Forall (fun file =>
               Parser.extract_crate_name_from_filename file ∈ Parser.get_tier_crates tier ->
               Forall (fun m => Parser.convert m <> None) (matching_lines file))
            output_files ->
     length results
     = length (flat_map matching_lines
                 (List.filter
                    (fun file =>
                       bool_decide (Parser.extract_crate_name_from_filename file
                                    ∈ Parser.get_tier_crates tier))
                    output_files))) /\
    (forall it,
        In it results ->
        exists file i m avg_time,
          In file output_files /\ nth_error (matching_lines file) i = Some m /\
          In (Parser.extract_crate_name_from_filename file)
             (Parser.get_tier_crates tier) /\
          Files.i_crate_name it = Some (Parser.extract_crate_name_from_filename file) /\
          Files.i_benchmark_name it = Some (Parser.g_name m) /\
          Parser.to_float (Parser.g_avg m) = Some avg_time /\
          Files.i_duration_ns it = Parser.to_ns avg_time (Parser.g_avg_unit m) /\
          Files.i_git_commit it = Some commit /\
          Report.tier_of (Parser.extract_crate_name_from_filename file) = Some tier) /\
    (~ In tier ["foundation"; "core-logic"; "service"; "integration"] ->
     results = []).
Proof.
  intros ml fs files tier commit results. subst results.
  assert (Hconv : forall m min_time avg_time max_time min_ns avg_ns max_ns,
             Parser.convert m
             = Some (min_time, avg_time, max_time, (min_ns, avg_ns, max_ns)) ->
             Parser.to_float (Parser.g_min m) = Some min_time /\
             Parser.to_float (Parser.g_avg m) = Some avg_time /\
             Parser.to_float (Parser.g_max m) = Some max_time /\
             Parser.to_ns min_time (Parser.g_min_unit m) = Some min_ns /\
             Parser.to_ns avg_time (Parser.g_avg_unit m) = Some avg_ns /\
             Parser.to_ns max_time (Parser.g_max_unit m) = Some max_ns).
  { intros m min_time avg_time max_time min_ns avg_ns max_ns. unfold Parser.convert.
    destruct (Parser.to_float (Parser.g_min m)) as [a|]; [|discriminate].
    destruct (Parser.to_float (Parser.g_avg m)) as [b|]; [|discriminate].
    destruct (Parser.to_float (Parser.g_max m)) as [c|]; [|discriminate].
    destruct (Parser.to_ns a _) as [x|] eqn:Ex; [|discriminate].
    destruct (Parser.to_ns b _) as [y|] eqn:Ey; [|discriminate].
    destruct (Parser.to_ns c _) as [z|] eqn:Ez; [|discriminate].
    intros [= <- <- <- <- <- <-]. repeat split; first [reflexivity | assumption]. }
  split.
  { intros file_path crate_name lines items. subst lines items.
    unfold Parser.parse_file.
    split; [apply parse_lines_length|]. split.
    - intros i it Hi.
      destruct (parse_lines_nth _ _ _ _ _ _ Hi)
        as (m & min_time & avg_time & max_time & min_ns & avg_ns & max_ns & Hm & Hc & ->).
      destruct (Hconv _ _ _ _ _ _ _ Hc) as (H1 & H2 & H3 & H4 & H5 & H6).
      exists m, min_time, avg_time, max_time, min_ns, avg_ns, max_ns.
      repeat split; assumption.
    - split; [apply parse_lines_stop | apply parse_lines_all]. }
  split.
  { repeat (split; [vm_compute; reflexivity|]).
    intros time [= <-]. vm_compute. reflexivity. }
  split; [apply all_results_length|]. split; [apply all_results_length|]. split.
  - intros it Hit.
    apply all_results_In in Hit
        as (file & i & m & min_time & avg_time & max_time & min_ns & avg_ns & max_ns
            & Hf & Ht & Hm & Hc & ->).
    destruct (Hconv _ _ _ _ _ _ _ Hc) as (H1 & H2 & H3 & H4 & H5 & H6).
    exists file, i, m, avg_time. cbn [Files.i_crate_name Files.i_benchmark_name
                                     Files.i_duration_ns Files.i_git_commit].
    rewrite H5. repeat (split; [first [assumption | reflexivity]|]).
    apply listed_crate_tier, Ht.
  - intros Hn.
    destruct (Parser.all_results ml fs files tier commit) as [|it rest] eqn:E;
      [reflexivity|].
    assert (Hit : In it (Parser.all_results ml fs files tier commit))
      by (rewrite E; left; reflexivity).
    apply all_results_In in Hit as (file & ? & ? & ? & ? & ? & ? & ? & ? & _ & Ht & _).
    apply get_tier_crates_cases in Ht.
    cbn [Parser.tier_mapping flat_map map fst snd app] in Ht.
    exfalso. apply Hn.
    repeat (destruct Ht as [[= <- _]|Ht]; [simpl; tauto|]). destruct Ht.
Qed.

Lemma X24_unknown_tier_witness :
  Parser.all_results
    (fun _ => [Parser.mkMatchedLine "parse" "90" "ns" "100" "ns" "110" "ns"
                 Scenario.noon])
    (fun _ => "100.0")
    ["results/model-output.txt"] "Foundation" "abc123" = [].
Proof.
  apply (X24_parser_collects_the_tier
           (fun _ => [Parser.mkMatchedLine "parse" "90" "ns" "100" "ns" "110" "ns"
                        Scenario.noon])
           (fun _ => "100.0")
           ["results/model-output.txt"] "Foundation" "abc123").
  intros H. repeat (destruct H as [H|H]; [discriminate H|]). destruct H.
Defined.

(** ** Loading a results file into the store *)

Lemma result_of_item_complete it :
  MetricsCli.complete it = true <->
  exists r, MetricsCli.result_of_item it = MetricsCli.Loaded r.
Proof.
  unfold MetricsCli.complete, MetricsCli.result_of_item.
  destruct (Files.i_crate_name it), (Files.i_benchmark_name it),
    (Files.i_duration_ns it), (Files.i_timestamp it);
    split; try discriminate; try (intros [r [=]]); eauto.
Qed.

Lemma result_of_item_carries it r :
  MetricsCli.result_of_item it = MetricsCli.Loaded r -> MetricsCli.carries it r.
Proof.
  unfold MetricsCli.carries, MetricsCli.result_of_item.
  destruct (Files.i_crate_name it), (Files.i_benchmark_name it),
    (Files.i_duration_ns it), (Files.i_timestamp it); try discriminate.
  intros [= <-]. cbn. repeat split; reflexivity.
Qed.

Lemma result_of_item_key_error it k :
  MetricsCli.result_of_item it = MetricsCli.KeyError k ->
  MetricsCli.complete it = false /\
  In k ["crate_name"; "benchmark_name"; "duration_ns"; "timestamp"].
Proof.
  unfold MetricsCli.complete, MetricsCli.result_of_item.
  destruct (Files.i_crate_name it), (Files.i_benchmark_name it),
    (Files.i_duration_ns it), (Files.i_timestamp it);
    try discriminate; intros [= <-]; (split; [reflexivity | simpl; tauto]).
Qed.

Lemma load_items_complete items :
  Forall (fun it => MetricsCli.complete it = true) items <->
  exists rs, MetricsCli.load_items items = MetricsCli.Loaded rs.
Proof.
  induction items as [|it items IH]; simpl.
  - split; [eauto | constructor].
  - split.
    + intros H. inversion H as [|? ? Hc Hrest]; subst.
      apply result_of_item_complete in Hc as [r ->].
      apply IH in Hrest as [rs ->]. eauto.
    + intros [rs H].
      destruct (MetricsCli.result_of_item it) as [r|k] eqn:E; [|discriminate].
      destruct (MetricsCli.load_items items) as [rs'|k] eqn:E'; [|discriminate].
      constructor; [apply result_of_item_complete; eauto | apply IH; eauto].
Qed.

Lemma load_items_carries items :
  forall rs,
    MetricsCli.load_items items = MetricsCli.Loaded rs ->
    Forall2 MetricsCli.carries items rs.
Proof.
  induction items as [|it items IH]; simpl; intros rs.
  - intros [= <-]. constructor.
  - destruct (MetricsCli.result_of_item it) as [r|k] eqn:E; [|discriminate].
    destruct (MetricsCli.load_items items) as [rs'|k] eqn:E'; [|discriminate].
    intros [= <-]. constructor; [apply result_of_item_carries, E | apply IH; reflexivity].
Qed.

Lemma load_items_key_error items :
  forall k,
    MetricsCli.load_items items = MetricsCli.KeyError k ->
    In k ["crate_name"; "benchmark_name"; "duration_ns"; "timestamp"] /\
    exists it, In it items /\ MetricsCli.complete it = false.
Proof.
  induction items as [|it items IH]; simpl; intros k; [discriminate|].
  destruct (MetricsCli.result_of_item it) as [r|k'] eqn:E.
  - destruct (MetricsCli.load_items items) as [rs'|k'] eqn:E'; [discriminate|].
    intros [= ->]. destruct (IH k eq_refl) as (Hk & it' & Hin & Hc).
    split; [exact Hk|]. exists it'. split; [right; exact Hin | exact Hc].
  - intros [= ->]. apply result_of_item_key_error in E as [Hc Hk].
    split; [exact Hk|]. exists it. split; [left; reflexivity | exact Hc].
Qed.

(** X25.  Loading a results file for the store: a file that holds a JSON
    object gives the empty list, so importing it stores nothing and
    reports 0 results; a file that holds a list loads exactly when every
    record has the keys crate_name, benchmark_name, duration_ns and
    timestamp, and then gives one result per record, in order, with the
    record's values and the defaults 0, 0.0 and None for the optional
    keys; otherwise the load fails with a KeyError for one of the four
    keys.  Importing a list that loads stores the results as
    insert_results does and reports their number, or raises as
    insert_results does. *)
Theorem X25_load_benchmark_results :
  (forall d fields,
      MetricsCli.load_benchmark_results (Files.DocObject fields) = MetricsCli.Loaded [] /\
      MetricsCli.main_import d (Files.DocObject fields)
      = MetricsCli.Loaded (Ok (d, 0%nat))) /\
  (forall items,
      Forall (fun it => MetricsCli.complete it = true) items <->
      exists rs,
        MetricsCli.load_benchmark_results (Files.DocList items) = MetricsCli.Loaded rs) /\
  (forall items rs,
      MetricsCli.load_benchmark_results (Files.DocList items) = MetricsCli.Loaded rs ->
      Forall2 MetricsCli.carries items rs) /\
  (forall items k,
      MetricsCli.load_benchmark_results (Files.DocList items) = MetricsCli.KeyError k ->
      In k ["crate_name"; "benchmark_name"; "duration_ns"; "timestamp"] /\
      exists it, In it items /\ MetricsCli.complete it = false) /\
  (forall d items rs,
      MetricsCli.load_benchmark_results (Files.DocList items) = MetricsCli.Loaded rs ->
      MetricsCli.main_import d (Files.DocList items)
      = MetricsCli.Loaded
          match Metrics.insert_results d rs with
          | Ok d' => Ok (d', length items)
          | Raise e => Raise e
          end) /\
  (forall d items k,
      MetricsCli.load_benchmark_results (Files.DocList items) = MetricsCli.KeyError k ->
      MetricsCli.main_import d (Files.DocList items) = MetricsCli.KeyError k).
Proof.
  split; [intros d fields; split; reflexivity|].
  split; [exact load_items_complete|].
  split; [exact load_items_carries|].
  split; [exact load_items_key_error|]. split.
  - intros d items rs H. unfold MetricsCli.main_import. rewrite H.
    pose proof (load_items_carries _ _ H) as Hc. apply Forall2_length in Hc.
    rewrite Hc. destruct (Metrics.insert_results d rs); reflexivity.
  - intros d items k H. unfold MetricsCli.main_import. rewrite H. reflexivity.
Qed.

Lemma X25_missing_key_witness :
  exists it,
    In it [Files.mkItem (Some "moduforge-core") (Some "startup") (Some 500)
             None None None None None None None] /\
    MetricsCli.complete it = false.
Proof.
  eapply (proj1 (proj2 (proj2 (proj2 X25_load_benchmark_results)))).
  reflexivity.
Defined.

Lemma all_results_complete matching_lines float_str files tier commit :
  Forall (fun it => MetricsCli.complete it = true)
         (Parser.all_results matching_lines float_str files tier commit).
Proof.
  apply Forall_forall. intros it Hit. apply list_elem_of_In in Hit.
  apply all_results_In in Hit
      as (file & i & m & ? & ? & ? & ? & ? & ? & _ & _ & _ & _ & ->).
  reflexivity.
Qed.

(** X26.  The summary that the parser writes is a JSON object with the
    results under the key results.  The loader of the file-based
    detector returns exactly those results for it.  The loader of the
    store returns no result for it, so importing the summary leaves the
    store as it was and reports 0 results, although the list under
    results, taken by itself, loads without error into one result per
    record, each with the commit of the run. *)
Theorem X26_summary_read_by_the_two_loaders :
  forall matching_lines float_str output_files tier commit now d,
    let summary := Parser.main matching_lines float_str output_files tier commit now in
    let results :=
      Parser.all_results matching_lines float_str output_files tier commit in
    SimpleCli.load_results summary = Files.VItems results /\
    MetricsCli.main_import d summary = MetricsCli.Loaded (Ok (d, 0%nat)) /\
    exists rs,
      MetricsCli.load_benchmark_results (Files.DocList results) = MetricsCli.Loaded rs /\
      length rs = length results /\
      Forall (fun r => Metrics.git_commit r = Some commit) rs.
Proof.
  intros ml fs files tier commit now d summary results.
  split; [reflexivity|]. split; [reflexivity|].
  destruct (proj1 (load_items_complete results)
              (all_results_complete ml fs files tier commit)) as [rs Hrs].
  exists rs. split; [exact Hrs|].
  pose proof (load_items_carries _ _ Hrs) as Hc.
  split; [symmetry; apply (Forall2_length _ _ _ Hc)|].
  assert (Hall : Forall (fun it => Files.i_git_commit it = Some commit) results).
  { apply Forall_forall. intros it Hit. apply list_elem_of_In in Hit.
    apply all_results_In in Hit
        as (file & i & m & ? & ? & ? & ? & ? & ? & _ & _ & _ & _ & ->).
    reflexivity. }
  clear Hrs. induction Hc as [|it r its rs' Hcar _ IH]; [constructor|].
  inversion Hall as [|? ? Hit Hrest]; subst.
  constructor; [|apply IH, Hrest].
  destruct Hcar as (_ & _ & _ & _ & _ & _ & Hg & _). rewrite Hg. exact Hit.
Qed.

(** ** Exit status of the file-based detector *)

Lemma omap_nonempty {A B : Type} (f : A -> option B) l :
  omap f l <> [] <-> exists x y, In x l /\ f x = Some y.
Proof.
  induction l as [|a l IH]; simpl.
  - split; [congruence | intros (x & y & [] & _)].
  - destruct (f a) as [b|] eqn:E.
    + split; [intros _; exists a, b; auto | discriminate].
    + rewrite IH. split.
      * intros (x & y & Hin & Hx). exists x, y. auto.
      * intros (x & y & [<-|Hin] & Hx); [congruence | exists x, y; auto].
Qed.

Lemma sorted_reverse_nil l : Simple.sorted_reverse l = [] <-> l = [].
Proof.
  split; [|intros ->; reflexivity].
  intros H. pose proof (sorted_reverse_perm l) as P. rewrite H in P.
  apply Permutation_sym, Permutation_nil in P. exact P.
Qed.

Lemma pow2_63_1000 : 2 ^ 63 <= 2 ^ 1000.
Proof. apply Z.pow_le_mono_r; lia. Qed.

Lemma format_ns_error_fits ns :
  Z.abs ns <= 2 ^ 1000 -> SimpleCli.format_ns_error ns = None.
Proof.
  intros H. unfold SimpleCli.format_ns_error.
  destruct (1000000000 <=? ns)%Z; [|reflexivity].
  rewrite truediv_fits; [reflexivity | discriminate | exact H].
Qed.

Lemma format_ns_error_in_range ns :
  in_int64 ns = true -> SimpleCli.format_ns_error ns = None.
Proof.
  intros H. apply in_int64_bounds in H. apply format_ns_error_fits.
  pose proof pow2_63_1000. lia.
Qed.

Lemma format_ns_error_cases ns e :
  SimpleCli.format_ns_error ns = Some e -> e = OverflowError.
Proof.
  unfold SimpleCli.format_ns_error. destruct (1000000000 <=? ns)%Z; [|discriminate].
  destruct (truediv ns 1000000000) as [q|e'] eqn:E; [discriminate|].
  intros [= <-]. apply truediv_raise in E as [[H _]|[_ H]]; [discriminate | exact H].
Qed.

Lemma first_error_In l e : SimpleCli.first_error l = Some e -> In (Some e) l.
Proof.
  induction l as [|[e'|] l IH]; simpl; [discriminate | | ].
  - intros [= <-]. left. reflexivity.
  - intros H. right. apply IH, H.
Qed.

Lemma first_error_none l :
  (forall x, In x l -> x = None) -> SimpleCli.first_error l = None.
Proof.
  induction l as [|[e'|] l IH]; simpl; intros H; [reflexivity | |].
  - discriminate (H (Some e') (or_introl eq_refl)).
  - apply IH. intros x Hx. apply H. right. exact Hx.
Qed.

Lemma report_error_In alerts x :
  In x (flat_map
          (fun s =>
             map (fun a =>
                    SimpleCli.format_duration_change_error
                      (Simple.baseline_duration_ns a) (Simple.current_duration_ns a))
                 (List.filter
                    (fun a => String.eqb (severity_str (Simple.severity_of a))
                                         (severity_str s))
                    alerts))
          [CRITICAL; HIGH; MEDIUM; LOW]) ->
  exists a, In a alerts /\
            x = SimpleCli.format_duration_change_error
                  (Simple.baseline_duration_ns a) (Simple.current_duration_ns a).
Proof.
  intros H. apply in_flat_map in H as (s & _ & H).
  apply in_map_iff in H as (a & <- & Ha). apply List.filter_In in Ha as [Ha _].
  exists a. auto.
Qed.

Lemma report_error_cases alerts e :
  SimpleCli.generate_regression_report_error alerts = Some e -> e = OverflowError.
Proof.
  intros H. apply first_error_In, report_error_In in H as (a & _ & H).
  unfold SimpleCli.format_duration_change_error in H.
  destruct (SimpleCli.format_ns_error (Simple.baseline_duration_ns a)) as [e'|] eqn:E.
  - injection H as <-. apply format_ns_error_cases in E. exact E.
  - symmetry in H. apply format_ns_error_cases in H. exact H.
Qed.

Lemma report_error_in_range alerts :
  (forall a, In a alerts ->
     in_int64 (Simple.baseline_duration_ns a) = true /\
     in_int64 (Simple.current_duration_ns a) = true) ->
  SimpleCli.generate_regression_report_error alerts = None.
Proof.
  intros H. apply first_error_none. intros x Hx.
  apply report_error_In in Hx as (a & Ha & ->). destruct (H a Ha) as [Hb Hc].
  unfold SimpleCli.format_duration_change_error.
  rewrite (format_ns_error_in_range _ Hb). apply format_ns_error_in_range, Hc.
Qed.

Lemma report_error_nil : SimpleCli.generate_regression_report_error [] = None.
Proof. reflexivity. Qed.

Lemma simple_alerts_in_range th current baselines a :
  Detection.entries_in_range current ->
  Detection.entries_in_range baselines ->
  In a (Simple.sorted_reverse
          (omap (Detection.simple_alert_of th (Simple.build_lookup baselines)) current)) ->
  in_int64 (Simple.baseline_duration_ns a) = true /\
  in_int64 (Simple.current_duration_ns a) = true.
Proof.
  intros Hc Hb Ha.
  apply (Permutation_in _ (Permutation_sym (sorted_reverse_perm _))) in Ha.
  apply list_elem_of_In, list_elem_of_omap in Ha as (c & Hin & Hal).
  apply list_elem_of_In in Hin.
  destruct (simple_alert_of_change _ _ _ _ Hal) as (bd & Hl & _ & _ & _ & _ & E1 & E2 & _).
  rewrite E1, E2. destruct (build_lookup_In _ _ _ Hl) as (b & Hbin & _ & <-).
  split; [apply Hb, Hbin | apply Hc, Hin].
Qed.

Lemma sum_in_range l :
  (forall x, In x l -> in_int64 x = true) ->
  - 2 ^ 63 * Metrics.len l <= Metrics.sumZ l <= 2 ^ 63 * Metrics.len l.
Proof.
  unfold Metrics.len. induction l as [|x l IH]; intros H.
  - simpl. lia.
  - assert (Hx : in_int64 x = true) by (apply H; left; reflexivity).
    apply in_int64_bounds in Hx.
    assert (IH' := IH (fun y Hy => H y (or_intror Hy))).
    cbn [Metrics.sumZ fold_right length]. fold (Metrics.sumZ l).
    rewrite Nat2Z.inj_succ. lia.
Qed.

Lemma mean_line_error_cases l e :
  SimpleCli.mean_line_error l = Some e -> e = OverflowError.
Proof.
  unfold SimpleCli.mean_line_error. cbv zeta.
  destruct (Z.eqb_spec (Metrics.sumZ l mod Metrics.len l) 0) as [|Hm].
  - destruct (1000000000 <=? _)%Z; [apply format_ns_error_cases|].
    destruct (1000 <=? _)%Z; [discriminate|].
    destruct (fl _); [discriminate | | |]; intros [= <-]; reflexivity.
  - destruct (truediv _ _) as [q|e'] eqn:E; [discriminate|]. intros [= <-].
    apply truediv_raise in E as [[Hz _]|[_ H]]; [|exact H].
    exfalso. apply Hm. destruct l; [reflexivity | discriminate Hz].
Qed.

Lemma mean_line_error_in_range l :
  (forall x, In x l -> in_int64 x = true) -> SimpleCli.mean_line_error l = None.
Proof.
  intros H. pose proof (sum_in_range l H) as [S1 S2].
  assert (Hn : 0 <= Metrics.len l) by (unfold Metrics.len; lia).
  assert (Hp : 0 < 2 ^ 63) by (apply Z.pow_pos_nonneg; lia).
  unfold SimpleCli.mean_line_error. cbv zeta.
  destruct (Z.eqb_spec (Metrics.sumZ l mod Metrics.len l) 0) as [Hm|Hm].
  - assert (Havg : Z.abs (Metrics.sumZ l / Metrics.len l) <= 2 ^ 63).
    { destruct (Z.eq_dec (Metrics.len l) 0) as [Hz|Hz].
      - rewrite Hz, Z.div_0_r. simpl. lia.
      - assert (Hl : - 2 ^ 63 <= Metrics.sumZ l / Metrics.len l)
          by (apply Z.div_le_lower_bound; lia).
        assert (Hu : Metrics.sumZ l / Metrics.len l <= 2 ^ 63)
          by (apply Z.div_le_upper_bound; lia).
        lia. }
    destruct (1000000000 <=? _)%Z.
    { apply format_ns_error_fits. pose proof pow2_63_1000. lia. }
    destruct (1000 <=? _)%Z; [reflexivity|].
    rewrite (fl_finite _ 63); [reflexivity | lia |].
    simpl Qnum. simpl Qden. lia.
  - assert (Hz : Metrics.len l <> 0).
    { intros Hz. apply Hm. destruct l; [reflexivity | discriminate Hz]. }
    unfold truediv. destruct (Z.eqb_spec (Metrics.len l) 0); [contradiction|].
    rewrite (fl_finite _ 63); [reflexivity | lia |].
    destruct (Qdiv_num_den (Metrics.sumZ l) (Metrics.len l) Hz) as [-> ->]. lia.
Qed.

Lemma insert_name_In k l x : In x (SimpleCli.insert_name k l) <-> x = k \/ In x l.
Proof.
  induction l as [|y l IH]; simpl.
  - split; [intros [<-|[]]; auto | intros [->|[]]; auto].
  - destruct (String.leb k y); simpl; [split; intros [<-|H]; auto; tauto|].
    rewrite IH. split; [intros [<-|[->|H]]; auto | intros [->|[<-|H]]; auto].
Qed.

Lemma sorted_names_In l x : In x (SimpleCli.sorted_names l) <-> In x l.
Proof.
  induction l as [|k l IH]; simpl; [tauto|].
  rewrite insert_name_In, IH. split; [intros [->|H]; auto | intros [<-|H]; auto].
Qed.

Lemma group_Some_In k g rs : Report.group k g = Some rs -> In k (map fst g).
Proof.
  induction g as [|[k' rs'] g IH]; simpl; [discriminate|].
  destruct (String.eqb_spec k k') as [->|_]; [auto|]. intros H. right. apply IH, H.
Qed.

Lemma print_means_cases g names :
  (SimpleCli.print_means g names = SimpleCli.Returned /\
   forall name, In name names ->
     SimpleCli.mean_line_error
       (map Simple.duration_ns (default [] (Report.group name g))) = None) \/
  (SimpleCli.print_means g names = SimpleCli.Raised OverflowError /\
   exists name, In name names /\
     SimpleCli.mean_line_error
       (map Simple.duration_ns (default [] (Report.group name g)))
     = Some OverflowError).
Proof.
  induction names as [|name names IH]; cbn [SimpleCli.print_means].
  - left. split; [reflexivity | intros name []].
  - destruct (SimpleCli.mean_line_error _) as [e|] eqn:E.
    + right. apply mean_line_error_cases in E as He. subst e.
      split; [reflexivity|]. exists name. split; [left; reflexivity | exact E].
    + destruct IH as [[-> Hall]|[-> (n & Hin & Hn)]].
      * left. split; [reflexivity|]. intros n [<-|Hn]; [exact E | apply Hall, Hn].
      * right. split; [reflexivity|]. exists n. split; [right; exact Hin | exact Hn].
Qed.

Lemma crate_group_durations current crate :
  default [] (Report.group crate (SimpleCli.crate_groups current))
  = Report.of_crate crate current.
Proof.
  destruct (crate_groups_invariant current) as (_ & _ & Hg).
  unfold SimpleCli.crate_groups. rewrite Hg.
  destruct (Report.of_crate crate current); reflexivity.
Qed.

Lemma main_without_baseline th json current :
  (SimpleCli.main th json current None = SimpleCli.Returned /\
   forall crate,
     SimpleCli.mean_line_error
       (map Simple.duration_ns (Report.of_crate crate current)) = None) \/
  (SimpleCli.main th json current None = SimpleCli.Raised OverflowError /\
   exists crate,
     SimpleCli.mean_line_error
       (map Simple.duration_ns (Report.of_crate crate current)) = Some OverflowError).
Proof.
  destruct current as [|c0 cs] eqn:Ec.
  { left. split; [reflexivity|]. intros crate. reflexivity. }
  rewrite <- Ec. assert (Hm : SimpleCli.main th json current None
                              = SimpleCli.print_means (SimpleCli.crate_groups current)
                                  (SimpleCli.sorted_names
                                     (map fst (SimpleCli.crate_groups current))))
    by (rewrite Ec; reflexivity).
  rewrite Hm. clear Hm Ec.
  destruct (print_means_cases (SimpleCli.crate_groups current)
              (SimpleCli.sorted_names (map fst (SimpleCli.crate_groups current))))
    as [[-> Hall]|[-> (n & Hin & Hn)]].
  - left. split; [reflexivity|]. intros crate.
    destruct (Report.of_crate crate current) as [|r rs] eqn:E; [reflexivity|].
    rewrite <- E, <- crate_group_durations. apply Hall, sorted_names_In.
    destruct (crate_groups_invariant current) as (_ & _ & Hg).
    apply (group_Some_In crate _ (r :: rs)).
    unfold SimpleCli.crate_groups. rewrite Hg, E. reflexivity.
  - right. split; [reflexivity|]. exists n. rewrite <- crate_group_durations. exact Hn.
Qed.

Lemma main_with_baseline th json c0 cs b0 bs :
  SimpleCli.main th json (c0 :: cs) (Some (b0 :: bs))
  = match Simple.detect_regressions th (c0 :: cs) (b0 :: bs) with
    | Raise e => SimpleCli.Raised e
    | Ok alerts =>
      match (if json then None else SimpleCli.generate_regression_report_error alerts) with
      | Some e => SimpleCli.Raised e
      | None => match alerts with
                | [] => SimpleCli.Exited 0
                | _ :: _ => SimpleCli.Exited 1
                end
      end
    end.
Proof. reflexivity. Qed.

(** X27.  The command line of the file-based detector, for files that
    load, a finite threshold and an output that can be written.  The
    process ends with status 0 or 1.  With a baseline file, the status
    is 1 exactly when both files hold results and some current record
    either makes the division raise or is above the threshold against
    its looked-up baseline: detection raised, the text report raised, or
    exit(1) was called.  exit(1) is called exactly when detection returns
    alerts and, without --json, the text report formats them without
    error; an exception escapes exactly when detection raises it or,
    without --json, the text report raises it, and it is a
    ZeroDivisionError or an OverflowError.  When all durations fit 64
    bits the only exception is the ZeroDivisionError of a looked-up
    baseline of 0.  A pair of durations too large for a float division
    by 10^9 gives alerts that the text report cannot format: the run
    ends with an OverflowError, while with --json it calls exit(1).
    Without a baseline file there is no exit call: the run returns
    exactly when the mean of every crate can be computed and formatted,
    which is so when all durations fit 64 bits, and otherwise ends with
    an OverflowError. *)
Theorem X27_exit_status_of_the_detector :
  forall th json current,
    (forall baseline_results,
        SimpleCli.exit_status (SimpleCli.main th json current baseline_results) = 0 \/
        SimpleCli.exit_status (SimpleCli.main th json current baseline_results) = 1) /\
    (forall baselines,
        SimpleCli.exit_status (SimpleCli.main th json current (Some baselines)) = 1 <->
        current <> [] /\ baselines <> [] /\
        exists c,
          In c current /\
          (Detection.simple_error (Simple.build_lookup baselines) c <> None \/
           Detection.simple_alert_of th (Simple.build_lookup baselines) c <> None)) /\
    (forall baselines,
        SimpleCli.main th json current (Some baselines) = SimpleCli.Exited 1 <->
        current <> [] /\ baselines <> [] /\
        exists a alerts,
          Simple.detect_regressions th current baselines = Ok (a :: alerts) /\
          (json = true \/
           SimpleCli.generate_regression_report_error (a :: alerts) = None)) /\
    (forall baselines e,
        SimpleCli.main th json current (Some baselines) = SimpleCli.Raised e <->
        current <> [] /\ baselines <> [] /\
        (Simple.detect_regressions th current baselines = Raise e \/
         json = false /\
         exists alerts,
           Simple.detect_regressions th current baselines = Ok alerts /\
           SimpleCli.generate_regression_report_error alerts = Some e)) /\
    (forall baselines e,
        SimpleCli.main th json current (Some baselines) = SimpleCli.Raised e ->
        e = ZeroDivisionError \/ e = OverflowError) /\
    (forall baselines,
        Detection.entries_in_range current ->
        Detection.entries_in_range baselines ->
        forall e,
          SimpleCli.main th json current (Some baselines) = SimpleCli.Raised e <->
          baselines <> [] /\ e = ZeroDivisionError /\
          exists c, In c current /\
                    Simple.build_lookup baselines !! Simple.key c = Some 0) /\
    (SimpleCli.main 10 false [Simple.mkEntry "x" "y" (10 ^ 400)]
       (Some [Simple.mkEntry "x" "y" (10 ^ 399)])
     = SimpleCli.Raised OverflowError /\
     SimpleCli.main 10 true [Simple.mkEntry "x" "y" (10 ^ 400)]
       (Some [Simple.mkEntry "x" "y" (10 ^ 399)])
     = SimpleCli.Exited 1) /\
    (SimpleCli.main th json current None = SimpleCli.Returned <->
     forall crate,
       SimpleCli.mean_line_error
         (map Simple.duration_ns (Report.of_crate crate current)) = None) /\
    (SimpleCli.main th json current None = SimpleCli.Returned \/
     SimpleCli.main th json current None = SimpleCli.Raised OverflowError) /\
    (Detection.entries_in_range current ->
     SimpleCli.main th json current None = SimpleCli.Returned) /\
    SimpleCli.main 10 false [Simple.mkEntry "x" "y" (10 ^ 400);
                             Simple.mkEntry "x" "z" 1] None
    = SimpleCli.Raised OverflowError.
Proof.
  intros th json current.
  assert (Hraise : forall baselines e,
             SimpleCli.main th json current (Some baselines) = SimpleCli.Raised e <->
             current <> [] /\ baselines <> [] /\
             (Simple.detect_regressions th current baselines = Raise e \/
              json = false /\
              exists alerts,
                Simple.detect_regressions th current baselines = Ok alerts /\
                SimpleCli.generate_regression_report_error alerts = Some e)).
  { intros baselines e.
    destruct current as [|c0 cs]; [simpl; split; [discriminate | intros [H _]; congruence]|].
    destruct baselines as [|b0 bs];
      [simpl; split; [discriminate | intros (_ & H & _); congruence]|].
    rewrite main_with_baseline.
    destruct (Simple.detect_regressions th (c0 :: cs) (b0 :: bs)) as [alerts|e'].
    - destruct json.
      + split; [destruct alerts; discriminate|].
        intros (_ & _ & [H|(H & _)]); discriminate.
      + destruct (SimpleCli.generate_regression_report_error alerts) as [e'|] eqn:E.
        * split.
          -- intros [= <-]. split; [discriminate|]. split; [discriminate|].
             right. split; [reflexivity|]. exists alerts. auto.
          -- intros (_ & _ & [H|(_ & al & [= <-] & H)]); [discriminate|]. congruence.
        * split; [destruct alerts; discriminate|].
          intros (_ & _ & [H|(_ & al & [= <-] & H)]); [discriminate | congruence].
    - split.
      + intros [= <-]. split; [discriminate|]. split; [discriminate|]. auto.
      + intros (_ & _ & [[= <-]|(_ & al & H & _)]); [reflexivity | discriminate]. }
  assert (Hexit : forall baselines,
             SimpleCli.main th json current (Some baselines) = SimpleCli.Exited 1 <->
             current <> [] /\ baselines <> [] /\
             exists a alerts,
               Simple.detect_regressions th current baselines = Ok (a :: alerts) /\
               (json = true \/
                SimpleCli.generate_regression_report_error (a :: alerts) = None)).
  { intros baselines.
    destruct current as [|c0 cs]; [simpl; split; [discriminate | intros [H _]; congruence]|].
    destruct baselines as [|b0 bs];
      [simpl; split; [discriminate | intros (_ & H & _); congruence]|].
    rewrite main_with_baseline.
    destruct (Simple.detect_regressions th (c0 :: cs) (b0 :: bs)) as [alerts|e'].
    - destruct json.
      + destruct alerts as [|a l].
        * split; [discriminate | intros (_ & _ & a & l & [=] & _)].
        * split; [|reflexivity]. intros _. split; [discriminate|]. split; [discriminate|].
          exists a, l. auto.
      + destruct alerts as [|a l].
        * rewrite report_error_nil.
          split; [discriminate | intros (_ & _ & a & l & [=] & _)].
        * destruct (SimpleCli.generate_regression_report_error (a :: l)) as [e'|] eqn:E.
          -- split; [discriminate|].
             intros (_ & _ & a' & l' & [= <- <-] & [H|H]); [discriminate | congruence].
          -- split; [|reflexivity]. intros _. split; [discriminate|].
             split; [discriminate|]. exists a, l. auto.
    - split; [discriminate | intros (_ & _ & a & l & [=] & _)]. }
  assert (Hstatus : forall baseline_results,
             SimpleCli.exit_status (SimpleCli.main th json current baseline_results) = 0 \/
             SimpleCli.exit_status (SimpleCli.main th json current baseline_results) = 1).
  { intros [baselines|].
    - destruct current as [|c0 cs]; [left; reflexivity|].
      destruct baselines as [|b0 bs]; [left; reflexivity|].
      rewrite main_with_baseline.
      destruct (Simple.detect_regressions th (c0 :: cs) (b0 :: bs)) as [alerts|e'];
        [|right; reflexivity].
      destruct (if json then None else _); [right; reflexivity|].
      destruct alerts; [left | right]; reflexivity.
    - destruct (main_without_baseline th json current) as [[-> _]|[-> _]];
        [left | right]; reflexivity. }
  split; [exact Hstatus|]. split.
  { intros baselines.
    destruct current as [|c0 cs];
      [simpl; split; [discriminate | intros [H _]; congruence]|].
    destruct baselines as [|b0 bs];
      [simpl; split; [discriminate | intros (_ & H & _); congruence]|].
    rewrite main_with_baseline.
    destruct (simple_detect_outcome th (c0 :: cs) (b0 :: bs))
      as [(c1 & c & c2 & e & Ec & _ & He & ->)|[Hnone ->]].
    - split; [|reflexivity]. intros _. split; [discriminate|]. split; [discriminate|].
      exists c. split; [rewrite Ec; apply in_elt|]. left. congruence.
    - destruct (Simple.sorted_reverse _) as [|a l] eqn:E.
      + apply (proj1 (sorted_reverse_nil _)) in E.
        replace (if json then None
                 else SimpleCli.generate_regression_report_error [])
          with (@None exn) by (destruct json; reflexivity).
        split; [discriminate|]. intros (_ & _ & c & Hin & [H|H]).
        * destruct (H (Hnone c Hin)).
        * exfalso.
          destruct (Detection.simple_alert_of th (Simple.build_lookup (b0 :: bs)) c)
            as [a|] eqn:Ea; [|congruence].
          apply (proj2 (omap_nonempty
                          (Detection.simple_alert_of th (Simple.build_lookup (b0 :: bs)))
                          (c0 :: cs))); [|exact E].
          exists c, a. auto.
      + assert (Hne : omap (Detection.simple_alert_of th
                              (Simple.build_lookup (b0 :: bs))) (c0 :: cs) <> [])
          by (intros H; rewrite H in E; discriminate).
        apply omap_nonempty in Hne as (c & a' & Hin & Ha).
        split.
        * intros _. split; [discriminate|]. split; [discriminate|].
          exists c. split; [exact Hin|]. right. congruence.
        * intros _. destruct (if json then None else _); reflexivity. }
  split; [exact Hexit|]. split; [exact Hraise|]. split.
  { intros baselines e H. apply Hraise in H as (_ & _ & [H|(_ & alerts & _ & H)]).
    - destruct (simple_detect_outcome th current baselines)
        as [(c1 & c & c2 & e' & _ & _ & He & Hd)|[_ Hd]]; [|congruence].
      rewrite Hd in H. injection H as <-. apply simple_error_cases in He. exact He.
    - right. apply report_error_cases in H. exact H. }
  split.
  { intros baselines Hc Hb e. rewrite Hraise. split.
    - intros (_ & Hbne & [H|(_ & alerts & Hd & H)]).
      + destruct (simple_detect_outcome th current baselines)
          as [(c1 & c & c2 & e' & Ec & _ & He & Hd)|[_ Hd]]; [|congruence].
        rewrite Hd in H. injection H as <-.
        assert (Hin : In c current) by (rewrite Ec; apply in_elt).
        destruct (simple_error_in_range baselines c e' Hb (Hc c Hin) He) as [-> Hz].
        split; [exact Hbne|]. split; [reflexivity|]. exists c. auto.
      + exfalso.
        destruct (simple_detect_outcome th current baselines)
          as [(c1 & c & c2 & e' & _ & _ & _ & Hd')|[_ Hd']]; [congruence|].
        rewrite Hd' in Hd. injection Hd as <-.
        rewrite report_error_in_range in H; [discriminate|].
        intros a Ha. apply (simple_alerts_in_range th current baselines a Hc Hb Ha).
    - intros (Hbne & -> & c & Hin & Hz).
      split; [intros ->; destruct Hin|]. split; [exact Hbne|]. left.
      destruct (simple_detect_outcome th current baselines)
        as [(c1 & c' & c2 & e' & Ec & _ & He & Hd)|[Hnone _]].
      + rewrite Hd. f_equal.
        assert (Hin' : In c' current) by (rewrite Ec; apply in_elt).
        apply (simple_error_in_range baselines c' e' Hb (Hc c' Hin') He).
      + pose proof (Hnone c Hin) as Hn.
        rewrite (simple_error_zero _ _ Hz) in Hn. discriminate. }
  split; [split; vm_compute; reflexivity|]. split.
  { destruct (main_without_baseline th json current) as [[-> Hall]|[-> (n & Hn)]].
    - split; [intros _; exact Hall | reflexivity].
    - split; [discriminate|]. intros H. rewrite H in Hn. discriminate. }
  split.
  { destruct (main_without_baseline th json current) as [[-> _]|[-> _]]; auto. }
  split.
  { intros Hc.
    destruct (main_without_baseline th json current) as [[-> _]|[_ (n & Hn)]];
      [reflexivity|].
    rewrite mean_line_error_in_range in Hn; [discriminate|].
    intros x Hx. apply in_map_iff in Hx as (r & <- & Hr).
    apply List.filter_In in Hr as [Hr _]. apply Hc, Hr. }
  vm_compute. reflexivity.
Qed.

Lemma X27_exit_status_witness :
  SimpleCli.exit_status
    (SimpleCli.main 10 false [Simple.mkEntry "x" "y" 120]
       (Some [Simple.mkEntry "x" "y" 100])) = 1 /\
  SimpleCli.main 10 false [Simple.mkEntry "x" "y" 120] None = SimpleCli.Returned.
Proof.
  split.
  - apply (X27_exit_status_of_the_detector 10 false [Simple.mkEntry "x" "y" 120]).
    split; [discriminate|]. split; [discriminate|].
    exists (Simple.mkEntry "x" "y" 120). split; [left; reflexivity|].
    right. vm_compute. discriminate.
  - apply (X27_exit_status_of_the_detector 10 false [Simple.mkEntry "x" "y" 120]).
    intros e [<-|[]]. reflexivity.
Defined.
